(** * Render graph and graphics pipeline builder of the Inexor Vulkan renderer

    A shallow embedding of [src/vulkan-renderer/render_graph.cpp] and of
    [src/vulkan-renderer/wrapper/pipelines/pipeline_builder.cpp].

    Objects that the C++ code reaches through pointers live in the vectors
    of the render graph and are referred to by their position there
    ([ResourceRef], stage indices).  Every call that creates or destroys a
    Vulkan object is appended to the device log; the handle of a created
    object is the position of its creation call in that log.  Exceptions,
    failed assertions and null dereferences are results of the [M] monad;
    the recursion of the depth first search is bounded by a fuel argument
    and [None] means that the bound was hit. *)

From Stdlib Require Import ZArith.
From stdpp Require Import gmap list strings.

(** ** Vulkan enumerations and structures *)

Definition VkFormat := Z.
Bind Scope Z_scope with VkFormat.
Definition VK_FORMAT_UNDEFINED : VkFormat := 0%Z.

(** [static_cast<std::uint32_t>] of a [std::size_t]. *)
Definition to_uint32 (n : Z) : Z := (n mod 2 ^ 32)%Z.

Inductive VkAttachmentLoadOp :=
  | VK_ATTACHMENT_LOAD_OP_LOAD
  | VK_ATTACHMENT_LOAD_OP_CLEAR
  | VK_ATTACHMENT_LOAD_OP_DONT_CARE.

Inductive VkAttachmentStoreOp :=
  | VK_ATTACHMENT_STORE_OP_STORE
  | VK_ATTACHMENT_STORE_OP_DONT_CARE.

Inductive VkImageLayout :=
  | VK_IMAGE_LAYOUT_UNDEFINED
  | VK_IMAGE_LAYOUT_COLOR_ATTACHMENT_OPTIMAL
  | VK_IMAGE_LAYOUT_DEPTH_STENCIL_ATTACHMENT_OPTIMAL
  | VK_IMAGE_LAYOUT_PRESENT_SRC_KHR.

Inductive VkBufferUsageFlagBits :=
  | VK_BUFFER_USAGE_VERTEX_BUFFER_BIT
  | VK_BUFFER_USAGE_INDEX_BUFFER_BIT.

Inductive VkImageUsageFlagBits :=
  | VK_IMAGE_USAGE_DEPTH_STENCIL_ATTACHMENT_BIT
  | VK_IMAGE_USAGE_COLOR_ATTACHMENT_BIT.

(** A Vulkan handle: the position of the creating call in the device log. *)
Definition Handle := nat.

Record VkVertexInputAttributeDescription := {
  location : Z;
  binding : Z;
  format : VkFormat;
  offset : Z;
}.

Record VkVertexInputBindingDescription := {
  vib_binding : Z;
  vib_stride : Z;
}.

Record VkAttachmentDescription := {
  att_format : VkFormat;
  att_loadOp : VkAttachmentLoadOp;
  att_storeOp : VkAttachmentStoreOp;
  att_stencilLoadOp : VkAttachmentLoadOp;
  att_stencilStoreOp : VkAttachmentStoreOp;
  att_initialLayout : VkImageLayout;
  att_finalLayout : VkImageLayout;
}.

Record VkAttachmentReference := {
  ref_attachment : Z;
  ref_layout : VkImageLayout;
}.

(** ** Logical and physical resources *)

(** Modelled from the spec: the enumerations of [render_graph.hpp], which is
    not part of the sources; section 3 of the specification names the kinds
    vertex, index and uniform buffer and back-buffer, depth and normal
    texture. *)
Inductive BufferUsage := INDEX_BUFFER | VERTEX_BUFFER | UNIFORM_BUFFER.
Inductive TextureUsage := BACK_BUFFER | DEPTH_STENCIL_BUFFER | NORMAL.

Global Instance BufferUsage_eq_dec : EqDecision BufferUsage.
Proof. solve_decision. Defined.
Global Instance TextureUsage_eq_dec : EqDecision TextureUsage.
Proof. solve_decision. Defined.

(** [wrapper::Buffer]: a device buffer holding uploaded bytes. *)
Record Buffer := {
  buffer : Handle;
  buffer_size : nat;
  buffer_data : list Byte.byte;
  buffer_usage : VkBufferUsageFlagBits;
}.

Record PhysicalBuffer := {
  m_buffer : option Buffer;
}.

Record BufferResource := {
  buf_name : string;
  buf_usage : BufferUsage;
  m_vertex_attributes : list VkVertexInputAttributeDescription;
  m_element_size : Z;
  m_data : list Byte.byte;
  m_data_size : nat;
  m_data_upload_needed : bool;
  buf_physical : option PhysicalBuffer;
}.

Inductive PhysicalTexture :=
  | PhysicalBackBuffer
  | PhysicalImage (m_img : Handle).

Record TextureResource := {
  tex_name : string;
  tex_usage : TextureUsage;
  tex_format : VkFormat;
  tex_physical : option PhysicalTexture;
}.

(** A [const RenderResource *]: the resource vector it points into and the
    position there.  [as<BufferResource>()] and [as<TextureResource>()] are
    the matches on the constructor. *)
Inductive ResourceRef :=
  | BufferRef (i : nat)
  | TextureRef (i : nat).

Global Instance ResourceRef_eq_dec : EqDecision ResourceRef.
Proof. solve_decision. Defined.

Global Instance ResourceRef_countable : Countable ResourceRef.
Proof.
  refine (inj_countable'
    (λ r, match r with BufferRef i => inl i | TextureRef i => inr i end)
    (λ s, match s with inl i => BufferRef i | inr i => TextureRef i end) _).
  by intros [].
Defined.

(** ** [BufferResource::add_vertex_attribute] *)

Definition add_vertex_attribute (fmt : VkFormat) (off : Z) (b : BufferResource)
  : BufferResource :=
  {| buf_name := buf_name b;
     buf_usage := buf_usage b;
     m_vertex_attributes :=
       m_vertex_attributes b ++
         [ {| location := to_uint32 (Z.of_nat (length (m_vertex_attributes b)));
              binding := 0;
              format := fmt;
              offset := off |} ];
     m_element_size := m_element_size b;
     m_data := m_data b;
     m_data_size := m_data_size b;
     m_data_upload_needed := m_data_upload_needed b;
     buf_physical := buf_physical b |}.

(** [n] successive calls, in the order of the list. *)
Definition add_vertex_attributes (l : list (VkFormat * Z)) (b : BufferResource)
  : BufferResource :=
  foldl (λ b a, add_vertex_attribute a.1 a.2 b) b l.

(** ** Commands recorded into a [wrapper::CommandBuffer] *)

Inductive Command :=
  | begin_render_pass (renderPass : option Handle) (framebuffer : Handle)
      (clears_screen : bool)
  | bind_index_buffer (buf : Handle)
  | bind_vertex_buffers (bufs : list Handle)
  | bind_pipeline (pipeline : Handle)
  | bind_descriptor (pipeline_layout : option Handle)
  | draw (vertex_count : nat)
  | draw_indexed (index_count : nat)
  | end_render_pass
  | full_barrier.

(** ** Render stages *)

Record VkPipelineShaderStageCreateInfo := {
  stage : Z;
  module : Handle;
  pName : string;
}.

Record VkPushConstantRange := {
  pcr_stageFlags : Z;
  pcr_offset : Z;
  pcr_size : Z;
}.

Record VkPipelineColorBlendAttachmentState := {
  blendEnable : bool;
  colorWriteMask : Z;
}.

(** [PhysicalGraphicsStage], with the members of its base [PhysicalStage]. *)
Record PhysicalGraphicsStage := {
  m_pipeline : option Handle;
  m_pipeline_layout : option Handle;
  m_render_pass : option Handle;
  m_framebuffers : list Handle;
}.

(** The members that [GraphicsStage] adds to [RenderStage]. *)
Record GraphicsStage := {
  m_clears_screen : bool;
  m_depth_test : bool;
  m_depth_write : bool;
  m_blend_attachment : VkPipelineColorBlendAttachmentState;
  m_buffer_bindings : gmap nat Z;
  m_shaders : list VkPipelineShaderStageCreateInfo;
}.

(** A [RenderStage]; [as_GraphicsStage] is [as<GraphicsStage>()], [None]
    for a stage of another kind.  [m_on_record] gives the commands the
    user's callback records for the physical stage it is handed. *)
Record RenderStage := {
  m_name : string;
  m_writes : list ResourceRef;
  m_reads : list ResourceRef;
  m_descriptor_layouts : list Handle;
  m_push_constant_ranges : list VkPushConstantRange;
  m_on_record : PhysicalGraphicsStage → list Command;
  m_physical : option PhysicalGraphicsStage;
  as_GraphicsStage : option GraphicsStage;
}.

(** [GraphicsStage::bind_buffer]: [emplace] keeps an existing entry. *)
Definition bind_buffer (buffer_resource : nat) (binding_index : Z)
    (s : GraphicsStage) : GraphicsStage :=
  {| m_clears_screen := m_clears_screen s;
     m_depth_test := m_depth_test s;
     m_depth_write := m_depth_write s;
     m_blend_attachment := m_blend_attachment s;
     m_buffer_bindings :=
       match m_buffer_bindings s !! buffer_resource with
       | Some _ => m_buffer_bindings s
       | None => <[buffer_resource := binding_index]> (m_buffer_bindings s)
       end;
     m_shaders := m_shaders s |}.

(** ** The render graph *)

Record Swapchain := {
  extent : Z * Z;
  image_views : list Handle;
}.

Record RenderGraph := {
  m_swapchain : Swapchain;
  m_stages : list RenderStage;
  m_buffer_resources : list BufferResource;
  m_texture_resources : list TextureResource;
  m_stage_stack : list nat;
}.

(** ** Execution order: the writers map and the depth first search *)

Section StageOrder.
Variable stages : list RenderStage.

(** [writers[resource].push_back(stage.get())] *)
Definition add_writer (s : nat) (writers : gmap ResourceRef (list nat))
    (resource : ResourceRef) : gmap ResourceRef (list nat) :=
  <[resource := writers !!! resource ++ [s]]> writers.

(** The first loop of [RenderGraph::compile]. *)
Definition build_writers : gmap ResourceRef (list nat) :=
  foldl (λ writers p, foldl (add_writer p.1) writers (m_writes p.2))
        ∅ (imap pair stages).

Definition reads_of (s : nat) : list ResourceRef :=
  match stages !! s with
  | Some st => m_reads st
  | None => []
  end.

(** A loop whose body may hit the recursion bound. *)
Fixpoint foldl_opt {A B} (f : B → A → option B) (b : B) (l : list A)
    : option B :=
  match l with
  | [] => Some b
  | a :: l => match f b a with
              | Some b' => foldl_opt f b' l
              | None => None
              end
  end.

(** The body of the [dfs] lambda, with [rec] for the recursive calls;
    the stage stack is passed along. *)
Definition dfs_body (rec : nat → list nat → option (list nat))
    (s : nat) (stack : list nat) : option (list nat) :=
  match
    foldl_opt
      (λ stack resource,
         foldl_opt (λ stack writer, rec writer stack) stack
                   (build_writers !!! resource))
      stack (reads_of s)
  with
  | Some stack' => Some (stack' ++ [s])
  | None => None
  end.

Fixpoint dfs (fuel : nat) : nat → list nat → option (list nat) :=
  match fuel with
  | 0 => λ _ _, None
  | S fuel => dfs_body (dfs fuel)
  end.

(** [for (auto *stage : writers[target]) dfs(stage);] *)
Definition dfs_from (fuel : nat) (target : ResourceRef) (stack : list nat)
    : option (list nat) :=
  foldl_opt (λ stack s, dfs fuel s stack) stack (build_writers !!! target).

(** Stage [p] reads a resource that stage [w] writes. *)
Definition depends_on (p w : nat) : Prop :=
  ∃ resource, resource ∈ reads_of p ∧ w ∈ build_writers !!! resource.


(** Stage [w] writes [resource]. *)
Definition writes (w : nat) (resource : ResourceRef) : Prop :=
  ∃ st, stages !! w = Some st ∧ resource ∈ m_writes st.

(** Every occurrence of a stage in [order] comes after an occurrence of
    each writer of each resource the stage reads. *)
Definition producers_first (order : list nat) : Prop :=
  ∀ i p resource w,
    order !! i = Some p → resource ∈ reads_of p → writes w resource →
    ∃ j, j < i ∧ order !! j = Some w.

(** What a completed visit does to the stage stack: it only appends, and
    it keeps the producers in front. *)
Definition grows (stack stack' : list nat) : Prop :=
  stack `prefix_of` stack'
  ∧ (producers_first stack → producers_first stack').
End StageOrder.

(** ** State of [wrapper::pipelines::GraphicsPipelineBuilder] *)

(** The structure type that [make_info<T>] writes into [sType]; a
    value-initialised structure ([T{}]) holds zero there, which is
    [VK_STRUCTURE_TYPE_APPLICATION_INFO]. *)
Inductive VkStructureType :=
  | VK_STRUCTURE_TYPE_APPLICATION_INFO
  | VK_STRUCTURE_TYPE_PIPELINE_VERTEX_INPUT_STATE_CREATE_INFO
  | VK_STRUCTURE_TYPE_PIPELINE_INPUT_ASSEMBLY_STATE_CREATE_INFO
  | VK_STRUCTURE_TYPE_PIPELINE_TESSELLATION_STATE_CREATE_INFO
  | VK_STRUCTURE_TYPE_PIPELINE_VIEWPORT_STATE_CREATE_INFO
  | VK_STRUCTURE_TYPE_PIPELINE_RASTERIZATION_STATE_CREATE_INFO
  | VK_STRUCTURE_TYPE_PIPELINE_MULTISAMPLE_STATE_CREATE_INFO
  | VK_STRUCTURE_TYPE_PIPELINE_DEPTH_STENCIL_STATE_CREATE_INFO
  | VK_STRUCTURE_TYPE_PIPELINE_COLOR_BLEND_STATE_CREATE_INFO
  | VK_STRUCTURE_TYPE_PIPELINE_DYNAMIC_STATE_CREATE_INFO
  | VK_STRUCTURE_TYPE_PIPELINE_RENDERING_CREATE_INFO.

(** A pointer member of a create info: null, or the address of the one
    builder member ([m_viewports.data()], [&m_swapchain_img_format], ...)
    that [build] stores there. *)
Inductive Pointer := nullptr | member_address.

Inductive VkPrimitiveTopology :=
  | VK_PRIMITIVE_TOPOLOGY_POINT_LIST
  | VK_PRIMITIVE_TOPOLOGY_TRIANGLE_LIST.
Inductive VkPolygonMode := VK_POLYGON_MODE_FILL | VK_POLYGON_MODE_LINE.
Inductive VkCullModeFlagBits := VK_CULL_MODE_NONE | VK_CULL_MODE_BACK_BIT.
Inductive VkFrontFace :=
  | VK_FRONT_FACE_COUNTER_CLOCKWISE
  | VK_FRONT_FACE_CLOCKWISE.

Record VkPipelineVertexInputStateCreateInfo := {
  vi_sType : VkStructureType;
  vertexBindingDescriptionCount : Z;
  pVertexBindingDescriptions : Pointer;
  vertexAttributeDescriptionCount : Z;
  pVertexAttributeDescriptions : Pointer;
}.

Record VkPipelineInputAssemblyStateCreateInfo := {
  ia_sType : VkStructureType;
  topology : VkPrimitiveTopology;
  primitiveRestartEnable : bool;
}.

Record VkPipelineTessellationStateCreateInfo := {
  ts_sType : VkStructureType;
  patchControlPoints : Z;
}.

Record VkPipelineViewportStateCreateInfo := {
  vp_sType : VkStructureType;
  viewportCount : Z;
  pViewports : Pointer;
  scissorCount : Z;
  pScissors : Pointer;
}.

(** The float members hold whole numbers only ([1.0f]); they are kept as
    integers. *)
Record VkPipelineRasterizationStateCreateInfo := {
  rs_sType : VkStructureType;
  polygonMode : VkPolygonMode;
  cullMode : VkCullModeFlagBits;
  frontFace : VkFrontFace;
  lineWidth : Z;
}.

Record VkPipelineMultisampleStateCreateInfo := {
  ms_sType : VkStructureType;
  rasterizationSamples : Z;
  sampleShadingEnable : bool;
  minSampleShading : Z;
}.

Record VkPipelineDepthStencilStateCreateInfo := {
  ds_sType : VkStructureType;
  depthTestEnable : bool;
  depthWriteEnable : bool;
}.

Record VkPipelineColorBlendStateCreateInfo := {
  cb_sType : VkStructureType;
  attachmentCount : Z;
  pAttachments : Pointer;
}.

Record VkPipelineDynamicStateCreateInfo := {
  dy_sType : VkStructureType;
  dynamicStateCount : Z;
  pDynamicStates : Pointer;
}.

Record VkPipelineRenderingCreateInfo := {
  pr_sType : VkStructureType;
  colorAttachmentCount : Z;
  pColorAttachmentFormats : Pointer;
  depthAttachmentFormat : VkFormat;
  stencilAttachmentFormat : VkFormat;
}.

Record VkViewport := { vp_width : Z; vp_height : Z }.
Record VkRect2D := { rect_width : Z; rect_height : Z }.

(** The members of the class, those of the header and
    [m_swapchain_img_format], which only the implementation file names. *)
Module pipelines.
Record GraphicsPipelineBuilder := {
  m_shader_stages : list VkPipelineShaderStageCreateInfo;
  m_vertex_input_binding_descriptions : list VkVertexInputBindingDescription;
  m_vertex_input_attribute_descriptions : list VkVertexInputAttributeDescription;
  m_vertex_input_sci : VkPipelineVertexInputStateCreateInfo;
  m_input_assembly_sci : VkPipelineInputAssemblyStateCreateInfo;
  m_tesselation_sci : VkPipelineTessellationStateCreateInfo;
  m_viewports : list VkViewport;
  m_scissors : list VkRect2D;
  m_viewport_sci : VkPipelineViewportStateCreateInfo;
  m_rasterization_sci : VkPipelineRasterizationStateCreateInfo;
  m_depth_stencil_sci : VkPipelineDepthStencilStateCreateInfo;
  m_depth_attachment_format : VkFormat;
  m_stencil_attachment_format : VkFormat;
  m_swapchain_img_format : VkFormat;
  m_color_attachments : list VkFormat;
  m_pipeline_rendering_ci : VkPipelineRenderingCreateInfo;
  m_multisample_sci : VkPipelineMultisampleStateCreateInfo;
  m_color_blend_sci : VkPipelineColorBlendStateCreateInfo;
  m_dynamic_states : list Z;
  m_dynamic_states_sci : VkPipelineDynamicStateCreateInfo;
  m_pipeline_layout : option Handle;
  m_color_blend_attachment_states : list VkPipelineColorBlendAttachmentState;
  m_push_constant_ranges : list VkPushConstantRange;
  m_descriptor_set_layout : option Handle;
}.

(** What [vkCreateGraphicsPipelines] is handed by [build]: every pointer of
    the create info leads into the builder, so the builder at the time of
    the call and the debug name say it all. *)
Record GraphicsPipelineCreation := {
  gp_builder : GraphicsPipelineBuilder;
  gp_name : string;
}.
End pipelines.

(** ** The device *)

Inductive VkImageView :=
  | SwapchainImageView (view : Handle)
  | ImageViewOf (img : Handle).

(** The create info that [RenderGraph::build_graphics_pipeline] hands to the
    pipeline builder of the graph. *)
Record StagePipelineInfo := {
  sp_attribute_bindings : list VkVertexInputAttributeDescription;
  sp_vertex_bindings : list VkVertexInputBindingDescription;
  sp_blend_attachment : VkPipelineColorBlendAttachmentState;
  sp_depth_test : bool;
  sp_depth_write : bool;
  sp_pipeline_layout : option Handle;
  sp_render_pass : option Handle;
  sp_extent : Z * Z;
  sp_shaders : list VkPipelineShaderStageCreateInfo;
}.

(** The calls that create or destroy a Vulkan object, by the wrapper class
    or function that issues them.  [CreateRenderPass] carries what the
    create info of [build_render_pass] points at: the attachments, the
    colour references with their count, and for [pDepthStencilAttachment],
    which has no count, the one reference it points at, if it is not null.
    [DestroyRenderPass] is the call of [~PhysicalGraphicsStage], on the
    handle it holds, which may be [VK_NULL_HANDLE]; after the body of that
    destructor the members of the stage are destroyed, the framebuffers,
    the pipeline and the pipeline layout: their wrappers are not part of
    the sources, and [DestroyStageMembers] stands for their calls, with no
    order among them. *)
Inductive GpuCall :=
  | CreateImage (fmt : VkFormat) (width height : Z)
      (usage : VkImageUsageFlagBits)
  | DestroyImage (img : Handle)
  | CreateRenderPass (name : string)
      (attachments : list VkAttachmentDescription)
      (colour_refs : list VkAttachmentReference)
      (depth_ref : option VkAttachmentReference)
  | DestroyRenderPass (render_pass : option Handle)
  | CreatePipelineLayout (descriptor_layouts : list Handle)
      (push_constant_ranges : list VkPushConstantRange)
  | CreateStagePipeline (ci : StagePipelineInfo)
  | CreateFramebuffer (render_pass : option Handle)
      (views : list VkImageView)
  | DestroyStageMembers (framebuffers : list Handle)
      (pipeline pipeline_layout : option Handle)
  | CreateBuffer (size : nat) (data : list Byte.byte)
      (usage : VkBufferUsageFlagBits)
  | DestroyBuffer (buf : Handle)
  | CreateGraphicsPipeline (ci : pipelines.GraphicsPipelineCreation).

Inductive Exception :=
  | out_of_range
  | VulkanException (call : GpuCall)
  | assertion_failure (condition : string)
  | null_dereference.

Inductive Result (A : Type) :=
  | Ok (a : A)
  | Throw (e : Exception).
Global Arguments Ok {A} a.
Global Arguments Throw {A} e.

(** The graph, the log of the device and the commands recorded so far into
    the command buffer of the frame. *)
Record World := {
  graph : RenderGraph;
  device : list GpuCall;
  cmd_buf : list Command;
}.

Definition M (A : Type) : Type := World → Result A * World.

Definition ret {A} (a : A) : M A := λ w, (Ok a, w).

Definition throw {A} (e : Exception) : M A := λ w, (Throw e, w).

Definition bind {A B} (m : M A) (k : A → M B) : M B :=
  λ w, match m w with
       | (Ok a, w') => k a w'
       | (Throw e, w') => (Throw e, w')
       end.

Declare Scope render_scope.
Delimit Scope render_scope with render.
Notation "'let*' x ':=' m 'in' k" := (bind m (λ x, k))
  (at level 10, x binder, m at level 200, k at level 200) : render_scope.
Notation "m >> k" := (bind m (λ _, k))
  (at level 90, right associativity) : render_scope.
Open Scope render_scope.

(** A loop over a vector with local variables [b]. *)
Fixpoint foldl_M {A B} (body : B → A → M B) (b : B) (l : list A) : M B :=
  match l with
  | [] => ret b
  | a :: l => let* b' := body b a in foldl_M body b' l
  end.

Definition for_each {A} (l : list A) (body : A → M unit) : M unit :=
  foldl_M (λ _ a, body a) tt l.

Definition get_graph : M RenderGraph := λ w, (Ok (graph w), w).

Definition modify_graph (f : RenderGraph → RenderGraph) : M unit :=
  λ w, (Ok tt, {| graph := f (graph w); device := device w;
                  cmd_buf := cmd_buf w |}).

(** Dereferencing a pointer that may be null. *)
Definition deref {A} (p : option A) : M A :=
  match p with
  | Some a => ret a
  | None => throw null_dereference
  end.

(** [std::vector::at] and [std::unordered_map::at]. *)
Definition at_ {A} (p : option A) : M A :=
  match p with
  | Some a => ret a
  | None => throw out_of_range
  end.

Definition record (c : Command) : M unit :=
  λ w, (Ok tt, {| graph := graph w; device := device w;
                  cmd_buf := cmd_buf w ++ [c] |}).

Definition log_call (c : GpuCall) (w : World) : World :=
  {| graph := graph w; device := device w ++ [c]; cmd_buf := cmd_buf w |}.

Definition gpu_destroy (c : GpuCall) : M unit := λ w, (Ok tt, log_call c w).

(** ** Assignments to single members *)

Definition with_stage_stack (stack : list nat) (g : RenderGraph) : RenderGraph :=
  {| m_swapchain := m_swapchain g; m_stages := m_stages g;
     m_buffer_resources := m_buffer_resources g;
     m_texture_resources := m_texture_resources g;
     m_stage_stack := stack |}.

Definition with_stages (stages : list RenderStage) (g : RenderGraph)
    : RenderGraph :=
  {| m_swapchain := m_swapchain g; m_stages := stages;
     m_buffer_resources := m_buffer_resources g;
     m_texture_resources := m_texture_resources g;
     m_stage_stack := m_stage_stack g |}.

Definition with_buffer_resources (l : list BufferResource) (g : RenderGraph)
    : RenderGraph :=
  {| m_swapchain := m_swapchain g; m_stages := m_stages g;
     m_buffer_resources := l;
     m_texture_resources := m_texture_resources g;
     m_stage_stack := m_stage_stack g |}.

Definition with_texture_resources (l : list TextureResource) (g : RenderGraph)
    : RenderGraph :=
  {| m_swapchain := m_swapchain g; m_stages := m_stages g;
     m_buffer_resources := m_buffer_resources g;
     m_texture_resources := l;
     m_stage_stack := m_stage_stack g |}.

Definition with_physical (p : option PhysicalGraphicsStage) (st : RenderStage)
    : RenderStage :=
  {| m_name := m_name st; m_writes := m_writes st; m_reads := m_reads st;
     m_descriptor_layouts := m_descriptor_layouts st;
     m_push_constant_ranges := m_push_constant_ranges st;
     m_on_record := m_on_record st;
     m_physical := p;
     as_GraphicsStage := as_GraphicsStage st |}.

Definition with_render_pass (h : option Handle) (p : PhysicalGraphicsStage)
    : PhysicalGraphicsStage :=
  {| m_pipeline := m_pipeline p; m_pipeline_layout := m_pipeline_layout p;
     m_render_pass := h; m_framebuffers := m_framebuffers p |}.

Definition with_pipeline_layout (h : option Handle) (p : PhysicalGraphicsStage)
    : PhysicalGraphicsStage :=
  {| m_pipeline := m_pipeline p; m_pipeline_layout := h;
     m_render_pass := m_render_pass p; m_framebuffers := m_framebuffers p |}.

Definition with_pipeline (h : option Handle) (p : PhysicalGraphicsStage)
    : PhysicalGraphicsStage :=
  {| m_pipeline := h; m_pipeline_layout := m_pipeline_layout p;
     m_render_pass := m_render_pass p; m_framebuffers := m_framebuffers p |}.

Definition with_framebuffers (l : list Handle) (p : PhysicalGraphicsStage)
    : PhysicalGraphicsStage :=
  {| m_pipeline := m_pipeline p; m_pipeline_layout := m_pipeline_layout p;
     m_render_pass := m_render_pass p; m_framebuffers := l |}.

Definition with_buf_physical (p : option PhysicalBuffer) (b : BufferResource)
    : BufferResource :=
  {| buf_name := buf_name b; buf_usage := buf_usage b;
     m_vertex_attributes := m_vertex_attributes b;
     m_element_size := m_element_size b;
     m_data := m_data b; m_data_size := m_data_size b;
     m_data_upload_needed := m_data_upload_needed b;
     buf_physical := p |}.

Definition with_data_upload_needed (f : bool) (b : BufferResource)
    : BufferResource :=
  {| buf_name := buf_name b; buf_usage := buf_usage b;
     m_vertex_attributes := m_vertex_attributes b;
     m_element_size := m_element_size b;
     m_data := m_data b; m_data_size := m_data_size b;
     m_data_upload_needed := f;
     buf_physical := buf_physical b |}.

Definition with_tex_physical (p : option PhysicalTexture) (t : TextureResource)
    : TextureResource :=
  {| tex_name := tex_name t; tex_usage := tex_usage t;
     tex_format := tex_format t; tex_physical := p |}.

Definition with_loadOp (op : VkAttachmentLoadOp) (a : VkAttachmentDescription)
    : VkAttachmentDescription :=
  {| att_format := att_format a; att_loadOp := op;
     att_storeOp := att_storeOp a; att_stencilLoadOp := att_stencilLoadOp a;
     att_stencilStoreOp := att_stencilStoreOp a;
     att_initialLayout := att_initialLayout a;
     att_finalLayout := att_finalLayout a |}.

Definition with_initialLayout (l : VkImageLayout) (a : VkAttachmentDescription)
    : VkAttachmentDescription :=
  {| att_format := att_format a; att_loadOp := att_loadOp a;
     att_storeOp := att_storeOp a; att_stencilLoadOp := att_stencilLoadOp a;
     att_stencilStoreOp := att_stencilStoreOp a;
     att_initialLayout := l;
     att_finalLayout := att_finalLayout a |}.

Definition with_finalLayout (l : VkImageLayout) (a : VkAttachmentDescription)
    : VkAttachmentDescription :=
  {| att_format := att_format a; att_loadOp := att_loadOp a;
     att_storeOp := att_storeOp a; att_stencilLoadOp := att_stencilLoadOp a;
     att_stencilStoreOp := att_stencilStoreOp a;
     att_initialLayout := att_initialLayout a;
     att_finalLayout := l |}.

(** ** Access to the objects of the graph *)

(** [resource->as<TextureResource>()] and [resource->as<BufferResource>()];
    a reference that leads outside the vectors denotes no object. *)
Definition as_TextureResource (g : RenderGraph) (resource : ResourceRef)
    : option TextureResource :=
  match resource with
  | TextureRef t => m_texture_resources g !! t
  | BufferRef _ => None
  end.

Definition as_BufferResource (g : RenderGraph) (resource : ResourceRef)
    : option (nat * BufferResource) :=
  match resource with
  | BufferRef b => pair b <$> m_buffer_resources g !! b
  | TextureRef _ => None
  end.

Definition get_stage (s : nat) : M RenderStage :=
  let* g := get_graph in deref (m_stages g !! s).

Definition alter_stage (s : nat) (f : RenderStage → RenderStage) : M unit :=
  modify_graph (λ g, with_stages (alter f s (m_stages g)) g).

(** An assignment through the reference [physical] of [compile]. *)
Definition alter_physical (s : nat)
    (f : PhysicalGraphicsStage → PhysicalGraphicsStage) : M unit :=
  alter_stage s (λ st, with_physical (f <$> m_physical st) st).

Definition alter_buffer (b : nat) (f : BufferResource → BufferResource)
    : M unit :=
  modify_graph (λ g, with_buffer_resources (alter f b (m_buffer_resources g)) g).

Definition alter_texture (t : nat) (f : TextureResource → TextureResource)
    : M unit :=
  modify_graph
    (λ g, with_texture_resources (alter f t (m_texture_resources g)) g).

(** ** [RenderGraph::compile] and its helpers *)

Section RenderGraphCode.
(** Whether the device answers a creation call with [VK_SUCCESS]. *)
Variable vk_success : GpuCall → bool.

(** A creation call: it is logged, and a result other than [VK_SUCCESS]
    is thrown as a [VulkanException]. *)
Definition gpu_create (c : GpuCall) : M Handle :=
  λ w, if vk_success c
       then (Ok (length (device w)), log_call c w)
       else (Throw (VulkanException c), log_call c w).

(** One round of the loop of [build_render_pass] over [m_writes], [i]
    being the position in [m_writes]. *)
Definition render_pass_step (g : RenderGraph) (stage_ : GraphicsStage)
    (acc : list VkAttachmentDescription * list VkAttachmentReference
           * list VkAttachmentReference)
    (iw : nat * ResourceRef)
    : list VkAttachmentDescription * list VkAttachmentReference
      * list VkAttachmentReference :=
  let '(attachments, colour_refs, depth_refs) := acc in
  let i := iw.1 in
  match as_TextureResource g iw.2 with
  | None => acc
  | Some texture =>
    let attachment :=
      {| att_format := tex_format texture;
         att_loadOp := if m_clears_screen stage_
                       then VK_ATTACHMENT_LOAD_OP_CLEAR
                       else VK_ATTACHMENT_LOAD_OP_DONT_CARE;
         att_storeOp := VK_ATTACHMENT_STORE_OP_STORE;
         att_stencilLoadOp := VK_ATTACHMENT_LOAD_OP_DONT_CARE;
         att_stencilStoreOp := VK_ATTACHMENT_STORE_OP_DONT_CARE;
         att_initialLayout := VK_IMAGE_LAYOUT_UNDEFINED;
         att_finalLayout := VK_IMAGE_LAYOUT_UNDEFINED |} in
    match tex_usage texture with
    | BACK_BUFFER =>
      let attachment :=
        if negb (m_clears_screen stage_)
        then with_loadOp VK_ATTACHMENT_LOAD_OP_LOAD
               (with_initialLayout VK_IMAGE_LAYOUT_PRESENT_SRC_KHR attachment)
        else attachment in
      let attachment :=
        with_finalLayout VK_IMAGE_LAYOUT_PRESENT_SRC_KHR attachment in
      (attachments ++ [attachment],
       colour_refs ++
         [ {| ref_attachment := to_uint32 (Z.of_nat i);
              ref_layout := VK_IMAGE_LAYOUT_COLOR_ATTACHMENT_OPTIMAL |} ],
       depth_refs)
    | DEPTH_STENCIL_BUFFER =>
      let attachment :=
        with_finalLayout VK_IMAGE_LAYOUT_DEPTH_STENCIL_ATTACHMENT_OPTIMAL
          attachment in
      (attachments ++ [attachment],
       colour_refs,
       depth_refs ++
         [ {| ref_attachment := to_uint32 (Z.of_nat i);
              ref_layout := att_finalLayout attachment |} ])
    | NORMAL =>
      let attachment :=
        with_finalLayout VK_IMAGE_LAYOUT_COLOR_ATTACHMENT_OPTIMAL
          attachment in
      (attachments ++ [attachment],
       colour_refs ++
         [ {| ref_attachment := to_uint32 (Z.of_nat i);
              ref_layout := att_finalLayout attachment |} ],
       depth_refs)
    end
  end.

(** The three vectors that the loop of [build_render_pass] fills. *)
Definition render_pass_vectors (g : RenderGraph) (stage_ : GraphicsStage)
    (writes_ : list ResourceRef)
    : list VkAttachmentDescription * list VkAttachmentReference
      * list VkAttachmentReference :=
  foldl (render_pass_step g stage_) ([], [], []) (imap pair writes_).

(** [pDepthStencilAttachment] is [depth_refs.data()] when the vector is
    not empty and null otherwise: the subpass has the first depth
    reference, whatever the number of depth buffers the stage writes. *)
Definition build_render_pass (s : nat) (st : RenderStage)
    (stage_ : GraphicsStage) : M unit :=
  let* g := get_graph in
  let '(attachments, colour_refs, depth_refs) :=
    render_pass_vectors g stage_ (m_writes st) in
  let* render_pass :=
    gpu_create
      (CreateRenderPass (m_name st) attachments colour_refs
                        (head depth_refs)) in
  alter_physical s (with_render_pass (Some render_pass)).

Definition build_pipeline_layout (s : nat) (st : RenderStage) : M unit :=
  let* layout :=
    gpu_create (CreatePipelineLayout (m_descriptor_layouts st)
                                     (m_push_constant_ranges st)) in
  alter_physical s (with_pipeline_layout (Some layout)).

(** One round of the loop of [build_graphics_pipeline] over [m_reads]. *)
Definition vertex_input_step (g : RenderGraph) (stage_ : GraphicsStage)
    (acc : list VkVertexInputAttributeDescription
           * list VkVertexInputBindingDescription)
    (resource : ResourceRef)
    : M (list VkVertexInputAttributeDescription
         * list VkVertexInputBindingDescription) :=
  let '(attribute_bindings, vertex_bindings) := acc in
  match as_BufferResource g resource with
  | None => ret acc
  | Some (b, buffer_resource) =>
    if decide (buf_usage buffer_resource = INDEX_BUFFER) then ret acc
    else
      let* binding_ := at_ (m_buffer_bindings stage_ !! b) in
      ret (attribute_bindings ++
             map (λ attribute_binding,
                    {| location := location attribute_binding;
                       binding := binding_;
                       format := format attribute_binding;
                       offset := offset attribute_binding |})
                 (m_vertex_attributes buffer_resource),
           vertex_bindings ++
             [ {| vib_binding := binding_;
                  vib_stride := to_uint32 (m_element_size buffer_resource) |} ])
  end.

(** An [assert] of the code, taken as compiled in. *)
Definition assert_ (condition : string) (holds : bool) : M unit :=
  if holds then ret tt else throw (assertion_failure condition).

(** The chain of calls on the pipeline builder of the graph ends in
    [GraphicsPipelineBuilder::build].  The setters are not part of the
    sources: what they store is kept as the create info of the one creation
    call that [build] makes.  Of the assertions of [build], those on the
    name, the viewports, the scissors and the pipeline layout hold after
    this chain; those on the vertex input bindings and attributes stop the
    call for a stage that reads no vertex buffer with a binding and an
    attribute. *)
Definition build_graphics_pipeline (s : nat) (st : RenderStage)
    (stage_ : GraphicsStage) : M unit :=
  let* g := get_graph in
  let* vectors := foldl_M (vertex_input_step g stage_) ([], []) (m_reads st) in
  let* current := get_stage s in
  let* physical := deref (m_physical current) in
  let* layout := deref (m_pipeline_layout physical) in
  assert_ "!m_vertex_input_binding_descriptions.empty()"
          (bool_decide (vectors.2 ≠ [])) >>
  assert_ "!m_vertex_input_attribute_descriptions.empty()"
          (bool_decide (vectors.1 ≠ [])) >>
  let* pipeline :=
    gpu_create
      (CreateStagePipeline
         {| sp_attribute_bindings := vectors.1;
            sp_vertex_bindings := vectors.2;
            sp_blend_attachment :=
              {| blendEnable := blendEnable (m_blend_attachment stage_);
                 colorWriteMask := 15 |};
            sp_depth_test := m_depth_test stage_;
            sp_depth_write := m_depth_write stage_;
            sp_pipeline_layout := Some layout;
            sp_render_pass := m_render_pass physical;
            sp_extent := extent (m_swapchain g);
            sp_shaders := m_shaders stage_ |}) in
  alter_physical s (with_pipeline (Some pipeline)).

(** One round of the loop that gathers the physical textures a stage
    writes: the number of back buffers and the images. *)
Definition framebuffer_step (g : RenderGraph) (acc : nat * list Handle)
    (resource : ResourceRef) : M (nat * list Handle) :=
  match as_TextureResource g resource with
  | None => ret acc
  | Some texture =>
    let* physical_texture := deref (tex_physical texture) in
    match physical_texture with
    | PhysicalBackBuffer => ret (S acc.1, acc.2)
    | PhysicalImage image => ret (acc.1, acc.2 ++ [image])
    end
  end.

Definition build_framebuffers (s : nat) (st : RenderStage) : M unit :=
  if decide (m_writes st = []) then ret tt
  else
    let* g := get_graph in
    let* gathered := foldl_M (framebuffer_step g) (0, []) (m_writes st) in
    for_each (image_views (m_swapchain g))
      (λ img_view,
         let image_views_ :=
           replicate gathered.1 (SwapchainImageView img_view)
             ++ map ImageViewOf gathered.2 in
         let* current := get_stage s in
         let* physical := deref (m_physical current) in
         let* framebuffer :=
           gpu_create (CreateFramebuffer (m_render_pass physical)
                                         image_views_) in
         alter_physical s
           (λ p, with_framebuffers (m_framebuffers p ++ [framebuffer]) p)).

(** What the assignment of a new physical stage to [m_physical] does to
    the stage it replaces: [~PhysicalGraphicsStage] destroys the render
    pass, and then the members are destroyed. *)
Definition release_physical_stage (old : option PhysicalGraphicsStage)
    : M unit :=
  match old with
  | Some physical =>
    gpu_destroy (DestroyRenderPass (m_render_pass physical)) >>
    gpu_destroy (DestroyStageMembers (m_framebuffers physical)
                                     (m_pipeline physical)
                                     (m_pipeline_layout physical))
  | None => ret tt
  end.

(** The body of the last loop of [compile], for the stage at [s]. *)
Definition build_physical_stage (s : nat) : M unit :=
  let* st := get_stage s in
  match as_GraphicsStage st with
  | None => ret tt
  | Some graphics_stage =>
    release_physical_stage (m_physical st) >>
    alter_stage s
      (with_physical
         (Some {| m_pipeline := None; m_pipeline_layout := None;
                  m_render_pass := None; m_framebuffers := [] |})) >>
    build_render_pass s st graphics_stage >>
    build_pipeline_layout s st >>
    build_graphics_pipeline s st graphics_stage >>
    build_framebuffers s st
  end.

(** What the assignment of a new physical buffer to [m_physical] does to
    the one it replaces: its device buffer, if it has one, is destroyed. *)
Definition release_physical_buffer (old : option PhysicalBuffer) : M unit :=
  match old with
  | Some {| m_buffer := Some old_buffer |} =>
    gpu_destroy (DestroyBuffer (buffer old_buffer))
  | _ => ret tt
  end.

Definition allocate_buffer (b : nat) : M unit :=
  let* g := get_graph in
  let* buffer_resource := deref (m_buffer_resources g !! b) in
  release_physical_buffer (buf_physical buffer_resource) >>
  alter_buffer b (with_buf_physical (Some {| m_buffer := None |})).

Definition allocate_buffers : M unit :=
  let* g := get_graph in
  for_each (seq 0 (length (m_buffer_resources g))) allocate_buffer.

(** The same for a physical texture: the image of a physical image is
    destroyed. *)
Definition release_physical_texture (old : option PhysicalTexture) : M unit :=
  match old with
  | Some (PhysicalImage old_image) => gpu_destroy (DestroyImage old_image)
  | _ => ret tt
  end.

(** For a texture that is no back buffer the new physical image is
    assigned before its image is created; until then the resource has no
    physical texture that could be used. *)
Definition allocate_texture (t : nat) : M unit :=
  let* g := get_graph in
  let* texture_resource := deref (m_texture_resources g !! t) in
  release_physical_texture (tex_physical texture_resource) >>
  if decide (tex_usage texture_resource = BACK_BUFFER)
  then alter_texture t (with_tex_physical (Some PhysicalBackBuffer))
  else
    alter_texture t (with_tex_physical None) >>
    let* img :=
      gpu_create
        (CreateImage (tex_format texture_resource)
           (extent (m_swapchain g)).1 (extent (m_swapchain g)).2
           (if decide (tex_usage texture_resource = DEPTH_STENCIL_BUFFER)
            then VK_IMAGE_USAGE_DEPTH_STENCIL_ATTACHMENT_BIT
            else VK_IMAGE_USAGE_COLOR_ATTACHMENT_BIT)) in
    alter_texture t (with_tex_physical (Some (PhysicalImage img))).

Definition allocate_textures : M unit :=
  let* g := get_graph in
  for_each (seq 0 (length (m_texture_resources g))) allocate_texture.

(** What [compile] does once the stage stack is known. *)
Definition compile_physical (stack : list nat) : M unit :=
  modify_graph (with_stage_stack stack) >>
  allocate_buffers >>
  allocate_textures >>
  for_each stack build_physical_stage.

(** [RenderGraph::compile]; [None] when the depth first search needs more
    than [fuel] nested calls. *)
Definition compile (fuel : nat) (target : ResourceRef) (w : World)
    : option (Result unit * World) :=
  match dfs_from (m_stages (graph w)) fuel target (m_stage_stack (graph w)) with
  | None => None
  | Some stack => Some (compile_physical stack w)
  end.

(** ** [RenderGraph::update_dynamic_buffers] *)

Definition update_dynamic_buffer (b : nat) : M unit :=
  let* g := get_graph in
  let* buffer_resource := deref (m_buffer_resources g !! b) in
  if m_data_upload_needed buffer_resource then
    let* physical := deref (buf_physical buffer_resource) in
    match m_buffer physical with
    | Some old =>
      gpu_destroy (DestroyBuffer (buffer old)) >>
      alter_buffer b (with_buf_physical (Some {| m_buffer := None |}))
    | None => ret tt
    end >>
    let usage :=
      if decide (buf_usage buffer_resource = VERTEX_BUFFER)
      then VK_BUFFER_USAGE_VERTEX_BUFFER_BIT
      else VK_BUFFER_USAGE_INDEX_BUFFER_BIT in
    let* created :=
      gpu_create (CreateBuffer (m_data_size buffer_resource)
                               (m_data buffer_resource) usage) in
    alter_buffer b
      (with_buf_physical
         (Some {| m_buffer :=
                    Some {| buffer := created;
                            buffer_size := m_data_size buffer_resource;
                            buffer_data := m_data buffer_resource;
                            buffer_usage := usage |} |})) >>
    alter_buffer b (with_data_upload_needed false)
  else ret tt.

Definition update_dynamic_buffers : M unit :=
  let* g := get_graph in
  for_each (seq 0 (length (m_buffer_resources g))) update_dynamic_buffer.

(** ** [RenderGraph::record_command_buffer] and [RenderGraph::render] *)

(** One round of the loop over [m_reads]; [vertex_buffers] is the local
    vector. *)
Definition bind_buffer_step (g : RenderGraph) (vertex_buffers : list Handle)
    (resource : ResourceRef) : M (list Handle) :=
  match as_BufferResource g resource with
  | None => ret vertex_buffers
  | Some (_, buffer_resource) =>
    let* physical_buffer := deref (buf_physical buffer_resource) in
    match m_buffer physical_buffer with
    | None => ret vertex_buffers
    | Some buf =>
      if decide (buf_usage buffer_resource = INDEX_BUFFER) then
        record (bind_index_buffer (buffer buf)) >> ret vertex_buffers
      else if decide (buf_usage buffer_resource = VERTEX_BUFFER) then
        ret (vertex_buffers ++ [buffer buf])
      else ret vertex_buffers
    end
  end.

Definition record_command_buffer (s : nat) (image_index : nat) : M unit :=
  let* st := get_stage s in
  let* physical := deref (m_physical st) in
  match as_GraphicsStage st with
  | Some graphics_stage =>
    let* framebuffer := at_ (m_framebuffers physical !! image_index) in
    record (begin_render_pass (m_render_pass physical) framebuffer
                              (m_clears_screen graphics_stage))
  | None => ret tt
  end >>
  let* g := get_graph in
  let* vertex_buffers := foldl_M (bind_buffer_step g) [] (m_reads st) in
  (if decide (vertex_buffers = []) then ret tt
   else record (bind_vertex_buffers vertex_buffers)) >>
  let* pipeline := deref (m_pipeline physical) in
  record (bind_pipeline pipeline) >>
  for_each (m_on_record st physical) record >>
  match as_GraphicsStage st with
  | Some _ => record end_render_pass
  | None => ret tt
  end >>
  record full_barrier.

Definition render (image_index : nat) : M unit :=
  update_dynamic_buffers >>
  let* g := get_graph in
  for_each (m_stage_stack g) (λ s, record_command_buffer s image_index).
End RenderGraphCode.

(** Modelled from the spec: [request_update], which the sources call but do
    not define; section 4.1 has it mark the resource dirty and stage the new
    bytes and their size. *)
Definition request_update (data : list Byte.byte) (b : BufferResource)
    : BufferResource :=
  {| buf_name := buf_name b; buf_usage := buf_usage b;
     m_vertex_attributes := m_vertex_attributes b;
     m_element_size := m_element_size b;
     m_data := data; m_data_size := length data;
     m_data_upload_needed := true;
     buf_physical := buf_physical b |}.

(** ** [GraphicsPipelineBuilder]: [reset], the constructor and [build] *)

(** Assignments to single members of the builder. *)

Definition with_m_vertex_input_sci (v : VkPipelineVertexInputStateCreateInfo)
    (b : pipelines.GraphicsPipelineBuilder) : pipelines.GraphicsPipelineBuilder :=
  {| pipelines.m_shader_stages := pipelines.m_shader_stages b;
     pipelines.m_vertex_input_binding_descriptions := pipelines.m_vertex_input_binding_descriptions b;
     pipelines.m_vertex_input_attribute_descriptions := pipelines.m_vertex_input_attribute_descriptions b;
     pipelines.m_vertex_input_sci := v;
     pipelines.m_input_assembly_sci := pipelines.m_input_assembly_sci b;
     pipelines.m_tesselation_sci := pipelines.m_tesselation_sci b;
     pipelines.m_viewports := pipelines.m_viewports b;
     pipelines.m_scissors := pipelines.m_scissors b;
     pipelines.m_viewport_sci := pipelines.m_viewport_sci b;
     pipelines.m_rasterization_sci := pipelines.m_rasterization_sci b;
     pipelines.m_depth_stencil_sci := pipelines.m_depth_stencil_sci b;
     pipelines.m_depth_attachment_format := pipelines.m_depth_attachment_format b;
     pipelines.m_stencil_attachment_format := pipelines.m_stencil_attachment_format b;
     pipelines.m_swapchain_img_format := pipelines.m_swapchain_img_format b;
     pipelines.m_color_attachments := pipelines.m_color_attachments b;
     pipelines.m_pipeline_rendering_ci := pipelines.m_pipeline_rendering_ci b;
     pipelines.m_multisample_sci := pipelines.m_multisample_sci b;
     pipelines.m_color_blend_sci := pipelines.m_color_blend_sci b;
     pipelines.m_dynamic_states := pipelines.m_dynamic_states b;
     pipelines.m_dynamic_states_sci := pipelines.m_dynamic_states_sci b;
     pipelines.m_pipeline_layout := pipelines.m_pipeline_layout b;
     pipelines.m_color_blend_attachment_states := pipelines.m_color_blend_attachment_states b;
     pipelines.m_push_constant_ranges := pipelines.m_push_constant_ranges b;
     pipelines.m_descriptor_set_layout := pipelines.m_descriptor_set_layout b |}.

Definition with_m_viewport_sci (v : VkPipelineViewportStateCreateInfo)
    (b : pipelines.GraphicsPipelineBuilder) : pipelines.GraphicsPipelineBuilder :=
  {| pipelines.m_shader_stages := pipelines.m_shader_stages b;
     pipelines.m_vertex_input_binding_descriptions := pipelines.m_vertex_input_binding_descriptions b;
     pipelines.m_vertex_input_attribute_descriptions := pipelines.m_vertex_input_attribute_descriptions b;
     pipelines.m_vertex_input_sci := pipelines.m_vertex_input_sci b;
     pipelines.m_input_assembly_sci := pipelines.m_input_assembly_sci b;
     pipelines.m_tesselation_sci := pipelines.m_tesselation_sci b;
     pipelines.m_viewports := pipelines.m_viewports b;
     pipelines.m_scissors := pipelines.m_scissors b;
     pipelines.m_viewport_sci := v;
     pipelines.m_rasterization_sci := pipelines.m_rasterization_sci b;
     pipelines.m_depth_stencil_sci := pipelines.m_depth_stencil_sci b;
     pipelines.m_depth_attachment_format := pipelines.m_depth_attachment_format b;
     pipelines.m_stencil_attachment_format := pipelines.m_stencil_attachment_format b;
     pipelines.m_swapchain_img_format := pipelines.m_swapchain_img_format b;
     pipelines.m_color_attachments := pipelines.m_color_attachments b;
     pipelines.m_pipeline_rendering_ci := pipelines.m_pipeline_rendering_ci b;
     pipelines.m_multisample_sci := pipelines.m_multisample_sci b;
     pipelines.m_color_blend_sci := pipelines.m_color_blend_sci b;
     pipelines.m_dynamic_states := pipelines.m_dynamic_states b;
     pipelines.m_dynamic_states_sci := pipelines.m_dynamic_states_sci b;
     pipelines.m_pipeline_layout := pipelines.m_pipeline_layout b;
     pipelines.m_color_blend_attachment_states := pipelines.m_color_blend_attachment_states b;
     pipelines.m_push_constant_ranges := pipelines.m_push_constant_ranges b;
     pipelines.m_descriptor_set_layout := pipelines.m_descriptor_set_layout b |}.

Definition with_m_dynamic_states_sci (v : VkPipelineDynamicStateCreateInfo)
    (b : pipelines.GraphicsPipelineBuilder) : pipelines.GraphicsPipelineBuilder :=
  {| pipelines.m_shader_stages := pipelines.m_shader_stages b;
     pipelines.m_vertex_input_binding_descriptions := pipelines.m_vertex_input_binding_descriptions b;
     pipelines.m_vertex_input_attribute_descriptions := pipelines.m_vertex_input_attribute_descriptions b;
     pipelines.m_vertex_input_sci := pipelines.m_vertex_input_sci b;
     pipelines.m_input_assembly_sci := pipelines.m_input_assembly_sci b;
     pipelines.m_tesselation_sci := pipelines.m_tesselation_sci b;
     pipelines.m_viewports := pipelines.m_viewports b;
     pipelines.m_scissors := pipelines.m_scissors b;
     pipelines.m_viewport_sci := pipelines.m_viewport_sci b;
     pipelines.m_rasterization_sci := pipelines.m_rasterization_sci b;
     pipelines.m_depth_stencil_sci := pipelines.m_depth_stencil_sci b;
     pipelines.m_depth_attachment_format := pipelines.m_depth_attachment_format b;
     pipelines.m_stencil_attachment_format := pipelines.m_stencil_attachment_format b;
     pipelines.m_swapchain_img_format := pipelines.m_swapchain_img_format b;
     pipelines.m_color_attachments := pipelines.m_color_attachments b;
     pipelines.m_pipeline_rendering_ci := pipelines.m_pipeline_rendering_ci b;
     pipelines.m_multisample_sci := pipelines.m_multisample_sci b;
     pipelines.m_color_blend_sci := pipelines.m_color_blend_sci b;
     pipelines.m_dynamic_states := pipelines.m_dynamic_states b;
     pipelines.m_dynamic_states_sci := v;
     pipelines.m_pipeline_layout := pipelines.m_pipeline_layout b;
     pipelines.m_color_blend_attachment_states := pipelines.m_color_blend_attachment_states b;
     pipelines.m_push_constant_ranges := pipelines.m_push_constant_ranges b;
     pipelines.m_descriptor_set_layout := pipelines.m_descriptor_set_layout b |}.

Definition with_m_pipeline_rendering_ci (v : VkPipelineRenderingCreateInfo)
    (b : pipelines.GraphicsPipelineBuilder) : pipelines.GraphicsPipelineBuilder :=
  {| pipelines.m_shader_stages := pipelines.m_shader_stages b;
     pipelines.m_vertex_input_binding_descriptions := pipelines.m_vertex_input_binding_descriptions b;
     pipelines.m_vertex_input_attribute_descriptions := pipelines.m_vertex_input_attribute_descriptions b;
     pipelines.m_vertex_input_sci := pipelines.m_vertex_input_sci b;
     pipelines.m_input_assembly_sci := pipelines.m_input_assembly_sci b;
     pipelines.m_tesselation_sci := pipelines.m_tesselation_sci b;
     pipelines.m_viewports := pipelines.m_viewports b;
     pipelines.m_scissors := pipelines.m_scissors b;
     pipelines.m_viewport_sci := pipelines.m_viewport_sci b;
     pipelines.m_rasterization_sci := pipelines.m_rasterization_sci b;
     pipelines.m_depth_stencil_sci := pipelines.m_depth_stencil_sci b;
     pipelines.m_depth_attachment_format := pipelines.m_depth_attachment_format b;
     pipelines.m_stencil_attachment_format := pipelines.m_stencil_attachment_format b;
     pipelines.m_swapchain_img_format := pipelines.m_swapchain_img_format b;
     pipelines.m_color_attachments := pipelines.m_color_attachments b;
     pipelines.m_pipeline_rendering_ci := v;
     pipelines.m_multisample_sci := pipelines.m_multisample_sci b;
     pipelines.m_color_blend_sci := pipelines.m_color_blend_sci b;
     pipelines.m_dynamic_states := pipelines.m_dynamic_states b;
     pipelines.m_dynamic_states_sci := pipelines.m_dynamic_states_sci b;
     pipelines.m_pipeline_layout := pipelines.m_pipeline_layout b;
     pipelines.m_color_blend_attachment_states := pipelines.m_color_blend_attachment_states b;
     pipelines.m_push_constant_ranges := pipelines.m_push_constant_ranges b;
     pipelines.m_descriptor_set_layout := pipelines.m_descriptor_set_layout b |}.

(** [GraphicsPipelineBuilder::reset]: the members it assigns, in the order
    of the record; the other members keep their value. *)
Definition reset (b : pipelines.GraphicsPipelineBuilder)
    : pipelines.GraphicsPipelineBuilder :=
  {| pipelines.m_shader_stages := pipelines.m_shader_stages b;
     pipelines.m_vertex_input_binding_descriptions := [];
     pipelines.m_vertex_input_attribute_descriptions := [];
     pipelines.m_vertex_input_sci := 
       {| vi_sType := VK_STRUCTURE_TYPE_PIPELINE_VERTEX_INPUT_STATE_CREATE_INFO;
          vertexBindingDescriptionCount := 0;
          pVertexBindingDescriptions := nullptr;
          vertexAttributeDescriptionCount := 0;
          pVertexAttributeDescriptions := nullptr |};
     pipelines.m_input_assembly_sci := 
       {| ia_sType := VK_STRUCTURE_TYPE_PIPELINE_INPUT_ASSEMBLY_STATE_CREATE_INFO;
          topology := VK_PRIMITIVE_TOPOLOGY_TRIANGLE_LIST;
          primitiveRestartEnable := false |};
     pipelines.m_tesselation_sci := 
       {| ts_sType := VK_STRUCTURE_TYPE_PIPELINE_TESSELLATION_STATE_CREATE_INFO;
          patchControlPoints := 0 |};
     pipelines.m_viewports := [];
     pipelines.m_scissors := [];
     pipelines.m_viewport_sci := 
       {| vp_sType := VK_STRUCTURE_TYPE_PIPELINE_VIEWPORT_STATE_CREATE_INFO;
          viewportCount := 0; pViewports := nullptr;
          scissorCount := 0; pScissors := nullptr |};
     pipelines.m_rasterization_sci := 
       {| rs_sType := VK_STRUCTURE_TYPE_PIPELINE_RASTERIZATION_STATE_CREATE_INFO;
          polygonMode := VK_POLYGON_MODE_FILL;
          cullMode := VK_CULL_MODE_BACK_BIT;
          frontFace := VK_FRONT_FACE_CLOCKWISE;
          lineWidth := 1 |};
     pipelines.m_depth_stencil_sci := 
       {| ds_sType := VK_STRUCTURE_TYPE_PIPELINE_DEPTH_STENCIL_STATE_CREATE_INFO;
          depthTestEnable := false; depthWriteEnable := false |};
     pipelines.m_depth_attachment_format := VK_FORMAT_UNDEFINED;
     pipelines.m_stencil_attachment_format := VK_FORMAT_UNDEFINED;
     pipelines.m_swapchain_img_format := VK_FORMAT_UNDEFINED;
     pipelines.m_color_attachments := pipelines.m_color_attachments b;
     pipelines.m_pipeline_rendering_ci := pipelines.m_pipeline_rendering_ci b;
     pipelines.m_multisample_sci := 
       {| ms_sType := VK_STRUCTURE_TYPE_PIPELINE_MULTISAMPLE_STATE_CREATE_INFO;
          rasterizationSamples := 1;
          sampleShadingEnable := false;
          minSampleShading := 1 |};
     pipelines.m_color_blend_sci := 
       {| cb_sType := VK_STRUCTURE_TYPE_PIPELINE_COLOR_BLEND_STATE_CREATE_INFO;
          attachmentCount := 0; pAttachments := nullptr |};
     pipelines.m_dynamic_states := [];
     pipelines.m_dynamic_states_sci := 
       {| dy_sType := VK_STRUCTURE_TYPE_PIPELINE_DYNAMIC_STATE_CREATE_INFO;
          dynamicStateCount := 0; pDynamicStates := nullptr |};
     pipelines.m_pipeline_layout := None;
     pipelines.m_color_blend_attachment_states := pipelines.m_color_blend_attachment_states b;
     pipelines.m_push_constant_ranges := pipelines.m_push_constant_ranges b;
     pipelines.m_descriptor_set_layout := pipelines.m_descriptor_set_layout b |}.

(** The members as their default member initialisers leave them. *)
Definition value_initialised : pipelines.GraphicsPipelineBuilder :=
  {| pipelines.m_shader_stages := [];
     pipelines.m_vertex_input_binding_descriptions := [];
     pipelines.m_vertex_input_attribute_descriptions := [];
     pipelines.m_vertex_input_sci := 
       {| vi_sType := VK_STRUCTURE_TYPE_APPLICATION_INFO;
          vertexBindingDescriptionCount := 0;
          pVertexBindingDescriptions := nullptr;
          vertexAttributeDescriptionCount := 0;
          pVertexAttributeDescriptions := nullptr |};
     pipelines.m_input_assembly_sci := 
       {| ia_sType := VK_STRUCTURE_TYPE_APPLICATION_INFO;
          topology := VK_PRIMITIVE_TOPOLOGY_POINT_LIST;
          primitiveRestartEnable := false |};
     pipelines.m_tesselation_sci := 
       {| ts_sType := VK_STRUCTURE_TYPE_APPLICATION_INFO;
          patchControlPoints := 0 |};
     pipelines.m_viewports := [];
     pipelines.m_scissors := [];
     pipelines.m_viewport_sci := 
       {| vp_sType := VK_STRUCTURE_TYPE_APPLICATION_INFO;
          viewportCount := 0; pViewports := nullptr;
          scissorCount := 0; pScissors := nullptr |};
     pipelines.m_rasterization_sci := 
       {| rs_sType := VK_STRUCTURE_TYPE_APPLICATION_INFO;
          polygonMode := VK_POLYGON_MODE_FILL;
          cullMode := VK_CULL_MODE_NONE;
          frontFace := VK_FRONT_FACE_COUNTER_CLOCKWISE;
          lineWidth := 0 |};
     pipelines.m_depth_stencil_sci := 
       {| ds_sType := VK_STRUCTURE_TYPE_APPLICATION_INFO;
          depthTestEnable := false; depthWriteEnable := false |};
     pipelines.m_depth_attachment_format := 0%Z;
     pipelines.m_stencil_attachment_format := 0%Z;
     pipelines.m_swapchain_img_format := 0%Z;
     pipelines.m_color_attachments := [];
     pipelines.m_pipeline_rendering_ci := 
       {| pr_sType := VK_STRUCTURE_TYPE_APPLICATION_INFO;
          colorAttachmentCount := 0; pColorAttachmentFormats := nullptr;
          depthAttachmentFormat := 0%Z; stencilAttachmentFormat := 0%Z |};
     pipelines.m_multisample_sci := 
       {| ms_sType := VK_STRUCTURE_TYPE_APPLICATION_INFO;
          rasterizationSamples := 0;
          sampleShadingEnable := false;
          minSampleShading := 0 |};
     pipelines.m_color_blend_sci := 
       {| cb_sType := VK_STRUCTURE_TYPE_APPLICATION_INFO;
          attachmentCount := 0; pAttachments := nullptr |};
     pipelines.m_dynamic_states := [];
     pipelines.m_dynamic_states_sci := 
       {| dy_sType := VK_STRUCTURE_TYPE_APPLICATION_INFO;
          dynamicStateCount := 0; pDynamicStates := nullptr |};
     pipelines.m_pipeline_layout := None;
     pipelines.m_color_blend_attachment_states := [];
     pipelines.m_push_constant_ranges := [];
     pipelines.m_descriptor_set_layout := None |}.

(** [GraphicsPipelineBuilder::GraphicsPipelineBuilder(const Device &)] *)
Definition new_GraphicsPipelineBuilder : pipelines.GraphicsPipelineBuilder :=
  reset value_initialised.

(** [wrapper::pipelines::GraphicsPipeline] *)
Record GraphicsPipeline := {
  pipeline : Handle;
  pipeline_name : string;
}.

Section BuilderCode.
Variable vk_success : GpuCall → bool.

(** [GraphicsPipelineBuilder::build]; the builder and the device log are
    passed along, and an [assert] whose condition is false ends the call
    (the assertions are taken as compiled in). *)
Definition build (name : string) (b : pipelines.GraphicsPipelineBuilder)
    (dev : list GpuCall)
    : Result GraphicsPipeline * pipelines.GraphicsPipelineBuilder
      * list GpuCall :=
  if decide (name = EmptyString) then
    (Throw (assertion_failure "!name.empty()"), b, dev)
  else if decide (pipelines.m_vertex_input_binding_descriptions b = []) then
    (Throw (assertion_failure "!m_vertex_input_binding_descriptions.empty()"),
     b, dev)
  else if decide (pipelines.m_vertex_input_attribute_descriptions b = []) then
    (Throw (assertion_failure "!m_vertex_input_attribute_descriptions.empty()"),
     b, dev)
  else
    let b :=
      with_m_vertex_input_sci
        {| vi_sType := VK_STRUCTURE_TYPE_PIPELINE_VERTEX_INPUT_STATE_CREATE_INFO;
           vertexBindingDescriptionCount :=
             to_uint32 (Z.of_nat
               (length (pipelines.m_vertex_input_binding_descriptions b)));
           pVertexBindingDescriptions := member_address;
           vertexAttributeDescriptionCount :=
             to_uint32 (Z.of_nat
               (length (pipelines.m_vertex_input_attribute_descriptions b)));
           pVertexAttributeDescriptions := member_address |} b in
    if decide (pipelines.m_viewports b = []) then
      (Throw (assertion_failure "!m_viewports.empty()"), b, dev)
    else if decide (pipelines.m_scissors b = []) then
      (Throw (assertion_failure "!m_scissors.empty()"), b, dev)
    else
      let b :=
        with_m_viewport_sci
          {| vp_sType := VK_STRUCTURE_TYPE_PIPELINE_VIEWPORT_STATE_CREATE_INFO;
             viewportCount :=
               to_uint32 (Z.of_nat (length (pipelines.m_viewports b)));
             pViewports := member_address;
             scissorCount :=
               to_uint32 (Z.of_nat (length (pipelines.m_scissors b)));
             pScissors := member_address |} b in
      let b :=
        if decide (pipelines.m_dynamic_states b = []) then b
        else
          with_m_dynamic_states_sci
            {| dy_sType := VK_STRUCTURE_TYPE_PIPELINE_DYNAMIC_STATE_CREATE_INFO;
               dynamicStateCount :=
                 to_uint32 (Z.of_nat (length (pipelines.m_dynamic_states b)));
               pDynamicStates := member_address |} b in
      let b :=
        with_m_pipeline_rendering_ci
          {| pr_sType := VK_STRUCTURE_TYPE_PIPELINE_RENDERING_CREATE_INFO;
             colorAttachmentCount := 1;
             pColorAttachmentFormats := member_address;
             depthAttachmentFormat := pipelines.m_depth_attachment_format b;
             stencilAttachmentFormat :=
               pipelines.m_stencil_attachment_format b |} b in
      if decide (pipelines.m_pipeline_layout b = None) then
        (Throw (assertion_failure "m_pipeline_layout"), b, dev)
      else
        let call :=
          CreateGraphicsPipeline
            {| pipelines.gp_builder := b; pipelines.gp_name := name |} in
        if vk_success call then
          (Ok {| pipeline := length dev; pipeline_name := name |},
           reset b, dev ++ [call])
        else (Throw (VulkanException call), b, dev ++ [call]).
End BuilderCode.

(** ** Notions used in the statements *)

(** The declared part of a stage, a buffer and a texture: all but the
    physical objects that [compile] attaches. *)
Definition stage_decl (st : RenderStage) : RenderStage := with_physical None st.
Definition buffer_decl (b : BufferResource) : BufferResource :=
  with_buf_physical None b.
Definition texture_decl (t : TextureResource) : TextureResource :=
  with_tex_physical None t.

(** [w'] differs from [w] in physical objects only, and its device log
    extends that of [w]. *)
Record same_declarations (w w' : World) : Prop := {
  sd_swapchain : m_swapchain (graph w') = m_swapchain (graph w);
  sd_stages : stage_decl <$> m_stages (graph w') = stage_decl <$> m_stages (graph w);
  sd_buffers :
    buffer_decl <$> m_buffer_resources (graph w')
    = buffer_decl <$> m_buffer_resources (graph w);
  sd_textures :
    texture_decl <$> m_texture_resources (graph w')
    = texture_decl <$> m_texture_resources (graph w);
  sd_stack : m_stage_stack (graph w') = m_stage_stack (graph w);
  sd_device : device w `prefix_of` device w';
  sd_cmd_buf : cmd_buf w' = cmd_buf w;
}.

(** A computation whose final world is related to its initial world,
    whether it returns or throws. *)
Definition preserves (R : World → World → Prop) {A} (m : M A) : Prop :=
  ∀ w, R w (m w).2.

(** The passes that [render] records one after the other: for each stage
    of the stack, in words of the specification, begin the render target,
    bind each read index buffer, bind the read vertex buffers in one call,
    bind the pipeline, run the record callback, end the render target and
    place a full barrier.  A buffer is bound when it has a physical buffer,
    and there is no call for an empty set of vertex buffers. *)
Definition bound_buffers (g : RenderGraph) (usage : BufferUsage)
    (reads : list ResourceRef) : list Handle :=
  omap (λ resource,
          match as_BufferResource g resource with
          | Some (_, buffer_resource) =>
            if decide (buf_usage buffer_resource = usage) then
              match buf_physical buffer_resource with
              | Some physical => buffer <$> m_buffer physical
              | None => None
              end
            else None
          | None => None
          end) reads.

Definition pass_commands (g : RenderGraph) (image_index : nat) (s : nat)
    : option (list Command) :=
  match m_stages g !! s with
  | Some st =>
    match m_physical st, as_GraphicsStage st with
    | Some physical, Some graphics_stage =>
      match m_framebuffers physical !! image_index, m_pipeline physical with
      | Some framebuffer, Some pipeline_ =>
        Some ([begin_render_pass (m_render_pass physical) framebuffer
                                 (m_clears_screen graphics_stage)]
              ++ (bind_index_buffer <$> bound_buffers g INDEX_BUFFER (m_reads st))
              ++ match bound_buffers g VERTEX_BUFFER (m_reads st) with
                 | [] => []
                 | vertex_buffers => [bind_vertex_buffers vertex_buffers]
                 end
              ++ [bind_pipeline pipeline_]
              ++ m_on_record st physical
              ++ [end_render_pass; full_barrier])
      | _, _ => None
      end
    | Some physical, None =>
      match m_pipeline physical with
      | Some pipeline_ =>
        Some ((bind_index_buffer <$> bound_buffers g INDEX_BUFFER (m_reads st))
              ++ match bound_buffers g VERTEX_BUFFER (m_reads st) with
                 | [] => []
                 | vertex_buffers => [bind_vertex_buffers vertex_buffers]
                 end
              ++ [bind_pipeline pipeline_]
              ++ m_on_record st physical
              ++ [full_barrier])
      | None => None
      end
    | None, _ => None
    end
  | None => None
  end.

(** ** Example graphs *)

(** A device on which every call succeeds. *)
Definition always_success : GpuCall → bool := λ _, true.

Definition texture (usage : TextureUsage) (fmt : VkFormat) : TextureResource :=
  {| tex_name := "texture"; tex_usage := usage; tex_format := fmt;
     tex_physical := None |}.

Definition buffer_resource (usage : BufferUsage) (element_size : Z)
    : BufferResource :=
  {| buf_name := "buffer"; buf_usage := usage; m_vertex_attributes := [];
     m_element_size := element_size; m_data := []; m_data_size := 0;
     m_data_upload_needed := false; buf_physical := None |}.

Definition graphics_stage (name : string) (writes_ reads : list ResourceRef)
    (bindings : gmap nat Z) (clears_screen : bool) : RenderStage :=
  {| m_name := name; m_writes := writes_; m_reads := reads;
     m_descriptor_layouts := []; m_push_constant_ranges := [];
     m_on_record := λ physical,
       [bind_descriptor (m_pipeline_layout physical); draw_indexed 36];
     m_physical := None;
     as_GraphicsStage :=
       Some {| m_clears_screen := clears_screen; m_depth_test := true;
               m_depth_write := true;
               m_blend_attachment :=
                 {| blendEnable := false; colorWriteMask := 0 |};
               m_buffer_bindings := bindings; m_shaders := [] |} |}.

Definition fresh_world (stages : list RenderStage)
    (buffers : list BufferResource) (textures : list TextureResource) : World :=
  {| graph :=
       {| m_swapchain := {| extent := (800, 600)%Z; image_views := [100; 101] |};
          m_stages := stages; m_buffer_resources := buffers;
          m_texture_resources := textures; m_stage_stack := [] |};
     device := []; cmd_buf := [] |}.

(** The graph of [VulkanRenderer::setup_render_graph]: a back buffer, a
    depth buffer, an index buffer and a vertex buffer with two attributes,
    both with data to upload, and the main stage. *)
Definition octree_vertex_buffer : BufferResource :=
  request_update [Byte.x01; Byte.x02; Byte.x03]
    (add_vertex_attribute 106 12
       (add_vertex_attribute 106 0 (buffer_resource VERTEX_BUFFER 24))).

Definition octree_index_buffer : BufferResource :=
  request_update [Byte.x00; Byte.x01] (buffer_resource INDEX_BUFFER 4).

Definition octree_world : World :=
  fresh_world
    [graphics_stage "main stage" [TextureRef 0; TextureRef 1]
       [BufferRef 0; BufferRef 1] {[ 1 := 0%Z ]} true]
    [octree_index_buffer; octree_vertex_buffer]
    [texture BACK_BUFFER 44; texture DEPTH_STENCIL_BUFFER 130].

(** The same graph without the call of [bind_buffer] for the vertex
    buffer. *)
Definition unbound_world : World :=
  fresh_world
    [graphics_stage "main stage" [TextureRef 0; TextureRef 1]
       [BufferRef 0; BufferRef 1] ∅ true]
    [octree_index_buffer; octree_vertex_buffer]
    [texture BACK_BUFFER 44; texture DEPTH_STENCIL_BUFFER 130].

(** The same graph with a vertex buffer that has its two attributes and
    for which no data was ever requested. *)
Definition vertex_buffer_without_data : BufferResource :=
  add_vertex_attribute 106 12
    (add_vertex_attribute 106 0 (buffer_resource VERTEX_BUFFER 24)).

Definition empty_vertex_buffer_world : World :=
  fresh_world
    [graphics_stage "main stage" [TextureRef 0; TextureRef 1]
       [BufferRef 0; BufferRef 1] {[ 1 := 0%Z ]} true]
    [octree_index_buffer; vertex_buffer_without_data]
    [texture BACK_BUFFER 44; texture DEPTH_STENCIL_BUFFER 130].

(** In the graphs below every pass reads the vertex buffer of the octree,
    at binding 0, so that its pipeline can be built. *)

(** Pass X writes a texture that pass Y reads; Y writes the back buffer. *)
Definition two_pass_world : World :=
  fresh_world
    [graphics_stage "X" [TextureRef 1] [BufferRef 0] {[ 0 := 0%Z ]} true;
     graphics_stage "Y" [TextureRef 0] [TextureRef 1; BufferRef 0]
       {[ 0 := 0%Z ]} false]
    [octree_vertex_buffer]
    [texture BACK_BUFFER 44; texture NORMAL 37].

(** Pass A reads what only B writes and B reads what only A writes; A
    writes the target, texture 0. *)
Definition cyclic_world : World :=
  fresh_world
    [graphics_stage "A" [TextureRef 0] [TextureRef 1; BufferRef 0]
       {[ 0 := 0%Z ]} true;
     graphics_stage "B" [TextureRef 1] [TextureRef 0; BufferRef 0]
       {[ 0 := 0%Z ]} true]
    [octree_vertex_buffer]
    [texture NORMAL 37; texture NORMAL 37].

(** X writes a texture that both Y and Z read, Y writes a texture that Z
    reads, and Z writes the back buffer. *)
Definition diamond_world : World :=
  fresh_world
    [graphics_stage "X" [TextureRef 1] [BufferRef 0] {[ 0 := 0%Z ]} true;
     graphics_stage "Y" [TextureRef 2] [TextureRef 1; BufferRef 0]
       {[ 0 := 0%Z ]} true;
     graphics_stage "Z" [TextureRef 0]
       [TextureRef 1; TextureRef 2; BufferRef 0] {[ 0 := 0%Z ]} true]
    [octree_vertex_buffer]
    [texture BACK_BUFFER 44; texture NORMAL 37; texture NORMAL 37].


(** ** What the update step does to one buffer resource *)

Definition upload_usage (b : BufferResource) : VkBufferUsageFlagBits :=
  if decide (buf_usage b = VERTEX_BUFFER)
  then VK_BUFFER_USAGE_VERTEX_BUFFER_BIT
  else VK_BUFFER_USAGE_INDEX_BUFFER_BIT.

(** The creation call that uploads the staged data of [b]. *)
Definition upload_call (b : BufferResource) : GpuCall :=
  CreateBuffer (m_data_size b) (m_data b) (upload_usage b).

(** The device calls of one update of [b]: none when the resource is not
    dirty; else the old physical buffer, if there is one, is destroyed and
    a new one is created with the staged data. *)
Definition upload_calls (b : BufferResource) : list GpuCall :=
  if m_data_upload_needed b then
    match buf_physical b with
    | Some {| m_buffer := Some old |} => [DestroyBuffer (buffer old)]
    | _ => []
    end ++ [upload_call b]
  else [].

(** The resource [b] after its upload into the new buffer [h]. *)
Definition uploaded (h : Handle) (b : BufferResource) : BufferResource :=
  with_data_upload_needed false
    (with_buf_physical
       (Some {| m_buffer :=
                  Some {| buffer := h; buffer_size := m_data_size b;
                          buffer_data := m_data b;
                          buffer_usage := upload_usage b |} |}) b).

(** A resource before and after an update step that may have thrown, on
    the device log [dev] after the step: a clean resource is as before; a
    dirty resource is either still dirty or was uploaded by a call of the
    log. *)
Definition updated (dev : list GpuCall) (old new : BufferResource) : Prop :=
  if m_data_upload_needed old then
    m_data_upload_needed new = true
    ∨ ∃ h, new = uploaded h old ∧ dev !! h = Some (upload_call old)
  else new = old.

(** The same for an update step that returned. *)
Definition updated_ok (dev : list GpuCall) (old new : BufferResource) : Prop :=
  if m_data_upload_needed old then
    ∃ h, new = uploaded h old ∧ dev !! h = Some (upload_call old)
  else new = old.

(** The members of the graph that the update step leaves alone. *)
Definition same_but_buffers (w w' : World) : Prop :=
  m_swapchain (graph w') = m_swapchain (graph w)
  ∧ m_stages (graph w') = m_stages (graph w)
  ∧ m_texture_resources (graph w') = m_texture_resources (graph w)
  ∧ m_stage_stack (graph w') = m_stage_stack (graph w)
  ∧ cmd_buf w' = cmd_buf w
  ∧ length (m_buffer_resources (graph w')) = length (m_buffer_resources (graph w))
  ∧ device w `prefix_of` device w'.


(** The graph and the device are as before: only commands were recorded. *)
Definition recorded_only (w w' : World) : Prop :=
  graph w' = graph w ∧ device w' = device w.

(** A call of [request_update(data)] on the buffer resource at [b]. *)
Definition request_update_at (b : nat) (data : list Byte.byte) (w : World)
    : World :=
  {| graph :=
       with_buffer_resources
         (alter (request_update data) b (m_buffer_resources (graph w)))
         (graph w);
     device := device w; cmd_buf := cmd_buf w |}.


(** The world after [compile] and after a frame, when they return. *)
Definition after_compile (target : ResourceRef) (w : World) : World :=
  match compile always_success (S (length (m_stages (graph w)))) target w with
  | Some (_, w') => w'
  | None => w
  end.

Definition after_render (image_index : nat) (w : World) : World :=
  (render always_success image_index w).2.

Definition octree_compiled : World := after_compile (TextureRef 0) octree_world.
Definition octree_rendered : World := after_render 0 octree_compiled.


(** The builder after the calls that store the shader stages, the vertex
    input bindings and attributes, a viewport, a scissor, the color blend
    attachments and the pipeline layout; the setters are declared in the
    header and not part of the sources. *)
Definition configured
    (shaders : list VkPipelineShaderStageCreateInfo)
    (bindings : list VkVertexInputBindingDescription)
    (attributes : list VkVertexInputAttributeDescription)
    (viewports : list VkViewport) (scissors : list VkRect2D)
    (blend_attachments : list VkPipelineColorBlendAttachmentState)
    (layout : option Handle)
    (b : pipelines.GraphicsPipelineBuilder) : pipelines.GraphicsPipelineBuilder :=
  {| pipelines.m_shader_stages := shaders;
     pipelines.m_vertex_input_binding_descriptions := bindings;
     pipelines.m_vertex_input_attribute_descriptions := attributes;
     pipelines.m_vertex_input_sci := pipelines.m_vertex_input_sci b;
     pipelines.m_input_assembly_sci := pipelines.m_input_assembly_sci b;
     pipelines.m_tesselation_sci := pipelines.m_tesselation_sci b;
     pipelines.m_viewports := viewports;
     pipelines.m_scissors := scissors;
     pipelines.m_viewport_sci := pipelines.m_viewport_sci b;
     pipelines.m_rasterization_sci := pipelines.m_rasterization_sci b;
     pipelines.m_depth_stencil_sci := pipelines.m_depth_stencil_sci b;
     pipelines.m_depth_attachment_format := pipelines.m_depth_attachment_format b;
     pipelines.m_stencil_attachment_format := pipelines.m_stencil_attachment_format b;
     pipelines.m_swapchain_img_format := pipelines.m_swapchain_img_format b;
     pipelines.m_color_attachments := pipelines.m_color_attachments b;
     pipelines.m_pipeline_rendering_ci := pipelines.m_pipeline_rendering_ci b;
     pipelines.m_multisample_sci := pipelines.m_multisample_sci b;
     pipelines.m_color_blend_sci := pipelines.m_color_blend_sci b;
     pipelines.m_dynamic_states := pipelines.m_dynamic_states b;
     pipelines.m_dynamic_states_sci := pipelines.m_dynamic_states_sci b;
     pipelines.m_pipeline_layout := layout;
     pipelines.m_color_blend_attachment_states := blend_attachments;
     pipelines.m_push_constant_ranges := pipelines.m_push_constant_ranges b;
     pipelines.m_descriptor_set_layout := pipelines.m_descriptor_set_layout b |}.

(** A builder set up for the overlay pipeline: two shader stages, one
    binding with three attributes, one viewport, one scissor, one blend
    attachment and a pipeline layout. *)
Definition overlay_builder : pipelines.GraphicsPipelineBuilder :=
  configured
    [ {| stage := 1; module := 11; pName := "main" |};
      {| stage := 16; module := 12; pName := "main" |} ]
    [ {| vib_binding := 0; vib_stride := 20 |} ]
    [ {| location := 0; binding := 0; format := 103; offset := 0 |};
      {| location := 1; binding := 0; format := 103; offset := 8 |};
      {| location := 2; binding := 0; format := 37; offset := 16 |} ]
    [ {| vp_width := 800; vp_height := 600 |} ]
    [ {| rect_width := 800; rect_height := 600 |} ]
    [ {| blendEnable := true; colorWriteMask := 15 |} ]
    (Some 7)
    new_GraphicsPipelineBuilder.

(** The attachment description that the specification asks for a texture
    that a pass writes. *)
Definition attachment_load_op (clears_screen : bool) (usage : TextureUsage)
    : VkAttachmentLoadOp :=
  if clears_screen then VK_ATTACHMENT_LOAD_OP_CLEAR
  else match usage with
       | BACK_BUFFER => VK_ATTACHMENT_LOAD_OP_LOAD
       | _ => VK_ATTACHMENT_LOAD_OP_DONT_CARE
       end.

Definition attachment_final_layout (usage : TextureUsage) : VkImageLayout :=
  match usage with
  | BACK_BUFFER => VK_IMAGE_LAYOUT_PRESENT_SRC_KHR
  | DEPTH_STENCIL_BUFFER => VK_IMAGE_LAYOUT_DEPTH_STENCIL_ATTACHMENT_OPTIMAL
  | NORMAL => VK_IMAGE_LAYOUT_COLOR_ATTACHMENT_OPTIMAL
  end.

(** The textures among the resources a stage writes, in order. *)
Definition texture_writes (g : RenderGraph) (st : RenderStage)
    : list TextureResource :=
  omap (as_TextureResource g) (m_writes st).


(** A computation that throws from every world that satisfies [P]. *)
Definition fails_from (P : World → Prop) {A} (m : M A) : Prop :=
  ∀ w, P w → ∃ e w', m w = (Throw e, w').

(** A computation that never throws [std::out_of_range]. *)
Definition no_range_error {A} (m : M A) : Prop :=
  ∀ w w', m w ≠ (Throw out_of_range, w').

(** The last two calls of a device log are the creation of a render pass
    and of a pipeline layout. *)
Definition after_render_pass_and_layout (dev : list GpuCall) : Prop :=
  ∃ before name attachments colour_refs depth_ref layouts ranges,
    dev = before ++ [CreateRenderPass name attachments colour_refs depth_ref;
                     CreatePipelineLayout layouts ranges].

(** A computation that throws [std::out_of_range] only right after these
    two calls. *)
Definition range_error_late {A} (m : M A) : Prop :=
  ∀ w w', m w = (Throw out_of_range, w') →
          after_render_pass_and_layout (device w').


Definition unuploaded_compiled : World :=
  after_compile (TextureRef 0) empty_vertex_buffer_world.

(** A pass that writes the back buffer and reads the vertex buffer at its
    binding, and a second pass that no other pass depends on and that reads
    the vertex buffer without a binding. *)
Definition unreachable_unbound_world : World :=
  fresh_world
    [graphics_stage "main stage" [TextureRef 0] [BufferRef 0]
       {[ 0 := 0%Z ]} true;
     graphics_stage "unused" [TextureRef 1] [BufferRef 0] ∅ true]
    [octree_vertex_buffer]
    [texture BACK_BUFFER 44; texture NORMAL 37].


Definition diamond_compiled : World := after_compile (TextureRef 0) diamond_world.
Definition diamond_recompiled : World :=
  after_compile (TextureRef 0) diamond_compiled.

(** The Vulkan function behind a device call. *)
Definition call_name (c : GpuCall) : string :=
  match c with
  | CreateImage _ _ _ _ => "vkCreateImage"
  | DestroyImage _ => "vkDestroyImage"
  | CreateRenderPass _ _ _ _ => "vkCreateRenderPass"
  | DestroyRenderPass _ => "vkDestroyRenderPass"
  | CreatePipelineLayout _ _ => "vkCreatePipelineLayout"
  | CreateStagePipeline _ => "vkCreateGraphicsPipelines"
  | CreateFramebuffer _ _ => "vkCreateFramebuffer"
  | DestroyStageMembers _ _ _ =>
      "vkDestroyFramebuffer, vkDestroyPipeline, vkDestroyPipelineLayout"
  | CreateBuffer _ _ _ => "vmaCreateBuffer"
  | DestroyBuffer _ => "vmaDestroyBuffer"
  | CreateGraphicsPipeline _ => "vkCreateGraphicsPipelines"
  end.

(** * Further parts of the renderer *)

(** ** [VulkanRenderer::generate_octree_indices] *)

(** Code that throws or fails an assertion without touching the graph. *)
Definition result_bind {A B} (r : Result A) (k : A → Result B) : Result B :=
  match r with
  | Ok a => k a
  | Throw e => Throw e
  end.

(** A loop over a vector that an exception or a failed assertion ends. *)
Fixpoint foldl_R {A B} (body : B → A → Result B) (b : B) (l : list A)
    : Result B :=
  match l with
  | [] => Ok b
  | a :: l => result_bind (body b a) (λ b', foldl_R body b' l)
  end.

(** [std::numeric_limits<std::uint32_t>::max()] *)
Definition UINT32_MAX : Z := (2 ^ 32 - 1)%Z.

Section OctreeIndices.
(** [OctreeGpuVertex], whose [operator==] and [std::hash] are not part of
    the sources: a type with a decidable equality that the hash respects. *)
Context {OctreeGpuVertex : Type} `{Countable OctreeGpuVertex}.

(** One round of the loop over [old_vertices], on the local [vertex_map]
    and the members [m_octree_vertices] and [m_octree_indices]. *)
Definition index_vertex
    (acc : gmap OctreeGpuVertex Z * list OctreeGpuVertex * list Z)
    (vertex : OctreeGpuVertex)
    : Result (gmap OctreeGpuVertex Z * list OctreeGpuVertex * list Z) :=
  let '(vertex_map, m_octree_vertices, m_octree_indices) := acc in
  result_bind
    (if decide (vertex_map !! vertex = None) then
       if decide (Z.of_nat (size vertex_map) < UINT32_MAX)%Z then
         Ok (match vertex_map !! vertex with
             | Some _ => vertex_map
             | None =>
               <[vertex := to_uint32 (Z.of_nat (size vertex_map))]> vertex_map
             end,
             m_octree_vertices ++ [vertex])
       else
         Throw (assertion_failure
                  "vertex_map.size() < std::numeric_limits<std::uint32_t>::max()")
     else Ok (vertex_map, m_octree_vertices))
    (λ '(vertex_map, m_octree_vertices),
       match vertex_map !! vertex with
       | Some index =>
         Ok (vertex_map, m_octree_vertices, m_octree_indices ++ [index])
       | None => Throw out_of_range
       end).

(** The member vectors [(m_octree_vertices, m_octree_indices)] after the
    call, from [m_octree_vertices] before it; the old indices are cleared. *)
Definition generate_octree_indices (old_vertices : list OctreeGpuVertex)
    : Result (list OctreeGpuVertex * list Z) :=
  result_bind (foldl_R index_vertex (∅, [], []) old_vertices)
    (λ '(_, m_octree_vertices, m_octree_indices),
       Ok (m_octree_vertices, m_octree_indices)).
End OctreeIndices.

(** The loop of [generate_octree_indices] after the vertices [seen]: the
    map gives every vertex its position in [vertices], which holds the
    vertices seen once each, a vertex before another one when it was seen
    before any occurrence of the other, and [indices] holds for every
    vertex seen the position of that vertex. *)
Record indexed `{Countable OctreeGpuVertex} (seen : list OctreeGpuVertex)
    (vertex_map : gmap OctreeGpuVertex Z) (vertices : list OctreeGpuVertex)
    (indices : list Z) : Prop := {
  indexed_NoDup : NoDup vertices;
  indexed_elem_of : ∀ v, v ∈ vertices ↔ v ∈ seen;
  indexed_sublist : vertices `sublist_of` seen;
  indexed_bound : (Z.of_nat (length vertices) ≤ UINT32_MAX)%Z;
  indexed_map : ∀ v k, vertex_map !! v = Some k
                       ↔ ∃ n, k = Z.of_nat n ∧ vertices !! n = Some v;
  indexed_size : size vertex_map = length vertices;
  indexed_indices :
    Forall2 (λ v k, ∃ n, k = Z.of_nat n ∧ vertices !! n = Some v)
            seen indices;
  indexed_order :
    ∀ j k u v, j < k → vertices !! j = Some u → vertices !! k = Some v →
               ∃ i, seen !! i = Some u ∧ v ∉ take i seen;
}.

(** ** The move constructor of [GraphicsPipelineBuilder] *)

(** [GraphicsPipelineBuilder(GraphicsPipelineBuilder &&other)]: the new
    builder.  The constructor assigns 21 members in its body, after their
    default member initialisers have run; [m_rasterization_sci] is assigned
    from itself, not from [other], and [m_color_attachments],
    [m_push_constant_ranges] and [m_descriptor_set_layout] are not
    assigned.  Pointer members are copied as they are. *)
Definition move_GraphicsPipelineBuilder (other : pipelines.GraphicsPipelineBuilder)
    : pipelines.GraphicsPipelineBuilder :=
  {| pipelines.m_shader_stages := pipelines.m_shader_stages other;
     pipelines.m_vertex_input_binding_descriptions :=
       pipelines.m_vertex_input_binding_descriptions other;
     pipelines.m_vertex_input_attribute_descriptions :=
       pipelines.m_vertex_input_attribute_descriptions other;
     pipelines.m_vertex_input_sci := pipelines.m_vertex_input_sci other;
     pipelines.m_input_assembly_sci := pipelines.m_input_assembly_sci other;
     pipelines.m_tesselation_sci := pipelines.m_tesselation_sci other;
     pipelines.m_viewports := pipelines.m_viewports other;
     pipelines.m_scissors := pipelines.m_scissors other;
     pipelines.m_viewport_sci := pipelines.m_viewport_sci other;
     pipelines.m_rasterization_sci :=
       pipelines.m_rasterization_sci value_initialised;
     pipelines.m_depth_stencil_sci := pipelines.m_depth_stencil_sci other;
     pipelines.m_depth_attachment_format :=
       pipelines.m_depth_attachment_format other;
     pipelines.m_stencil_attachment_format :=
       pipelines.m_stencil_attachment_format other;
     pipelines.m_swapchain_img_format := pipelines.m_swapchain_img_format other;
     pipelines.m_color_attachments :=
       pipelines.m_color_attachments value_initialised;
     pipelines.m_pipeline_rendering_ci :=
       pipelines.m_pipeline_rendering_ci other;
     pipelines.m_multisample_sci := pipelines.m_multisample_sci other;
     pipelines.m_color_blend_sci := pipelines.m_color_blend_sci other;
     pipelines.m_dynamic_states := pipelines.m_dynamic_states other;
     pipelines.m_dynamic_states_sci := pipelines.m_dynamic_states_sci other;
     pipelines.m_pipeline_layout := pipelines.m_pipeline_layout other;
     pipelines.m_color_blend_attachment_states :=
       pipelines.m_color_blend_attachment_states other;
     pipelines.m_push_constant_ranges :=
       pipelines.m_push_constant_ranges value_initialised;
     pipelines.m_descriptor_set_layout :=
       pipelines.m_descriptor_set_layout value_initialised |}.

(** The state that the assertions of [build] ask for. *)
Definition buildable (name : string) (b : pipelines.GraphicsPipelineBuilder)
    : Prop :=
  name ≠ EmptyString
  ∧ pipelines.m_vertex_input_binding_descriptions b ≠ []
  ∧ pipelines.m_vertex_input_attribute_descriptions b ≠ []
  ∧ pipelines.m_viewports b ≠ []
  ∧ pipelines.m_scissors b ≠ []
  ∧ pipelines.m_pipeline_layout b ≠ None.

(** ** Notions for the further properties of the render graph *)

(** A call that [compile] makes for the resources of the graph: the
    destruction of a device buffer or of an image that is replaced, or the
    creation of an image. *)
Definition resource_call (c : GpuCall) : Prop :=
  match c with
  | CreateImage _ _ _ _ | DestroyImage _ | DestroyBuffer _ => True
  | _ => False
  end.

(** The stages, the stage stack and the recorded commands are as before,
    and the device log was extended by calls for the resources only. *)
Definition resources_only (w w' : World) : Prop :=
  m_stages (graph w') = m_stages (graph w)
  ∧ m_stage_stack (graph w') = m_stage_stack (graph w)
  ∧ cmd_buf w' = cmd_buf w
  ∧ ∃ calls, device w' = device w ++ calls ∧ Forall resource_call calls.

(** The attachment reference that [build_render_pass] makes for the
    texture at position [i] of the writes: a depth reference for a depth
    buffer, a colour reference for a texture of another usage. *)
Definition colour_reference (g : RenderGraph) (iw : nat * ResourceRef)
    : option VkAttachmentReference :=
  match as_TextureResource g iw.2 with
  | Some texture =>
    if decide (tex_usage texture = DEPTH_STENCIL_BUFFER) then None
    else Some {| ref_attachment := to_uint32 (Z.of_nat iw.1);
                 ref_layout := VK_IMAGE_LAYOUT_COLOR_ATTACHMENT_OPTIMAL |}
  | None => None
  end.

Definition depth_reference (g : RenderGraph) (iw : nat * ResourceRef)
    : option VkAttachmentReference :=
  match as_TextureResource g iw.2 with
  | Some texture =>
    if decide (tex_usage texture = DEPTH_STENCIL_BUFFER)
    then Some {| ref_attachment := to_uint32 (Z.of_nat iw.1);
                 ref_layout :=
                   VK_IMAGE_LAYOUT_DEPTH_STENCIL_ATTACHMENT_OPTIMAL |}
    else None
  | None => None
  end.

(** The resource is a texture that is used as a depth buffer. *)
Definition is_depth_buffer (g : RenderGraph) (resource : ResourceRef) : bool :=
  match as_TextureResource g resource with
  | Some texture => bool_decide (tex_usage texture = DEPTH_STENCIL_BUFFER)
  | None => false
  end.

(** The vertex input that [build_graphics_pipeline] makes for one read of
    a stage: a binding description and the attributes of the buffer for a
    bound buffer resource that is no index buffer, nothing for an index
    buffer or a texture. *)
Definition vertex_binding_of (g : RenderGraph) (stage_ : GraphicsStage)
    (resource : ResourceRef) : option VkVertexInputBindingDescription :=
  match as_BufferResource g resource with
  | Some (b, buffer_resource) =>
    if decide (buf_usage buffer_resource = INDEX_BUFFER) then None
    else
      (λ binding_,
         {| vib_binding := binding_;
            vib_stride := to_uint32 (m_element_size buffer_resource) |})
      <$> m_buffer_bindings stage_ !! b
  | None => None
  end.

Definition attribute_bindings_of (g : RenderGraph) (stage_ : GraphicsStage)
    (resource : ResourceRef) : list VkVertexInputAttributeDescription :=
  match as_BufferResource g resource with
  | Some (b, buffer_resource) =>
    if decide (buf_usage buffer_resource = INDEX_BUFFER) then []
    else
      match m_buffer_bindings stage_ !! b with
      | Some binding_ =>
        (λ attribute,
           {| location := location attribute; binding := binding_;
              format := format attribute; offset := offset attribute |})
        <$> m_vertex_attributes buffer_resource
      | None => []
      end
  | None => []
  end.

(** ** Stages whose pipeline can be built *)

(** A read that [build_graphics_pipeline] gets past: a texture, an index
    buffer, or a buffer resource with a binding index. *)
Definition read_bound (g : RenderGraph) (gs : GraphicsStage)
    (resource : ResourceRef) : Prop :=
  match as_BufferResource g resource with
  | Some (b, buffer_resource) =>
    buf_usage buffer_resource = INDEX_BUFFER
    ∨ is_Some (m_buffer_bindings gs !! b)
  | None => True
  end.

Global Instance read_bound_dec g gs resource :
  Decision (read_bound g gs resource).
Proof.
  unfold read_bound.
  destruct (as_BufferResource g resource) as [[b buffer_resource]|]; apply _.
Defined.

(** What [GraphicsPipelineBuilder::build] asserts of the vertex input that
    the reads of a stage give: a binding description and an attribute. *)
Definition has_vertex_input (g : RenderGraph) (gs : GraphicsStage)
    (reads : list ResourceRef) : Prop :=
  omap (vertex_binding_of g gs) reads ≠ []
  ∧ flat_map (attribute_bindings_of g gs) reads ≠ [].

(** The stage at [s] fails no assertion of [build]: if it is a graphics
    stage whose reads have their bindings, it has a vertex input. *)
Definition input_if_bound (g : RenderGraph) (s : nat) : Prop :=
  ∃ st, m_stages g !! s = Some st
        ∧ ∀ gs, as_GraphicsStage st = Some gs →
                Forall (read_bound g gs) (m_reads st) →
                has_vertex_input g gs (m_reads st).

(** The stage at [s] can be built: if it is a graphics stage, its reads
    have their bindings and it has a vertex input. *)
Definition buildable_stage (g : RenderGraph) (s : nat) : Prop :=
  ∃ st, m_stages g !! s = Some st
        ∧ ∀ gs, as_GraphicsStage st = Some gs →
                Forall (read_bound g gs) (m_reads st)
                ∧ has_vertex_input g gs (m_reads st).

(** While [compile] builds the stage at [s], declared as [st]: the stage
    has the physical stage [p], and the resources and the swapchain are
    those of [w0]. *)
Definition building (s : nat) (st : RenderStage) (w0 w : World)
    (p : PhysicalGraphicsStage) : Prop :=
  m_stages (graph w) !! s = Some (with_physical (Some p) st)
  ∧ m_buffer_resources (graph w) = m_buffer_resources (graph w0)
  ∧ m_texture_resources (graph w) = m_texture_resources (graph w0)
  ∧ m_swapchain (graph w) = m_swapchain (graph w0).

(** Every texture resource has a physical texture. *)
Definition textures_allocated (g : RenderGraph) : Prop :=
  Forall (λ t, is_Some (tex_physical t)) (m_texture_resources g).

(** The physical stage of the stage at [s], if the stage has one. *)
Definition physical_of (g : RenderGraph) (s : nat)
    : option PhysicalGraphicsStage :=
  m_stages g !! s ≫= m_physical.

(** The physical textures that a stage writes, as [compile] gathers them
    for the framebuffers: the number of back buffers, and the images in
    the order of the writes. *)
Definition physical_texture_of (g : RenderGraph) (resource : ResourceRef)
    : option PhysicalTexture :=
  as_TextureResource g resource ≫= tex_physical.

Definition is_back_buffer (g : RenderGraph) (resource : ResourceRef) : bool :=
  match physical_texture_of g resource with
  | Some PhysicalBackBuffer => true
  | _ => false
  end.

Definition back_buffers_written (g : RenderGraph) (writes_ : list ResourceRef)
    : nat :=
  length (filter (λ resource, is_back_buffer g resource) writes_).

Definition images_written (g : RenderGraph) (writes_ : list ResourceRef)
    : list Handle :=
  omap (λ resource,
          match physical_texture_of g resource with
          | Some (PhysicalImage img) => Some img
          | _ => None
          end) writes_.

(** Nothing but the physical stage of the stage at [s] and the device log
    differs between [w] and [w']. *)
Definition only_stage (s : nat) (w w' : World) : Prop :=
  m_swapchain (graph w') = m_swapchain (graph w)
  ∧ m_buffer_resources (graph w') = m_buffer_resources (graph w)
  ∧ m_texture_resources (graph w') = m_texture_resources (graph w)
  ∧ m_stage_stack (graph w') = m_stage_stack (graph w)
  ∧ cmd_buf w' = cmd_buf w
  ∧ stage_decl <$> m_stages (graph w') = stage_decl <$> m_stages (graph w)
  ∧ ∀ s', s' ≠ s → m_stages (graph w') !! s' = m_stages (graph w) !! s'.

(** The stage at [s] is a graphics stage with what [render] needs of it: a
    physical stage with a pipeline and, when the stage writes something,
    with one framebuffer for each image view of the swapchain. *)
Definition built (g : RenderGraph) (s : nat) : Prop :=
  ∃ st physical,
    m_stages g !! s = Some st
    ∧ is_Some (as_GraphicsStage st)
    ∧ m_physical st = Some physical
    ∧ is_Some (m_pipeline physical)
    ∧ (m_writes st ≠ [] →
       length (m_framebuffers physical)
       = length (image_views (m_swapchain g))).

(** A computation that returns from the world [w]. *)
Definition returns {A} (m : M A) (w : World) : Prop :=
  ∃ a w', m w = (Ok a, w').

(** Every stage of the graph is a graphics stage. *)
Definition graphics_only (g : RenderGraph) : Prop :=
  Forall (λ st, is_Some (as_GraphicsStage st)) (m_stages g).

(** Every buffer resource of the graph has its physical buffer object,
    with or without a device buffer in it. *)
Definition buffers_allocated (g : RenderGraph) : Prop :=
  Forall (λ b, is_Some (buf_physical b)) (m_buffer_resources g).

(** The image view that stands for a written texture in a framebuffer made
    for the image view [img_view] of the swapchain. *)
Definition view_of (g : RenderGraph) (img_view : Handle)
    (resource : ResourceRef) : option VkImageView :=
  match physical_texture_of g resource with
  | Some PhysicalBackBuffer => Some (SwapchainImageView img_view)
  | Some (PhysicalImage img) => Some (ImageViewOf img)
  | None => None
  end.

(** What [compile] allocates for the texture [t]: the physical back buffer
    for a back buffer, and for a texture of another usage a physical image
    that a call of the device log created with the format of the texture,
    the extent of the swapchain and the usage flag of the texture. *)
Definition allocated_as (sw : Swapchain) (dev : list GpuCall)
    (t t' : TextureResource) : Prop :=
  texture_decl t' = texture_decl t
  ∧ if decide (tex_usage t = BACK_BUFFER)
    then tex_physical t' = Some PhysicalBackBuffer
    else ∃ img,
           tex_physical t' = Some (PhysicalImage img)
           ∧ dev !! img
             = Some (CreateImage (tex_format t) (extent sw).1 (extent sw).2
                       (if decide (tex_usage t = DEPTH_STENCIL_BUFFER)
                        then VK_IMAGE_USAGE_DEPTH_STENCIL_ATTACHMENT_BIT
                        else VK_IMAGE_USAGE_COLOR_ATTACHMENT_BIT)).

(** ** The ImGui renderer: [renderers/imgui.cpp] *)

Module imgui.
Section ImGui.
(** A vertex of ImGui; the code copies vertices and never looks into
    them. *)
Context {ImDrawVert : Type}.

(** The draw data of ImGui, as far as the renderer reads it: the element
    count of a draw command, the command, index and vertex vectors of a
    command list, and the command lists and the two totals of a frame. *)
Record ImDrawCmd := {
  ElemCount : nat;
}.

Record ImDrawList := {
  CmdBuffer : list ImDrawCmd;
  IdxBuffer : list Z;
  VtxBuffer : list ImDrawVert;
}.

Record ImDrawData := {
  CmdLists : list ImDrawList;
  TotalIdxCount : Z;
  TotalVtxCount : Z;
}.

(** The two vectors in which [ImGuiRenderer] collects the indices and the
    vertices of a frame. *)
Record ImGuiRenderer := {
  m_index_data : list Z;
  m_vertex_data : list ImDrawVert;
}.

(** One round of the loop over the command lists in the update function
    of the vertex buffer: the indices, then the vertices of the list are
    pushed back. *)
Definition collect (r : ImGuiRenderer) (cmd_list : ImDrawList)
    : ImGuiRenderer :=
  {| m_index_data :=
       foldl (λ index_data index, index_data ++ [index])
             (m_index_data r) (IdxBuffer cmd_list);
     m_vertex_data :=
       foldl (λ vertex_data vertex, vertex_data ++ [vertex])
             (m_vertex_data r) (VtxBuffer cmd_list) |}.

(** The update function of the vertex buffer, after the user's update
    function has run and left [draw_data] ([None] for a null pointer): the
    renderer, and the vertex data of the update that is requested from the
    render graph, if one is. *)
Definition on_update_vertex_buffer (draw_data : option ImDrawData)
    (r : ImGuiRenderer) : ImGuiRenderer * option (list ImDrawVert) :=
  match draw_data with
  | None => (r, None)
  | Some draw_data =>
    if decide (TotalIdxCount draw_data = 0%Z
               ∨ TotalVtxCount draw_data = 0%Z) then (r, None)
    else
      let r := foldl collect {| m_index_data := []; m_vertex_data := [] |}
                     (CmdLists draw_data) in
      (r, Some (m_vertex_data r))
  end.

(** The update function of the index buffer: the index data of the update
    that is requested. *)
Definition on_update_index_buffer (r : ImGuiRenderer) : list Z :=
  m_index_data r.

(** The commands that the record function of the ImGui pass records. *)
Inductive Command :=
  | bind_pipeline
  | bind_vertex_buffer
  | bind_index_buffer
  | bind_descriptor_set
  | push_constant
  | draw_indexed (index_count instance_count first_index vertex_offset : Z).

(** The inner loop of the record function over the commands of a command
    list; [index_offset] is a [std::uint32_t]. *)
Definition record_commands (vertex_offset : Z)
    (acc : list Command * Z) (draw_cmd : ImDrawCmd) : list Command * Z :=
  let '(cmds, index_offset) := acc in
  (cmds ++ [draw_indexed (Z.of_nat (ElemCount draw_cmd)) 1 index_offset
                         vertex_offset],
   to_uint32 (index_offset + Z.of_nat (ElemCount draw_cmd))).

(** The outer loop over the command lists; [vertex_offset] is a
    [std::int32_t], whose sum is taken as it is: beyond [2^31 - 1] the
    addition has no defined behaviour. *)
Definition record_list (acc : list Command * Z * Z) (cmd_list : ImDrawList)
    : list Command * Z * Z :=
  let '(cmds, index_offset, vertex_offset) := acc in
  let '(cmds, index_offset) :=
    foldl (record_commands vertex_offset) (cmds, index_offset)
          (CmdBuffer cmd_list) in
  (cmds, index_offset,
   (vertex_offset + Z.of_nat (length (VtxBuffer cmd_list)))%Z).

Definition on_record (draw_data : option ImDrawData) : list Command :=
  let cmds := [bind_pipeline; bind_vertex_buffer; bind_index_buffer;
               bind_descriptor_set; push_constant] in
  match draw_data with
  | None => cmds
  | Some draw_data =>
    (foldl record_list (cmds, 0%Z, 0%Z) (CmdLists draw_data)).1.1
  end.

(** The number of indices that the commands of a list draw. *)
Definition elements (cmds : list ImDrawCmd) : nat :=
  sum_list_with ElemCount cmds.

(** The commands of every list draw the indices of the list, one command
    after the other. *)
Definition commands_cover_indices (draw_data : ImDrawData) : Prop :=
  Forall (λ cmd_list,
            elements (CmdBuffer cmd_list) = length (IdxBuffer cmd_list))
         (CmdLists draw_data).
End ImGui.
Global Arguments ImDrawList : clear implicits.
Global Arguments ImDrawData : clear implicits.
Global Arguments ImGuiRenderer : clear implicits.
End imgui.

(** ** The ImGui overlay: [ImGUIOverlay] and its update function *)

Module overlay.
Section Overlay.
Context {ImDrawVert : Type}.

(** A call of [upload_data] on the index or on the vertex buffer
    resource. *)
Inductive Upload :=
  | upload_index_data (data : list Z)
  | upload_vertex_data (data : list ImDrawVert).

(** The update function of the ImGui stage, after the user's update
    function has run and left [draw_data]: the two vectors of the overlay
    and the uploads, in order.  The index data and the vertex data are
    collected again only when their number differs from the total of the
    draw data. *)
Definition on_update (draw_data : option (imgui.ImDrawData ImDrawVert))
    (r : imgui.ImGuiRenderer ImDrawVert)
    : imgui.ImGuiRenderer ImDrawVert * list Upload :=
  match draw_data with
  | None => (r, [])
  | Some draw_data =>
    if decide (imgui.TotalIdxCount draw_data = 0%Z
               ∨ imgui.TotalVtxCount draw_data = 0%Z) then (r, [])
    else
      let '(m_index_data, uploads) :=
        if decide (Z.of_nat (length (imgui.m_index_data r))
                   ≠ imgui.TotalIdxCount draw_data)
        then
          let m_index_data :=
            foldl (λ index_data cmd_list,
                     foldl (λ index_data index, index_data ++ [index])
                           index_data (imgui.IdxBuffer cmd_list))
                  [] (imgui.CmdLists draw_data) in
          (m_index_data, [upload_index_data m_index_data])
        else (imgui.m_index_data r, []) in
      let '(m_vertex_data, uploads) :=
        if decide (Z.of_nat (length (imgui.m_vertex_data r))
                   ≠ imgui.TotalVtxCount draw_data)
        then
          let m_vertex_data :=
            foldl (λ vertex_data cmd_list,
                     foldl (λ vertex_data vertex, vertex_data ++ [vertex])
                           vertex_data (imgui.VtxBuffer cmd_list))
                  [] (imgui.CmdLists draw_data) in
          (m_vertex_data, uploads ++ [upload_vertex_data m_vertex_data])
        else (imgui.m_vertex_data r, uploads) in
      ({| imgui.m_index_data := m_index_data;
          imgui.m_vertex_data := m_vertex_data |}, uploads)
  end.

(** The totals of the draw data are the numbers of indices and of vertices
    of its command lists. *)
Definition consistent_totals (draw_data : imgui.ImDrawData ImDrawVert) : Prop :=
  imgui.TotalIdxCount draw_data
  = Z.of_nat (length (flat_map imgui.IdxBuffer (imgui.CmdLists draw_data)))
  ∧ imgui.TotalVtxCount draw_data
    = Z.of_nat (length (flat_map imgui.VtxBuffer (imgui.CmdLists draw_data))).
End Overlay.
Global Arguments Upload : clear implicits.
End overlay.

(** ** [wrapper::descriptors::DescriptorSetLayout] *)

Module descriptors.
(** The calls that the class makes on the device. *)
Inductive DeviceCall :=
  | vkCreateDescriptorSetLayout (bindings : list Z)
  | set_debug_name (layout : Handle) (name : string)
  | vkDestroyDescriptorSetLayout (layout : option Handle).

Global Instance DeviceCall_eq_dec : EqDecision DeviceCall.
Proof. solve_decision. Defined.

Inductive Exception :=
  | runtime_error (what : string)
  | VulkanException (what : string) (result : Z).

(** The members; [None] is [VK_NULL_HANDLE]. *)
Record DescriptorSetLayout := {
  m_name : string;
  m_descriptor_set_layout : option Handle;
}.

Definition VK_SUCCESS : Z := 0.

Section Device.
(** The result of [vkCreateDescriptorSetLayout] for a create info. *)
Variable vk_result : list Z → Z.

(** The constructor: the object or the exception, and the device log.  The
    handle of a created layout is the position of its creation call in the
    log. *)
Definition new_DescriptorSetLayout (descriptor_set_layout_ci : list Z)
    (name : string) (dev : list DeviceCall)
    : (DescriptorSetLayout + Exception) * list DeviceCall :=
  if decide (name = EmptyString) then
    (inr (runtime_error
            "Error: Internal debug name for descriptor set layout must not be empty!"),
     dev)
  else
    let result := vk_result descriptor_set_layout_ci in
    let dev' := dev ++ [vkCreateDescriptorSetLayout descriptor_set_layout_ci] in
    if decide (result ≠ VK_SUCCESS) then
      (inr (VulkanException
              ("Error: vkCreateDescriptorSetLayout failed for descriptor set layout "
               +:+ name +:+ " !") result),
       dev')
    else
      (inl {| m_name := name;
              m_descriptor_set_layout := Some (length dev) |},
       dev' ++ [set_debug_name (length dev) name]).
End Device.

(** The move constructor: the new object and the object that was moved
    from, whose handle is exchanged for [VK_NULL_HANDLE]; [moved_from] is
    the name that [std::move] leaves in it. *)
Definition move_DescriptorSetLayout (moved_from : string)
    (other : DescriptorSetLayout) : DescriptorSetLayout * DescriptorSetLayout :=
  ({| m_name := m_name other;
      m_descriptor_set_layout := m_descriptor_set_layout other |},
   {| m_name := moved_from; m_descriptor_set_layout := None |}).

(** The destructor. *)
Definition delete_DescriptorSetLayout (layout : DescriptorSetLayout)
    (dev : list DeviceCall) : list DeviceCall :=
  dev ++ [vkDestroyDescriptorSetLayout (m_descriptor_set_layout layout)].

(** How often the layout [h] is destroyed in a device log. *)
Definition destroyed (h : Handle) (dev : list DeviceCall) : nat :=
  length (filter (λ c, c = vkDestroyDescriptorSetLayout (Some h)) dev).
End descriptors.

(** ** The main stage of the octree graph *)

Definition main_graphics_stage : GraphicsStage :=
  {| m_clears_screen := true; m_depth_test := true; m_depth_write := true;
     m_blend_attachment := {| blendEnable := false; colorWriteMask := 0 |};
     m_buffer_bindings := {[ 1 := 0%Z ]}; m_shaders := [] |}.

Definition main_stage : RenderStage :=
  graphics_stage "main stage" [TextureRef 0; TextureRef 1]
    [BufferRef 0; BufferRef 1] {[ 1 := 0%Z ]} true.

(** The compiled octree graph after one more call of [build_framebuffers]
    and of [build_graphics_pipeline] for the main stage. *)
Definition octree_more_framebuffers : World :=
  (build_framebuffers always_success 0 main_stage octree_compiled).2.

Definition octree_second_pipeline : World :=
  (build_graphics_pipeline always_success 0 main_stage main_graphics_stage
     octree_compiled).2.

(** ** A frame of ImGui with two command lists *)

(** Two quads drawn by two commands in the first list and a triangle in
    the second; vertices are named by numbers. *)
Definition two_lists : imgui.ImDrawData nat :=
  {| imgui.CmdLists :=
       [ {| imgui.CmdBuffer := [ {| imgui.ElemCount := 3 |};
                                 {| imgui.ElemCount := 3 |} ];
            imgui.IdxBuffer := [0; 1; 2; 0; 2; 3]%Z;
            imgui.VtxBuffer := [10; 11; 12; 13] |};
         {| imgui.CmdBuffer := [ {| imgui.ElemCount := 3 |} ];
            imgui.IdxBuffer := [0; 1; 2]%Z;
            imgui.VtxBuffer := [20; 21; 22] |} ];
     imgui.TotalIdxCount := 9;
     imgui.TotalVtxCount := 7 |}.

Definition no_data : imgui.ImGuiRenderer nat :=
  {| imgui.m_index_data := []; imgui.m_vertex_data := [] |}.

(** ** A stage that reads two vertex buffers *)

Definition two_buffers_graphics_stage : GraphicsStage :=
  {| m_clears_screen := true; m_depth_test := true; m_depth_write := true;
     m_blend_attachment := {| blendEnable := false; colorWriteMask := 0 |};
     m_buffer_bindings := {[ 0 := 0%Z; 1 := 1%Z ]}; m_shaders := [] |}.

Definition two_buffers_stage : RenderStage :=
  graphics_stage "main stage" [TextureRef 0] [BufferRef 0; BufferRef 1]
    {[ 0 := 0%Z; 1 := 1%Z ]} true.

Definition two_buffers_world : World :=
  fresh_world [two_buffers_stage] [octree_vertex_buffer; octree_vertex_buffer]
    [texture BACK_BUFFER 44].

Definition two_buffers_compiled : World :=
  after_compile (TextureRef 0) two_buffers_world.

Definition two_buffers_second_pipeline : World :=
  (build_graphics_pipeline always_success 0 two_buffers_stage
     two_buffers_graphics_stage two_buffers_compiled).2.

(** * Properties *)

(** ** Vertex attribute locations *)

Lemma to_uint32_small (n : Z) : (0 ≤ n < 2 ^ 32)%Z → to_uint32 n = n.
Proof. intros H. unfold to_uint32. by apply Z.mod_small. Qed.

Lemma add_vertex_attributes_cons a l b :
  add_vertex_attributes (a :: l) b
  = add_vertex_attributes l (add_vertex_attribute a.1 a.2 b).
Proof. reflexivity. Qed.

Lemma add_vertex_attributes_from (l : list (VkFormat * Z)) (b : BufferResource) :
  (Z.of_nat (length (m_vertex_attributes b) + length l) ≤ 2 ^ 32)%Z →
  m_vertex_attributes (add_vertex_attributes l b)
  = m_vertex_attributes b ++
    imap (λ k a, {| location := Z.of_nat (length (m_vertex_attributes b) + k);
                    binding := 0; format := a.1; offset := a.2 |}) l.
Proof.
  revert b. induction l as [|a l IH]; intros b Hlen.
  - simpl. by rewrite app_nil_r.
  - rewrite add_vertex_attributes_cons, IH.
    + cbn [add_vertex_attribute m_vertex_attributes imap].
      rewrite <- app_assoc. f_equal. cbn [app]. f_equal.
      * rewrite to_uint32_small, Nat.add_0_r; [done|].
        cbn [length] in Hlen. lia.
      * apply imap_ext. intros k x _. cbn. rewrite length_app. cbn.
        do 2 f_equal. lia.
    + cbn [add_vertex_attribute m_vertex_attributes]. rewrite length_app.
      cbn [length] in *. lia.
Qed.

Lemma locations_of_imap (j : nat) (l : list (VkFormat * Z)) :
  location <$> imap (λ k a, {| location := Z.of_nat (j + k); binding := 0;
                               format := a.1; offset := a.2 |}) l
  = Z.of_nat <$> seq j (length l).
Proof.
  revert j. induction l as [|a l IH]; intros j; [done|].
  cbn [imap fmap list_fmap length seq location]. rewrite Nat.add_0_r. f_equal.
  rewrite <- IH. f_equal. apply imap_ext. intros k x _. cbn.
  do 2 f_equal. lia.
Qed.

(** C10: on a resource without attributes, [n] calls of
    [add_vertex_attribute] leave the attributes with the locations
    [0 .. n-1] in the order of the calls, each with the format and offset of
    its call, and one more call appends an attribute whose location is [n],
    the number of attributes added before; the location is never an
    argument.  The locations are 32 bit unsigned, so [n < 2^32]. *)
Theorem add_vertex_attribute_locations
    (b : BufferResource) (l : list (VkFormat * Z)) (fmt : VkFormat) (off : Z) :
  m_vertex_attributes b = [] →
  (Z.of_nat (length l) < 2 ^ 32)%Z →
  m_vertex_attributes (add_vertex_attributes l b)
  = imap (λ k a, {| location := Z.of_nat k; binding := 0;
                    format := a.1; offset := a.2 |}) l
  ∧ location <$> m_vertex_attributes (add_vertex_attributes l b)
    = Z.of_nat <$> seq 0 (length l)
  ∧ m_vertex_attributes
      (add_vertex_attribute fmt off (add_vertex_attributes l b))
    = m_vertex_attributes (add_vertex_attributes l b) ++
      [ {| location := Z.of_nat (length l); binding := 0;
           format := fmt; offset := off |} ].
Proof.
  intros Hnil Hlen.
  cbn [add_vertex_attribute m_vertex_attributes].
  rewrite add_vertex_attributes_from; rewrite Hnil; [|cbn; lia].
  cbn [app length Nat.add]. split_and!; [done|apply (locations_of_imap 0)|].
  rewrite length_imap, to_uint32_small; [done|lia].
Qed.

(** ** The writers map *)

Lemma elem_of_fold_add_writer (s : nat) (rs : list ResourceRef)
    (w : gmap ResourceRef (list nat)) (r : ResourceRef) (x : nat) :
  x ∈ foldl (add_writer s) w rs !!! r ↔ x ∈ w !!! r ∨ (x = s ∧ r ∈ rs).
Proof.
  revert w. induction rs as [|r' rs IH]; intros w; cbn [foldl].
  - split; [by left|]. intros [?|[_ H]]; [done|]. by apply elem_of_nil in H.
  - rewrite IH. unfold add_writer. rewrite elem_of_cons.
    destruct (decide (r = r')) as [->|Hne].
    + rewrite lookup_total_insert_eq, elem_of_app, list_elem_of_singleton.
      intuition.
    + rewrite lookup_total_insert_ne by done. intuition congruence.
Qed.

Lemma build_writers_snoc (stages : list RenderStage) (st : RenderStage) :
  build_writers (stages ++ [st])
  = foldl (add_writer (length stages)) (build_writers stages) (m_writes st).
Proof.
  unfold build_writers. rewrite imap_app, foldl_app. cbn.
  by rewrite Nat.add_0_r.
Qed.

Lemma elem_of_build_writers (stages : list RenderStage) (s : nat)
    (r : ResourceRef) :
  s ∈ build_writers stages !!! r ↔ writes stages s r.
Proof.
  induction stages as [|st stages IH] using rev_ind.
  - unfold build_writers, writes. cbn. rewrite lookup_total_empty.
    split; [by intros ?%elem_of_nil|]. by intros (? & ? & _).
  - rewrite build_writers_snoc, elem_of_fold_add_writer, IH. unfold writes.
    split.
    + intros [(st' & H1 & H2)|[-> Hr]].
      * exists st'. split; [|done]. by apply lookup_app_l_Some.
      * exists st. split; [|done]. by rewrite list_lookup_middle.
    + intros (st' & H1 & H2).
      apply lookup_app_Some in H1 as [H1|[Hlen H1]]; [left; eauto|].
      apply list_lookup_singleton_Some in H1 as [Hs ->].
      right. split; [lia|done].
Qed.

Lemma writer_lt_length (stages : list RenderStage) (s : nat) (r : ResourceRef) :
  s ∈ build_writers stages !!! r → s < length stages.
Proof.
  intros (st & H & _)%elem_of_build_writers. by eapply lookup_lt_Some.
Qed.

(** The map depends on the stages through their writes only. *)
Lemma build_writers_ext (stages1 stages2 : list RenderStage) :
  m_writes <$> stages1 = m_writes <$> stages2 →
  build_writers stages1 = build_writers stages2.
Proof.
  revert stages2.
  induction stages1 as [|st1 stages1 IH] using rev_ind; intros stages2 Heq.
  - symmetry in Heq. apply fmap_nil_inv in Heq. by subst.
  - destruct stages2 as [|st2 stages2 _] using rev_ind.
    { rewrite fmap_app in Heq. by destruct stages1. }
    rewrite !fmap_app in Heq. cbn in Heq.
    apply app_inj_tail in Heq as [Heq Hw].
    rewrite !build_writers_snoc, (IH _ Heq), Hw.
    by rewrite <- (length_fmap m_writes stages1), Heq, length_fmap.
Qed.

(** ** Loops that may hit the recursion bound *)

Lemma foldl_opt_app {A B} (f : B → A → option B) (b : B) (l1 l2 : list A) :
  foldl_opt f b (l1 ++ l2)
  = match foldl_opt f b l1 with
    | Some b' => foldl_opt f b' l2
    | None => None
    end.
Proof.
  revert b. induction l1 as [|a l1 IH]; intros b; cbn; [done|].
  destruct (f b a); [apply IH|done].
Qed.

(** An invariant over the part of the vector already visited. *)
Lemma foldl_opt_inv {A B} (I : list A → B → Prop) (f : B → A → option B)
    (l : list A) (b b' : B) :
  I [] b →
  (∀ pre a b1 b2, a ∈ l → I pre b1 → f b1 a = Some b2 → I (pre ++ [a]) b2) →
  foldl_opt f b l = Some b' →
  I l b'.
Proof.
  intros Hb Hstep.
  enough (∀ pre b, I pre b → (∀ a, a ∈ l → a ∈ l) →
            ∀ l', (∀ a, a ∈ l' → a ∈ l) →
            foldl_opt f b l' = Some b' → I (pre ++ l') b') as H.
  { intros Hf. by apply (H [] b Hb (λ _ h, h) l). }
  clear b Hb. intros pre b Hb _ l'. revert pre b Hb.
  induction l' as [|a l' IH]; intros pre b Hb Hin Hf; cbn in Hf.
  - rewrite app_nil_r. by simplify_eq.
  - destruct (f b a) as [b1|] eqn:Hfa; [|done].
    replace (pre ++ a :: l') with ((pre ++ [a]) ++ l')
      by (by rewrite <- app_assoc).
    apply (IH _ b1); [|set_solver|done].
    eapply Hstep; [|done..]. set_solver.
Qed.


Lemma foldl_opt_Some {A B} (f : B → A → option B) (l : list A) (b b' : B) :
  foldl_opt f b l = Some b' → ∀ a, a ∈ l → ∃ b1 b2, f b1 a = Some b2.
Proof.
  revert b. induction l as [|a l IH]; intros b Hf a' Hin; cbn in Hf.
  - by apply elem_of_nil in Hin.
  - destruct (f b a) as [b1|] eqn:Hfa; [|done].
    apply elem_of_cons in Hin as [->|Hin]; [eauto|]. by eapply IH.
Qed.

Lemma foldl_opt_mono {A B} (f g : B → A → option B) (l : list A) (b b' : B) :
  (∀ a b1 b2, f b1 a = Some b2 → g b1 a = Some b2) →
  foldl_opt f b l = Some b' → foldl_opt g b l = Some b'.
Proof.
  intros Hfg. revert b. induction l as [|a l IH]; intros b Hf; cbn in *; [done|].
  destruct (f b a) as [b1|] eqn:Hfa; [|done].
  rewrite (Hfg _ _ _ Hfa). by apply IH.
Qed.

(** ** The depth first search *)

Section DfsProperties.
Variable stages : list RenderStage.

Local Abbreviation writers := (build_writers stages).
Local Abbreviation dep := (depends_on stages).

Local Abbreviation grows := (grows stages).

Lemma grows_refl stack : grows stack stack.
Proof. by split. Qed.

Lemma grows_trans s1 s2 s3 : grows s1 s2 → grows s2 s3 → grows s1 s3.
Proof. intros [? ?] [? ?]. split; [by etrans|auto]. Qed.

Lemma producers_first_snoc stack s :
  producers_first stages stack →
  (∀ resource w, resource ∈ reads_of stages s → w ∈ writers !!! resource →
                 w ∈ stack) →
  producers_first stages (stack ++ [s]).
Proof.
  intros Hstack Hdeps i p resource w Hi Hr Hw.
  apply lookup_app_Some in Hi as [Hi|[Hlen Hi]].
  - destruct (Hstack i p resource w Hi Hr Hw) as (j & Hj & Hjw).
    exists j. split; [done|]. by apply lookup_app_l_Some.
  - apply list_lookup_singleton_Some in Hi as [Hi ->].
    apply elem_of_build_writers in Hw.
    destruct (proj1 (list_elem_of_lookup _ _) (Hdeps _ _ Hr Hw)) as [j Hj].
    exists j. split; [|by apply lookup_app_l_Some].
    apply lookup_lt_Some in Hj. lia.
Qed.

Lemma dfs_body_grows (rec : nat → list nat → option (list nat)) s stack stack' :
  (∀ w st st', rec w st = Some st' → grows st st' ∧ w ∈ st') →
  dfs_body stages rec s stack = Some stack' →
  grows stack stack' ∧ s ∈ stack'
  ∧ ∃ visited, stack' = visited ++ [s] ∧ grows stack visited.
Proof.
  intros Hrec. unfold dfs_body.
  destruct (foldl_opt _ stack (reads_of stages s)) as [visited|] eqn:Hloop;
    [|done].
  intros [= <-].
  apply (foldl_opt_inv
           (λ pre st, grows stack st
                      ∧ ∀ resource w, resource ∈ pre →
                                      w ∈ writers !!! resource → w ∈ st))
    in Hloop as [Hgrows Hall].
  - split_and!.
    + destruct Hgrows as [Hpre Hprod]. split.
      * etrans; [done|]. by apply prefix_app_r.
      * intros H. apply producers_first_snoc; auto.
    + apply elem_of_app. right. constructor.
    + by exists visited.
  - split; [apply grows_refl|]. intros ? ? ?%elem_of_nil. done.
  - intros pre resource st1 st2 Hin [Hg Hall] Hinner.
    apply (foldl_opt_inv
             (λ done_ st, grows stack st
                        ∧ (∀ r w, r ∈ pre → w ∈ writers !!! r → w ∈ st)
                        ∧ ∀ w, w ∈ done_ → w ∈ st))
      in Hinner as (Hg2 & Hall2 & Hnew).
    + split; [done|]. intros r w [Hr| ->%list_elem_of_singleton]%elem_of_app Hw;
        [eauto|]. by apply Hnew.
    + split_and!; [done|done|]. by intros ? ?%elem_of_nil.
    + intros done_ w st3 st4 _ (Hg3 & Hall3 & Hdone3) Hcall.
      apply Hrec in Hcall as [Hg4 Hw]. split_and!.
      * by eapply grows_trans.
      * intros r w' Hr Hw'. eapply elem_of_prefix; [by eapply Hall3|].
        apply Hg4.
      * intros w' [Hw'| ->%list_elem_of_singleton]%elem_of_app; [|done].
        eapply elem_of_prefix; [by apply Hdone3|]. apply Hg4.
Qed.

Lemma dfs_grows fuel s stack stack' :
  dfs stages fuel s stack = Some stack' → grows stack stack' ∧ s ∈ stack'.
Proof.
  revert s stack stack'. induction fuel as [|fuel IH]; intros s stack stack';
    cbn [dfs]; [done|].
  intros H. apply dfs_body_grows in H as (? & ? & _); [done|]. apply IH.
Qed.

Lemma dfs_from_grows fuel target stack stack' :
  dfs_from stages fuel target stack = Some stack' → grows stack stack'.
Proof.
  unfold dfs_from. intros H.
  apply (foldl_opt_inv (λ _ st, grows stack st)) in H; [done|apply grows_refl|].
  intros _ s st1 st2 _ Hg Hcall. apply dfs_grows in Hcall as [? _].
  by eapply grows_trans.
Qed.




(** *** Running out of fuel and chains of dependencies *)


Lemma dfs_Some_no_chain fuel s stack stack' :
  dfs stages fuel s stack = Some stack' → ∀ y, ¬ nsteps dep fuel s y.
Proof.
  revert s stack stack'.
  induction fuel as [|fuel IH]; intros s stack stack' H y Hchain; [done|].
  cbn [dfs] in H. unfold dfs_body in H.
  destruct (foldl_opt _ stack (reads_of stages s)) as [visited|] eqn:Hloop;
    [|done].
  inversion Hchain as [|? ? w ? (resource & Hr & Hw) Hrest]; subst.
  destruct (foldl_opt_Some _ _ _ _ Hloop resource Hr) as (st1 & st2 & Hinner).
  destruct (foldl_opt_Some _ _ _ _ Hinner w Hw) as (st3 & st4 & Hcall).
  by eapply IH.
Qed.





(** A stage on a cycle starts chains of every length. *)
Lemma cycle_chain c n : tc dep c c → ∃ y, nsteps dep n c y.
Proof.
  intros (k & Hk & Hcycle)%tc_nsteps.
  assert (∀ m, nsteps dep (m * k) c c) as Hrounds.
  { induction m as [|m IH]; [constructor|].
    cbn. by eapply nsteps_trans. }
  specialize (Hrounds n).
  replace (n * k) with (n + n * (k - 1)) in Hrounds by nia.
  apply nsteps_add_inv in Hrounds as (y & Hy & _). eauto.
Qed.

Lemma reachable_cycle_chain s c n :
  rtc dep s c → tc dep c c → ∃ y, nsteps dep n s y.
Proof.
  intros (k & Hk)%rtc_nsteps Hcycle.
  destruct (cycle_chain c n Hcycle) as [y Hy].
  pose proof (nsteps_trans _ _ _ _ _ Hk Hy) as Hlong.
  replace (k + n) with (n + k) in Hlong by lia.
  apply nsteps_add_inv in Hlong as (z & Hz & _). eauto.
Qed.

(** Without a visited mark the search never returns from a stage that
    reaches a cycle. *)
Lemma dfs_diverges fuel s c stack :
  rtc dep s c → tc dep c c → dfs stages fuel s stack = None.
Proof.
  intros Hreach Hcycle.
  destruct (dfs stages fuel s stack) eqn:H; [|done].
  destruct (reachable_cycle_chain s c fuel Hreach Hcycle) as [y Hy].
  by destruct (dfs_Some_no_chain _ _ _ _ H y).
Qed.

Lemma dfs_from_diverges fuel target s c stack :
  s ∈ writers !!! target → rtc dep s c → tc dep c c →
  dfs_from stages fuel target stack = None.
Proof.
  intros Hs Hreach Hcycle. unfold dfs_from.
  destruct (foldl_opt _ stack _) eqn:H; [|done].
  destruct (foldl_opt_Some _ _ _ _ H s Hs) as (st1 & st2 & Hcall).
  by rewrite (dfs_diverges fuel s c st1) in Hcall.
Qed.
End DfsProperties.

(** ** Computations and the relation between their worlds *)

Section Preserves.
Variable R : World → World → Prop.
Context `{!PreOrder R}.

Lemma preserves_ret {A} (a : A) : preserves R (ret a).
Proof. intros w. done. Qed.

Lemma preserves_throw {A} e : preserves R (throw (A:=A) e).
Proof. intros w. done. Qed.

Lemma preserves_bind {A B} (m : M A) (k : A → M B) :
  preserves R m → (∀ a, preserves R (k a)) → preserves R (bind m k).
Proof.
  intros Hm Hk w. unfold bind. specialize (Hm w).
  destruct (m w) as [[a|e] w1]; [|done]. cbn in Hm.
  etrans; [done|]. apply Hk.
Qed.

Lemma preserves_foldl_M {A B} (body : B → A → M B) (b : B) (l : list A) :
  (∀ b a, a ∈ l → preserves R (body b a)) → preserves R (foldl_M body b l).
Proof.
  revert b. induction l as [|a l IH]; intros b Hbody; cbn [foldl_M].
  - apply preserves_ret.
  - apply preserves_bind; [apply Hbody; set_solver|].
    intros b'. apply IH. intros ? ? ?. apply Hbody. set_solver.
Qed.

Lemma preserves_for_each {A} (body : A → M unit) (l : list A) :
  (∀ a, a ∈ l → preserves R (body a)) → preserves R (for_each l body).
Proof. intros H. apply preserves_foldl_M. auto. Qed.

Lemma preserves_deref {A} (p : option A) : preserves R (deref p).
Proof. destruct p; [apply preserves_ret|apply preserves_throw]. Qed.

Lemma preserves_at {A} (p : option A) : preserves R (at_ p).
Proof. destruct p; [apply preserves_ret|apply preserves_throw]. Qed.

Lemma preserves_assert condition holds :
  preserves R (assert_ condition holds).
Proof. intros w. unfold assert_. by destruct holds. Qed.

Lemma preserves_get_graph : preserves R get_graph.
Proof. intros w. done. Qed.

Lemma preserves_get_stage s : preserves R (get_stage s).
Proof.
  apply preserves_bind; [apply preserves_get_graph|].
  intros g. apply preserves_deref.
Qed.
End Preserves.

Global Instance same_declarations_preorder : PreOrder same_declarations.
Proof.
  split.
  - intros w. by split.
  - intros w1 w2 w3 [] []. split; try congruence. by etrans.
Qed.

Lemma stage_decl_with_physical p st :
  stage_decl (with_physical p st) = stage_decl st.
Proof. done. Qed.

Lemma buffer_decl_with_buf_physical p b :
  buffer_decl (with_buf_physical p b) = buffer_decl b.
Proof. done. Qed.

Lemma texture_decl_with_tex_physical p t :
  texture_decl (with_tex_physical p t) = texture_decl t.
Proof. done. Qed.

Lemma fmap_alter_id {A B} (f : A → B) (g : A → A) (i : nat) (l : list A) :
  (∀ a, f (g a) = f a) → f <$> alter g i l = f <$> l.
Proof.
  intros Hfg. revert i. induction l as [|a l IH]; intros [|i]; cbn; [done..| |].
  - by rewrite Hfg.
  - by rewrite IH.
Qed.

Lemma alter_physical_same_declarations s f :
  preserves same_declarations
    (alter_stage s (λ st, with_physical (f st) st)).
Proof.
  intros w. split; cbn; try done.
  by apply fmap_alter_id.
Qed.

Lemma alter_buffer_same_declarations b p :
  preserves same_declarations (alter_buffer b (with_buf_physical p)).
Proof. intros w. split; cbn; try done. by apply fmap_alter_id. Qed.

Lemma alter_texture_same_declarations t p :
  preserves same_declarations (alter_texture t (with_tex_physical p)).
Proof. intros w. split; cbn; try done. by apply fmap_alter_id. Qed.

Lemma log_call_same_declarations c w : same_declarations w (log_call c w).
Proof. split; cbn; try done. by apply prefix_app_r. Qed.

Lemma gpu_create_same_declarations vk c :
  preserves same_declarations (gpu_create vk c).
Proof.
  intros w. unfold gpu_create.
  destruct (vk c); apply log_call_same_declarations.
Qed.

Lemma gpu_destroy_same_declarations c :
  preserves same_declarations (gpu_destroy c).
Proof. intros w. apply log_call_same_declarations. Qed.

Lemma release_physical_stage_same_declarations old :
  preserves same_declarations (release_physical_stage old).
Proof.
  destruct old as [physical|]; unfold release_physical_stage;
    [|apply preserves_ret; apply _].
  apply preserves_bind; [apply _|apply gpu_destroy_same_declarations|].
  intros _. apply gpu_destroy_same_declarations.
Qed.

Lemma release_physical_buffer_same_declarations old :
  preserves same_declarations (release_physical_buffer old).
Proof.
  destruct old as [[[old_buffer|]]|]; unfold release_physical_buffer;
    [apply gpu_destroy_same_declarations|apply preserves_ret; apply _..].
Qed.

Lemma release_physical_texture_same_declarations old :
  preserves same_declarations (release_physical_texture old).
Proof.
  destruct old as [[|old_image]|]; unfold release_physical_texture;
    [apply preserves_ret; apply _|apply gpu_destroy_same_declarations
    |apply preserves_ret; apply _].
Qed.

(** ** [compile] changes physical objects and the stage stack only *)

Section CompileFrame.
Variable vk_success : GpuCall → bool.

Local Ltac frame_step :=
  lazymatch goal with
  | |- PreOrder _ => apply _
  | |- preserves _ (ret _) => apply preserves_ret
  | |- preserves _ (throw _) => apply preserves_throw
  | |- preserves _ (deref _) => apply preserves_deref
  | |- preserves _ (at_ _) => apply preserves_at
  | |- preserves _ get_graph => apply preserves_get_graph
  | |- preserves _ (get_stage _) => apply preserves_get_stage
  | |- preserves _ (assert_ _ _) => apply preserves_assert
  | |- preserves _ (gpu_create _ _) => apply gpu_create_same_declarations
  | |- preserves _ (gpu_destroy _) => apply gpu_destroy_same_declarations
  | |- preserves _ (release_physical_stage _) =>
      apply release_physical_stage_same_declarations
  | |- preserves _ (release_physical_buffer _) =>
      apply release_physical_buffer_same_declarations
  | |- preserves _ (release_physical_texture _) =>
      apply release_physical_texture_same_declarations
  | |- preserves _ (alter_stage _ _) =>
      apply alter_physical_same_declarations
  | |- preserves _ (alter_buffer _ _) =>
      apply alter_buffer_same_declarations
  | |- preserves _ (alter_texture _ _) =>
      apply alter_texture_same_declarations
  | |- preserves _ (bind _ _) =>
      refine (preserves_bind _ _ _ _ _); [|intros ?]
  | |- preserves _ (foldl_M _ _ _) =>
      refine (preserves_foldl_M _ _ _ _ _); intros ? ? _
  | |- preserves _ (for_each _ _) =>
      refine (preserves_for_each _ _ _ _); intros ? _
  end.

Local Ltac frame := repeat frame_step.

Lemma vertex_input_step_same_declarations g gs acc resource :
  preserves same_declarations (vertex_input_step g gs acc resource).
Proof.
  unfold vertex_input_step. destruct acc as [attrs vbs].
  destruct (as_BufferResource g resource) as [[b buf]|]; [|frame].
  destruct (decide _); frame.
Qed.

Lemma build_render_pass_same_declarations s st gs :
  preserves same_declarations (build_render_pass vk_success s st gs).
Proof.
  unfold build_render_pass, alter_physical. frame.
  destruct (render_pass_vectors _ _ _) as [[? ?] ?]. frame.
Qed.

Lemma build_pipeline_layout_same_declarations s st :
  preserves same_declarations (build_pipeline_layout vk_success s st).
Proof. unfold build_pipeline_layout, alter_physical. frame. Qed.

Lemma build_graphics_pipeline_same_declarations s st gs :
  preserves same_declarations (build_graphics_pipeline vk_success s st gs).
Proof.
  unfold build_graphics_pipeline, alter_physical. frame.
  apply vertex_input_step_same_declarations.
Qed.

Lemma framebuffer_step_same_declarations g acc resource :
  preserves same_declarations (framebuffer_step g acc resource).
Proof.
  unfold framebuffer_step. destruct (as_TextureResource g resource); frame.
  destruct a; frame.
Qed.

Lemma build_framebuffers_same_declarations s st :
  preserves same_declarations (build_framebuffers vk_success s st).
Proof.
  unfold build_framebuffers, alter_physical. destruct (decide _); frame.
  apply framebuffer_step_same_declarations.
Qed.

Lemma build_physical_stage_same_declarations s :
  preserves same_declarations (build_physical_stage vk_success s).
Proof.
  unfold build_physical_stage. frame.
  destruct (as_GraphicsStage _); frame.
  - apply build_render_pass_same_declarations.
  - apply build_pipeline_layout_same_declarations.
  - apply build_graphics_pipeline_same_declarations.
  - apply build_framebuffers_same_declarations.
Qed.

Lemma allocate_buffers_same_declarations :
  preserves same_declarations allocate_buffers.
Proof. unfold allocate_buffers, allocate_buffer. frame. Qed.

Lemma allocate_texture_same_declarations t :
  preserves same_declarations (allocate_texture vk_success t).
Proof. unfold allocate_texture. frame. destruct (decide _); frame. Qed.

Lemma allocate_textures_same_declarations :
  preserves same_declarations (allocate_textures vk_success).
Proof.
  unfold allocate_textures. frame. apply allocate_texture_same_declarations.
Qed.

(** The world in which [compile_physical] has stored the stage stack. *)
Lemma compile_physical_same_declarations stack w :
  same_declarations
    {| graph := with_stage_stack stack (graph w); device := device w;
       cmd_buf := cmd_buf w |}
    (compile_physical vk_success stack w).2.
Proof.
  unfold compile_physical. unfold bind at 1. cbn [modify_graph].
  set (w1 := {| graph := _ |}).
  assert (preserves same_declarations
            (allocate_buffers >> allocate_textures vk_success >>
             for_each stack (build_physical_stage vk_success))) as H.
  { frame.
    - apply allocate_buffers_same_declarations.
    - apply allocate_textures_same_declarations.
    - apply build_physical_stage_same_declarations. }
  apply H.
Qed.

Lemma compile_physical_stage_stack stack w :
  m_stage_stack (graph (compile_physical vk_success stack w).2) = stack.
Proof. by destruct (compile_physical_same_declarations stack w). Qed.

Lemma compile_physical_stage_decl stack w :
  stage_decl <$> m_stages (graph (compile_physical vk_success stack w).2)
  = stage_decl <$> m_stages (graph w).
Proof. by destruct (compile_physical_same_declarations stack w). Qed.
End CompileFrame.

(** The search reads the declared part of the stages only. *)
Lemma dfs_from_ext stages1 stages2 fuel target stack :
  stage_decl <$> stages1 = stage_decl <$> stages2 →
  dfs_from stages1 fuel target stack = dfs_from stages2 fuel target stack.
Proof.
  intros Heq.
  assert (build_writers stages1 = build_writers stages2) as Hw.
  { apply build_writers_ext.
    apply (f_equal (fmap m_writes)) in Heq.
    by rewrite <- !list_fmap_compose in Heq. }
  assert (∀ s, reads_of stages1 s = reads_of stages2 s) as Hr.
  { intros s. unfold reads_of.
    apply (f_equal (λ l, l !! s)) in Heq. rewrite !list_lookup_fmap in Heq.
    destruct (stages1 !! s), (stages2 !! s); cbn in Heq; try done.
    by apply (f_equal (from_option m_reads [])) in Heq. }
  assert (∀ s st, dfs stages1 fuel s st = dfs stages2 fuel s st) as Hdfs.
  { induction fuel as [|fuel IH]; intros s st; [done|].
    cbn [dfs]. unfold dfs_body. rewrite Hw, Hr.
    assert (∀ l st,
      foldl_opt (λ stack resource,
                   foldl_opt (λ stack writer, dfs stages1 fuel writer stack)
                             stack (build_writers stages2 !!! resource)) st l
      = foldl_opt (λ stack resource,
                   foldl_opt (λ stack writer, dfs stages2 fuel writer stack)
                             stack (build_writers stages2 !!! resource)) st l)
      as ->; [|done].
    induction l as [|r l IHl]; intros st'; cbn; [done|].
    assert (∀ l' st,
      foldl_opt (λ stack writer, dfs stages1 fuel writer stack) st l'
      = foldl_opt (λ stack writer, dfs stages2 fuel writer stack) st l')
      as ->.
    { induction l' as [|w' l' IHl']; intros st''; cbn; [done|].
      rewrite IH. by destruct (dfs stages2 fuel w' st''). }
    by destruct (foldl_opt _ st' _). }
  unfold dfs_from. rewrite Hw.
  generalize (build_writers stages2 !!! target).
  intros l. revert stack. induction l as [|s l IHl]; intros st; cbn; [done|].
  rewrite Hdfs. by destruct (dfs stages2 fuel s st).
Qed.

(** ** The execution order of [compile] *)


(** A search appends the same stages whatever the stack holds already. *)
Lemma foldl_opt_appends {A} (f : list nat → A → option (list nat))
    (l : list A) (stack : list nat) :
  (∀ a st, f st a = (st ++.) <$> f [] a) →
  foldl_opt f stack l = (stack ++.) <$> foldl_opt f [] l.
Proof.
  intros Hf. revert stack. induction l as [|a l IH]; intros stack; cbn.
  - by rewrite app_nil_r.
  - rewrite (Hf a stack). destruct (f [] a) as [out|]; cbn; [|done].
    rewrite (IH (stack ++ out)), (IH out).
    destruct (foldl_opt f [] l) as [out'|]; cbn; [|done].
    by rewrite app_assoc.
Qed.

Lemma dfs_appends stages fuel s stack :
  dfs stages fuel s stack = (stack ++.) <$> dfs stages fuel s [].
Proof.
  revert s stack. induction fuel as [|fuel IH]; intros s stack; [done|].
  cbn [dfs]. unfold dfs_body.
  rewrite (foldl_opt_appends _ (reads_of stages s) stack).
  - destruct (foldl_opt _ [] (reads_of stages s)) as [out|]; cbn; [|done].
    by rewrite app_assoc.
  - intros resource st. apply foldl_opt_appends. intros w st'. apply IH.
Qed.

Lemma dfs_from_appends stages fuel target stack :
  dfs_from stages fuel target stack
  = (stack ++.) <$> dfs_from stages fuel target [].
Proof.
  unfold dfs_from. apply foldl_opt_appends. intros s st. apply dfs_appends.
Qed.


Lemma compile_Some vk fuel target w out :
  compile vk fuel target w = Some out →
  ∃ stack,
    dfs_from (m_stages (graph w)) fuel target (m_stage_stack (graph w))
    = Some stack
    ∧ out = compile_physical vk stack w.
Proof.
  unfold compile. destruct (dfs_from _ _ _ _) as [stack|]; [|done].
  intros [= <-]. eauto.
Qed.


(** C2, as the code has it: when a pass that writes the target reaches a
    cycle of read/write dependencies, [compile(target)] does not return,
    whatever the bound on the nested calls of the search; there is no check
    for cycles and no configuration error. *)
Theorem compile_diverges_on_cycle
    (vk : GpuCall → bool) (target : ResourceRef) (w : World) (s c : nat) :
  writes (m_stages (graph w)) s target →
  rtc (depends_on (m_stages (graph w))) s c →
  tc (depends_on (m_stages (graph w))) c c →
  ∀ fuel, compile vk fuel target w = None.
Proof.
  intros Hs Hreach Hcycle fuel. unfold compile.
  rewrite (dfs_from_diverges _ fuel target s c); [done| |done..].
  by apply elem_of_build_writers.
Qed.

(** ** Computations that return *)

Lemma bind_Ok {A B} (m : M A) (k : A → M B) w b w' :
  bind m k w = (Ok b, w') → ∃ a w1, m w = (Ok a, w1) ∧ k a w1 = (Ok b, w').
Proof.
  unfold bind. destruct (m w) as [[a|e] w1]; [eauto|done].
Qed.

Lemma deref_Ok {A} (p : option A) w a w' :
  deref p w = (Ok a, w') → p = Some a ∧ w' = w.
Proof. destruct p; cbn; intros [= -> ->]; done. Qed.

Lemma at_Ok {A} (p : option A) w a w' :
  at_ p w = (Ok a, w') → p = Some a ∧ w' = w.
Proof. destruct p; cbn; intros [= -> ->]; done. Qed.

Lemma assert_Ok condition holds w u w' :
  assert_ condition holds w = (Ok u, w') → holds = true ∧ w' = w.
Proof. unfold assert_. destruct holds; [by intros [= _ <-]|done]. Qed.

Lemma get_stage_Ok s w st w' :
  get_stage s w = (Ok st, w') → m_stages (graph w) !! s = Some st ∧ w' = w.
Proof.
  unfold get_stage. intros (g & w1 & [= <- <-] & H)%bind_Ok.
  by apply deref_Ok in H.
Qed.

Lemma for_each_cons {A} (a : A) l (body : A → M unit) w :
  for_each (a :: l) body w = (body a >> for_each l body) w.
Proof.
  unfold for_each. cbn [foldl_M]. unfold bind.
  by destruct (body a w) as [[[]|] ?].
Qed.

Lemma for_each_record cmds w :
  for_each cmds record w
  = (Ok tt, {| graph := graph w; device := device w;
               cmd_buf := cmd_buf w ++ cmds |}).
Proof.
  revert w. induction cmds as [|c cmds IH]; intros w.
  - cbn. rewrite app_nil_r. by destruct w.
  - rewrite for_each_cons. unfold bind at 1. cbn [record]. rewrite IH. cbn.
    by rewrite <- app_assoc.
Qed.

(** ** Recording a pass *)

Lemma bound_buffers_cons g usage resource reads :
  bound_buffers g usage (resource :: reads)
  = match as_BufferResource g resource with
    | Some (_, buffer_resource) =>
      if decide (buf_usage buffer_resource = usage) then
        match buf_physical buffer_resource with
        | Some physical =>
          match m_buffer physical with
          | Some buf => buffer buf :: bound_buffers g usage reads
          | None => bound_buffers g usage reads
          end
        | None => bound_buffers g usage reads
        end
      else bound_buffers g usage reads
    | None => bound_buffers g usage reads
    end.
Proof.
  unfold bound_buffers. cbn [omap list_omap].
  destruct (as_BufferResource g resource) as [[? b]|]; [|done].
  destruct (decide _); [|done].
  destruct (buf_physical b) as [[[?|]]|]; done.
Qed.

Lemma bind_buffers_Ok g reads vertex_buffers w vertex_buffers' w' :
  foldl_M (bind_buffer_step g) vertex_buffers reads w = (Ok vertex_buffers', w') →
  graph w' = graph w ∧ device w' = device w
  ∧ cmd_buf w'
    = cmd_buf w ++ (bind_index_buffer <$> bound_buffers g INDEX_BUFFER reads)
  ∧ vertex_buffers'
    = vertex_buffers ++ bound_buffers g VERTEX_BUFFER reads.
Proof.
  revert vertex_buffers w.
  induction reads as [|resource reads IH]; intros vs w; cbn [foldl_M].
  - intros [= -> ->]. by rewrite !app_nil_r.
  - intros (vs1 & w1 & Hstep & Hrest)%bind_Ok.
    apply IH in Hrest as (Hg & Hd & Hc & Hv).
    rewrite !bound_buffers_cons. unfold bind_buffer_step in Hstep.
    destruct (as_BufferResource g resource) as [[b buf]|];
      [|by injection Hstep as <- <-].
    apply bind_Ok in Hstep as (physical & w2 & [Hphys ->]%deref_Ok & Hstep).
    rewrite Hphys.
    destruct (m_buffer physical) as [dev_buf|];
      [|by destruct (decide _), (decide _); injection Hstep as <- <-].
    destruct (decide (buf_usage buf = INDEX_BUFFER)) as [Hidx|Hidx].
    + rewrite Hidx. destruct (decide (INDEX_BUFFER = VERTEX_BUFFER)); [done|].
      cbn in Hstep. injection Hstep as <- <-. cbn in *.
      rewrite Hg, Hd, Hc, <- app_assoc. done.
    + destruct (decide (buf_usage buf = VERTEX_BUFFER)).
      * injection Hstep as <- <-. rewrite Hv, <- app_assoc. done.
      * by injection Hstep as <- <-.
Qed.

Lemma record_command_buffer_Ok s image_index w w' :
  record_command_buffer s image_index w = (Ok tt, w') →
  graph w' = graph w ∧ device w' = device w
  ∧ ∃ cmds, pass_commands (graph w) image_index s = Some cmds
            ∧ cmd_buf w' = cmd_buf w ++ cmds.
Proof.
  unfold record_command_buffer.
  intros (st & w1 & [Hst ->]%get_stage_Ok & H)%bind_Ok.
  apply bind_Ok in H as (physical & w1 & [Hphys ->]%deref_Ok & H).
  apply bind_Ok in H as ([] & w1 & Hbegin & H).
  apply bind_Ok in H as (g & w2 & [= <- <-] & H).
  apply bind_Ok in H as (vs & w2 & Hbufs & H).
  apply bind_buffers_Ok in Hbufs as (Hg2 & Hd2 & Hc2 & ->).
  apply bind_Ok in H as ([] & w3 & Hvertex & H).
  apply bind_Ok in H as (pipeline_ & w4 & [Hpipe ->]%deref_Ok & H).
  apply bind_Ok in H as ([] & w5 & [= <-] & H).
  apply bind_Ok in H as ([] & w6 & Hrec & H).
  rewrite for_each_record in Hrec. injection Hrec as <-.
  apply bind_Ok in H as ([] & w7 & Hend & [= <-]).
  unfold pass_commands. rewrite Hst, Hphys, Hpipe. cbn [app] in *.
  assert (w3 = {| graph := graph w2; device := device w2;
                  cmd_buf := cmd_buf w2 ++
                    match bound_buffers (graph w1) VERTEX_BUFFER (m_reads st) with
                    | [] => []
                    | vertex_buffers => [bind_vertex_buffers vertex_buffers]
                    end |}) as ->.
  { destruct (bound_buffers (graph w1) VERTEX_BUFFER (m_reads st)) as [|v vs];
      cbn [app] in Hvertex;
      destruct (decide _) as [Heq|Hne]; try done.
    - injection Hvertex as <-. cbn. rewrite app_nil_r. by destruct w2.
    - by injection Hvertex as <-. }
  clear Hvertex. cbn in Hend.
  destruct (as_GraphicsStage st) as [gs|].
  - apply bind_Ok in Hbegin as (fb & w0 & [Hfb ->]%at_Ok & [= <-]).
    rewrite Hfb. injection Hend as <-. cbn in *.
    rewrite Hg2, Hd2. split_and!; [done..|].
    eexists. split; [done|]. rewrite Hc2. cbn.
    by rewrite <- !app_assoc.
  - injection Hbegin as <-. injection Hend as <-. cbn in *.
    rewrite Hg2, Hd2. split_and!; [done..|].
    eexists. split; [done|]. rewrite Hc2. cbn.
    by rewrite <- !app_assoc.
Qed.

Lemma record_passes_Ok stack image_index w w' :
  for_each stack (λ s, record_command_buffer s image_index) w = (Ok tt, w') →
  graph w' = graph w ∧ device w' = device w
  ∧ ∃ passes,
      Forall2 (λ s cmds, pass_commands (graph w) image_index s = Some cmds)
              stack passes
      ∧ cmd_buf w' = cmd_buf w ++ concat passes.
Proof.
  revert w. induction stack as [|s stack IH]; intros w.
  - intros [= <-]. split_and!; [done..|]. exists []. split; [constructor|].
    cbn. by rewrite app_nil_r.
  - rewrite for_each_cons.
    intros ([] & w1 & Hs & Hrest)%bind_Ok.
    apply record_command_buffer_Ok in Hs as (Hg & Hd & cmds & Hcmds & Hc).
    apply IH in Hrest as (Hg' & Hd' & passes & Hpasses & Hc').
    rewrite Hg', Hd', Hg, Hd. split_and!; [done..|].
    exists (cmds :: passes). split.
    + constructor; [done|]. by rewrite Hg in Hpasses.
    + rewrite Hc', Hc. cbn. by rewrite <- app_assoc.
Qed.

(** ** The update of the dirty buffers *)

Lemma updated_ok_updated dev old new : updated_ok dev old new → updated dev old new.
Proof. unfold updated_ok, updated. destruct (m_data_upload_needed old); eauto. Qed.

Lemma updated_prefix dev dev' old new :
  dev `prefix_of` dev' → updated dev old new → updated dev' old new.
Proof.
  intros Hpre. unfold updated. destruct (m_data_upload_needed old); [|done].
  intros [?|(h & ? & Hh)]; [by left|right].
  exists h. split; [done|]. by eapply prefix_lookup_Some.
Qed.

Lemma updated_ok_prefix dev dev' old new :
  dev `prefix_of` dev' → updated_ok dev old new → updated_ok dev' old new.
Proof.
  intros Hpre. unfold updated_ok. destruct (m_data_upload_needed old); [|done].
  intros (h & ? & Hh). exists h. split; [done|]. by eapply prefix_lookup_Some.
Qed.

Global Instance same_but_buffers_preorder : PreOrder same_but_buffers.
Proof.
  split.
  - intros w. by repeat split.
  - intros w1 w2 w3 (?&?&?&?&?&?&?) (?&?&?&?&?&?&?).
    repeat split; try congruence. by etrans.
Qed.

(** One round of the loop, for the buffer resource at [b]. *)
Lemma update_dynamic_buffer_spec vk b w old :
  m_buffer_resources (graph w) !! b = Some old →
  ∃ outcome w' new,
    update_dynamic_buffer vk b w = (outcome, w')
    ∧ same_but_buffers w w'
    ∧ (∀ i, i ≠ b →
         m_buffer_resources (graph w') !! i = m_buffer_resources (graph w) !! i)
    ∧ m_buffer_resources (graph w') !! b = Some new
    ∧ updated (device w') old new
    ∧ (outcome = Ok tt →
       updated_ok (device w') old new
       ∧ device w' = device w ++ upload_calls old).
Proof.
  intros Hold. unfold update_dynamic_buffer.
  unfold bind at 1. cbn [get_graph]. unfold bind at 1. rewrite Hold.
  cbn [deref ret].
  unfold updated, updated_ok, upload_calls.
  destruct (m_data_upload_needed old) eqn:Hdirty.
  2:{ exists (Ok tt), w, old. rewrite app_nil_r. repeat split; auto. }
  destruct (buf_physical old) as [[dev_buf]|] eqn:Hphys.
  2:{ exists (Throw null_dereference), w, old. repeat split; auto; done. }
  fold (upload_usage old). fold (upload_call old).
  unfold bind, gpu_create, gpu_destroy, alter_buffer, modify_graph, deref, ret.
  cbn [m_buffer].
  destruct dev_buf as [old_buf|], (vk (upload_call old)) eqn:Hvk;
    cbn [graph device cmd_buf log_call with_buffer_resources
         m_buffer_resources m_swapchain m_stages m_texture_resources
         m_stage_stack];
    (eexists _, _, _; split; [reflexivity|]);
    cbn [graph device cmd_buf log_call with_buffer_resources
         m_buffer_resources m_swapchain m_stages m_texture_resources
         m_stage_stack].
  all: split;
    [ repeat split; cbn; rewrite ?length_alter; try done;
      rewrite <- ?app_assoc; by apply prefix_app_r |].
  all: split; [intros i Hi; by rewrite ?list_lookup_alter_ne by done|].
  all: split; [rewrite ?list_lookup_alter_eq, Hold; reflexivity|].
  all: rewrite ?Hphys.
  all: try (split; [by left|done]).
  all: match goal with
       | |- (_ ∨ ?P) ∧ _ =>
         assert P as HP;
           [ eexists; split; [reflexivity|by apply list_lookup_middle]
           | split; [by right|intros _; split; [done|]] ]
       end.
  - by rewrite <- app_assoc.
  - done.
Qed.



Lemma updated_refl dev b : updated dev b b.
Proof. unfold updated. destruct (m_data_upload_needed b) eqn:H; auto. Qed.

(** The rounds for the buffer resources at [k], ..., [k + m - 1]. *)
Lemma update_loop_spec vk m k w :
  k + m ≤ length (m_buffer_resources (graph w)) →
  ∃ outcome w',
    for_each (seq k m) (update_dynamic_buffer vk) w = (outcome, w')
    ∧ same_but_buffers w w'
    ∧ (∀ i, ¬ (k ≤ i < k + m) →
         m_buffer_resources (graph w') !! i = m_buffer_resources (graph w) !! i)
    ∧ (∀ i old, k ≤ i < k + m →
         m_buffer_resources (graph w) !! i = Some old →
         ∃ new, m_buffer_resources (graph w') !! i = Some new
                ∧ updated (device w') old new)
    ∧ (outcome = Ok tt →
       (∀ i old, k ≤ i < k + m →
          m_buffer_resources (graph w) !! i = Some old →
          ∃ new, m_buffer_resources (graph w') !! i = Some new
                 ∧ updated_ok (device w') old new)
       ∧ device w'
         = device w ++
           flat_map upload_calls (take m (drop k (m_buffer_resources (graph w))))).
Proof.
  revert k w. induction m as [|m IH]; intros k w Hlen.
  { exists (Ok tt), w. split_and!; [done|reflexivity|done|intros; lia|].
    intros _. split; [intros; lia|]. cbn. by rewrite app_nil_r. }
  destruct (lookup_lt_is_Some_2 (m_buffer_resources (graph w)) k) as [old Hold];
    [lia|].
  destruct (update_dynamic_buffer_spec vk k w old Hold)
    as (o1 & w1 & new & Hrun & Hsame & Hother & Hnew & Hupd & Hok).
  cbn [seq]. setoid_rewrite for_each_cons. unfold bind at 1. rewrite Hrun.
  destruct o1 as [[]|e].
  - destruct (IH (S k) w1) as (o2 & w2 & Hrun2 & Hsame2 & Hother2 & Hupd2 & Hok2).
    { destruct Hsame as (_&_&_&_&_&->&_). lia. }
    assert (device w1 `prefix_of` device w2) as Hpre by apply Hsame2.
    exists o2, w2. split_and!; [done|by etrans| | |].
    + intros i Hi. rewrite Hother2 by lia. apply Hother. lia.
    + intros i old' Hi Hold'. destruct (decide (i = k)) as [->|Hne].
      * exists new. rewrite Hother2 by lia. split; [done|].
        replace old' with old by congruence. by eapply updated_prefix.
      * apply Hupd2; [lia|]. by rewrite Hother.
    + intros ->. destruct (Hok eq_refl) as [Hupdok Hdev].
      destruct (Hok2 eq_refl) as [Hupdok2 Hdev2]. split.
      * intros i old' Hi Hold'. destruct (decide (i = k)) as [->|Hne].
        -- exists new. rewrite Hother2 by lia. split; [done|].
           replace old' with old by congruence. by eapply updated_ok_prefix.
        -- apply Hupdok2; [lia|]. by rewrite Hother.
      * rewrite Hdev2, Hdev, (drop_S _ _ _ Hold). cbn [take flat_map].
        rewrite <- app_assoc.
        assert (drop (S k) (m_buffer_resources (graph w1))
                = drop (S k) (m_buffer_resources (graph w))) as ->; [|done].
        apply list_eq. intros i. rewrite !lookup_drop. apply Hother. lia.
  - exists (Throw e), w1. split_and!; [done|done| | |done].
    + intros i Hi. apply Hother. lia.
    + intros i old' Hi Hold'. destruct (decide (i = k)) as [->|Hne].
      * exists new. split; [done|]. by replace old' with old by congruence.
      * exists old'. rewrite Hother by done. split; [done|apply updated_refl].
Qed.

Lemma update_dynamic_buffers_spec vk w :
  ∃ outcome w',
    update_dynamic_buffers vk w = (outcome, w')
    ∧ same_but_buffers w w'
    ∧ Forall2 (updated (device w'))
        (m_buffer_resources (graph w)) (m_buffer_resources (graph w'))
    ∧ (outcome = Ok tt →
       Forall2 (updated_ok (device w'))
         (m_buffer_resources (graph w)) (m_buffer_resources (graph w'))
       ∧ device w'
         = device w ++ flat_map upload_calls (m_buffer_resources (graph w))).
Proof.
  destruct (update_loop_spec vk (length (m_buffer_resources (graph w))) 0 w)
    as (o & w' & Hrun & Hsame & _ & Hupd & Hok); [done|].
  exists o, w'. split; [done|]. split; [done|].
  assert (length (m_buffer_resources (graph w))
          = length (m_buffer_resources (graph w'))) as Hlen.
  { symmetry. apply Hsame. }
  split.
  - apply Forall2_same_length_lookup_2; [done|].
    intros i old new Hold Hnew.
    destruct (Hupd i old) as (new' & Hnew' & ?); [|done|congruence].
    apply lookup_lt_Some in Hold. lia.
  - intros ->. destruct (Hok eq_refl) as [Hupdok Hdev]. split.
    + apply Forall2_same_length_lookup_2; [done|].
      intros i old new Hold Hnew.
      destruct (Hupdok i old) as (new' & Hnew' & ?); [|done|congruence].
      apply lookup_lt_Some in Hold. lia.
    + by rewrite Hdev, drop_0, firstn_all.
Qed.

Lemma update_clean_loop vk m k w :
  k + m ≤ length (m_buffer_resources (graph w)) →
  Forall (λ b, m_data_upload_needed b = false) (m_buffer_resources (graph w)) →
  for_each (seq k m) (update_dynamic_buffer vk) w = (Ok tt, w).
Proof.
  intros Hlen Hclean. revert k Hlen. induction m as [|m IH]; intros k Hlen;
    [done|].
  cbn [seq]. rewrite for_each_cons. unfold bind at 1.
  destruct (lookup_lt_is_Some_2 (m_buffer_resources (graph w)) k) as [old Hold];
    [lia|].
  assert (update_dynamic_buffer vk k w = (Ok tt, w)) as ->.
  { unfold update_dynamic_buffer. unfold bind at 1. cbn [get_graph].
    unfold bind at 1. rewrite Hold. cbn [deref ret].
    rewrite Forall_lookup in Hclean. by rewrite (Hclean _ _ Hold). }
  apply IH. lia.
Qed.

(** Without a dirty resource the update step does nothing. *)
Lemma update_clean vk w :
  Forall (λ b, m_data_upload_needed b = false) (m_buffer_resources (graph w)) →
  update_dynamic_buffers vk w = (Ok tt, w).
Proof.
  intros Hclean. unfold update_dynamic_buffers. unfold bind. cbn [get_graph].
  by apply update_clean_loop.
Qed.

Lemma updated_ok_clean dev old new :
  updated_ok dev old new → m_data_upload_needed new = false.
Proof.
  unfold updated_ok. destruct (m_data_upload_needed old) eqn:H.
  - by intros (h & -> & _).
  - by intros ->.
Qed.

(** ** [render]: the update step, then the passes *)

Global Instance recorded_only_preorder : PreOrder recorded_only.
Proof.
  split.
  - by intros w.
  - intros w1 w2 w3 [? ?] [? ?]. split; congruence.
Qed.

Lemma record_recorded_only c : preserves recorded_only (record c).
Proof. by intros w. Qed.

Lemma record_command_buffer_recorded_only s image_index :
  preserves recorded_only (record_command_buffer s image_index).
Proof.
  unfold record_command_buffer.
  repeat first
    [ apply record_recorded_only
    | apply preserves_ret; apply _ | apply preserves_throw; apply _
    | apply preserves_deref; apply _ | apply preserves_at; apply _
    | apply preserves_get_graph; apply _ | apply preserves_get_stage; apply _
    | match goal with
      | |- preserves _ (bind _ _) =>
          refine (preserves_bind _ _ _ _ _); [|intros ?]
      | |- preserves _ (foldl_M _ _ _) =>
          refine (preserves_foldl_M _ _ _ _ _); intros ? ? _
      | |- preserves _ (for_each _ _) =>
          refine (preserves_for_each _ _ _ _); intros ? _
      | |- preserves _ (match ?x with _ => _ end) => destruct x
      | |- preserves _ (bind_buffer_step _ _ _) => unfold bind_buffer_step
      | |- preserves _ (if ?x then _ else _) => destruct x
      | |- preserves _ (let (_, _) := ?x in _) => destruct x
      end ].
Qed.

Lemma render_spec vk image_index w :
  ∃ updated_ outcome w1 w',
    update_dynamic_buffers vk w = (updated_, w1)
    ∧ render vk image_index w = (outcome, w')
    ∧ recorded_only w1 w'
    ∧ (outcome = Ok tt →
       updated_ = Ok tt
       ∧ ∃ passes,
           Forall2 (λ s cmds,
                      pass_commands (graph w') image_index s = Some cmds)
                   (m_stage_stack (graph w')) passes
           ∧ cmd_buf w' = cmd_buf w ++ concat passes).
Proof.
  destruct (update_dynamic_buffers_spec vk w)
    as (o1 & w1 & Hupd & Hsame & _ & _).
  unfold render, bind at 1. rewrite Hupd. destruct o1 as [[]|e].
  - unfold bind at 1. cbn [get_graph].
    destruct (for_each _ _ w1) as [outcome w'] eqn:Hrec.
    exists (Ok tt), outcome, w1, w'. split_and!; [done..| |].
    + pose proof (preserves_for_each recorded_only
        (λ s, record_command_buffer s image_index) (m_stage_stack (graph w1))
        (λ s _, record_command_buffer_recorded_only s image_index) w1) as H.
      by rewrite Hrec in H.
    + intros ->. split; [done|].
      apply record_passes_Ok in Hrec as (Hg & Hd & passes & Hpasses & Hcmd).
      exists passes. rewrite Hg. split; [done|].
      rewrite Hcmd. f_equal. apply Hsame.
  - exists (Throw e), (Throw e), w1, w1. by split_and!.
Qed.

Lemma upload_calls_clean (l : list BufferResource) :
  Forall (λ b, m_data_upload_needed b = false) l →
  flat_map upload_calls l = [].
Proof.
  induction 1 as [|b l Hb _ IH]; [done|]. cbn. rewrite IH, app_nil_r.
  unfold upload_calls. by rewrite Hb.
Qed.

Lemma upload_calls_request (l : list BufferResource) b old data :
  Forall (λ b, m_data_upload_needed b = false) l →
  l !! b = Some old →
  flat_map upload_calls (alter (request_update data) b l)
  = upload_calls (request_update data old).
Proof.
  intros Hclean. revert b. induction Hclean as [|x l Hx Hl IH]; intros b Hb;
    [done|].
  destruct b as [|b]; cbn in *.
  - injection Hb as ->. by rewrite upload_calls_clean, app_nil_r.
  - rewrite (IH _ Hb). unfold upload_calls at 1. by rewrite Hx.
Qed.

(** C4: the update step of [render], for a buffer resource at [b] of a
    world without dirty resources.  A frame without a request leaves the
    graph, and with it every physical buffer, and the device as they were.
    After one call of [request_update(data)], a frame that returns has
    destroyed the old physical buffer, if there was one, and has created
    one new buffer that holds [data], and the resource is no longer dirty;
    the frame after that leaves the buffers and the device alone.  In any
    world [v], whatever the frame returns or throws, a clean resource is
    unchanged and a resource that is no longer dirty was uploaded by a call
    of the device log, and a frame that returns has made one creation call
    for each dirty resource and none for the others. *)
Theorem update_uploads_dirty_buffers_once
    (vk : GpuCall → bool) (image_index : nat) (w : World) (b : nat)
    (old : BufferResource) (data : list Byte.byte) :
  Forall (λ b, m_data_upload_needed b = false) (m_buffer_resources (graph w)) →
  m_buffer_resources (graph w) !! b = Some old →
  (∀ outcome w',
     render vk image_index w = (outcome, w') →
     graph w' = graph w ∧ device w' = device w)
  ∧ (∀ w',
       render vk image_index (request_update_at b data w) = (Ok tt, w') →
       device w'
       = device w ++
         match buf_physical old with
         | Some {| m_buffer := Some old_buf |} => [DestroyBuffer (buffer old_buf)]
         | _ => []
         end ++ [CreateBuffer (length data) data (upload_usage old)]
       ∧ (∃ h, m_buffer_resources (graph w') !! b
               = Some (uploaded h (request_update data old))
               ∧ device w' !! h
                 = Some (CreateBuffer (length data) data (upload_usage old)))
       ∧ ∀ image_index' outcome w'',
           render vk image_index' w' = (outcome, w'') →
           graph w'' = graph w' ∧ device w'' = device w')
  ∧ (∀ v outcome v',
       render vk image_index v = (outcome, v') →
       Forall2 (updated (device v'))
         (m_buffer_resources (graph v)) (m_buffer_resources (graph v'))
       ∧ (outcome = Ok tt →
          Forall2 (updated_ok (device v'))
            (m_buffer_resources (graph v)) (m_buffer_resources (graph v'))
          ∧ device v'
            = device v ++ flat_map upload_calls (m_buffer_resources (graph v)))).
Proof.
  intros Hclean Hold.
  assert (∀ i u outcome u',
            Forall (λ b, m_data_upload_needed b = false)
                   (m_buffer_resources (graph u)) →
            render vk i u = (outcome, u') →
            graph u' = graph u ∧ device u' = device u) as Hidle.
  { intros i u outcome u' Hu Hrender.
    destruct (render_spec vk i u) as (o1 & o & u1 & u2 & Hupd & Hr & Hrec & _).
    rewrite (update_clean vk u Hu) in Hupd. injection Hupd as <- <-.
    rewrite Hrender in Hr. injection Hr as <- <-. apply Hrec. }
  split_and!.
  - intros outcome w'. by apply Hidle.
  - intros w' Hrender.
    destruct (render_spec vk image_index (request_update_at b data w))
      as (o1 & o & w1 & w2 & Hupd & Hr & [Hg Hd] & Hok).
    rewrite Hrender in Hr. injection Hr as <- <-.
    destruct (Hok eq_refl) as [-> _].
    destruct (update_dynamic_buffers_spec vk (request_update_at b data w))
      as (o1 & w1' & Hupd' & _ & _ & Hok1).
    rewrite Hupd in Hupd'. injection Hupd' as <- <-.
    destruct (Hok1 eq_refl) as [Hupdated Hdev]. split_and!.
    + rewrite Hd, Hdev. cbn [request_update_at graph device with_buffer_resources
                         m_buffer_resources].
      rewrite (upload_calls_request _ _ old) by done.
      unfold upload_calls, upload_call. by cbn.
    + rewrite Hg, Hd.
      rewrite Forall2_lookup in Hupdated. specialize (Hupdated b).
      cbn [request_update_at graph with_buffer_resources m_buffer_resources]
        in Hupdated.
      rewrite list_lookup_alter_eq, Hold in Hupdated. cbn in Hupdated.
      inversion Hupdated as [new' new Hnew Heq1 Heq2|]; subst.
      unfold updated_ok in Hnew. cbn in Hnew.
      destruct Hnew as (h & -> & Hh). exists h. split; [done|].
      rewrite Hh. done.
    + intros i' outcome w''. apply Hidle. rewrite Hg.
      eapply Forall2_Forall_r; [exact Hupdated|].
      apply Forall_true. intros x y. apply updated_ok_clean.
  - intros v outcome v' Hrender.
    destruct (render_spec vk image_index v)
      as (o1 & o & v1 & v2 & Hupd & Hr & [Hg Hd] & Hok).
    rewrite Hrender in Hr. injection Hr as <- <-.
    destruct (update_dynamic_buffers_spec vk v)
      as (o1' & v1' & Hupd' & _ & Hall & Hok1).
    rewrite Hupd in Hupd'. injection Hupd' as <- <-.
    rewrite Hg, Hd. split; [done|].
    intros ->. destruct (Hok eq_refl) as [-> _]. by apply Hok1.
Qed.

Lemma last_app_r {A} (l1 l2 : list A) (x : A) :
  last l2 = Some x → last (l1 ++ l2) = Some x.
Proof. intros H. by rewrite last_app, H. Qed.

Lemma pass_commands_barrier g image_index s cmds :
  pass_commands g image_index s = Some cmds → last cmds = Some full_barrier.
Proof.
  unfold pass_commands. intros H.
  repeat match type of H with
         | match ?x with _ => _ end = Some _ => destruct x; try done
         end;
    injection H as <-.
  - by apply (last_app_r [_]), last_app_r, last_app_r, (last_app_r [_]),
      last_app_r.
  - by apply last_app_r, last_app_r, (last_app_r [_]), last_app_r.
Qed.

(** C5, as the code has it: a call of [render] that returns has recorded,
    for each stage of the stage stack in order, the commands of
    [pass_commands]: for a graphics stage the begin of the render pass,
    one bind for each read index buffer that has a physical buffer, one
    bind of all read vertex buffers that have a physical buffer (no call if
    there is none), the bind of the pipeline, the commands of the record
    callback, the end of the render pass and a full barrier, which so ends
    the commands of every pass, the last one included. *)
Theorem render_records_passes
    (vk : GpuCall → bool) (image_index : nat) (w w' : World) :
  render vk image_index w = (Ok tt, w') →
  ∃ passes,
    Forall2 (λ s cmds, pass_commands (graph w') image_index s = Some cmds)
            (m_stage_stack (graph w')) passes
    ∧ cmd_buf w' = cmd_buf w ++ concat passes
    ∧ Forall (λ cmds, last cmds = Some full_barrier) passes.
Proof.
  intros Hrender.
  destruct (render_spec vk image_index w) as (o1 & o & w1 & w2 & _ & Hr & _ & Hok).
  rewrite Hrender in Hr. injection Hr as <- <-.
  destruct (Hok eq_refl) as (_ & passes & Hpasses & Hcmd).
  exists passes. split_and!; [done..|].
  eapply Forall2_Forall_r; [exact Hpasses|].
  apply Forall_true. intros s cmds. apply pass_commands_barrier.
Qed.

(** ** Visits without a visited mark *)

Lemma foldl_opt_flat_map {A B C} (f : C → B → option C) (g : A → list B)
    (l : list A) (c : C) :
  foldl_opt (λ c a, foldl_opt f c (g a)) c l = foldl_opt f c (flat_map g l).
Proof.
  revert c. induction l as [|a l IH]; intros c; cbn; [done|].
  rewrite foldl_opt_app. destruct (foldl_opt f c (g a)); [apply IH|done].
Qed.

Lemma foldl_opt_visits (f : nat → option (list nat)) (l : list nat)
    (stack stack' : list nat) :
  foldl_opt (λ st w, (st ++.) <$> f w) stack l = Some stack' →
  ∃ outs, Forall2 (λ w out, f w = Some out) l outs
          ∧ stack' = stack ++ concat outs.
Proof.
  revert stack. induction l as [|w l IH]; intros stack; cbn.
  - intros [= <-]. exists []. split; [constructor|]. by rewrite app_nil_r.
  - destruct (f w) as [out|] eqn:Hw; cbn; [|done].
    intros (outs & Houts & ->)%IH. exists (out :: outs).
    split; [by constructor|]. cbn. by rewrite app_assoc.
Qed.

(** The stages that a visit of [s] appends: all that the visit of each
    writer of each read resource appends, once for every such writer and
    read, and then [s]. *)
Lemma dfs_visits stages fuel s out :
  dfs stages (S fuel) s [] = Some out →
  ∃ outs,
    Forall2 (λ w out, dfs stages fuel w [] = Some out)
            (flat_map (λ resource, build_writers stages !!! resource)
                      (reads_of stages s)) outs
    ∧ out = concat outs ++ [s].
Proof.
  cbn [dfs]. unfold dfs_body.
  rewrite (foldl_opt_flat_map (λ stack writer, dfs stages fuel writer stack)).
  destruct (foldl_opt _ [] _) as [visited|] eqn:Hloop; [|done].
  intros [= <-].
  apply (foldl_opt_mono _ (λ st w, (st ++.) <$> dfs stages fuel w [])) in Hloop.
  - apply foldl_opt_visits in Hloop as (outs & Houts & ->). by exists outs.
  - intros w st1 st2. by rewrite dfs_appends.
Qed.

Lemma Forall2_functional {A B} (f : A → option B) (l : list A) (k1 k2 : list B) :
  Forall2 (λ a b, f a = Some b) l k1 →
  Forall2 (λ a b, f a = Some b) l k2 →
  k1 = k2.
Proof.
  intros H1. revert k2. induction H1 as [|a b l k1 Hab _ IH]; intros k2 H2.
  - by inversion H2.
  - inversion H2 as [|? b' ? k2' Hab' H2']; subst. f_equal; [congruence|].
    by apply IH.
Qed.

(** C9: the search has no visited mark: what a visit of a stage appends
    holds, once for every writer of every resource the stage reads, all
    that the visit of that writer appends; in the diamond graph, where two
    passes read what X writes, X is in the order twice.  The stage stack is
    not cleared either: a second [compile] on the same graph leaves the
    order twice in the stack, and a call of [render] that returns then
    records the commands of the passes of the order twice. *)
Theorem compile_appends_duplicates
    (vk : GpuCall → bool) (fuel : nat) (target : ResourceRef)
    (w w1 w2 : World) (outcome1 outcome2 : Result unit) :
  m_stage_stack (graph w) = [] →
  compile vk fuel target w = Some (outcome1, w1) →
  compile vk fuel target w1 = Some (outcome2, w2) →
  m_stage_stack (graph w2)
  = m_stage_stack (graph w1) ++ m_stage_stack (graph w1)
  ∧ (∀ image_index w3,
       render vk image_index w2 = (Ok tt, w3) →
       ∃ passes,
         Forall2 (λ s cmds, pass_commands (graph w3) image_index s = Some cmds)
                 (m_stage_stack (graph w1)) passes
         ∧ cmd_buf w3 = cmd_buf w2 ++ concat passes ++ concat passes)
  ∧ (∀ fuel' s out,
       dfs (m_stages (graph w)) (S fuel') s [] = Some out →
       ∃ outs,
         Forall2 (λ writer out', dfs (m_stages (graph w)) fuel' writer [] = Some out')
                 (flat_map (λ resource,
                              build_writers (m_stages (graph w)) !!! resource)
                           (reads_of (m_stages (graph w)) s)) outs
         ∧ out = concat outs ++ [s])
  ∧ dfs_from (m_stages (graph diamond_world)) 3 (TextureRef 0) []
    = Some [0; 0; 1; 2].
Proof.
  intros Hempty (order & Horder & Hw1)%compile_Some
    (stack2 & Hstack2 & Hw2)%compile_Some.
  rewrite Hempty in Horder.
  assert (m_stage_stack (graph w1) = order) as Hs1.
  { pose proof (compile_physical_stage_stack vk order w) as H.
    by rewrite <- Hw1 in H. }
  assert (m_stage_stack (graph w2) = order ++ order) as Hs2.
  { pose proof (compile_physical_stage_stack vk stack2 w1) as H.
    rewrite <- Hw2 in H. cbn in H. rewrite H.
    rewrite Hs1, dfs_from_appends in Hstack2.
    rewrite (dfs_from_ext _ (m_stages (graph w))) in Hstack2.
    - rewrite Horder in Hstack2. by injection Hstack2 as <-.
    - pose proof (compile_physical_stage_decl vk order w) as Hdecl.
      by rewrite <- Hw1 in Hdecl. }
  rewrite Hs1. split_and!; [done| |apply dfs_visits|by vm_compute].
  intros image_index w3 Hrender.
  destruct (render_spec vk image_index w2)
    as (o1 & o & u1 & u2 & Hupd & Hr & [Hg _] & Hok).
  rewrite Hrender in Hr. injection Hr as <- <-.
  destruct (Hok eq_refl) as (_ & passes & Hpasses & Hcmd).
  destruct (update_dynamic_buffers_spec vk w2)
    as (o1' & u1' & Hupd' & (_ & _ & _ & Hstack & _) & _).
  rewrite Hupd in Hupd'. injection Hupd' as <- <-.
  assert (m_stage_stack (graph w3) = order ++ order) as Hs3
    by (by rewrite Hg, Hstack).
  rewrite Hs3 in Hpasses.
  apply Forall2_app_inv_l in Hpasses as (p1 & p2 & Hp1 & Hp2 & ->).
  exists p1. split; [done|].
  rewrite Hcmd, concat_app.
  by rewrite (Forall2_functional _ _ _ _ Hp2 Hp1).
Qed.

(** ** The attachments of a render pass *)

Lemma render_pass_vectors_snoc g gs writes_ resource :
  render_pass_vectors g gs (writes_ ++ [resource])
  = render_pass_step g gs (render_pass_vectors g gs writes_)
      (length writes_, resource).
Proof.
  unfold render_pass_vectors. rewrite imap_app, foldl_app. cbn.
  by rewrite Nat.add_0_r.
Qed.

Lemma render_pass_attachments g gs writes_ :
  Forall2 (λ texture a,
             att_format a = tex_format texture
             ∧ att_loadOp a
               = attachment_load_op (m_clears_screen gs) (tex_usage texture)
             ∧ att_storeOp a = VK_ATTACHMENT_STORE_OP_STORE
             ∧ att_finalLayout a = attachment_final_layout (tex_usage texture))
          (omap (as_TextureResource g) writes_)
          (render_pass_vectors g gs writes_).1.1.
Proof.
  induction writes_ as [|resource writes_ IH] using rev_ind; [constructor|].
  rewrite render_pass_vectors_snoc, omap_app. unfold render_pass_step.
  destruct (render_pass_vectors g gs writes_) as [[attachments colour] depth].
  cbn [omap list_omap fst snd] in *.
  destruct (as_TextureResource g resource) as [texture|];
    [|by rewrite app_nil_r].
  assert (∀ a (colour' depth' : list VkAttachmentReference),
            att_format a = tex_format texture
            ∧ att_loadOp a
              = attachment_load_op (m_clears_screen gs) (tex_usage texture)
            ∧ att_storeOp a = VK_ATTACHMENT_STORE_OP_STORE
            ∧ att_finalLayout a = attachment_final_layout (tex_usage texture) →
            Forall2 (λ texture a,
               att_format a = tex_format texture
               ∧ att_loadOp a
                 = attachment_load_op (m_clears_screen gs) (tex_usage texture)
               ∧ att_storeOp a = VK_ATTACHMENT_STORE_OP_STORE
               ∧ att_finalLayout a = attachment_final_layout (tex_usage texture))
              (omap (as_TextureResource g) writes_ ++ [texture])
              (attachments ++ [a], colour', depth').1.1) as Hsnoc.
  { intros a ? ? Ha. apply Forall2_app; [done|].
    constructor; [exact Ha|constructor]. }
  unfold attachment_load_op in *.
  destruct (tex_usage texture) eqn:Husage, (m_clears_screen gs) eqn:Hclears;
    cbn [negb]; apply Hsnoc; by rewrite ?Husage.
Qed.

(** C6: the render pass that [compile] creates for a stage has one
    attachment description for each texture the stage writes, in order,
    with the format of the texture; its load operation is CLEAR if the
    stage clears the screen, else LOAD for a back buffer and DONT_CARE for
    the other usages; its store operation is STORE; its final layout is
    PRESENT_SRC for a back buffer, DEPTH_STENCIL_ATTACHMENT_OPTIMAL for a
    depth buffer and COLOR_ATTACHMENT_OPTIMAL otherwise. *)
Theorem render_pass_attachment_descriptions
    (vk : GpuCall → bool) (s : nat) (st : RenderStage) (gs : GraphicsStage)
    (w : World) :
  ∃ attachments colour_refs depth_ref,
    device (build_render_pass vk s st gs w).2
    = device w ++
      [CreateRenderPass (m_name st) attachments colour_refs depth_ref]
    ∧ Forall2
        (λ texture a,
           att_format a = tex_format texture
           ∧ att_loadOp a
             = (if m_clears_screen gs then VK_ATTACHMENT_LOAD_OP_CLEAR
                else match tex_usage texture with
                     | BACK_BUFFER => VK_ATTACHMENT_LOAD_OP_LOAD
                     | _ => VK_ATTACHMENT_LOAD_OP_DONT_CARE
                     end)
           ∧ att_storeOp a = VK_ATTACHMENT_STORE_OP_STORE
           ∧ att_finalLayout a
             = match tex_usage texture with
               | BACK_BUFFER => VK_IMAGE_LAYOUT_PRESENT_SRC_KHR
               | DEPTH_STENCIL_BUFFER =>
                   VK_IMAGE_LAYOUT_DEPTH_STENCIL_ATTACHMENT_OPTIMAL
               | NORMAL => VK_IMAGE_LAYOUT_COLOR_ATTACHMENT_OPTIMAL
               end)
        (texture_writes (graph w) st) attachments.
Proof.
  pose proof (render_pass_attachments (graph w) gs (m_writes st)) as Hatt.
  unfold build_render_pass, bind at 1. cbn [get_graph].
  destruct (render_pass_vectors (graph w) gs (m_writes st))
    as [[attachments colour_refs] depth_refs].
  exists attachments, colour_refs, (head depth_refs). split; [|exact Hatt].
  unfold bind, gpu_create. by destruct (vk _).
Qed.

(** ** The pipeline builder *)

(** C3 fails on the code: [reset] leaves the shader stages, the color blend
    attachments and the rendering create info as they are.  After a [build]
    of the overlay builder that returns, the builder still holds the two
    shader stages and the blend attachment, and its rendering create info
    is the one that [build] filled in, while a builder that was just
    constructed holds none and a value-initialised create info. *)
Theorem build_does_not_reset_every_member :
  ∃ p b' dev,
    build always_success "overlay" overlay_builder [] = (Ok p, b', dev)
    ∧ pipelines.m_shader_stages b'
      = pipelines.m_shader_stages overlay_builder
    ∧ length (pipelines.m_shader_stages b') = 2
    ∧ pipelines.m_shader_stages new_GraphicsPipelineBuilder = []
    ∧ length (pipelines.m_color_blend_attachment_states b') = 1
    ∧ pipelines.m_color_blend_attachment_states new_GraphicsPipelineBuilder = []
    ∧ colorAttachmentCount (pipelines.m_pipeline_rendering_ci b') = 1%Z
    ∧ colorAttachmentCount
        (pipelines.m_pipeline_rendering_ci new_GraphicsPipelineBuilder) = 0%Z
    ∧ b' ≠ new_GraphicsPipelineBuilder.
Proof.
  destruct (build always_success "overlay" overlay_builder [])
    as [[outcome b'] dev] eqn:Hbuild.
  vm_compute in Hbuild. injection Hbuild as <- <- <-.
  eexists _, _, _. split; [reflexivity|].
  split_and!; try reflexivity.
  intros H. apply (f_equal pipelines.m_shader_stages) in H. discriminate H.
Qed.

(** What a [build] that returns resets and what it keeps. *)
Lemma build_Ok vk name b dev p b' dev' :
  build vk name b dev = (Ok p, b', dev') →
  ∃ created,
    b' = reset created
    ∧ pipelines.m_shader_stages created = pipelines.m_shader_stages b
    ∧ pipelines.m_color_blend_attachment_states created
      = pipelines.m_color_blend_attachment_states b
    ∧ pipelines.m_push_constant_ranges created
      = pipelines.m_push_constant_ranges b
    ∧ pipelines.m_descriptor_set_layout created
      = pipelines.m_descriptor_set_layout b
    ∧ dev' = dev ++ [CreateGraphicsPipeline
                       {| pipelines.gp_builder := created;
                          pipelines.gp_name := name |}].
Proof.
  unfold build.
  repeat (destruct (decide _) as [?|?]; [try done|]); try done.
  all: destruct (vk _); [|done].
  all: intros [= <- <- <-]; eexists; split_and!; reflexivity.
Qed.

(** C8: [build] ends in a failed assertion, and the device log is as
    before, so no pipeline was created, when the name is empty or when
    there is no vertex input binding, no vertex input attribute, no
    viewport, no scissor or no pipeline layout. *)
Theorem build_asserts_mandatory_state
    (vk : GpuCall → bool) (name : string)
    (b : pipelines.GraphicsPipelineBuilder) (dev : list GpuCall) :
  name = EmptyString
  ∨ pipelines.m_vertex_input_binding_descriptions b = []
  ∨ pipelines.m_vertex_input_attribute_descriptions b = []
  ∨ pipelines.m_viewports b = []
  ∨ pipelines.m_scissors b = []
  ∨ pipelines.m_pipeline_layout b = None →
  ∃ condition b',
    build vk name b dev = (Throw (assertion_failure condition), b', dev).
Proof.
  intros H. unfold build.
  repeat match goal with
         | |- context [decide ?P] => destruct (decide P) as [?|?]; try (by eauto)
         end;
    cbn in *; intuition congruence.
Qed.

(** ** Computations that throw *)

Lemma bind_Throw {A B} (m : M A) (k : A → M B) w e w' :
  bind m k w = (Throw e, w') →
  m w = (Throw e, w') ∨ ∃ a w1, m w = (Ok a, w1) ∧ k a w1 = (Throw e, w').
Proof.
  unfold bind. destruct (m w) as [[a|e1] w1]; [eauto|].
  intros [= -> ->]. by left.
Qed.

Lemma fails_bind_l {A B} P (m : M A) (k : A → M B) :
  fails_from P m → fails_from P (bind m k).
Proof.
  intros Hm w Hw. destruct (Hm w Hw) as (e & w' & Hrun).
  exists e, w'. unfold bind. by rewrite Hrun.
Qed.

Lemma fails_bind_r {A B} (P Q : World → Prop) (m : M A) (k : A → M B) :
  (∀ w, P w → Q (m w).2) → (∀ a, fails_from Q (k a)) →
  fails_from P (bind m k).
Proof.
  intros Hm Hk w Hw. specialize (Hm w Hw). unfold bind.
  destruct (m w) as [[a|e] w1]; [|eauto]. by apply (Hk a).
Qed.

Lemma fails_for_each {A} P (body : A → M unit) (l : list A) (a : A) :
  a ∈ l → (∀ x w, P w → P (body x w).2) → fails_from P (body a) →
  fails_from P (for_each l body).
Proof.
  intros Hin Hinv Ha. induction l as [|x l IH]; [by apply elem_of_nil in Hin|].
  intros w Hw. rewrite for_each_cons.
  apply elem_of_cons in Hin as [<-|Hin].
  - by apply (fails_bind_l P).
  - apply (fails_bind_r P P); [by apply Hinv| |done]. intros _. by apply IH.
Qed.

Section NoRangeError.
Lemma no_range_error_ret {A} (a : A) : no_range_error (ret a).
Proof. by intros w w'. Qed.

Lemma no_range_error_throw {A} e :
  e ≠ out_of_range → no_range_error (throw (A:=A) e).
Proof. intros He w w' [= ? _]. done. Qed.

Lemma no_range_error_deref {A} (p : option A) : no_range_error (deref p).
Proof. destruct p; [apply no_range_error_ret|by apply no_range_error_throw]. Qed.

Lemma no_range_error_assert condition holds :
  no_range_error (assert_ condition holds).
Proof. intros w w'. unfold assert_. by destruct holds. Qed.

Lemma no_range_error_gpu_destroy c : no_range_error (gpu_destroy c).
Proof. by intros w w'. Qed.

Lemma no_range_error_get_graph : no_range_error get_graph.
Proof. by intros w w'. Qed.

Lemma no_range_error_modify_graph f : no_range_error (modify_graph f).
Proof. by intros w w'. Qed.

Lemma no_range_error_gpu_create vk c : no_range_error (gpu_create vk c).
Proof. intros w w'. unfold gpu_create. by destruct (vk c). Qed.

Lemma no_range_error_bind {A B} (m : M A) (k : A → M B) :
  no_range_error m → (∀ a, no_range_error (k a)) → no_range_error (bind m k).
Proof.
  intros Hm Hk w w' [H|(a & w1 & _ & H)]%bind_Throw.
  - by apply Hm in H.
  - by apply Hk in H.
Qed.

Lemma no_range_error_foldl_M {A B} (body : B → A → M B) (b : B) (l : list A) :
  (∀ b a, no_range_error (body b a)) → no_range_error (foldl_M body b l).
Proof.
  intros Hbody. revert b. induction l as [|a l IH]; intros b; cbn [foldl_M].
  - apply no_range_error_ret.
  - apply no_range_error_bind; [apply Hbody|]. intros b'. apply IH.
Qed.

Lemma no_range_error_for_each {A} (body : A → M unit) (l : list A) :
  (∀ a, no_range_error (body a)) → no_range_error (for_each l body).
Proof. intros H. apply no_range_error_foldl_M. auto. Qed.

Lemma no_range_error_get_stage s : no_range_error (get_stage s).
Proof.
  apply no_range_error_bind; [apply no_range_error_get_graph|].
  intros g. apply no_range_error_deref.
Qed.
End NoRangeError.

Lemma range_error_late_of_none {A} (m : M A) :
  no_range_error m → range_error_late m.
Proof. intros Hm w w' H. by apply Hm in H. Qed.

Lemma range_error_late_bind {A B} (m : M A) (k : A → M B) :
  range_error_late m → (∀ a, range_error_late (k a)) →
  range_error_late (bind m k).
Proof.
  intros Hm Hk w w' [H|(a & w1 & _ & H)]%bind_Throw.
  - by apply Hm in H.
  - by apply Hk in H.
Qed.

Lemma range_error_late_for_each {A} (body : A → M unit) (l : list A) :
  (∀ a, range_error_late (body a)) → range_error_late (for_each l body).
Proof.
  intros Hbody. induction l as [|a l IH].
  - by apply range_error_late_of_none, no_range_error_ret.
  - intros w w'. rewrite for_each_cons. revert w w'.
    apply range_error_late_bind; [apply Hbody|]. by intros _.
Qed.

(** ** A read buffer without a binding *)

Section UnboundBuffer.
Variable vk_success : GpuCall → bool.

Local Ltac no_range :=
  repeat lazymatch goal with
    | |- no_range_error (ret _) => apply no_range_error_ret
    | |- no_range_error (throw _) => by apply no_range_error_throw
    | |- no_range_error (deref _) => apply no_range_error_deref
    | |- no_range_error get_graph => apply no_range_error_get_graph
    | |- no_range_error (get_stage _) => apply no_range_error_get_stage
    | |- no_range_error (modify_graph _) => apply no_range_error_modify_graph
    | |- no_range_error (gpu_create _ _) => apply no_range_error_gpu_create
    | |- no_range_error (gpu_destroy _) => apply no_range_error_gpu_destroy
    | |- no_range_error (assert_ _ _) => apply no_range_error_assert
    | |- no_range_error (bind _ _) =>
        apply no_range_error_bind; [|intros ?]
    | |- no_range_error (foldl_M _ _ _) =>
        apply no_range_error_foldl_M; intros ? ?
    | |- no_range_error (for_each _ _) =>
        apply no_range_error_for_each; intros ?
    | |- no_range_error (match ?x with _ => _ end) => destruct x
    | |- no_range_error (if ?x then _ else _) => destruct x
    end.

Lemma no_range_error_build_render_pass s st gs :
  no_range_error (build_render_pass vk_success s st gs).
Proof.
  unfold build_render_pass, alter_physical, alter_stage. no_range.
Qed.

Lemma no_range_error_build_pipeline_layout s st :
  no_range_error (build_pipeline_layout vk_success s st).
Proof.
  unfold build_pipeline_layout, alter_physical, alter_stage. no_range.
Qed.

Lemma no_range_error_build_framebuffers s st :
  no_range_error (build_framebuffers vk_success s st).
Proof.
  unfold build_framebuffers, framebuffer_step, alter_physical, alter_stage.
  no_range.
Qed.

Lemma no_range_error_release_physical_stage old :
  no_range_error (release_physical_stage old).
Proof. unfold release_physical_stage. no_range. Qed.

Lemma no_range_error_allocate_buffers : no_range_error allocate_buffers.
Proof.
  unfold allocate_buffers, allocate_buffer, release_physical_buffer,
    alter_buffer.
  no_range.
Qed.

Lemma no_range_error_allocate_textures :
  no_range_error (allocate_textures vk_success).
Proof.
  unfold allocate_textures, allocate_texture, release_physical_texture,
    alter_texture.
  no_range.
Qed.

(** The loop over the reads leaves the world as it is. *)
Lemma vertex_input_loop_world g gs reads acc w :
  (foldl_M (vertex_input_step g gs) acc reads w).2 = w.
Proof.
  revert acc. induction reads as [|resource reads IH]; intros acc;
    cbn [foldl_M]; [done|].
  unfold bind.
  assert (∃ r, vertex_input_step g gs acc resource w = (r, w)) as [r ->].
  { unfold vertex_input_step. destruct acc as [attrs vbs].
    destruct (as_BufferResource g resource) as [[b buf]|]; [|by eexists].
    destruct (decide _); [by eexists|]. unfold bind.
    destruct (m_buffer_bindings gs !! b); by eexists. }
  destruct r as [acc'|e]; [apply IH|done].
Qed.

(** It throws when a read buffer that is no index buffer has no binding. *)
Lemma vertex_input_loop_unbound g gs reads b buf acc w :
  BufferRef b ∈ reads →
  m_buffer_resources g !! b = Some buf →
  buf_usage buf ≠ INDEX_BUFFER →
  m_buffer_bindings gs !! b = None →
  foldl_M (vertex_input_step g gs) acc reads w = (Throw out_of_range, w).
Proof.
  intros Hin Hbuf Husage Hbinding. revert acc.
  induction reads as [|resource reads IH]; intros acc;
    [by apply elem_of_nil in Hin|].
  cbn [foldl_M]. unfold bind.
  destruct (decide (resource = BufferRef b)) as [->|Hne].
  - unfold vertex_input_step. destruct acc as [attrs vbs].
    cbn [as_BufferResource]. rewrite Hbuf. cbn.
    destruct (decide _); [done|]. unfold bind. by rewrite Hbinding.
  - apply elem_of_cons in Hin as [?|Hin]; [done|].
    assert (∃ r, vertex_input_step g gs acc resource w = (r, w)
                 ∧ (∀ e, r = Throw e → e = out_of_range)) as (r & -> & Hr).
    { unfold vertex_input_step. destruct acc as [attrs vbs].
      destruct (as_BufferResource g resource) as [[b' buf']|];
        [|by eexists].
      destruct (decide _); [by eexists|]. unfold bind.
      destruct (m_buffer_bindings gs !! b'); eexists; split; try done.
      by intros e [= <-]. }
    destruct r as [acc'|e]; [by apply IH|]. by rewrite (Hr e).
Qed.

Lemma gpu_create_Ok c w h w' :
  gpu_create vk_success c w = (Ok h, w') → device w' = device w ++ [c].
Proof. unfold gpu_create. destruct (vk_success c); by intros [= _ <-]. Qed.

Lemma build_render_pass_Ok s st gs w w' :
  build_render_pass vk_success s st gs w = (Ok tt, w') →
  ∃ attachments colour_refs depth_ref,
    device w' = device w ++
      [CreateRenderPass (m_name st) attachments colour_refs depth_ref].
Proof.
  unfold build_render_pass. intros (g & w1 & [= <- <-] & H)%bind_Ok.
  destruct (render_pass_vectors _ _ _) as [[attachments colour] depth].
  apply bind_Ok in H as (h & w2 & Hcreate%gpu_create_Ok & [= <-]).
  by exists attachments, colour, (head depth).
Qed.

Lemma build_pipeline_layout_Ok s st w w' :
  build_pipeline_layout vk_success s st w = (Ok tt, w') →
  device w' = device w ++
    [CreatePipelineLayout (m_descriptor_layouts st)
                          (m_push_constant_ranges st)].
Proof.
  unfold build_pipeline_layout.
  by intros (h & w2 & Hcreate%gpu_create_Ok & [= <-])%bind_Ok.
Qed.

Lemma build_graphics_pipeline_range_error s st gs w w' :
  build_graphics_pipeline vk_success s st gs w = (Throw out_of_range, w') →
  w' = w.
Proof.
  unfold build_graphics_pipeline.
  intros [[=]|(g & w1 & [= <- <-] & H)]%bind_Throw.
  apply bind_Throw in H as [H|(vectors & w2 & _ & H)].
  - pose proof (vertex_input_loop_world (graph w) gs (m_reads st) ([], []) w)
      as Hw. by rewrite H in Hw.
  - exfalso. revert H. generalize w2 w'.
    change (no_range_error
      (let* current := get_stage s in
       let* physical := deref (m_physical current) in
       let* layout := deref (m_pipeline_layout physical) in
       assert_ "!m_vertex_input_binding_descriptions.empty()"
               (bool_decide (vectors.2 ≠ [])) >>
       assert_ "!m_vertex_input_attribute_descriptions.empty()"
               (bool_decide (vectors.1 ≠ [])) >>
       let* pipeline_ :=
         gpu_create vk_success
           (CreateStagePipeline
              {| sp_attribute_bindings := vectors.1;
                 sp_vertex_bindings := vectors.2;
                 sp_blend_attachment :=
                   {| blendEnable := blendEnable (m_blend_attachment gs);
                      colorWriteMask := 15 |};
                 sp_depth_test := m_depth_test gs;
                 sp_depth_write := m_depth_write gs;
                 sp_pipeline_layout := Some layout;
                 sp_render_pass := m_render_pass physical;
                 sp_extent := extent (m_swapchain (graph w));
                 sp_shaders := m_shaders gs |}) in
       alter_physical s (with_pipeline (Some pipeline_)))).
    unfold alter_physical, alter_stage. no_range.
Qed.

Lemma range_error_late_build_physical_stage s :
  range_error_late (build_physical_stage vk_success s).
Proof.
  intros w w'. unfold build_physical_stage.
  intros [H|(st & w1 & _ & H)]%bind_Throw;
    [by apply no_range_error_get_stage in H|].
  destruct (as_GraphicsStage st) as [gs|]; [|done].
  apply bind_Throw in H as [H|([] & w1' & _ & H)];
    [by apply no_range_error_release_physical_stage in H|].
  apply bind_Throw in H as [[=]|([] & w2 & _ & H)].
  apply bind_Throw in H as [H|([] & w3 & Hpass & H)];
    [by apply no_range_error_build_render_pass in H|].
  apply bind_Throw in H as [H|([] & w4 & Hlayout & H)];
    [by apply no_range_error_build_pipeline_layout in H|].
  apply bind_Throw in H as [H|([] & w5 & _ & H)];
    [|by apply no_range_error_build_framebuffers in H].
  apply build_graphics_pipeline_range_error in H as ->.
  apply build_render_pass_Ok in Hpass as (a & c & d & Hpass).
  apply build_pipeline_layout_Ok in Hlayout.
  exists (device w2), (m_name st), a, c, d, (m_descriptor_layouts st),
    (m_push_constant_ranges st).
  by rewrite Hlayout, Hpass, <- app_assoc.
Qed.

Lemma range_error_late_compile_physical stack :
  range_error_late (compile_physical vk_success stack).
Proof.
  unfold compile_physical.
  apply range_error_late_bind;
    [apply range_error_late_of_none, no_range_error_modify_graph|intros _].
  apply range_error_late_bind;
    [apply range_error_late_of_none, no_range_error_allocate_buffers|intros _].
  apply range_error_late_bind;
    [apply range_error_late_of_none, no_range_error_allocate_textures|intros _].
  apply range_error_late_for_each, range_error_late_build_physical_stage.
Qed.
End UnboundBuffer.

Lemma lookup_same_fmap {A B} (f : A → B) (l1 l2 : list A) (i : nat) (x : A) :
  f <$> l1 = f <$> l2 → l2 !! i = Some x →
  ∃ y, l1 !! i = Some y ∧ f y = f x.
Proof.
  intros Heq Hx. apply (f_equal (λ l, l !! i)) in Heq.
  rewrite !list_lookup_fmap, Hx in Heq.
  destruct (l1 !! i) as [y|]; [|done]. exists y. split; [done|].
  by injection Heq.
Qed.

Lemma preserves_from (R : World → World → Prop) `{!PreOrder R} {A}
    (m : M A) (w0 : World) :
  preserves R m → ∀ w, R w0 w → R w0 (m w).2.
Proof. intros Hm w Hw. etrans; [done|apply Hm]. Qed.

Section UnboundBufferFails.
Variable vk_success : GpuCall → bool.
Variables (w0 : World) (s : nat) (st : RenderStage) (gs : GraphicsStage)
          (b : nat) (buf : BufferResource).
Hypothesis Hstage : m_stages (graph w0) !! s = Some st.
Hypothesis Hgraphics : as_GraphicsStage st = Some gs.
Hypothesis Hread : BufferRef b ∈ m_reads st.
Hypothesis Hbuffer : m_buffer_resources (graph w0) !! b = Some buf.
Hypothesis Husage : buf_usage buf ≠ INDEX_BUFFER.
Hypothesis Hunbound : m_buffer_bindings gs !! b = None.

Lemma build_graphics_pipeline_fails st' :
  m_reads st' = m_reads st →
  fails_from (same_declarations w0)
             (build_graphics_pipeline vk_success s st' gs).
Proof.
  intros Hreads w Hw. unfold build_graphics_pipeline.
  unfold bind at 1. cbn [get_graph]. unfold bind at 1.
  destruct (lookup_same_fmap buffer_decl _ _ b buf (sd_buffers _ _ Hw) Hbuffer)
    as (buf' & Hbuf' & Hdecl).
  rewrite (vertex_input_loop_unbound (graph w) gs (m_reads st') b buf');
    [by eexists _, _|by rewrite Hreads|done| |done].
  apply (f_equal buf_usage) in Hdecl. cbn in Hdecl. by rewrite Hdecl.
Qed.

Lemma build_physical_stage_fails :
  fails_from (same_declarations w0) (build_physical_stage vk_success s).
Proof.
  intros w Hw. unfold build_physical_stage. unfold bind at 1.
  destruct (lookup_same_fmap stage_decl _ _ s st (sd_stages _ _ Hw) Hstage)
    as (st' & Hst' & Hdecl).
  unfold get_stage. unfold bind at 1. cbn [get_graph]. rewrite Hst'.
  cbn [deref ret].
  assert (as_GraphicsStage st' = Some gs) as ->.
  { apply (f_equal as_GraphicsStage) in Hdecl. cbn in Hdecl.
    by rewrite Hdecl. }
  assert (m_reads st' = m_reads st) as Hreads.
  { by apply (f_equal m_reads) in Hdecl. }
  revert w Hw Hst'.
  enough (fails_from (same_declarations w0)
            (release_physical_stage (m_physical st') >>
             alter_stage s
               (with_physical
                  (Some {| m_pipeline := None; m_pipeline_layout := None;
                           m_render_pass := None; m_framebuffers := [] |})) >>
             build_render_pass vk_success s st' gs >>
             build_pipeline_layout vk_success s st' >>
             build_graphics_pipeline vk_success s st' gs >>
             build_framebuffers vk_success s st')) as Hfails.
  { intros w Hw _. by apply Hfails. }
  apply (fails_bind_r _ (same_declarations w0)).
  { apply preserves_from; [apply _|].
    apply release_physical_stage_same_declarations. }
  intros _. apply (fails_bind_r _ (same_declarations w0)).
  { apply preserves_from; [apply _|].
    apply (alter_physical_same_declarations s (λ _, Some _)). }
  intros _. apply (fails_bind_r _ (same_declarations w0)).
  { apply preserves_from; [apply _|].
    apply build_render_pass_same_declarations. }
  intros _. apply (fails_bind_r _ (same_declarations w0)).
  { apply preserves_from; [apply _|].
    apply build_pipeline_layout_same_declarations. }
  intros _. apply fails_bind_l. by apply build_graphics_pipeline_fails.
Qed.

Lemma compile_physical_steps_fail stack :
  s ∈ stack →
  fails_from (same_declarations w0)
    (allocate_buffers >> allocate_textures vk_success >>
     for_each stack (build_physical_stage vk_success)).
Proof.
  intros Hin. apply (fails_bind_r _ (same_declarations w0)).
  { apply preserves_from; [apply _|].
    apply allocate_buffers_same_declarations. }
  intros _. apply (fails_bind_r _ (same_declarations w0)).
  { apply preserves_from; [apply _|].
    apply allocate_textures_same_declarations. }
  intros _. apply (fails_for_each _ _ _ s); [done| |].
  - intros x. apply preserves_from; [apply _|].
    apply build_physical_stage_same_declarations.
  - apply build_physical_stage_fails.
Qed.
End UnboundBufferFails.

(** ** What the allocation loops of [compile] leave *)

Lemma alter_all_lookup {A} (f : A → A) (l : list A) (k m i : nat) :
  foldl (λ l b, alter f b l) l (seq k m) !! i
  = if decide (k ≤ i < k + m) then f <$> l !! i else l !! i.
Proof.
  revert l k. induction m as [|m IH]; intros l k; cbn [seq foldl].
  - destruct (decide _); [lia|done].
  - rewrite IH. destruct (decide (i = k)) as [->|Hne].
    + rewrite decide_False by lia. rewrite decide_True by lia.
      by rewrite list_lookup_alter_eq.
    + rewrite list_lookup_alter_ne by done.
      destruct (decide (S k ≤ i < S k + m)), (decide (k ≤ i < k + S m));
        (done || lia).
Qed.

Lemma release_physical_buffer_Ok old w :
  ∃ w', release_physical_buffer old w = (Ok tt, w') ∧ graph w' = graph w.
Proof. destruct old as [[[old_buffer|]]|]; by eexists. Qed.

Lemma allocate_buffers_loop m k w :
  k + m ≤ length (m_buffer_resources (graph w)) →
  ∃ w', for_each (seq k m) allocate_buffer w = (Ok tt, w')
        ∧ m_buffer_resources (graph w')
          = foldl (λ l b, alter (with_buf_physical (Some {| m_buffer := None |}))
                                b l)
                  (m_buffer_resources (graph w)) (seq k m)
        ∧ m_stages (graph w') = m_stages (graph w)
        ∧ m_swapchain (graph w') = m_swapchain (graph w)
        ∧ m_texture_resources (graph w') = m_texture_resources (graph w).
Proof.
  revert k w. induction m as [|m IH]; intros k w Hlen; [by eexists|].
  cbn [seq]. rewrite for_each_cons.
  destruct (lookup_lt_is_Some_2 (m_buffer_resources (graph w)) k)
    as [buffer_resource Hk]; [lia|].
  destruct (release_physical_buffer_Ok (buf_physical buffer_resource) w)
    as (w1 & Hrelease & Hg1).
  set (w2 := (alter_buffer k (with_buf_physical (Some {| m_buffer := None |}))
                w1).2).
  assert (allocate_buffer k w = (Ok tt, w2)) as Hstep.
  { unfold allocate_buffer, bind at 1. cbn [get_graph]. unfold bind at 1.
    rewrite Hk. cbn [deref ret]. unfold bind at 1. by rewrite Hrelease. }
  unfold bind at 1. rewrite Hstep.
  destruct (IH (S k) w2) as (w' & Hloop & Hbuffers & Hstages & Hsw & Htextures).
  { subst w2. cbn. rewrite length_alter, Hg1. lia. }
  exists w'. split; [done|]. cbn [foldl].
  rewrite Hbuffers, Hstages, Hsw, Htextures. subst w2. cbn. by rewrite Hg1.
Qed.

Lemma allocate_buffers_allocated w :
  ∃ w', allocate_buffers w = (Ok tt, w')
        ∧ buffers_allocated (graph w')
        ∧ m_stages (graph w') = m_stages (graph w)
        ∧ m_swapchain (graph w') = m_swapchain (graph w)
        ∧ m_texture_resources (graph w') = m_texture_resources (graph w).
Proof.
  unfold allocate_buffers, bind at 1. cbn [get_graph].
  destruct (allocate_buffers_loop (length (m_buffer_resources (graph w))) 0 w)
    as (w' & Hloop & Hbuffers & Hstages & Hsw & Htextures); [done|].
  exists w'. split_and!; [done| |done..].
  unfold buffers_allocated. rewrite Hbuffers.
  apply Forall_lookup. intros i b. rewrite alter_all_lookup.
  destruct (decide _) as [_|Hout].
  - destruct (_ !! i); [|done]. by intros [= <-].
  - intros Hi%lookup_lt_Some. lia.
Qed.

Lemma get_stage_lookup s st w :
  m_stages (graph w) !! s = Some st → get_stage s w = (Ok st, w).
Proof. intros Hst. unfold get_stage, bind. cbn. by rewrite Hst. Qed.

Lemma allocated_as_prefix sw dev dev' t t' :
  dev `prefix_of` dev' → allocated_as sw dev t t' → allocated_as sw dev' t t'.
Proof.
  intros Hprefix [Hdecl Hphysical]. split; [done|].
  destruct (decide _); [done|]. destruct Hphysical as (img & ? & Himg).
  exists img. split; [done|]. by eapply prefix_lookup_Some.
Qed.

Lemma release_physical_texture_Ok old w :
  ∃ w', release_physical_texture old w = (Ok tt, w')
        ∧ graph w' = graph w ∧ device w `prefix_of` device w'.
Proof.
  destruct old as [[|old_image]|]; eexists; (split; [done|]);
    (split; [done|]); cbn; (done || by apply prefix_app_r).
Qed.

Lemma alter_twice_insert {A} (f g : A → A) (l : list A) (i : nat) (x : A) :
  l !! i = Some x → alter f i (alter g i l) = <[i := f (g x)]> l.
Proof.
  intros Hx. apply list_eq. intros j. destruct (decide (j = i)) as [->|Hne].
  - rewrite list_lookup_alter_eq, list_lookup_alter_eq, Hx.
    rewrite list_lookup_insert_eq; [done|]. by eapply lookup_lt_Some.
  - by rewrite !list_lookup_alter_ne, list_lookup_insert_ne.
Qed.

Lemma alter_insert {A} (f : A → A) (l : list A) (i : nat) (x : A) :
  l !! i = Some x → alter f i l = <[i := f x]> l.
Proof.
  intros Hx. apply list_eq. intros j. destruct (decide (j = i)) as [->|Hne].
  - rewrite list_lookup_alter_eq, Hx.
    rewrite list_lookup_insert_eq; [done|]. by eapply lookup_lt_Some.
  - by rewrite list_lookup_alter_ne, list_lookup_insert_ne.
Qed.

(** The image of a texture that was just allocated is one that this
    allocation has created. *)
Lemma allocate_texture_Ok vk t w w' texture_ :
  allocate_texture vk t w = (Ok tt, w') →
  m_texture_resources (graph w) !! t = Some texture_ →
  ∃ texture',
    m_texture_resources (graph w')
    = <[t := texture']> (m_texture_resources (graph w))
    ∧ allocated_as (m_swapchain (graph w)) (device w') texture_ texture'
    ∧ device w `prefix_of` device w'
    ∧ m_swapchain (graph w') = m_swapchain (graph w)
    ∧ ∀ img, tex_physical texture' = Some (PhysicalImage img) →
             length (device w) ≤ img < length (device w').
Proof.
  unfold allocate_texture. intros (g & w1 & [= <- <-] & H)%bind_Ok Ht.
  apply bind_Ok in H as (texture0 & w1 & [Ht0 ->]%deref_Ok & H).
  rewrite Ht in Ht0. injection Ht0 as <-.
  apply bind_Ok in H as ([] & w1 & Hrelease & H).
  destruct (release_physical_texture_Ok (tex_physical texture_) w)
    as (w1' & Hrelease' & Hg1 & Hdev1).
  rewrite Hrelease in Hrelease'. injection Hrelease' as <-.
  destruct (decide (tex_usage texture_ = BACK_BUFFER)) as [Hbb|Hbb].
  - apply (f_equal snd) in H. cbn [snd] in H. subst w'.
    exists (with_tex_physical (Some PhysicalBackBuffer) texture_).
    split_and!; [|split; [done|by rewrite decide_True]|done|by rewrite <-Hg1|done].
    cbn -[alter]. rewrite Hg1. by apply alter_insert.
  - apply bind_Ok in H as ([] & w2 & Hnone & H).
    apply (f_equal snd) in Hnone. cbn [snd] in Hnone. subst w2.
    apply bind_Ok in H as (img & w3 & Hcreate & H).
    revert Hcreate. unfold gpu_create. destruct (vk _); [|done].
    intros [= <- <-]. apply (f_equal snd) in H. cbn [snd] in H. subst w'.
    exists (with_tex_physical (Some (PhysicalImage (length (device w1))))
                              texture_).
    split_and!.
    + cbn -[alter]. rewrite Hg1.
      by rewrite (alter_twice_insert _ _ _ _ texture_).
    + split; [done|]. rewrite decide_False by done. eexists. split; [done|].
      cbn. by rewrite list_lookup_middle.
    + cbn. etrans; [exact Hdev1|]. by apply prefix_app_r.
    + cbn. by rewrite Hg1.
    + intros img [= <-]. cbn. rewrite length_app. cbn.
      apply prefix_length in Hdev1. lia.
Qed.

Lemma allocate_textures_loop vk m k w w' :
  for_each (seq k m) (allocate_texture vk) w = (Ok tt, w') →
  k + m ≤ length (m_texture_resources (graph w)) →
  device w `prefix_of` device w'
  ∧ m_swapchain (graph w') = m_swapchain (graph w)
  ∧ length (m_texture_resources (graph w'))
    = length (m_texture_resources (graph w))
  ∧ (∀ i t, m_texture_resources (graph w) !! i = Some t →
            ∃ t', m_texture_resources (graph w') !! i = Some t'
                  ∧ if decide (k ≤ i < k + m)
                    then allocated_as (m_swapchain (graph w)) (device w') t t'
                         ∧ ∀ img, tex_physical t' = Some (PhysicalImage img) →
                                  length (device w) ≤ img
                    else t' = t)
  ∧ ∀ i j ti tj img,
      k ≤ i < k + m → k ≤ j < k + m →
      m_texture_resources (graph w') !! i = Some ti →
      m_texture_resources (graph w') !! j = Some tj →
      tex_physical ti = Some (PhysicalImage img) →
      tex_physical tj = Some (PhysicalImage img) →
      i = j.
Proof.
  revert k w. induction m as [|m IH]; intros k w.
  - intros [= <-] _. split_and!; try done; [|intros; lia].
    intros i t Hi. exists t. split; [done|]. destruct (decide _); [lia|done].
  - cbn [seq]. rewrite for_each_cons.
    intros ([] & w1 & Hk & Hrest)%bind_Ok Hlen.
    destruct (lookup_lt_is_Some_2 (m_texture_resources (graph w)) k)
      as [tk Htk]; [lia|].
    destruct (allocate_texture_Ok _ _ _ _ _ Hk Htk)
      as (tk' & Htextures1 & Halloc1 & Hdev1 & Hsw1 & Hfresh1).
    destruct (IH (S k) w1 Hrest) as (Hdev & Hsw & Hlength & Hall & Hinj).
    { rewrite Htextures1, length_insert. lia. }
    assert (m_texture_resources (graph w') !! k = Some tk') as Hk'.
    { destruct (Hall k tk') as (t' & Ht' & Hcase).
      { rewrite Htextures1. apply list_lookup_insert_eq.
        by eapply lookup_lt_Some. }
      rewrite decide_False in Hcase by lia. by subst t'. }
    split_and!.
    + by etrans.
    + congruence.
    + by rewrite Hlength, Htextures1, length_insert.
    + intros i t Hi. destruct (decide (i = k)) as [->|Hne].
      * rewrite Htk in Hi. injection Hi as <-.
        exists tk'. split; [done|]. rewrite decide_True by lia. split.
        -- by eapply allocated_as_prefix.
        -- intros img Himg. apply Hfresh1 in Himg. lia.
      * destruct (Hall i t) as (t' & Ht' & Hcase).
        { rewrite Htextures1. by rewrite list_lookup_insert_ne. }
        exists t'. split; [done|].
        destruct (decide (S k ≤ i < S k + m)), (decide (k ≤ i < k + S m));
          try lia; [|done].
        destruct Hcase as [Halloc Hfresh]. split; [by rewrite <-Hsw1|].
        intros img Himg. apply Hfresh in Himg.
        apply prefix_length in Hdev1. lia.
    + assert (∀ j tj img,
                S k ≤ j < S k + m →
                m_texture_resources (graph w') !! j = Some tj →
                tex_physical tj = Some (PhysicalImage img) →
                length (device w1) ≤ img) as Hlater.
      { intros j tj img Hj Htj Himg.
        destruct (lookup_lt_is_Some_2 (m_texture_resources (graph w1)) j)
          as [t1 Ht1]; [rewrite Htextures1, length_insert; lia|].
        destruct (Hall j t1 Ht1) as (t' & Ht' & Hcase).
        rewrite decide_True in Hcase by lia. rewrite Htj in Ht'.
        injection Ht' as <-. by apply Hcase. }
      intros i j ti tj img Hi Hj Hti Htj Himg_i Himg_j.
      destruct (decide (i = k)) as [->|Hne_i], (decide (j = k)) as [->|Hne_j];
        [done| | |apply (Hinj i j ti tj img); (done || lia)].
      * rewrite Hk' in Hti. injection Hti as <-.
        apply Hfresh1 in Himg_i.
        pose proof (Hlater j tj img ltac:(lia) Htj Himg_j). lia.
      * rewrite Hk' in Htj. injection Htj as <-.
        apply Hfresh1 in Himg_j.
        pose proof (Hlater i ti img ltac:(lia) Hti Himg_i). lia.
Qed.

(** ** Stages that [compile] builds, and a read buffer without a binding *)

Lemma bind_run {A B} (m : M A) (k : A → M B) w a w1 :
  m w = (Ok a, w1) → bind m k w = k a w1.
Proof. intros Hm. unfold bind. by rewrite Hm. Qed.

Lemma bind_thrown {A B} (m : M A) (k : A → M B) w e w1 :
  m w = (Throw e, w1) → bind m k w = (Throw e, w1).
Proof. intros Hm. unfold bind. by rewrite Hm. Qed.

Lemma bind_get_graph {B} (k : RenderGraph → M B) w :
  bind get_graph k w = k (graph w) w.
Proof. done. Qed.

Lemma bind_ret {A B} (a : A) (k : A → M B) w : bind (ret a) k w = k a w.
Proof. done. Qed.

Lemma bind_deref_Some {A B} (p : option A) (a : A) (k : A → M B) w :
  p = Some a → bind (deref p) k w = k a w.
Proof. by intros ->. Qed.

Lemma bind_assert_true {B} condition (k : unit → M B) w :
  bind (assert_ condition true) k w = k tt w.
Proof. done. Qed.

Lemma as_BufferResource_decl (g g' : RenderGraph) (resource : ResourceRef) :
  buffer_decl <$> m_buffer_resources g' = buffer_decl <$> m_buffer_resources g →
  match as_BufferResource g' resource, as_BufferResource g resource with
  | Some (b', buf'), Some (b, buf) => b' = b ∧ buffer_decl buf' = buffer_decl buf
  | None, None => True
  | _, _ => False
  end.
Proof.
  intros Hdecl. destruct resource as [b|t]; [|done]. cbn.
  apply (f_equal (λ l, l !! b)) in Hdecl. rewrite !list_lookup_fmap in Hdecl.
  destruct (m_buffer_resources g' !! b), (m_buffer_resources g !! b);
    cbn in *; try done. split; [done|]. congruence.
Qed.

Lemma vertex_binding_of_decl g g' gs resource :
  buffer_decl <$> m_buffer_resources g' = buffer_decl <$> m_buffer_resources g →
  vertex_binding_of g' gs resource = vertex_binding_of g gs resource.
Proof.
  intros Hdecl. pose proof (as_BufferResource_decl g g' resource Hdecl) as H.
  unfold vertex_binding_of.
  destruct (as_BufferResource g' resource) as [[b' buf']|],
    (as_BufferResource g resource) as [[b buf]|]; try done.
  destruct H as [-> Hbuf].
  pose proof (f_equal buf_usage Hbuf) as Husage.
  pose proof (f_equal m_element_size Hbuf) as Hsize. cbn in Husage, Hsize.
  by rewrite Husage, Hsize.
Qed.

Lemma attribute_bindings_of_decl g g' gs resource :
  buffer_decl <$> m_buffer_resources g' = buffer_decl <$> m_buffer_resources g →
  attribute_bindings_of g' gs resource = attribute_bindings_of g gs resource.
Proof.
  intros Hdecl. pose proof (as_BufferResource_decl g g' resource Hdecl) as H.
  unfold attribute_bindings_of.
  destruct (as_BufferResource g' resource) as [[b' buf']|],
    (as_BufferResource g resource) as [[b buf]|]; try done.
  destruct H as [-> Hbuf].
  pose proof (f_equal buf_usage Hbuf) as Husage.
  pose proof (f_equal m_vertex_attributes Hbuf) as Hattributes.
  cbn in Husage, Hattributes. by rewrite Husage, Hattributes.
Qed.

Lemma read_bound_decl g g' gs resource :
  buffer_decl <$> m_buffer_resources g' = buffer_decl <$> m_buffer_resources g →
  read_bound g' gs resource ↔ read_bound g gs resource.
Proof.
  intros Hdecl. pose proof (as_BufferResource_decl g g' resource Hdecl) as H.
  unfold read_bound.
  destruct (as_BufferResource g' resource) as [[b' buf']|],
    (as_BufferResource g resource) as [[b buf]|]; try done.
  destruct H as [-> Hbuf].
  pose proof (f_equal buf_usage Hbuf) as Husage. cbn in Husage.
  by rewrite Husage.
Qed.

Lemma reads_bound_decl g g' gs reads :
  buffer_decl <$> m_buffer_resources g' = buffer_decl <$> m_buffer_resources g →
  Forall (read_bound g' gs) reads ↔ Forall (read_bound g gs) reads.
Proof.
  intros Hdecl. apply Forall_iff. intros resource. by apply read_bound_decl.
Qed.

Lemma has_vertex_input_decl g g' gs reads :
  buffer_decl <$> m_buffer_resources g' = buffer_decl <$> m_buffer_resources g →
  has_vertex_input g' gs reads ↔ has_vertex_input g gs reads.
Proof.
  intros Hdecl. unfold has_vertex_input.
  assert (omap (vertex_binding_of g' gs) reads
          = omap (vertex_binding_of g gs) reads) as ->.
  { induction reads as [|resource reads IH]; [done|]. cbn.
    by rewrite IH, (vertex_binding_of_decl g g'). }
  assert (flat_map (attribute_bindings_of g' gs) reads
          = flat_map (attribute_bindings_of g gs) reads) as ->; [|done].
  induction reads as [|resource reads IH]; [done|]. cbn.
  by rewrite IH, (attribute_bindings_of_decl g g').
Qed.

(** The loop over the reads returns the vertex input when every read
    buffer has its binding. *)
Lemma vertex_input_loop_returns g gs reads acc w :
  Forall (read_bound g gs) reads →
  foldl_M (vertex_input_step g gs) acc reads w
  = (Ok (acc.1 ++ flat_map (attribute_bindings_of g gs) reads,
         acc.2 ++ omap (vertex_binding_of g gs) reads), w).
Proof.
  intros Hbound. revert acc.
  induction Hbound as [|resource reads Hresource _ IH]; intros [attrs vbs].
  { cbn. by rewrite !app_nil_r. }
  cbn [foldl_M].
  assert (vertex_input_step g gs (attrs, vbs) resource w
          = (Ok (attrs ++ attribute_bindings_of g gs resource,
                 vbs ++ option_list (vertex_binding_of g gs resource)), w))
    as Hstep.
  { revert Hresource.
    unfold read_bound, vertex_input_step, vertex_binding_of,
      attribute_bindings_of.
    destruct (as_BufferResource g resource) as [[b buf]|];
      [|by rewrite !app_nil_r].
    destruct (decide (buf_usage buf = INDEX_BUFFER)) as [Hindex|Hindex];
      [by rewrite !app_nil_r|].
    intros [?|[binding_ Hbinding]]; [done|]. by rewrite Hbinding. }
  rewrite (bind_run _ _ _ _ _ Hstep), IH. cbn.
  rewrite <- !app_assoc. by destruct (vertex_binding_of g gs resource).
Qed.

(** A read without its binding is a buffer resource that is no index
    buffer and has no binding index. *)
Lemma unbound_read g gs reads :
  ¬ Forall (read_bound g gs) reads →
  ∃ b buf, BufferRef b ∈ reads ∧ m_buffer_resources g !! b = Some buf
           ∧ buf_usage buf ≠ INDEX_BUFFER ∧ m_buffer_bindings gs !! b = None.
Proof.
  intros (resource & Hin & Hunbound)%not_Forall_Exists%Exists_exists;
    [|apply _].
  revert Hunbound. unfold read_bound.
  destruct resource as [b|t]; [|cbn; intros H; by destruct H].
  cbn. destruct (m_buffer_resources g !! b) as [buf|] eqn:Hbuf;
    [|cbn; intros H; by destruct H].
  cbn. intros Hunbound. exists b, buf. split_and!; [done..| |].
  - intros Hindex. apply Hunbound. by left.
  - destruct (m_buffer_bindings gs !! b) eqn:Hbinding; [|done].
    exfalso. apply Hunbound. right. by eexists.
Qed.

Section BuildingStage.
Variable vk : GpuCall → bool.
Hypothesis Hvk : ∀ c, vk c = true.
Variables (s : nat) (st : RenderStage) (w0 : World).

(** A creation call whose handle is stored in the physical stage. *)
Lemma store_returns c f w p :
  building s st w0 w p →
  ∃ w', (let* h := gpu_create vk c in alter_physical s (f h)) w = (Ok tt, w')
        ∧ building s st w0 w' (f (length (device w)) p).
Proof.
  intros (Hstage & Hbuffers & Htextures & Hsw).
  unfold bind, gpu_create. rewrite Hvk. eexists. split; [reflexivity|].
  split_and!; [|done..]. cbn -[alter].
  by rewrite list_lookup_alter_eq, Hstage.
Qed.

Lemma build_render_pass_returns gs w p :
  building s st w0 w p →
  ∃ w' h, build_render_pass vk s st gs w = (Ok tt, w')
          ∧ building s st w0 w' (with_render_pass (Some h) p).
Proof.
  intros Hw. unfold build_render_pass. rewrite bind_get_graph.
  destruct (render_pass_vectors _ _ _) as [[attachments colour_refs] depth_refs].
  destruct (store_returns
              (CreateRenderPass (m_name st) attachments colour_refs
                                (head depth_refs))
              (λ h, with_render_pass (Some h)) w p Hw) as (w' & Hrun & Hw').
  by exists w', (length (device w)).
Qed.

Lemma build_pipeline_layout_returns w p :
  building s st w0 w p →
  ∃ w' h, build_pipeline_layout vk s st w = (Ok tt, w')
          ∧ building s st w0 w' (with_pipeline_layout (Some h) p).
Proof.
  intros Hw. unfold build_pipeline_layout.
  destruct (store_returns
              (CreatePipelineLayout (m_descriptor_layouts st)
                                    (m_push_constant_ranges st))
              (λ h, with_pipeline_layout (Some h)) w p Hw) as (w' & Hrun & Hw').
  by exists w', (length (device w)).
Qed.

Lemma build_graphics_pipeline_outcome gs w p :
  building s st w0 w p →
  is_Some (m_pipeline_layout p) →
  (Forall (read_bound (graph w) gs) (m_reads st) →
   has_vertex_input (graph w) gs (m_reads st)) →
  if decide (Forall (read_bound (graph w) gs) (m_reads st))
  then ∃ w' p', build_graphics_pipeline vk s st gs w = (Ok tt, w')
                ∧ building s st w0 w' p'
  else build_graphics_pipeline vk s st gs w = (Throw out_of_range, w).
Proof.
  intros Hw [layout Hlayout] Hinput. unfold build_graphics_pipeline.
  rewrite bind_get_graph.
  destruct (decide _) as [Hbound|Hunbound].
  - destruct (Hinput Hbound) as [Hbindings Hattributes].
    rewrite (bind_run _ _ _ _ _
               (vertex_input_loop_returns _ _ _ ([], []) w Hbound)).
    rewrite (bind_run _ _ _ _ _ (get_stage_lookup _ _ _ (proj1 Hw))).
    rewrite (bind_deref_Some (m_physical (with_physical (Some p) st)) p)
      by done.
    rewrite (bind_deref_Some _ layout) by done.
    cbn [fst snd app].
    rewrite bool_decide_true, bind_assert_true by done.
    rewrite bool_decide_true, bind_assert_true by done.
    destruct (store_returns
                (CreateStagePipeline
                   {| sp_attribute_bindings :=
                        flat_map (attribute_bindings_of (graph w) gs)
                                 (m_reads st);
                      sp_vertex_bindings :=
                        omap (vertex_binding_of (graph w) gs) (m_reads st);
                      sp_blend_attachment :=
                        {| blendEnable := blendEnable (m_blend_attachment gs);
                           colorWriteMask := 15 |};
                      sp_depth_test := m_depth_test gs;
                      sp_depth_write := m_depth_write gs;
                      sp_pipeline_layout := Some layout;
                      sp_render_pass := m_render_pass p;
                      sp_extent := extent (m_swapchain (graph w));
                      sp_shaders := m_shaders gs |})
                (λ h, with_pipeline (Some h)) w p Hw) as (w' & Hrun & Hw').
    by exists w', (with_pipeline (Some (length (device w))) p).
  - destruct (unbound_read _ _ _ Hunbound)
      as (b & buf & Hread & Hbuf & Husage & Hbinding).
    by rewrite (bind_thrown _ _ _ _ _
                  (vertex_input_loop_unbound _ _ _ _ _ ([], []) w
                     Hread Hbuf Husage Hbinding)).
Qed.

Lemma framebuffer_loop_returns g writes_ acc w :
  textures_allocated g →
  ∃ acc', foldl_M (framebuffer_step g) acc writes_ w = (Ok acc', w).
Proof.
  intros Hallocated. revert acc.
  induction writes_ as [|resource writes_ IH]; intros acc; [by eexists|].
  cbn [foldl_M].
  assert (∃ acc1, framebuffer_step g acc resource w = (Ok acc1, w))
    as [acc1 Hstep]; [|rewrite (bind_run _ _ _ _ _ Hstep); apply IH].
  unfold framebuffer_step.
  destruct (as_TextureResource g resource) as [texture_|] eqn:Htexture;
    [|by eexists].
  assert (is_Some (tex_physical texture_)) as [physical_texture Hphysical].
  { destruct resource as [b|t]; [done|]. cbn in Htexture.
    unfold textures_allocated in Hallocated.
    rewrite Forall_lookup in Hallocated. by eapply Hallocated. }
  rewrite (bind_deref_Some _ physical_texture) by done.
  destruct physical_texture; by eexists.
Qed.

Lemma framebuffers_loop_returns (image_views_ : Handle → list VkImageView)
    views w p :
  building s st w0 w p →
  ∃ w' p',
    for_each views
      (λ img_view,
         let* current := get_stage s in
         let* physical := deref (m_physical current) in
         let* framebuffer :=
           gpu_create vk (CreateFramebuffer (m_render_pass physical)
                                            (image_views_ img_view)) in
         alter_physical s
           (λ p, with_framebuffers (m_framebuffers p ++ [framebuffer]) p)) w
    = (Ok tt, w')
    ∧ building s st w0 w' p'.
Proof.
  revert w p. induction views as [|img_view views IH]; intros w p Hw;
    [by exists w, p|].
  rewrite for_each_cons.
  destruct (store_returns
              (CreateFramebuffer (m_render_pass p) (image_views_ img_view))
              (λ h p, with_framebuffers (m_framebuffers p ++ [h]) p) w p Hw)
    as (w1 & Hrun & Hw1).
  destruct (IH w1 _ Hw1) as (w' & p' & Hloop & Hw').
  exists w', p'. split; [|done].
  erewrite bind_run; [exact Hloop|].
  rewrite (bind_run _ _ _ _ _ (get_stage_lookup _ _ _ (proj1 Hw))).
  rewrite (bind_deref_Some (m_physical (with_physical (Some p) st)) p)
    by done.
  exact Hrun.
Qed.

Lemma build_framebuffers_returns w p :
  building s st w0 w p →
  textures_allocated (graph w0) →
  ∃ w' p', build_framebuffers vk s st w = (Ok tt, w') ∧ building s st w0 w' p'.
Proof.
  intros Hw Hallocated. unfold build_framebuffers.
  destruct (decide _); [by exists w, p|]. rewrite bind_get_graph.
  destruct (framebuffer_loop_returns (graph w) (m_writes st) (0, []) w)
    as (gathered & Hgathered).
  { unfold textures_allocated. destruct Hw as (_ & _ & -> & _). done. }
  rewrite (bind_run _ _ _ _ _ Hgathered).
  by apply (framebuffers_loop_returns _ _ w p).
Qed.
End BuildingStage.

Lemma release_physical_stage_Ok old w :
  ∃ w', release_physical_stage old w = (Ok tt, w') ∧ graph w' = graph w.
Proof. destruct old; by eexists. Qed.

(** The stage at [s] is built, or the [at()] of its pipeline throws. *)
Lemma build_physical_stage_outcome vk s w0 w :
  (∀ c, vk c = true) →
  same_declarations w0 w →
  textures_allocated (graph w) →
  input_if_bound (graph w0) s →
  ∃ r w', build_physical_stage vk s w = (r, w')
          ∧ same_declarations w0 w'
          ∧ textures_allocated (graph w')
          ∧ ∀ e, r = Throw e →
                 e = out_of_range ∧ ¬ buildable_stage (graph w0) s.
Proof.
  intros Hvk Hsame Hallocated (st0 & Hst0 & Hinput).
  destruct (lookup_same_fmap stage_decl _ _ s st0 (sd_stages _ _ Hsame) Hst0)
    as (st & Hst & Hdecl).
  pose proof (f_equal as_GraphicsStage Hdecl) as Hgraphics.
  pose proof (f_equal m_reads Hdecl) as Hreads. cbn in Hgraphics, Hreads.
  assert (∃ r w',
            build_physical_stage vk s w = (r, w')
            ∧ m_texture_resources (graph w') = m_texture_resources (graph w)
            ∧ ∀ e, r = Throw e →
                   e = out_of_range
                   ∧ ∃ gs, as_GraphicsStage st = Some gs
                           ∧ ¬ Forall (read_bound (graph w) gs) (m_reads st))
    as (r & w' & Hrun & Htextures & Hthrow).
  { unfold build_physical_stage.
    rewrite (bind_run _ _ _ _ _ (get_stage_lookup _ _ _ Hst)).
    destruct (as_GraphicsStage st) as [gs|] eqn:Hgs; [|by exists (Ok tt), w].
    destruct (release_physical_stage_Ok (m_physical st) w)
      as (w1 & Hrelease & Hg1).
    rewrite (bind_run _ _ _ _ _ Hrelease).
    set (fresh := {| m_pipeline := None; m_pipeline_layout := None;
                     m_render_pass := None; m_framebuffers := [] |}).
    set (w2 := (alter_stage s (with_physical (Some fresh)) w1).2).
    rewrite (bind_run _ _ _ tt w2) by done.
    assert (building s st w2 w2 fresh) as Hw2.
    { split_and!; [|done..]. subst w2. cbn -[alter].
      by rewrite list_lookup_alter_eq, Hg1, Hst. }
    assert (graph w2 = with_stages (alter (with_physical (Some fresh)) s
                                          (m_stages (graph w))) (graph w))
      as Hg2 by (subst w2; cbn -[alter]; by rewrite Hg1).
    destruct (build_render_pass_returns vk Hvk s st w2 gs w2 fresh Hw2)
      as (w3 & h3 & Hpass & Hw3).
    rewrite (bind_run _ _ _ _ _ Hpass).
    destruct (build_pipeline_layout_returns vk Hvk s st w2 w3 _ Hw3)
      as (w4 & h4 & Hlayout & Hw4).
    rewrite (bind_run _ _ _ _ _ Hlayout).
    assert (m_buffer_resources (graph w4) = m_buffer_resources (graph w))
      as Hbuffers4.
    { destruct Hw4 as (_ & -> & _). by rewrite Hg2. }
    assert (m_texture_resources (graph w4) = m_texture_resources (graph w))
      as Htextures4.
    { destruct Hw4 as (_ & _ & -> & _). by rewrite Hg2. }
    assert (buffer_decl <$> m_buffer_resources (graph w4)
            = buffer_decl <$> m_buffer_resources (graph w0)) as Hdecl4.
    { rewrite Hbuffers4. apply Hsame. }
    pose proof (build_graphics_pipeline_outcome vk Hvk s st w2 gs w4 _ Hw4)
      as Hpipeline.
    destruct (decide (Forall (read_bound (graph w4) gs) (m_reads st)))
      as [Hbound|Hunbound].
    - destruct Hpipeline as (w5 & p5 & Hpipeline & Hw5); [by eexists| |].
      { intros _. apply (has_vertex_input_decl _ _ _ _ Hdecl4).
        rewrite Hreads. apply Hinput; [by rewrite <-Hgraphics|].
        rewrite <-Hreads. by apply (reads_bound_decl _ _ _ _ Hdecl4). }
      rewrite (bind_run _ _ _ _ _ Hpipeline).
      destruct (build_framebuffers_returns vk Hvk s st w2 w5 p5 Hw5)
        as (w6 & p6 & Hframebuffers & Hw6).
      { unfold textures_allocated. by rewrite Hg2. }
      exists (Ok tt), w6. split; [done|]. split; [|done].
      destruct Hw6 as (_ & _ & -> & _). by rewrite Hg2.
    - rewrite (bind_thrown _ _ _ _ _ (Hpipeline ltac:(by eexists)
                                                 ltac:(done))).
      exists (Throw out_of_range), w4. split; [done|]. split; [done|].
      intros e [= <-]. split; [done|]. exists gs. split; [done|].
      intros Hbound. apply Hunbound.
      eapply Forall_impl; [exact Hbound|].
      intros resource. unfold read_bound, as_BufferResource.
      by rewrite Hbuffers4. }
  exists r, w'. split; [done|]. split_and!.
  - etrans; [exact Hsame|].
    pose proof (build_physical_stage_same_declarations vk s w) as Hstep.
    by rewrite Hrun in Hstep.
  - unfold textures_allocated. by rewrite Htextures.
  - intros e He. destruct (Hthrow e He) as (-> & gs & Hgs & Hunbound).
    split; [done|]. intros (st0' & Hst0' & Hbuildable).
    rewrite Hst0 in Hst0'. injection Hst0' as <-.
    destruct (Hbuildable gs) as [Hbound _]; [by rewrite <-Hgraphics|].
    apply Hunbound. rewrite Hreads.
    by apply (reads_bound_decl _ _ _ _ (sd_buffers _ _ Hsame)).
Qed.

Lemma build_physical_stages_outcome vk order w0 w :
  (∀ c, vk c = true) →
  same_declarations w0 w →
  textures_allocated (graph w) →
  Forall (input_if_bound (graph w0)) order →
  ∃ r w', for_each order (build_physical_stage vk) w = (r, w')
          ∧ ∀ e, r = Throw e →
                 e = out_of_range
                 ∧ ¬ Forall (buildable_stage (graph w0)) order.
Proof.
  intros Hvk Hsame Hallocated Hinput. revert w Hsame Hallocated.
  induction Hinput as [|s order Hs _ IH]; intros w Hsame Hallocated;
    [by exists (Ok tt), w|].
  rewrite for_each_cons.
  destruct (build_physical_stage_outcome vk s w0 w Hvk Hsame Hallocated Hs)
    as (r1 & w1 & Hrun & Hsame1 & Hallocated1 & Hthrow).
  destruct r1 as [[]|e1].
  - rewrite (bind_run _ _ _ _ _ Hrun).
    destruct (IH w1 Hsame1 Hallocated1) as (r & w' & Hrest & Hthrow').
    exists r, w'. split; [done|]. intros e He.
    destruct (Hthrow' e He) as [-> Hnot]. split; [done|].
    intros [_ ?]%Forall_cons. done.
  - rewrite (bind_thrown _ _ _ _ _ Hrun). exists (Throw e1), w1.
    split; [done|]. intros e [= <-].
    destruct (Hthrow e1 eq_refl) as [-> Hnot]. split; [done|].
    intros [? _]%Forall_cons. done.
Qed.

Lemma allocate_texture_returns vk t w :
  (∀ c, vk c = true) →
  t < length (m_texture_resources (graph w)) →
  ∃ w', allocate_texture vk t w = (Ok tt, w').
Proof.
  intros Hvk Ht. unfold allocate_texture. rewrite bind_get_graph.
  destruct (lookup_lt_is_Some_2 _ _ Ht) as [texture_ Htexture].
  rewrite (bind_deref_Some _ texture_) by done.
  destruct (release_physical_texture_Ok (tex_physical texture_) w)
    as (w1 & Hrelease & _).
  rewrite (bind_run _ _ _ _ _ Hrelease).
  destruct (decide _); [by eexists|].
  unfold bind, alter_texture, modify_graph, gpu_create. rewrite Hvk.
  by eexists.
Qed.

Lemma allocate_textures_returns vk m k w :
  (∀ c, vk c = true) →
  k + m ≤ length (m_texture_resources (graph w)) →
  ∃ w', for_each (seq k m) (allocate_texture vk) w = (Ok tt, w').
Proof.
  intros Hvk. revert k w. induction m as [|m IH]; intros k w Hlen;
    [by eexists|].
  cbn [seq]. rewrite for_each_cons.
  destruct (allocate_texture_returns vk k w Hvk) as (w1 & Hstep); [lia|].
  rewrite (bind_run _ _ _ _ _ Hstep).
  destruct (lookup_lt_is_Some_2 (m_texture_resources (graph w)) k)
    as [texture_ Htexture]; [lia|].
  destruct (allocate_texture_Ok _ _ _ _ _ Hstep Htexture)
    as (texture' & Htextures1 & _).
  apply IH. rewrite Htextures1, length_insert. lia.
Qed.

(** With a device that accepts every call, [compile] returns or throws
    [std::out_of_range], and it throws only when a stage of the order
    cannot be built. *)
Lemma compile_physical_outcome vk order w :
  (∀ c, vk c = true) →
  Forall (input_if_bound (graph w)) order →
  ∃ r w', compile_physical vk order w = (r, w')
          ∧ ∀ e, r = Throw e →
                 e = out_of_range
                 ∧ ¬ Forall (buildable_stage (graph w)) order.
Proof.
  intros Hvk Hinput. unfold compile_physical.
  set (w0 := {| graph := with_stage_stack order (graph w);
                device := device w; cmd_buf := cmd_buf w |}).
  rewrite (bind_run _ _ _ tt w0) by done.
  destruct (allocate_buffers_allocated w0)
    as (w2 & Hbuffers & _ & _ & _ & Htextures2).
  rewrite (bind_run _ _ _ _ _ Hbuffers).
  pose proof (allocate_buffers_same_declarations w0) as Hsame2.
  rewrite Hbuffers in Hsame2. cbn [snd] in Hsame2.
  destruct (allocate_textures_returns vk
              (length (m_texture_resources (graph w2))) 0 w2 Hvk)
    as (w3 & Hloop); [done|].
  assert (allocate_textures vk w2 = (Ok tt, w3)) as Htextures
    by (unfold allocate_textures; by rewrite bind_get_graph).
  rewrite (bind_run _ _ _ _ _ Htextures).
  pose proof (allocate_textures_same_declarations vk w2) as Hsame3.
  rewrite Htextures in Hsame3. cbn [snd] in Hsame3.
  apply allocate_textures_loop in Hloop as (_ & _ & Hlength & Hall & _);
    [|done].
  apply (build_physical_stages_outcome vk order w0 w3 Hvk);
    [by etrans| |exact Hinput].
  apply Forall_lookup. intros i texture' Hi.
  destruct (lookup_lt_is_Some_2 (m_texture_resources (graph w2)) i)
    as [texture_ Htexture].
  { rewrite <-Hlength. by eapply lookup_lt_Some. }
  destruct (Hall i texture_ Htexture) as (texture'' & Hi' & Hcase).
  rewrite Hi in Hi'. injection Hi' as <-.
  rewrite decide_True in Hcase
    by (apply lookup_lt_Some in Htexture; lia).
  destruct Hcase as [[_ Hphysical] _].
  destruct (decide _); [by eexists|].
  destruct Hphysical as (img & -> & _). by eexists.
Qed.

(** C7, as the code has it: a graphics stage [s] reads a buffer resource
    that is no index buffer and has no binding index.  If [s] is in the
    execution order, [compile(target)] throws; whenever it throws
    [std::out_of_range], the device log ends with the creation of the
    render pass and of the pipeline layout of the stage that is being
    built, so the error comes after creation calls and not before all of
    them; and what it throws is [std::out_of_range], from the [at()] of
    [build_graphics_pipeline], when the device accepts every call and no
    stage of the order fails an assertion of the pipeline builder.  If [s]
    is not in the execution order, it is never looked at: [compile] returns
    when the device accepts every call and the stages of the order can be
    built. *)
Theorem compile_unbound_buffer_throws
    (vk : GpuCall → bool) (fuel : nat) (target : ResourceRef) (w : World)
    (order : list nat) (s : nat) (st : RenderStage) (gs : GraphicsStage)
    (b : nat) (buf : BufferResource) :
  dfs_from (m_stages (graph w)) fuel target (m_stage_stack (graph w))
  = Some order →
  m_stages (graph w) !! s = Some st →
  as_GraphicsStage st = Some gs →
  BufferRef b ∈ m_reads st →
  m_buffer_resources (graph w) !! b = Some buf →
  buf_usage buf ≠ INDEX_BUFFER →
  m_buffer_bindings gs !! b = None →
  (s ∈ order →
   ∃ e w',
     compile vk fuel target w = Some (Throw e, w')
     ∧ (e = out_of_range → after_render_pass_and_layout (device w'))
     ∧ ((∀ c, vk c = true) →
        Forall (input_if_bound (graph w)) order →
        e = out_of_range))
  ∧ (s ∉ order →
     (∀ c, vk c = true) →
     Forall (buildable_stage (graph w)) order →
     ∃ w', compile vk fuel target w = Some (Ok tt, w')).
Proof.
  intros Horder Hstage Hgraphics Hread Hbuffer Husage Hunbound.
  unfold compile. rewrite Horder. split.
  - intros Hin.
    set (w0 := {| graph := with_stage_stack order (graph w);
                  device := device w; cmd_buf := cmd_buf w |}).
    destruct (compile_physical_steps_fail vk w0 s st gs b buf Hstage Hgraphics
                Hread Hbuffer Husage Hunbound order Hin w0)
      as (e & w' & Hrun); [reflexivity|].
    exists e, w'.
    assert (compile_physical vk order w = (Throw e, w')) as Hcompile.
    { unfold compile_physical. unfold bind at 1. cbn [modify_graph].
      exact Hrun. }
    split_and!; [by rewrite Hcompile| |].
    + intros ->. by eapply range_error_late_compile_physical.
    + intros Hvk Hinput.
      destruct (compile_physical_outcome vk order w Hvk Hinput)
        as (r & w'' & Hrun' & Hthrow).
      rewrite Hcompile in Hrun'. injection Hrun' as <- <-.
      by destruct (Hthrow e eq_refl).
  - intros _ Hvk Hbuildable.
    destruct (compile_physical_outcome vk order w Hvk)
      as (r & w' & Hrun & Hthrow).
    { eapply Forall_impl; [exact Hbuildable|].
      intros s' (st' & Hst' & Hs'). exists st'. split; [done|].
      intros gs' Hgs' _. by apply Hs'. }
    destruct r as [[]|e]; [exists w'; by rewrite Hrun|].
    by destruct (Hthrow e eq_refl) as [_ []].
Qed.

(** * The theorems at concrete graphs *)

Lemma add_vertex_attribute_locations_witness :
  m_vertex_attributes (buffer_resource VERTEX_BUFFER 24) = []
  ∧ (Z.of_nat (length [(106, 0); (106, 12)]) < 2 ^ 32)%Z
  ∧ location <$> m_vertex_attributes
      (add_vertex_attributes [(106, 0); (106, 12)]%Z
                             (buffer_resource VERTEX_BUFFER 24))
    = [0; 1]%Z
  ∧ location <$> m_vertex_attributes
      (add_vertex_attribute 103 24
         (add_vertex_attributes [(106, 0); (106, 12)]%Z
                                (buffer_resource VERTEX_BUFFER 24)))
    = [0; 1; 2]%Z.
Proof.
  assert (Z.of_nat (length [(106, 0); (106, 12)]%Z) < 2 ^ 32)%Z as Hlen
    by (vm_compute; reflexivity).
  destruct (add_vertex_attribute_locations (buffer_resource VERTEX_BUFFER 24)
              [(106, 0); (106, 12)]%Z 103 24 eq_refl Hlen)
    as (_ & Hlocations & Hnext).
  split_and!; [reflexivity|exact Hlen|exact Hlocations|].
  rewrite Hnext, fmap_app, Hlocations. reflexivity.
Defined.



Lemma cyclic_world_cycle :
  writes (m_stages (graph cyclic_world)) 0 (TextureRef 0)
  ∧ depends_on (m_stages (graph cyclic_world)) 0 1
  ∧ depends_on (m_stages (graph cyclic_world)) 1 0.
Proof.
  split_and!.
  - eexists. split; [reflexivity|]. vm_compute. constructor.
  - exists (TextureRef 1). split; vm_compute; constructor.
  - exists (TextureRef 0). split; vm_compute; constructor.
Defined.

Lemma compile_diverges_on_cycle_witness :
  writes (m_stages (graph cyclic_world)) 0 (TextureRef 0)
  ∧ rtc (depends_on (m_stages (graph cyclic_world))) 0 0
  ∧ tc (depends_on (m_stages (graph cyclic_world))) 0 0
  ∧ compile always_success 1000 (TextureRef 0) cyclic_world = None.
Proof.
  destruct cyclic_world_cycle as (Hw & H01 & H10).
  assert (tc (depends_on (m_stages (graph cyclic_world))) 0 0) as Hcycle.
  { eapply tc_l; [exact H01|]. apply tc_once, H10. }
  split_and!; [exact Hw|constructor|exact Hcycle|].
  exact (compile_diverges_on_cycle always_success (TextureRef 0) cyclic_world
           0 0 Hw (rtc_refl _ _) Hcycle 1000).
Defined.

(** C2 fails on the code: for the graph in which A reads what only B writes
    and B what only A writes, [compile] returns nothing, neither an order
    nor an error, whatever the bound on the nested calls. *)
Lemma cyclic_graph_compile_never_returns :
  ¬ ∃ fuel outcome,
      compile always_success fuel (TextureRef 0) cyclic_world = Some outcome.
Proof.
  intros (fuel & outcome & H). unfold compile in H.
  destruct cyclic_world_cycle as (Hw & H01 & H10).
  rewrite (dfs_from_diverges _ fuel (TextureRef 0) 0 0) in H; [done| | |].
  - by apply elem_of_build_writers.
  - constructor.
  - eapply tc_l; [exact H01|]. apply tc_once, H10.
Qed.

Lemma octree_frame :
  render always_success 0 octree_compiled = (Ok tt, octree_rendered).
Proof. vm_compute. reflexivity. Defined.

Lemma render_records_passes_witness :
  render always_success 0 octree_compiled = (Ok tt, octree_rendered)
  ∧ (∃ passes,
       Forall2 (λ s cmds, pass_commands (graph octree_rendered) 0 s = Some cmds)
               (m_stage_stack (graph octree_rendered)) passes
       ∧ cmd_buf octree_rendered = cmd_buf octree_compiled ++ concat passes
       ∧ Forall (λ cmds, last cmds = Some full_barrier) passes)
  ∧ cmd_buf octree_rendered
    = [begin_render_pass (Some 1) 4 true; bind_index_buffer 6;
       bind_vertex_buffers [7]; bind_pipeline 3; bind_descriptor (Some 2);
       draw_indexed 36; end_render_pass; full_barrier].
Proof.
  split; [exact octree_frame|]. split; [|vm_compute; reflexivity].
  exact (render_records_passes always_success 0 octree_compiled
           octree_rendered octree_frame).
Defined.

(** C5 fails on the code: the main stage reads the vertex buffer resource
    at 1, which has its two attributes and its binding, and for which no
    data was ever requested.  [compile] returns, having created the
    pipeline of the stage with these attributes; the frame returns and its
    commands hold no bind of vertex buffers at all. *)
Lemma render_skips_buffer_without_data :
  compile always_success 2 (TextureRef 0) empty_vertex_buffer_world
  = Some (Ok tt, unuploaded_compiled)
  ∧ BufferRef 1 ∈ reads_of (m_stages (graph unuploaded_compiled)) 0
  ∧ buf_usage <$> m_buffer_resources (graph unuploaded_compiled) !! 1
    = Some VERTEX_BUFFER
  ∧ (λ b, location <$> m_vertex_attributes b)
      <$> m_buffer_resources (graph unuploaded_compiled) !! 1
    = Some [0%Z; 1%Z]
  ∧ call_name <$> device unuploaded_compiled
    = ["vkCreateImage"; "vkCreateRenderPass"; "vkCreatePipelineLayout";
       "vkCreateGraphicsPipelines"; "vkCreateFramebuffer";
       "vkCreateFramebuffer"]
  ∧ m_stage_stack (graph unuploaded_compiled) = [0]
  ∧ (render always_success 0 unuploaded_compiled).1 = Ok tt
  ∧ cmd_buf (after_render 0 unuploaded_compiled)
    = [begin_render_pass (Some 1) 4 true; bind_index_buffer 6;
       bind_pipeline 3; bind_descriptor (Some 2); draw_indexed 36;
       end_render_pass; full_barrier].
Proof.
  split_and!; try (vm_compute; reflexivity).
  vm_compute. apply list_elem_of_further, list_elem_of_here.
Qed.

Lemma update_uploads_dirty_buffers_once_witness :
  ∃ old,
    Forall (λ b, m_data_upload_needed b = false)
           (m_buffer_resources (graph octree_rendered))
    ∧ m_buffer_resources (graph octree_rendered) !! 1 = Some old
    ∧ (buffer <$> (buf_physical old ≫= m_buffer)) = Some 7
    ∧ device (after_render 0 octree_rendered) = device octree_rendered
    ∧ device (after_render 0
                (request_update_at 1 [Byte.x05; Byte.x06] octree_rendered))
      = device octree_rendered ++
        [DestroyBuffer 7;
         CreateBuffer 2 [Byte.x05; Byte.x06] VK_BUFFER_USAGE_VERTEX_BUFFER_BIT].
Proof.
  destruct (m_buffer_resources (graph octree_rendered) !! 1) as [old|] eqn:Hold;
    [|vm_compute in Hold; discriminate Hold].
  assert (Forall (λ b, m_data_upload_needed b = false)
                 (m_buffer_resources (graph octree_rendered))) as Hclean.
  { vm_compute. repeat constructor. }
  exists old.
  destruct (update_uploads_dirty_buffers_once always_success 0 octree_rendered
              1 old [Byte.x05; Byte.x06] Hclean Hold)
    as (Hidle & Hrequest & _).
  assert (old = uploaded 7 octree_vertex_buffer) as Hold'.
  { vm_compute in Hold. injection Hold as <-. reflexivity. }
  split_and!; [exact Hclean|reflexivity|by rewrite Hold'| |].
  - apply (Hidle (render always_success 0 octree_rendered).1).
    apply surjective_pairing.
  - destruct (Hrequest
                (after_render 0
                   (request_update_at 1 [Byte.x05; Byte.x06] octree_rendered)))
      as (Hdevice & _).
    { vm_compute. reflexivity. }
    rewrite Hdevice, Hold'. reflexivity.
Defined.

Lemma build_asserts_mandatory_state_witness :
  (EmptyString = EmptyString
   ∨ pipelines.m_vertex_input_binding_descriptions overlay_builder = []
   ∨ pipelines.m_vertex_input_attribute_descriptions overlay_builder = []
   ∨ pipelines.m_viewports overlay_builder = []
   ∨ pipelines.m_scissors overlay_builder = []
   ∨ pipelines.m_pipeline_layout overlay_builder = None)
  ∧ (∃ condition b',
       build always_success EmptyString overlay_builder []
       = (Throw (assertion_failure condition), b', []))
  ∧ ∃ condition b',
      build always_success "pipeline" new_GraphicsPipelineBuilder []
      = (Throw (assertion_failure condition), b', []).
Proof.
  split_and!.
  - by left.
  - apply build_asserts_mandatory_state. by left.
  - apply build_asserts_mandatory_state. right. by left.
Defined.

Lemma compile_appends_duplicates_witness :
  m_stage_stack (graph diamond_world) = []
  ∧ compile always_success 4 (TextureRef 0) diamond_world
    = Some (Ok tt, diamond_compiled)
  ∧ compile always_success 4 (TextureRef 0) diamond_compiled
    = Some (Ok tt, diamond_recompiled)
  ∧ m_stage_stack (graph diamond_compiled) = [0; 0; 1; 2]
  ∧ m_stage_stack (graph diamond_recompiled) = [0; 0; 1; 2; 0; 0; 1; 2].
Proof.
  assert (compile always_success 4 (TextureRef 0) diamond_world
          = Some (Ok tt, diamond_compiled)) as H1 by (vm_compute; reflexivity).
  assert (compile always_success 4 (TextureRef 0) diamond_compiled
          = Some (Ok tt, diamond_recompiled)) as H2
    by (vm_compute; reflexivity).
  assert (m_stage_stack (graph diamond_compiled) = [0; 0; 1; 2]) as Hs1
    by (vm_compute; reflexivity).
  destruct (compile_appends_duplicates always_success 4 (TextureRef 0)
              diamond_world diamond_compiled diamond_recompiled (Ok tt) (Ok tt)
              eq_refl H1 H2) as (Hstack & _).
  split_and!; [reflexivity|exact H1|exact H2|exact Hs1|].
  rewrite Hstack, Hs1. reflexivity.
Defined.

Lemma compile_unbound_buffer_throws_witness :
  (∃ w', compile always_success 2 (TextureRef 0) unbound_world
         = Some (Throw out_of_range, w')
         ∧ after_render_pass_and_layout (device w'))
  ∧ ∃ w', compile always_success 3 (TextureRef 0) unreachable_unbound_world
          = Some (Ok tt, w').
Proof.
  assert (buf_usage octree_vertex_buffer ≠ INDEX_BUFFER) as Husage
    by discriminate.
  split.
  - assert (BufferRef 1 ∈ [BufferRef 0; BufferRef 1]) as Hread
      by (apply list_elem_of_further, list_elem_of_here).
    destruct (compile_unbound_buffer_throws always_success 2 (TextureRef 0)
                unbound_world [0] 0 _ _ 1 _ eq_refl eq_refl eq_refl Hread
                eq_refl Husage eq_refl) as [Hthrows _].
    destruct Hthrows as (e & w' & Hcompile & Hlate & Hrange);
      [constructor|].
    assert (e = out_of_range) as ->.
    { apply Hrange; [done|]. constructor; [|constructor].
      eexists. split; [reflexivity|]. intros gs [= <-] Hbound.
      apply Forall_cons in Hbound as [_ Hbound].
      apply Forall_cons in Hbound as [[Hindex|[binding_ Hbinding]] _];
        [discriminate Hindex|discriminate Hbinding]. }
    exists w'. split; [exact Hcompile|by apply Hlate].
  - assert (BufferRef 0 ∈ [BufferRef 0]) as Hread by constructor.
    destruct (compile_unbound_buffer_throws always_success 3 (TextureRef 0)
                unreachable_unbound_world [0] 1 _ _ 0 _ eq_refl eq_refl
                eq_refl Hread eq_refl Husage eq_refl) as [_ Hreturns].
    apply Hreturns; [|done|].
    + intros Hin. apply list_elem_of_singleton in Hin. discriminate Hin.
    + constructor; [|constructor]. eexists. split; [reflexivity|].
      intros gs [= <-]. split.
      * constructor; [|constructor]. right. by eexists.
      * split; vm_compute; discriminate.
Defined.

(** C7 fails on the code: with the vertex buffer unbound, [compile] throws
    [std::out_of_range] only after the depth image, the render pass and the
    pipeline layout were created on the device.  And a pass that reads the
    vertex buffer without a binding and is not in the execution order does
    not make [compile] fail: the only pass of the order, which reads the
    vertex buffer at its binding, is built with its pipeline and its
    framebuffers, and [compile] returns. *)
Lemma unbound_buffer_error_after_creation_calls :
  (compile always_success 2 (TextureRef 0) unbound_world
   = Some (Throw out_of_range, after_compile (TextureRef 0) unbound_world)
   ∧ device unbound_world = []
   ∧ call_name <$> device (after_compile (TextureRef 0) unbound_world)
     = ["vkCreateImage"; "vkCreateRenderPass"; "vkCreatePipelineLayout"])
  ∧ (BufferRef 0 ∈ reads_of (m_stages (graph unreachable_unbound_world)) 1
     ∧ buf_usage <$> m_buffer_resources (graph unreachable_unbound_world) !! 0
       = Some VERTEX_BUFFER
     ∧ (m_buffer_bindings <$>
          (m_stages (graph unreachable_unbound_world) !! 1
             ≫= as_GraphicsStage)) = Some ∅
     ∧ compile always_success 3 (TextureRef 0) unreachable_unbound_world
       = Some (Ok tt, after_compile (TextureRef 0) unreachable_unbound_world)
     ∧ m_stage_stack
         (graph (after_compile (TextureRef 0) unreachable_unbound_world))
       = [0]
     ∧ call_name
         <$> device (after_compile (TextureRef 0) unreachable_unbound_world)
       = ["vkCreateImage"; "vkCreateRenderPass"; "vkCreatePipelineLayout";
          "vkCreateGraphicsPipelines"; "vkCreateFramebuffer";
          "vkCreateFramebuffer"]).
Proof.
  split; split_and!; try (vm_compute; reflexivity).
  vm_compute. constructor.
Qed.

(** * Further properties *)

(** ** The index buffer of the octree *)

Lemma foldl_R_app {A B} (body : B → A → Result B) (b : B) (l1 l2 : list A) :
  foldl_R body b (l1 ++ l2)
  = result_bind (foldl_R body b l1) (λ b', foldl_R body b' l2).
Proof.
  revert b. induction l1 as [|a l1 IH]; intros b; [done|].
  cbn. destruct (body b a); cbn; [apply IH|done].
Qed.

Section OctreeIndicesProperties.
Context {OctreeGpuVertex : Type} `{Countable OctreeGpuVertex}.
Implicit Types (old seen vertices : list OctreeGpuVertex) (indices : list Z).

Lemma indexed_not_seen seen vertex_map vertices indices vertex :
  indexed seen vertex_map vertices indices →
  vertex_map !! vertex = None → vertex ∉ seen.
Proof.
  intros HP Hnone Hin. apply (indexed_elem_of _ _ _ _ HP) in Hin.
  apply list_elem_of_lookup in Hin as [n Hn].
  assert (vertex_map !! vertex = Some (Z.of_nat n)) as Hsome
    by (apply (indexed_map _ _ _ _ HP); eauto).
  congruence.
Qed.

Lemma indexed_distinct seen vertex_map vertices indices :
  indexed seen vertex_map vertices indices →
  size (list_to_set seen : gset OctreeGpuVertex) = length vertices.
Proof.
  intros HP.
  rewrite <-(size_list_to_set (C:=gset OctreeGpuVertex) vertices)
    by apply (indexed_NoDup _ _ _ _ HP).
  f_equal. apply set_eq. intros v. rewrite !elem_of_list_to_set.
  symmetry. apply (indexed_elem_of _ _ _ _ HP).
Qed.

Lemma index_vertex_known seen vertex_map vertices indices vertex :
  indexed seen vertex_map vertices indices →
  is_Some (vertex_map !! vertex) →
  ∃ index, index_vertex (vertex_map, vertices, indices) vertex
           = Ok (vertex_map, vertices, indices ++ [index])
           ∧ indexed (seen ++ [vertex]) vertex_map vertices
                     (indices ++ [index]).
Proof.
  intros HP [index Hindex]. exists index. unfold index_vertex.
  destruct (decide (vertex_map !! vertex = None)) as [Hnone|_]; [congruence|].
  cbn. rewrite Hindex. split; [done|].
  pose proof (proj1 (indexed_map _ _ _ _ HP vertex index) Hindex) as (n & -> & Hn).
  destruct HP as [Hnodup Helem Hsub Hbound Hmap Hsize Hind Horder].
  split; try done.
  - intros v. rewrite Helem, elem_of_app, list_elem_of_singleton.
    split; [tauto|]. intros [?| ->]; [done|].
    apply Helem. apply list_elem_of_lookup. eauto.
  - by apply sublist_inserts_r.
  - apply Forall2_app; [done|]. constructor; [eauto|constructor].
  - intros j k u v Hjk Hu Hv.
    destruct (Horder j k u v Hjk Hu Hv) as (i & Hi & Hbefore).
    exists i. split; [by apply lookup_app_l_Some|].
    rewrite take_app_le; [done|]. apply lookup_lt_Some in Hi. lia.
Qed.

Lemma index_vertex_new seen vertex_map vertices indices vertex :
  indexed seen vertex_map vertices indices →
  vertex_map !! vertex = None →
  (Z.of_nat (size vertex_map) < UINT32_MAX)%Z →
  ∃ vertex_map',
    index_vertex (vertex_map, vertices, indices) vertex
    = Ok (vertex_map', vertices ++ [vertex],
          indices ++ [Z.of_nat (length vertices)])
    ∧ indexed (seen ++ [vertex]) vertex_map' (vertices ++ [vertex])
              (indices ++ [Z.of_nat (length vertices)]).
Proof.
  intros HP Hnone Hlt.
  pose proof (indexed_not_seen _ _ _ _ _ HP Hnone) as Hnotin.
  destruct HP as [Hnodup Helem Hsub Hbound Hmap Hsize Hind Horder].
  assert (to_uint32 (Z.of_nat (size vertex_map)) = Z.of_nat (length vertices))
    as Hindex.
  { rewrite to_uint32_small, Hsize; [done|]. unfold UINT32_MAX in Hlt. lia. }
  exists (<[vertex := Z.of_nat (length vertices)]> vertex_map).
  unfold index_vertex.
  destruct (decide (vertex_map !! vertex = None)) as [_|]; [|done].
  destruct (decide (Z.of_nat (size vertex_map) < UINT32_MAX)%Z) as [_|]; [|done].
  cbn. rewrite Hnone, Hindex, lookup_insert_eq. split; [done|].
  assert (vertex ∉ vertices) as Hfresh by (by rewrite Helem).
  split.
  - apply NoDup_app. split_and!; [done| |apply NoDup_singleton].
    intros v Hv ->%list_elem_of_singleton. done.
  - intros v. rewrite !elem_of_app, Helem. done.
  - by apply sublist_app.
  - rewrite length_app. cbn. rewrite Hsize in Hlt. lia.
  - intros v k. destruct (decide (v = vertex)) as [->|Hne].
    + rewrite lookup_insert_eq. split.
      * intros [= <-]. exists (length vertices). split; [done|].
        by rewrite list_lookup_middle.
      * intros (n & -> & Hn). f_equal. f_equal.
        apply lookup_app_Some in Hn as [Hn|[Hge Hn]].
        -- exfalso. apply Hfresh. apply list_elem_of_lookup. eauto.
        -- apply list_lookup_singleton_Some in Hn as [Hn _]. lia.
    + rewrite lookup_insert_ne by done. rewrite Hmap.
      split; intros (n & -> & Hn); exists n; (split; [done|]).
      * by apply lookup_app_l_Some.
      * apply lookup_app_Some in Hn as [Hn|[_ Hn]]; [done|].
        apply list_lookup_singleton_Some in Hn as [_ ?]. congruence.
  - rewrite map_size_insert_None by done. rewrite length_app. cbn. lia.
  - apply Forall2_app.
    + eapply Forall2_impl; [exact Hind|]. cbn.
      intros v k (n & -> & Hn). exists n. split; [done|].
      by apply lookup_app_l_Some.
    + constructor; [|constructor]. exists (length vertices).
      split; [done|]. by rewrite list_lookup_middle.
  - intros j k u v Hjk Hu Hv.
    apply lookup_app_Some in Hv as [Hv|[Hge Hv]].
    + assert (vertices !! j = Some u) as Hu'.
      { apply lookup_app_Some in Hu as [Hu|[Hge _]]; [done|].
        apply lookup_lt_Some in Hv. lia. }
      destruct (Horder j k u v Hjk Hu' Hv) as (i & Hi & Hbefore).
      exists i. split; [by apply lookup_app_l_Some|].
      rewrite take_app_le; [done|]. apply lookup_lt_Some in Hi. lia.
    + apply list_lookup_singleton_Some in Hv as [Hk <-].
      assert (vertices !! j = Some u) as Hu'.
      { apply lookup_app_Some in Hu as [Hu|[Hge' _]]; [done|lia]. }
      assert (u ∈ seen) as [i Hi]%list_elem_of_lookup.
      { apply Helem. apply list_elem_of_lookup. eauto. }
      exists i. split; [by apply lookup_app_l_Some|].
      rewrite take_app_le by (apply lookup_lt_Some in Hi; lia).
      intros Hin. apply Hnotin. by eapply subseteq_take.
Qed.

Lemma indexed_nil : indexed [] (∅ : gmap OctreeGpuVertex Z) [] [].
Proof.
  split; try done.
  - constructor.
  - intros v k. rewrite lookup_empty. split; [done|].
    intros (n & _ & Hn). by rewrite lookup_nil in Hn.
Qed.

(** The loop either ends with the vertices indexed, or fails the assertion
    on the vertex that would be the [2^32]-th one. *)
Lemma index_loop old :
  match foldl_R index_vertex (∅, [], []) old with
  | Ok (vertex_map, vertices, indices) =>
    indexed old vertex_map vertices indices
  | Throw e =>
    e = assertion_failure
          "vertex_map.size() < std::numeric_limits<std::uint32_t>::max()"
    ∧ (UINT32_MAX < Z.of_nat (size (list_to_set old : gset OctreeGpuVertex)))%Z
  end.
Proof.
  induction old as [|vertex old IH] using rev_ind; [apply indexed_nil|].
  rewrite foldl_R_app.
  destruct (foldl_R index_vertex (∅, [], []) old)
    as [[[vertex_map vertices] indices]|e]; cbn [result_bind foldl_R].
  - destruct (vertex_map !! vertex) as [index|] eqn:Hlookup.
    + destruct (index_vertex_known _ _ _ _ vertex IH) as (index' & -> & HP);
        [by rewrite Hlookup|done].
    + destruct (decide (Z.of_nat (size vertex_map) < UINT32_MAX)%Z) as [Hlt|Hge].
      * by destruct (index_vertex_new _ _ _ _ vertex IH Hlookup Hlt)
          as (vertex_map' & -> & HP).
      * unfold index_vertex.
        destruct (decide (vertex_map !! vertex = None)) as [_|]; [|done].
        destruct (decide (Z.of_nat (size vertex_map) < UINT32_MAX)%Z);
          [done|]. cbn. split; [done|].
        pose proof (indexed_not_seen _ _ _ _ _ IH Hlookup) as Hnotin.
        rewrite list_to_set_app_L, size_union.
        -- rewrite (indexed_distinct _ _ _ _ IH).
           rewrite <-(indexed_size _ _ _ _ IH). cbn.
           rewrite union_empty_r_L, size_singleton. lia.
        -- intros v. rewrite !elem_of_list_to_set, list_elem_of_singleton.
           intros ? ->. done.
  - destruct IH as [-> Hbig]. split; [done|].
    eapply Z.lt_le_trans; [exact Hbig|]. apply inj_le.
    apply subseteq_size. intros v. rewrite !elem_of_list_to_set, elem_of_app.
    tauto.
Qed.

Lemma generate_octree_indices_Ok old vertices indices :
  generate_octree_indices old = Ok (vertices, indices) →
  ∃ vertex_map, indexed old vertex_map vertices indices.
Proof.
  unfold generate_octree_indices. intros Hrun. pose proof (index_loop old) as HP.
  destruct (foldl_R index_vertex (∅, [], []) old)
    as [[[vertex_map vertices'] indices']|e]; [|done].
  cbn in Hrun. injection Hrun as <- <-. eauto.
Qed.
End OctreeIndicesProperties.

(** X1: when [generate_octree_indices] returns, there is one index for
    every vertex that was passed, in the same order, and the index of a
    vertex is a position of that vertex in the new vertex vector: drawing
    with the indices gives the vertices that were passed. *)
Theorem generate_octree_indices_round_trip
    {OctreeGpuVertex : Type} `{Countable OctreeGpuVertex}
    (old vertices : list OctreeGpuVertex) (indices : list Z) :
  generate_octree_indices old = Ok (vertices, indices) →
  length indices = length old
  ∧ ∀ i v, old !! i = Some v →
           ∃ n, indices !! i = Some (Z.of_nat n) ∧ vertices !! n = Some v.
Proof.
  intros [vertex_map HP]%generate_octree_indices_Ok.
  pose proof (indexed_indices _ _ _ _ HP) as Hind. split.
  - symmetry. by eapply Forall2_length.
  - intros i v Hi.
    destruct (Forall2_lookup_l _ _ _ _ _ Hind Hi) as (k & Hk & n & -> & Hn).
    eauto.
Qed.

(** X2: when [generate_octree_indices] returns, the new vertex vector
    holds every vertex that was passed exactly once, in the order of their
    first occurrences: it is a subsequence of the vertices passed, and a
    vertex that comes before another one in it occurs among the vertices
    passed before any occurrence of the other.  Every index is a position
    in the new vertex vector. *)
Theorem generate_octree_indices_deduplicates
    {OctreeGpuVertex : Type} `{Countable OctreeGpuVertex}
    (old vertices : list OctreeGpuVertex) (indices : list Z) :
  generate_octree_indices old = Ok (vertices, indices) →
  NoDup vertices
  ∧ (∀ v, v ∈ vertices ↔ v ∈ old)
  ∧ vertices `sublist_of` old
  ∧ (∀ j k u v,
       j < k → vertices !! j = Some u → vertices !! k = Some v →
       ∃ i, old !! i = Some u ∧ v ∉ take i old)
  ∧ Forall (λ k, 0 ≤ k < Z.of_nat (length vertices))%Z indices.
Proof.
  intros [vertex_map HP]%generate_octree_indices_Ok.
  destruct HP as [Hnodup Helem Hsub Hbound Hmap Hsize Hind Horder].
  split_and!; try done.
  apply Forall_lookup. intros i k Hk.
  destruct (Forall2_lookup_r _ _ _ _ _ Hind Hk) as (v & _ & n & -> & Hn).
  apply lookup_lt_Some in Hn. lia.
Qed.

Lemma sublist_same_length {A} (l1 l2 : list A) :
  l1 `sublist_of` l2 → length l1 = length l2 → l1 = l2.
Proof.
  induction 1 as [|x l1 l2 Hsub IH|x l1 l2 Hsub IH]; cbn; intros Hlen.
  - done.
  - f_equal. apply IH. lia.
  - apply sublist_length in Hsub. lia.
Qed.

(** X3: [generate_octree_indices] returns vertices that are already
    distinct as they are, with the indices [0, 1, ..., n-1]. *)
Theorem generate_octree_indices_of_distinct
    {OctreeGpuVertex : Type} `{Countable OctreeGpuVertex}
    (old : list OctreeGpuVertex) :
  NoDup old →
  (Z.of_nat (length old) ≤ UINT32_MAX)%Z →
  generate_octree_indices old = Ok (old, Z.of_nat <$> seq 0 (length old)).
Proof.
  intros Hnodup Hlen. unfold generate_octree_indices.
  pose proof (index_loop old) as HP.
  destruct (foldl_R index_vertex (∅, [], []) old)
    as [[[vertex_map vertices] indices]|e]; cbn.
  - assert (vertices = old) as ->.
    { apply sublist_same_length; [apply (indexed_sublist _ _ _ _ HP)|].
      rewrite <-(indexed_distinct _ _ _ _ HP). by apply size_list_to_set. }
    do 2 f_equal. apply list_eq. intros i.
    pose proof (indexed_indices _ _ _ _ HP) as Hind.
    rewrite list_lookup_fmap.
    destruct (old !! i) as [v|] eqn:Hi.
    + destruct (Forall2_lookup_l _ _ _ _ _ Hind Hi) as (k & -> & n & -> & Hn).
      rewrite (NoDup_lookup _ _ _ _ Hnodup Hn Hi).
      apply lookup_lt_Some in Hi. by rewrite lookup_seq_lt.
    + apply lookup_ge_None in Hi. rewrite lookup_seq_ge by done. cbn.
      apply lookup_ge_None. by rewrite <-(Forall2_length _ _ _ Hind).
  - destruct HP as [_ Hbig]. rewrite size_list_to_set in Hbig by done. lia.
Qed.

(** X4: [generate_octree_indices] returns exactly when at most [2^32 - 1]
    distinct vertices are passed; with more, it fails its assertion. *)
Theorem generate_octree_indices_limit
    {OctreeGpuVertex : Type} `{Countable OctreeGpuVertex}
    (old : list OctreeGpuVertex) :
  match generate_octree_indices old with
  | Ok _ =>
    (Z.of_nat (size (list_to_set old : gset OctreeGpuVertex)) ≤ UINT32_MAX)%Z
  | Throw e =>
    (UINT32_MAX < Z.of_nat (size (list_to_set old : gset OctreeGpuVertex)))%Z
    ∧ e = assertion_failure
            "vertex_map.size() < std::numeric_limits<std::uint32_t>::max()"
  end.
Proof.
  unfold generate_octree_indices. pose proof (index_loop old) as HP.
  destruct (foldl_R index_vertex (∅, [], []) old)
    as [[[vertex_map vertices] indices]|e]; cbn.
  - rewrite (indexed_distinct _ _ _ _ HP). apply (indexed_bound _ _ _ _ HP).
  - destruct HP. done.
Qed.

(** ** Reuse and moves of the pipeline builder *)

(** What [build] does when no assertion fails: one creation call, and the
    builder is reset when the device accepts it. *)
Lemma build_buildable vk name b dev :
  buildable name b →
  ∃ created,
    build vk name b dev
    = (if vk (CreateGraphicsPipeline {| pipelines.gp_builder := created;
                                        pipelines.gp_name := name |})
       then (Ok {| pipeline := length dev; pipeline_name := name |},
             reset created,
             dev ++ [CreateGraphicsPipeline
                       {| pipelines.gp_builder := created;
                          pipelines.gp_name := name |}])
       else (Throw (VulkanException
                      (CreateGraphicsPipeline
                         {| pipelines.gp_builder := created;
                            pipelines.gp_name := name |})),
             created,
             dev ++ [CreateGraphicsPipeline
                       {| pipelines.gp_builder := created;
                          pipelines.gp_name := name |}]))
    ∧ pipelines.m_shader_stages created = pipelines.m_shader_stages b
    ∧ pipelines.m_vertex_input_binding_descriptions created
      = pipelines.m_vertex_input_binding_descriptions b
    ∧ pipelines.m_vertex_input_attribute_descriptions created
      = pipelines.m_vertex_input_attribute_descriptions b
    ∧ pipelines.m_viewports created = pipelines.m_viewports b
    ∧ pipelines.m_scissors created = pipelines.m_scissors b
    ∧ pipelines.m_rasterization_sci created = pipelines.m_rasterization_sci b
    ∧ pipelines.m_pipeline_layout created = pipelines.m_pipeline_layout b
    ∧ pipelines.m_vertex_input_sci created
      = {| vi_sType := VK_STRUCTURE_TYPE_PIPELINE_VERTEX_INPUT_STATE_CREATE_INFO;
           vertexBindingDescriptionCount :=
             to_uint32 (Z.of_nat
               (length (pipelines.m_vertex_input_binding_descriptions b)));
           pVertexBindingDescriptions := member_address;
           vertexAttributeDescriptionCount :=
             to_uint32 (Z.of_nat
               (length (pipelines.m_vertex_input_attribute_descriptions b)));
           pVertexAttributeDescriptions := member_address |}
    ∧ pipelines.m_viewport_sci created
      = {| vp_sType := VK_STRUCTURE_TYPE_PIPELINE_VIEWPORT_STATE_CREATE_INFO;
           viewportCount :=
             to_uint32 (Z.of_nat (length (pipelines.m_viewports b)));
           pViewports := member_address;
           scissorCount :=
             to_uint32 (Z.of_nat (length (pipelines.m_scissors b)));
           pScissors := member_address |}
    ∧ pipelines.m_pipeline_rendering_ci created
      = {| pr_sType := VK_STRUCTURE_TYPE_PIPELINE_RENDERING_CREATE_INFO;
           colorAttachmentCount := 1;
           pColorAttachmentFormats := member_address;
           depthAttachmentFormat := pipelines.m_depth_attachment_format b;
           stencilAttachmentFormat :=
             pipelines.m_stencil_attachment_format b |}.
Proof.
  intros (Hname & Hbindings & Hattributes & Hviewports & Hscissors & Hlayout).
  unfold build.
  destruct (decide (name = EmptyString)); [done|].
  destruct (decide (pipelines.m_vertex_input_binding_descriptions b = []));
    [done|].
  destruct (decide (pipelines.m_vertex_input_attribute_descriptions b = []));
    [done|].
  cbn.
  destruct (decide (pipelines.m_viewports b = [])); [done|].
  destruct (decide (pipelines.m_scissors b = [])); [done|].
  cbn.
  destruct (decide (pipelines.m_dynamic_states b = [])); cbn;
    (destruct (decide (pipelines.m_pipeline_layout b = None)); [done|]);
    eexists; (split; [reflexivity|]); cbn; split_and!; reflexivity.
Qed.

(** X5: when the name, the vertex input bindings and attributes, the
    viewports, the scissors and the pipeline layout are set, [build] makes
    exactly one creation call, whatever the device answers.  The create
    info holds the numbers of bindings, attributes, viewports and scissors
    of the builder and always one color attachment, and when the device
    accepts the call, [build] returns the pipeline of that call. *)
Theorem build_creates_one_pipeline
    (vk : GpuCall → bool) (name : string)
    (b : pipelines.GraphicsPipelineBuilder) (dev : list GpuCall) :
  buildable name b →
  (Z.of_nat (length (pipelines.m_vertex_input_binding_descriptions b)) < 2 ^ 32)%Z →
  (Z.of_nat (length (pipelines.m_vertex_input_attribute_descriptions b)) < 2 ^ 32)%Z →
  (Z.of_nat (length (pipelines.m_viewports b)) < 2 ^ 32)%Z →
  (Z.of_nat (length (pipelines.m_scissors b)) < 2 ^ 32)%Z →
  ∃ ci,
    (build vk name b dev).2 = dev ++ [CreateGraphicsPipeline ci]
    ∧ pipelines.gp_name ci = name
    ∧ (vk (CreateGraphicsPipeline ci) = true →
       (build vk name b dev).1.1
       = Ok {| pipeline := length dev; pipeline_name := name |})
    ∧ pipelines.m_shader_stages (pipelines.gp_builder ci)
      = pipelines.m_shader_stages b
    ∧ pipelines.m_pipeline_layout (pipelines.gp_builder ci)
      = pipelines.m_pipeline_layout b
    ∧ vertexBindingDescriptionCount
        (pipelines.m_vertex_input_sci (pipelines.gp_builder ci))
      = Z.of_nat (length (pipelines.m_vertex_input_binding_descriptions b))
    ∧ vertexAttributeDescriptionCount
        (pipelines.m_vertex_input_sci (pipelines.gp_builder ci))
      = Z.of_nat (length (pipelines.m_vertex_input_attribute_descriptions b))
    ∧ viewportCount (pipelines.m_viewport_sci (pipelines.gp_builder ci))
      = Z.of_nat (length (pipelines.m_viewports b))
    ∧ scissorCount (pipelines.m_viewport_sci (pipelines.gp_builder ci))
      = Z.of_nat (length (pipelines.m_scissors b))
    ∧ colorAttachmentCount
        (pipelines.m_pipeline_rendering_ci (pipelines.gp_builder ci)) = 1%Z.
Proof.
  intros Hb Hbindings Hattributes Hviewports Hscissors.
  destruct (build_buildable vk name b dev Hb)
    as (created & Hbuild & Hshaders & _ & _ & _ & _ & _ & Hlayout
        & Hvi & Hvp & Hpr).
  exists {| pipelines.gp_builder := created; pipelines.gp_name := name |}.
  rewrite Hbuild. cbn [pipelines.gp_builder pipelines.gp_name].
  rewrite Hvi, Hvp, Hpr. cbn.
  rewrite !to_uint32_small by lia.
  split_and!; try done.
  - by destruct (vk _).
  - by intros ->.
Qed.

(** X6: after a [build] that returned, a second [build] on the same
    builder, with whatever name, fails an assertion and makes no creation
    call: the builder has to be set up again. *)
Theorem build_twice_fails
    (vk vk' : GpuCall → bool) (name name' : string)
    (b b' : pipelines.GraphicsPipelineBuilder) (dev dev' : list GpuCall)
    (p : GraphicsPipeline) :
  build vk name b dev = (Ok p, b', dev') →
  ∃ condition,
    build vk' name' b' dev' = (Throw (assertion_failure condition), b', dev').
Proof.
  intros (created & -> & _)%build_Ok. unfold build.
  destruct (decide (name' = EmptyString)); [by eexists|].
  cbn. by eexists.
Qed.

(** X7: a pipeline built from a move-constructed builder gets the shader
    stages, vertex input, viewports, scissors and pipeline layout of the
    builder that was moved, but not its rasterization state: the move
    constructor assigns [m_rasterization_sci] from itself, and the create
    info holds a zeroed rasterization state (no structure type, no
    culling, line width 0).  The push constant ranges and the descriptor
    set layout of the moved builder are dropped as well. *)
Theorem build_after_move_loses_rasterization
    (vk : GpuCall → bool) (name : string)
    (other b' : pipelines.GraphicsPipelineBuilder) (dev dev' : list GpuCall)
    (p : GraphicsPipeline) :
  build vk name (move_GraphicsPipelineBuilder other) dev = (Ok p, b', dev') →
  ∃ ci,
    dev' = dev ++ [CreateGraphicsPipeline ci]
    ∧ pipelines.m_shader_stages (pipelines.gp_builder ci)
      = pipelines.m_shader_stages other
    ∧ pipelines.m_vertex_input_binding_descriptions (pipelines.gp_builder ci)
      = pipelines.m_vertex_input_binding_descriptions other
    ∧ pipelines.m_vertex_input_attribute_descriptions (pipelines.gp_builder ci)
      = pipelines.m_vertex_input_attribute_descriptions other
    ∧ pipelines.m_viewports (pipelines.gp_builder ci)
      = pipelines.m_viewports other
    ∧ pipelines.m_scissors (pipelines.gp_builder ci)
      = pipelines.m_scissors other
    ∧ pipelines.m_pipeline_layout (pipelines.gp_builder ci)
      = pipelines.m_pipeline_layout other
    ∧ pipelines.m_rasterization_sci (pipelines.gp_builder ci)
      = {| rs_sType := VK_STRUCTURE_TYPE_APPLICATION_INFO;
           polygonMode := VK_POLYGON_MODE_FILL;
           cullMode := VK_CULL_MODE_NONE;
           frontFace := VK_FRONT_FACE_COUNTER_CLOCKWISE;
           lineWidth := 0 |}
    ∧ pipelines.m_push_constant_ranges (pipelines.gp_builder ci) = []
    ∧ pipelines.m_descriptor_set_layout (pipelines.gp_builder ci) = None.
Proof.
  intros Hbuild.
  assert (buildable name (move_GraphicsPipelineBuilder other)) as Hb.
  { revert Hbuild. unfold build, buildable.
    repeat (destruct (decide _) as [?|?]; [done|]); try done.
    all: cbn in *; done. }
  destruct (build_buildable vk name _ dev Hb)
    as (created & Hrun & Hshaders & Hbind & Hattr & Hview & Hsciss & Hraster
        & Hlayout & _).
  pose proof Hbuild as (created' & _ & _ & _ & Hpush & Hdescr & ->)%build_Ok.
  rewrite Hbuild in Hrun.
  assert (created' = created) as ->.
  { destruct (vk _); [|done]. apply (f_equal snd) in Hrun. cbn in Hrun.
    apply app_inv_head in Hrun. by injection Hrun. }
  eexists. split; [reflexivity|]. cbn [pipelines.gp_builder].
  rewrite Hshaders, Hbind, Hattr, Hview, Hsciss, Hraster, Hlayout, Hpush, Hdescr.
  split_and!; reflexivity.
Qed.

(** ** Binding indices of vertex buffers *)

(** X8: [bind_buffer] stores the binding index of a buffer that has none,
    keeps the index of a buffer that has one, and leaves the other buffers
    alone; binding a buffer a second time changes nothing. *)
Theorem bind_buffer_keeps_first_binding
    (b : nat) (i j : Z) (s : GraphicsStage) :
  m_buffer_bindings (bind_buffer b i s) !! b
  = Some (default i (m_buffer_bindings s !! b))
  ∧ (∀ b', b' ≠ b →
       m_buffer_bindings (bind_buffer b i s) !! b' = m_buffer_bindings s !! b')
  ∧ bind_buffer b j (bind_buffer b i s) = bind_buffer b i s.
Proof.
  unfold bind_buffer. cbn.
  destruct (m_buffer_bindings s !! b) as [k|] eqn:Hb; cbn.
  - rewrite Hb. by split_and!.
  - rewrite lookup_insert_eq. split_and!; [done| |done].
    intros b' Hne. by rewrite lookup_insert_ne.
Qed.

(** ** What [compile] leaves alone *)

(** X9: whether it returns or throws, [compile] changes nothing of what
    was declared: the swapchain, the stages up to their physical stage, the
    buffer resources (with their data and upload flags) and the texture
    resources up to their physical resource are as before.  It appends to
    the stage stack, it appends calls to the device log (the creation
    calls, and the destruction calls for the physical objects that it
    replaces) and takes none away, and it records no command. *)
Theorem compile_keeps_declarations
    (vk : GpuCall → bool) (fuel : nat) (target : ResourceRef) (w w' : World)
    (outcome : Result unit) :
  compile vk fuel target w = Some (outcome, w') →
  m_swapchain (graph w') = m_swapchain (graph w)
  ∧ stage_decl <$> m_stages (graph w') = stage_decl <$> m_stages (graph w)
  ∧ buffer_decl <$> m_buffer_resources (graph w')
    = buffer_decl <$> m_buffer_resources (graph w)
  ∧ texture_decl <$> m_texture_resources (graph w')
    = texture_decl <$> m_texture_resources (graph w)
  ∧ m_stage_stack (graph w) `prefix_of` m_stage_stack (graph w')
  ∧ device w `prefix_of` device w'
  ∧ cmd_buf w' = cmd_buf w.
Proof.
  intros (stack & Hstack & Hout)%compile_Some.
  pose proof (compile_physical_same_declarations vk stack w) as Hsame.
  rewrite <-Hout in Hsame. cbn in Hsame.
  destruct Hsame as [Hsw Hst Hbuf Htex Hstk Hdev Hcmd]. cbn in *.
  split_and!; try done.
  rewrite Hstk. by apply dfs_from_grows in Hstack as [? _].
Qed.

(** ** The passes of the execution order *)

Section OrderProperties.
Variable stages : list RenderStage.
Local Abbreviation dep := (depends_on stages).

Lemma depends_on_flat_map s w :
  w ∈ flat_map (λ resource, build_writers stages !!! resource)
               (reads_of stages s)
  ↔ dep s w.
Proof.
  rewrite list_elem_of_In, in_flat_map. unfold depends_on.
  setoid_rewrite <-list_elem_of_In. done.
Qed.

Lemma elem_of_concat_visits {A B} (f : A → option (list B))
    (l : list A) (outs : list (list B)) (x : B) :
  Forall2 (λ a out, f a = Some out) l outs →
  x ∈ concat outs ↔ ∃ a out, a ∈ l ∧ f a = Some out ∧ x ∈ out.
Proof.
  induction 1 as [|a out l outs Ha _ IH]; cbn.
  - split; [by intros ?%elem_of_nil|]. by intros (? & ? & ?%elem_of_nil & _).
  - rewrite elem_of_app, IH. split.
    + intros [Hx|(a' & out' & ? & ? & ?)].
      * exists a, out. split_and!; [left|done..].
      * exists a', out'. split_and!; [by right|done..].
    + intros (a' & out' & [->|Hin]%elem_of_cons & Hp & Hx).
      * left. congruence.
      * right. eauto.
Qed.

(** A completed visit of [s] appends exactly the stages that [s] depends
    on, directly or through other stages, and [s]. *)
Lemma dfs_elements fuel s out :
  dfs stages fuel s [] = Some out → ∀ x, x ∈ out ↔ rtc dep s x.
Proof.
  revert s out. induction fuel as [|fuel IH]; intros s out; [done|].
  intros (outs & Houts & ->)%dfs_visits x.
  rewrite elem_of_app, list_elem_of_singleton.
  rewrite (elem_of_concat_visits _ _ _ _ Houts). split.
  - intros [(w & out & Hw & Hout & Hx)| ->]; [|done].
    eapply rtc_l; [by apply depends_on_flat_map|]. by eapply IH.
  - intros Hreach. destruct (rtc_inv _ _ Hreach) as [->|(w & Hsw & Hwx)];
      [by right|left].
    apply depends_on_flat_map in Hsw.
    apply list_elem_of_lookup in Hsw as [i Hi].
    destruct (Forall2_lookup_l _ _ _ _ _ Houts Hi) as (out & _ & Hout).
    exists w, out. split_and!; [by eapply list_elem_of_lookup_2|done|].
    by eapply IH.
Qed.

(** The search from the writers of [target] on an empty stack: one
    completed visit for each writer, one after the other. *)
Lemma dfs_from_visits fuel target order :
  dfs_from stages fuel target [] = Some order →
  ∃ outs,
    Forall2 (λ s out, dfs stages fuel s [] = Some out)
            (build_writers stages !!! target) outs
    ∧ order = concat outs.
Proof.
  unfold dfs_from. intros Hloop.
  apply (foldl_opt_mono _ (λ st w, (st ++.) <$> dfs stages fuel w [])) in Hloop.
  - by apply foldl_opt_visits in Hloop as (outs & Houts & ->); eauto.
  - intros w st1 st2. by rewrite dfs_appends.
Qed.

Lemma dfs_from_elements fuel target order :
  dfs_from stages fuel target [] = Some order →
  ∀ s, s ∈ order ↔ ∃ s0, writes stages s0 target ∧ rtc dep s0 s.
Proof.
  intros (outs & Houts & ->)%dfs_from_visits s.
  rewrite (elem_of_concat_visits _ _ _ _ Houts). split.
  - intros (s0 & out & Hs0 & Hout & Hs). exists s0.
    split; [by apply elem_of_build_writers|]. by eapply dfs_elements.
  - intros (s0 & Hs0%elem_of_build_writers & Hreach).
    apply list_elem_of_lookup in Hs0 as [i Hi].
    destruct (Forall2_lookup_l _ _ _ _ _ Houts Hi) as (out & _ & Hout).
    exists s0, out. split_and!; [by eapply list_elem_of_lookup_2|done|].
    by eapply dfs_elements.
Qed.

Lemma dfs_last fuel s out : dfs stages fuel s [] = Some out → last out = Some s.
Proof.
  destruct fuel as [|fuel]; [done|].
  intros (outs & _ & ->)%dfs_visits. by rewrite last_snoc.
Qed.

Lemma last_concat_visits {A} (l : list A) (outs : list (list A)) :
  Forall2 (λ a out, last out = Some a) l outs → last (concat outs) = last l.
Proof.
  induction 1 as [|a out l outs Ha Hrest IH]; [done|]. cbn [concat].
  rewrite last_app, IH. destruct Hrest as [|a' out' l outs]; [done|].
  rewrite !last_cons. by destruct (last l).
Qed.

Lemma dfs_from_last fuel target order :
  dfs_from stages fuel target [] = Some order →
  last order = last (build_writers stages !!! target).
Proof.
  intros (outs & Houts & ->)%dfs_from_visits.
  apply last_concat_visits. eapply Forall2_impl; [exact Houts|].
  intros s out. apply dfs_last.
Qed.
End OrderProperties.

(** X10: after the first [compile] of a graph, a pass is in the execution
    order exactly when the target depends on it: it writes the target, or
    it writes a resource that a pass of the order reads.  Passes on which
    the target does not depend are left out. *)
Theorem compile_order_is_dependencies
    (vk : GpuCall → bool) (fuel : nat) (target : ResourceRef) (w w' : World)
    (outcome : Result unit) :
  compile vk fuel target w = Some (outcome, w') →
  m_stage_stack (graph w) = [] →
  ∀ s, s ∈ m_stage_stack (graph w')
       ↔ ∃ s0, writes (m_stages (graph w)) s0 target
               ∧ rtc (depends_on (m_stages (graph w))) s0 s.
Proof.
  intros (stack & Hstack & Hout)%compile_Some Hempty s.
  pose proof (compile_physical_stage_stack vk stack w) as Hstk.
  rewrite <-Hout in Hstk. cbn in Hstk. rewrite Hstk.
  rewrite Hempty in Hstack. by apply (dfs_from_elements _ fuel).
Qed.

Lemma fold_add_writer_lookup (s : nat) (rs : list ResourceRef)
    (writers : gmap ResourceRef (list nat)) (r : ResourceRef) :
  ∃ k, foldl (add_writer s) writers rs !!! r = writers !!! r ++ replicate k s.
Proof.
  revert writers. induction rs as [|r' rs IH]; intros writers; cbn [foldl].
  - exists 0. by rewrite app_nil_r.
  - destruct (IH (add_writer s writers r')) as [k ->]. unfold add_writer.
    destruct (decide (r = r')) as [->|Hne].
    + rewrite lookup_total_insert_eq. exists (S k). by rewrite <-app_assoc.
    + rewrite lookup_total_insert_ne by done. by exists k.
Qed.

(** The writers of a resource are listed in the order of the stages. *)
Lemma build_writers_last (stages : list RenderStage) (r : ResourceRef) (s : nat) :
  last (build_writers stages !!! r) = Some s →
  ∀ s', s' ∈ build_writers stages !!! r → s' ≤ s.
Proof.
  revert s. induction stages as [|st stages IH] using rev_ind; intros s.
  - unfold build_writers. cbn. by rewrite lookup_total_empty.
  - rewrite build_writers_snoc.
    destruct (fold_add_writer_lookup (length stages) (m_writes st)
                (build_writers stages) r) as [k ->].
    destruct k as [|k].
    + cbn. rewrite app_nil_r. apply IH.
    + replace (replicate (S k) (length stages))
        with (replicate k (length stages) ++ [length stages])
        by (by rewrite <-replicate_S_end).
      rewrite app_assoc, last_snoc. intros [= <-] s'.
      rewrite !elem_of_app, list_elem_of_singleton.
      intros [[Hold|[-> _]%elem_of_replicate]| ->]; [|done..].
      apply writer_lt_length in Hold. lia.
Qed.

(** X11: after the first [compile] of a graph, the execution order is
    empty exactly when no pass writes the target; otherwise its last pass
    writes the target, and it is the one declared last among the passes
    that do. *)
Theorem compile_order_ends_with_writer
    (vk : GpuCall → bool) (fuel : nat) (target : ResourceRef) (w w' : World)
    (outcome : Result unit) :
  compile vk fuel target w = Some (outcome, w') →
  m_stage_stack (graph w) = [] →
  (m_stage_stack (graph w') = []
   ↔ ∀ s, ¬ writes (m_stages (graph w)) s target)
  ∧ ∀ s, last (m_stage_stack (graph w')) = Some s →
         writes (m_stages (graph w)) s target
         ∧ ∀ s', writes (m_stages (graph w)) s' target → s' ≤ s.
Proof.
  intros (stack & Hstack & Hout)%compile_Some Hempty.
  pose proof (compile_physical_stage_stack vk stack w) as Hstk.
  rewrite <-Hout in Hstk. cbn in Hstk. rewrite Hstk.
  rewrite Hempty in Hstack. pose proof (dfs_from_last _ fuel _ _ Hstack) as Hlast.
  split.
  - rewrite <-last_None, Hlast, last_None. split.
    + intros Hnil s Hs%elem_of_build_writers. rewrite Hnil in Hs.
      by apply elem_of_nil in Hs.
    + intros Hnone.
      destruct (build_writers _ !!! target) as [|s l] eqn:Hw; [done|].
      exfalso. apply (Hnone s), elem_of_build_writers. rewrite Hw. by left.
  - intros s Hs. rewrite Hlast in Hs. split.
    + apply elem_of_build_writers. by apply last_Some_elem_of.
    + intros s' Hs'%elem_of_build_writers. by eapply build_writers_last.
Qed.

(** ** A target that no pass writes *)

Global Instance resources_only_preorder : PreOrder resources_only.
Proof.
  split.
  - intros w. split_and!; try done. exists []. by rewrite app_nil_r.
  - intros w1 w2 w3 (? & ? & ? & c1 & Hd1 & Hc1) (? & ? & ? & c2 & Hd2 & Hc2).
    split_and!; try congruence. exists (c1 ++ c2).
    split; [by rewrite Hd2, Hd1, app_assoc|by apply Forall_app].
Qed.

Lemma alter_buffer_resources_only b f :
  preserves resources_only (alter_buffer b f).
Proof. intros w. cbn. split_and!; try done. exists []. by rewrite app_nil_r. Qed.

Lemma alter_texture_resources_only t f :
  preserves resources_only (alter_texture t f).
Proof. intros w. cbn. split_and!; try done. exists []. by rewrite app_nil_r. Qed.

Lemma log_call_resources_only c w :
  resource_call c → resources_only w (log_call c w).
Proof.
  intros Hc. split_and!; try done. exists [c]. split; [done|].
  by repeat constructor.
Qed.

Lemma create_image_resources_only vk fmt width height usage :
  preserves resources_only
            (gpu_create vk (CreateImage fmt width height usage)).
Proof.
  intros w. unfold gpu_create. by destruct (vk _); apply log_call_resources_only.
Qed.

Lemma release_physical_buffer_resources_only old :
  preserves resources_only (release_physical_buffer old).
Proof.
  intros w. destruct old as [[[old_buffer|]]|]; cbn; try reflexivity.
  by apply log_call_resources_only.
Qed.

Lemma release_physical_texture_resources_only old :
  preserves resources_only (release_physical_texture old).
Proof.
  intros w. destruct old as [[|old_image]|]; cbn; try reflexivity.
  by apply log_call_resources_only.
Qed.

(** The steps that are the same for every relation between worlds. *)
Ltac preserves_step :=
  lazymatch goal with
  | |- PreOrder _ => apply _
  | |- preserves _ (ret _) => apply preserves_ret
  | |- preserves _ (throw _) => apply preserves_throw
  | |- preserves _ (assert_ _ _) => apply preserves_assert
  | |- preserves _ (deref _) => apply preserves_deref
  | |- preserves _ (at_ _) => apply preserves_at
  | |- preserves _ get_graph => apply preserves_get_graph
  | |- preserves _ (get_stage _) => apply preserves_get_stage
  | |- preserves _ (bind _ _) =>
      refine (preserves_bind _ _ _ _ _); [|intros ?]
  | |- preserves _ (foldl_M _ _ _) =>
      refine (preserves_foldl_M _ _ _ _ _); intros ? ? _
  | |- preserves _ (for_each _ _) =>
      refine (preserves_for_each _ _ _ _); intros ? _
  end.

Lemma allocate_buffers_resources_only :
  preserves resources_only allocate_buffers.
Proof.
  unfold allocate_buffers, allocate_buffer. repeat preserves_step;
    [apply release_physical_buffer_resources_only
    |apply alter_buffer_resources_only].
Qed.

Lemma allocate_textures_resources_only vk :
  preserves resources_only (allocate_textures vk).
Proof.
  unfold allocate_textures, allocate_texture. repeat preserves_step;
    [apply release_physical_texture_resources_only|].
  destruct (decide _); [apply alter_texture_resources_only|].
  repeat preserves_step;
    [apply alter_texture_resources_only|apply create_image_resources_only
    |apply alter_texture_resources_only].
Qed.

(** X12: when no pass writes the target, a [compile] on a graph with an
    empty stage stack returns without a single visit of the search and
    leaves the execution order empty: no physical stage is built, the only
    calls on the device are those for the resources (the device buffers
    and images that are replaced are destroyed, and the images of the
    textures are created), and a later [render] records no command. *)
Theorem compile_without_writer
    (vk : GpuCall → bool) (fuel : nat) (target : ResourceRef) (w : World) :
  (∀ s, ¬ writes (m_stages (graph w)) s target) →
  m_stage_stack (graph w) = [] →
  ∃ outcome w',
    compile vk fuel target w = Some (outcome, w')
    ∧ m_stage_stack (graph w') = []
    ∧ resources_only w w'
    ∧ ∀ vk' image_index, cmd_buf (render vk' image_index w').2 = cmd_buf w'.
Proof.
  intros Hnone Hempty.
  assert (build_writers (m_stages (graph w)) !!! target = []) as Hwriters.
  { destruct (build_writers _ !!! target) as [|s l] eqn:Hw; [done|].
    exfalso. apply (Hnone s), elem_of_build_writers. rewrite Hw. by left. }
  unfold compile, dfs_from. rewrite Hwriters, Hempty. cbn [foldl_opt].
  destruct (compile_physical vk [] w) as [outcome w'] eqn:Hphys.
  exists outcome, w'. split; [done|].
  assert (resources_only w w') as Himages.
  { assert (preserves resources_only
              (allocate_buffers >> allocate_textures vk >>
               for_each [] (build_physical_stage vk))) as Hpres.
    { change (for_each [] (build_physical_stage vk)) with (ret (A:=unit) tt).
      repeat preserves_step;
        [apply allocate_buffers_resources_only
        |apply allocate_textures_resources_only]. }
    revert Hphys. unfold compile_physical. unfold bind at 1.
    cbn [modify_graph]. intros Hphys.
    specialize (Hpres {| graph := with_stage_stack [] (graph w);
                         device := device w; cmd_buf := cmd_buf w |}).
    rewrite Hphys in Hpres. cbn in Hpres.
    destruct Hpres as (? & Hstk & ? & ?). cbn in *.
    split_and!; try done. congruence. }
  pose proof Himages as (_ & Hstack & _). rewrite Hempty in Hstack.
  split_and!; [done..|]. intros vk' image_index.
  destruct (update_dynamic_buffers_spec vk' w')
    as (o1 & w1 & Hupd & Hsame & _).
  unfold render, bind at 1. rewrite Hupd.
  destruct Hsame as (_ & _ & _ & Hstk & Hcmd & _).
  destruct o1 as [[]|e]; [|done].
  unfold bind. cbn [get_graph]. by rewrite Hstk, Hstack.
Qed.

(** ** The attachment references of a render pass *)

Lemma render_pass_references g gs writes_ :
  (render_pass_vectors g gs writes_).1.2
  = omap (colour_reference g) (imap pair writes_)
  ∧ (render_pass_vectors g gs writes_).2
    = omap (depth_reference g) (imap pair writes_).
Proof.
  induction writes_ as [|resource writes_ [IHc IHd]] using rev_ind; [done|].
  rewrite render_pass_vectors_snoc, imap_app, !omap_app.
  cbn [imap list_omap omap]. rewrite Nat.add_0_r. unfold render_pass_step.
  destruct (render_pass_vectors g gs writes_) as [[attachments colour] depth].
  cbn [fst snd] in *. subst colour depth.
  unfold colour_reference, depth_reference. cbn [fst snd].
  destruct (as_TextureResource g resource) as [texture|];
    [|by rewrite !app_nil_r].
  destruct (tex_usage texture) eqn:Husage; cbn [fst snd];
    (destruct (decide _) as [?|?]; [try done|try done]);
    by rewrite ?app_nil_r.
Qed.

Lemma head_omap_Some {A B} (f : A → option B) (l : list A) (y : B) :
  head (omap f l) = Some y
  ↔ ∃ i x, l !! i = Some x ∧ f x = Some y
           ∧ ∀ j z, j < i → l !! j = Some z → f z = None.
Proof.
  induction l as [|a l IH]; cbn [omap list_omap].
  - split; [done|]. by intros (i & x & ? & _).
  - destruct (f a) as [b|] eqn:Ha; cbn.
    + split.
      * intros [= ->]. exists 0, a. split_and!; [done..|]. intros; lia.
      * intros ([|i] & x & Hx & Hfx & Hbefore).
        -- cbn in Hx. congruence.
        -- specialize (Hbefore 0 a). cbn in Hbefore. rewrite Ha in Hbefore.
           discriminate Hbefore; [lia|done].
    + rewrite IH. split.
      * intros (i & x & Hx & Hfx & Hbefore). exists (S i), x.
        split_and!; [done..|]. intros [|j] z Hj; cbn; [congruence|].
        apply Hbefore. lia.
      * intros ([|i] & x & Hx & Hfx & Hbefore); cbn in Hx; [congruence|].
        exists i, x. split_and!; [done..|]. intros j z Hj Hz.
        apply (Hbefore (S j)); [lia|done].
Qed.

Lemma head_omap_None {A B} (f : A → option B) (l : list A) :
  head (omap f l) = None ↔ ∀ x, x ∈ l → f x = None.
Proof.
  induction l as [|a l IH]; cbn [omap list_omap].
  - split; [|done]. by intros _ x ?%elem_of_nil.
  - destruct (f a) as [b|] eqn:Ha; cbn.
    + split; [done|]. intros H. rewrite (H a) in Ha; [done|by left].
    + rewrite IH. split.
      * intros H x [->|Hx]%elem_of_cons; [done|by apply H].
      * intros H x Hx. apply H. by right.
Qed.

Lemma depth_reference_None g i resource :
  depth_reference g (i, resource) = None ↔ is_depth_buffer g resource = false.
Proof.
  unfold depth_reference, is_depth_buffer. cbn.
  destruct (as_TextureResource g resource) as [texture|]; [|done].
  destruct (decide _) as [Hdepth|Hother].
  - by rewrite bool_decide_eq_true_2.
  - by rewrite bool_decide_eq_false_2.
Qed.

Lemma colour_references_length g (writes_ : list ResourceRef) :
  Forall (λ resource, is_Some (as_TextureResource g resource)) writes_ →
  length (omap (colour_reference g) (imap pair writes_))
  = length (filter (λ resource, is_depth_buffer g resource = false) writes_).
Proof.
  induction writes_ as [|resource writes_ IH] using rev_ind; [done|].
  intros [Hall [[texture Htexture] _]%Forall_cons]%Forall_app.
  rewrite imap_app, omap_app, filter_app, !length_app, IH by done.
  f_equal. rewrite filter_cons, filter_nil.
  cbn [imap omap list_omap]. unfold colour_reference, is_depth_buffer.
  cbn [fst snd]. rewrite Htexture.
  destruct (decide (tex_usage texture = _)) as [Hdepth|Hother].
  - rewrite bool_decide_eq_true_2 by done. by rewrite decide_False.
  - rewrite bool_decide_eq_false_2 by done. by rewrite decide_True.
Qed.

(** X13: in the render pass that [build_render_pass] creates for a stage
    whose writes are all textures, every written texture has its
    description at its position among the writes, and the attachment
    index of a reference is that position.  A texture that is no depth
    buffer has its colour reference, with the colour layout.  The subpass
    has one depth reference at most: that of the first depth buffer among
    the writes, with the depth layout; a depth buffer written after
    another one has a description and no reference, and there is no depth
    reference exactly when no depth buffer is written. *)
Theorem render_pass_references_point_at_descriptions
    (vk : GpuCall → bool) (s : nat) (st : RenderStage) (gs : GraphicsStage)
    (w : World) :
  Forall (λ resource, is_Some (as_TextureResource (graph w) resource))
         (m_writes st) →
  (Z.of_nat (length (m_writes st)) < 2 ^ 32)%Z →
  ∃ attachments colour_refs depth_ref,
    device (build_render_pass vk s st gs w).2
    = device w ++
      [CreateRenderPass (m_name st) attachments colour_refs depth_ref]
    ∧ length attachments = length (m_writes st)
    ∧ length colour_refs
      = length (filter (λ resource, is_depth_buffer (graph w) resource = false)
                       (m_writes st))
    ∧ (depth_ref = None
       ↔ ∀ resource, resource ∈ m_writes st →
                     is_depth_buffer (graph w) resource = false)
    ∧ ∀ i resource texture,
        m_writes st !! i = Some resource →
        as_TextureResource (graph w) resource = Some texture →
        (∃ a, attachments !! i = Some a ∧ att_format a = tex_format texture)
        ∧ if decide (tex_usage texture = DEPTH_STENCIL_BUFFER)
          then depth_ref
               = Some {| ref_attachment := Z.of_nat i;
                         ref_layout :=
                           VK_IMAGE_LAYOUT_DEPTH_STENCIL_ATTACHMENT_OPTIMAL |}
               ↔ ∀ j earlier, j < i → m_writes st !! j = Some earlier →
                              is_depth_buffer (graph w) earlier = false
          else {| ref_attachment := Z.of_nat i;
                  ref_layout := VK_IMAGE_LAYOUT_COLOR_ATTACHMENT_OPTIMAL |}
               ∈ colour_refs.
Proof.
  intros Htextures Hlen.
  pose proof (render_pass_attachments (graph w) gs (m_writes st)) as Hatt.
  pose proof (render_pass_references (graph w) gs (m_writes st)) as [Hc Hd].
  unfold build_render_pass, bind at 1. cbn [get_graph].
  destruct (render_pass_vectors (graph w) gs (m_writes st))
    as [[attachments colour_refs] depth_refs].
  cbn [fst snd] in *. exists attachments, colour_refs, (head depth_refs).
  assert (length (omap (as_TextureResource (graph w)) (m_writes st))
          = length (m_writes st)
          ∧ ∀ i resource texture,
              m_writes st !! i = Some resource →
              as_TextureResource (graph w) resource = Some texture →
              omap (as_TextureResource (graph w)) (m_writes st) !! i
              = Some texture) as [Hlen_textures Hlookup].
  { clear -Htextures. induction Htextures as [|resource writes_ [t Ht] _ [IH1 IH2]];
      [done|].
    cbn [omap list_omap]. rewrite Ht. cbn. split; [by rewrite IH1|].
    intros [|i] resource' texture; cbn; [congruence|apply IH2]. }
  assert (∀ i, i < length (m_writes st) → to_uint32 (Z.of_nat i) = Z.of_nat i)
    as Hsmall by (intros i Hi; apply to_uint32_small; lia).
  split_and!.
  - unfold bind, gpu_create. by destruct (vk _).
  - rewrite <-(Forall2_length _ _ _ Hatt). done.
  - subst colour_refs. by apply colour_references_length.
  - subst depth_refs. rewrite head_omap_None. split.
    + intros Hnone resource (i & Hi)%list_elem_of_lookup_1.
      apply (depth_reference_None _ i), Hnone, elem_of_lookup_imap. eauto.
    + intros Hnone [i resource] (i' & r' & [= -> ->] & Hi)%elem_of_lookup_imap.
      apply depth_reference_None, Hnone. by eapply list_elem_of_lookup_2.
  - intros i resource texture Hi Htexture. split.
    + destruct (Forall2_lookup_l _ _ _ _ _ Hatt (Hlookup _ _ _ Hi Htexture))
        as (a & Ha & Hformat & _). eauto.
    + pose proof (lookup_lt_Some _ _ _ Hi) as Hlt.
      destruct (decide _) as [Hdepth|Hcolour].
      * subst depth_refs. rewrite head_omap_Some. split.
        -- intros (k & [k' r] & Hk & Hreference & Hbefore) j earlier Hj Hearlier.
           apply list_lookup_imap_Some in Hk as (r' & Hr' & [= -> ->]).
           assert (k = i) as ->.
           { revert Hreference. unfold depth_reference. cbn.
             destruct (as_TextureResource _ r') as [t|]; [|done].
             destruct (decide _); [|done]. intros [= Heq].
             rewrite Hsmall in Heq by (by eapply lookup_lt_Some). lia. }
           apply (depth_reference_None _ j), (Hbefore j); [done|].
           by rewrite list_lookup_imap, Hearlier.
        -- intros Hfirst. exists i, (i, resource). split_and!.
           ++ by rewrite list_lookup_imap, Hi.
           ++ unfold depth_reference. cbn. rewrite Htexture.
              rewrite decide_True by done. by rewrite Hsmall.
           ++ intros j [j' earlier] Hj Hearlier.
              apply list_lookup_imap_Some in Hearlier as (r' & Hr' & [= -> ->]).
              apply depth_reference_None. by eapply Hfirst.
      * subst colour_refs. apply list_elem_of_omap. exists (i, resource).
        split; [apply elem_of_lookup_imap; eauto|].
        unfold colour_reference. cbn. rewrite Htexture.
        rewrite decide_False by done. by rewrite Hsmall.
Qed.

(** ** The vertex input of a pipeline *)

Lemma vertex_input_loop_Ok g gs reads acc acc' w w' :
  foldl_M (vertex_input_step g gs) acc reads w = (Ok acc', w') →
  acc' = (acc.1 ++ flat_map (attribute_bindings_of g gs) reads,
          acc.2 ++ omap (vertex_binding_of g gs) reads).
Proof.
  revert acc w. induction reads as [|resource reads IH]; intros acc w;
    cbn [foldl_M].
  - intros [= <- _]. cbn. rewrite !app_nil_r. by destruct acc.
  - intros (acc1 & w1 & Hstep & Hloop)%bind_Ok.
    apply IH in Hloop as ->. cbn [flat_map omap list_omap].
    revert Hstep. unfold vertex_input_step, attribute_bindings_of,
      vertex_binding_of.
    destruct acc as [attribute_bindings vertex_bindings].
    destruct (as_BufferResource g resource) as [[b buffer_resource]|].
    + destruct (decide _).
      * by intros [= <- _].
      * intros (binding_ & w2 & [-> _]%at_Ok & [= <- _])%bind_Ok. cbn.
        by rewrite <-!app_assoc.
    + by intros [= <- _].
Qed.

Lemma alter_physical_physical_of s f w s' :
  physical_of (graph (alter_physical s f w).2) s'
  = if decide (s' = s) then f <$> physical_of (graph w) s'
    else physical_of (graph w) s'.
Proof.
  unfold physical_of. cbn. destruct (decide (s' = s)) as [->|Hne].
  - rewrite list_lookup_alter_eq. by destruct (m_stages (graph w) !! s).
  - by rewrite list_lookup_alter_ne.
Qed.

Lemma build_graphics_pipeline_created
    (vk : GpuCall → bool) (s : nat) (st : RenderStage) (gs : GraphicsStage)
    (w w' : World) :
  build_graphics_pipeline vk s st gs w = (Ok tt, w') →
  ∃ ci,
    device w' = device w ++ [CreateStagePipeline ci]
    ∧ sp_vertex_bindings ci
      = omap (vertex_binding_of (graph w) gs) (m_reads st)
    ∧ sp_attribute_bindings ci
      = flat_map (attribute_bindings_of (graph w) gs) (m_reads st)
    ∧ colorWriteMask (sp_blend_attachment ci) = 15%Z
    ∧ sp_shaders ci = m_shaders gs
    ∧ (m_pipeline <$> physical_of (graph w') s)
      = Some (Some (length (device w))).
Proof.
  unfold build_graphics_pipeline.
  intros (g & w1 & [= <- <-] & H)%bind_Ok.
  apply bind_Ok in H as (vectors & w2 & Hloop & H).
  pose proof (vertex_input_loop_world (graph w) gs (m_reads st) ([], []) w)
    as Hw2. rewrite Hloop in Hw2. cbn in Hw2. subst w2.
  apply vertex_input_loop_Ok in Hloop as ->. cbn [fst snd app] in H.
  apply bind_Ok in H as (current & w3 & [Hcurrent ->]%get_stage_Ok & H).
  apply bind_Ok in H as (physical & w4 & [Hphysical ->]%deref_Ok & H).
  apply bind_Ok in H as (layout & w5 & [Hlayout ->]%deref_Ok & H).
  apply bind_Ok in H as ([] & w5' & [Hbindings ->]%assert_Ok & H).
  apply bind_Ok in H as ([] & w5'' & [Hattributes ->]%assert_Ok & H).
  apply bind_Ok in H as (pipeline_ & w6 & Hcreate & H).
  eexists. split_and!; [| | | | |].
  - apply gpu_create_Ok in Hcreate as Hdev.
    assert (device w' = device w6) as -> by (by injection H as <-).
    exact Hdev.
  - done.
  - done.
  - done.
  - done.
  - assert (w' = (alter_physical s (with_pipeline (Some pipeline_)) w6).2)
      as -> by (by rewrite H).
    rewrite alter_physical_physical_of. rewrite decide_True by done.
    revert Hcreate. unfold gpu_create. destruct (vk _); [|done].
    intros [= <- <-]. unfold physical_of. cbn. rewrite Hcurrent. cbn.
    by rewrite Hphysical.
Qed.

(** X14: when [build_graphics_pipeline] returns, it has made one creation
    call.  The vertex input of the pipeline holds, for every read of the
    stage that is a buffer resource and no index buffer, in the order of
    the reads, one binding description with the binding index declared by
    [bind_buffer] and the element size as stride, and the attributes of
    the buffer with that binding index and with their own locations.  The
    blend attachment always has the color write mask of all four
    components, and the pipeline is stored in the physical stage. *)
Theorem graphics_pipeline_vertex_input
    (vk : GpuCall → bool) (s : nat) (st : RenderStage) (gs : GraphicsStage)
    (w w' : World) :
  build_graphics_pipeline vk s st gs w = (Ok tt, w') →
  ∃ ci,
    device w' = device w ++ [CreateStagePipeline ci]
    ∧ sp_vertex_bindings ci
      = omap (vertex_binding_of (graph w) gs) (m_reads st)
    ∧ sp_attribute_bindings ci
      = flat_map (attribute_bindings_of (graph w) gs) (m_reads st)
    ∧ colorWriteMask (sp_blend_attachment ci) = 15%Z
    ∧ sp_shaders ci = m_shaders gs
    ∧ (m_pipeline <$> physical_of (graph w') s)
      = Some (Some (length (device w))).
Proof. apply build_graphics_pipeline_created. Qed.

(** ** The framebuffers of a stage *)

Lemma back_buffers_written_cons g resource writes_ :
  back_buffers_written g (resource :: writes_)
  = (if is_back_buffer g resource then 1 else 0)
    + back_buffers_written g writes_.
Proof.
  unfold back_buffers_written. rewrite filter_cons.
  destruct (is_back_buffer g resource); by destruct (decide _).
Qed.

Lemma images_written_cons g resource writes_ :
  images_written g (resource :: writes_)
  = match physical_texture_of g resource with
    | Some (PhysicalImage img) => [img]
    | _ => []
    end ++ images_written g writes_.
Proof.
  unfold images_written. cbn [omap list_omap].
  by destruct (physical_texture_of g resource) as [[]|].
Qed.

Lemma framebuffer_loop_Ok g writes_ acc acc' w w' :
  foldl_M (framebuffer_step g) acc writes_ w = (Ok acc', w') →
  w' = w
  ∧ acc' = (acc.1 + back_buffers_written g writes_,
            acc.2 ++ images_written g writes_).
Proof.
  revert acc. induction writes_ as [|resource writes_ IH]; intros acc;
    cbn [foldl_M].
  - intros [= <- <-]. unfold back_buffers_written, images_written. cbn.
    rewrite Nat.add_0_r, app_nil_r. by destruct acc.
  - intros (acc1 & w1 & Hstep & Hloop)%bind_Ok.
    rewrite back_buffers_written_cons, images_written_cons.
    revert Hstep. unfold framebuffer_step, is_back_buffer, physical_texture_of.
    destruct (as_TextureResource g resource) as [texture|]; cbn.
    + intros (physical_texture & w2 & [Hp ->]%deref_Ok & Hstep)%bind_Ok.
      rewrite Hp. destruct physical_texture; injection Hstep as <- <-;
        apply IH in Hloop as [-> ->]; (split; [done|]); cbn.
      * f_equal. lia.
      * by rewrite <-app_assoc.
    + intros [= <- <-]. by apply IH in Hloop as [-> ->].
Qed.

Global Instance only_stage_preorder s : PreOrder (only_stage s).
Proof.
  split.
  - intros w. by split_and!.
  - intros w1 w2 w3 (? & ? & ? & ? & ? & ? & H12) (? & ? & ? & ? & ? & ? & H23).
    split_and!; try congruence. intros s' Hne. by rewrite H23, H12.
Qed.

Lemma log_call_only_stage s c w : only_stage s w (log_call c w).
Proof. by split_and!. Qed.

Lemma gpu_create_only_stage vk s c : preserves (only_stage s) (gpu_create vk c).
Proof.
  intros w. unfold gpu_create. destruct (vk c); apply log_call_only_stage.
Qed.

Lemma gpu_destroy_only_stage s c : preserves (only_stage s) (gpu_destroy c).
Proof. intros w. apply log_call_only_stage. Qed.

Lemma alter_stage_only_stage s p :
  preserves (only_stage s) (alter_stage s (with_physical p)).
Proof.
  intros w. unfold only_stage. cbn -[alter]. split_and!; try done.
  - apply fmap_alter_id. done.
  - intros s' Hne. by rewrite list_lookup_alter_ne.
Qed.

Lemma alter_physical_only_stage s f :
  preserves (only_stage s) (alter_physical s f).
Proof.
  intros w. unfold only_stage. cbn -[alter]. split_and!; try done.
  - apply fmap_alter_id. done.
  - intros s' Hne. by rewrite list_lookup_alter_ne.
Qed.

Lemma physical_of_Some g s st physical :
  m_stages g !! s = Some st → m_physical st = Some physical →
  physical_of g s = Some physical.
Proof. unfold physical_of. intros -> Hphysical. exact Hphysical. Qed.

Lemma framebuffers_loop_Ok vk s n imgs views physical w w' :
  for_each views
    (λ img_view,
       let image_views_ :=
         replicate n (SwapchainImageView img_view) ++ map ImageViewOf imgs in
       let* current := get_stage s in
       let* physical := deref (m_physical current) in
       let* framebuffer :=
         gpu_create vk (CreateFramebuffer (m_render_pass physical)
                                          image_views_) in
       alter_physical s
         (λ p, with_framebuffers (m_framebuffers p ++ [framebuffer]) p)) w
  = (Ok tt, w') →
  physical_of (graph w) s = Some physical →
  device w'
  = device w ++
    ((λ img_view,
        CreateFramebuffer (m_render_pass physical)
          (replicate n (SwapchainImageView img_view) ++ map ImageViewOf imgs))
     <$> views)
  ∧ physical_of (graph w') s
    = Some (with_framebuffers
              (m_framebuffers physical ++ seq (length (device w)) (length views))
              physical).
Proof.
  revert physical w. induction views as [|img_view views IH];
    intros physical w.
  - intros [= <-] Hphysical. cbn. rewrite !app_nil_r. split; [done|].
    rewrite Hphysical. by destruct physical.
  - rewrite for_each_cons. intros ([] & w1 & Hbody & Hloop)%bind_Ok Hphysical.
    apply bind_Ok in Hbody as (current & w2 & [Hcurrent ->]%get_stage_Ok & Hbody).
    apply bind_Ok in Hbody as (physical' & w2 & [Hphysical' ->]%deref_Ok & Hbody).
    rewrite (physical_of_Some _ _ _ _ Hcurrent Hphysical') in Hphysical.
    injection Hphysical as ->.
    apply bind_Ok in Hbody as (framebuffer & w2 & Hcreate & Hbody).
    assert (framebuffer = length (device w)
            ∧ w2 = log_call (CreateFramebuffer (m_render_pass physical)
                     (replicate n (SwapchainImageView img_view)
                      ++ map ImageViewOf imgs)) w) as [-> ->].
    { revert Hcreate. unfold gpu_create. destruct (vk _); [|done].
      by intros [= <- <-]. }
    assert (w1 = (alter_physical s
                    (λ p, with_framebuffers
                            (m_framebuffers p ++ [length (device w)]) p)
                    (log_call (CreateFramebuffer (m_render_pass physical)
                       (replicate n (SwapchainImageView img_view)
                        ++ map ImageViewOf imgs)) w)).2) as Hw1.
    { symmetry. exact (f_equal snd Hbody). }
    assert (physical_of (graph w1) s
            = Some (with_framebuffers
                      (m_framebuffers physical ++ [length (device w)])
                      physical)) as Hphysical1.
    { rewrite Hw1, alter_physical_physical_of, decide_True by done.
      cbn [log_call graph].
      by rewrite (physical_of_Some _ _ _ _ Hcurrent Hphysical'). }
    destruct (IH _ _ Hloop Hphysical1) as [Hdev Hfbs].
    assert (device w1 = device w ++
              [CreateFramebuffer (m_render_pass physical)
                 (replicate n (SwapchainImageView img_view)
                  ++ map ImageViewOf imgs)]) as Hdev1 by (by rewrite Hw1).
    split.
    + rewrite Hdev, Hdev1. cbn. by rewrite <-app_assoc.
    + rewrite Hfbs, Hdev1, length_app. cbn.
      rewrite <-app_assoc, Nat.add_1_r. done.
Qed.

Lemma build_framebuffers_Ok
    (vk : GpuCall → bool) (s : nat) (st : RenderStage)
    (physical : PhysicalGraphicsStage) (w w' : World) :
  build_framebuffers vk s st w = (Ok tt, w') →
  physical_of (graph w) s = Some physical →
  (m_writes st = [] → w' = w)
  ∧ (m_writes st ≠ [] →
     device w'
     = device w ++
       ((λ img_view,
           CreateFramebuffer (m_render_pass physical)
             (replicate (back_buffers_written (graph w) (m_writes st))
                        (SwapchainImageView img_view)
              ++ (ImageViewOf <$> images_written (graph w) (m_writes st))))
        <$> image_views (m_swapchain (graph w)))
     ∧ physical_of (graph w') s
       = Some (with_framebuffers
                 (m_framebuffers physical
                  ++ seq (length (device w))
                         (length (image_views (m_swapchain (graph w)))))
                 physical)).
Proof.
  unfold build_framebuffers. intros Hrun Hphysical.
  destruct (decide (m_writes st = [])) as [Hnil|Hwrites].
  { split; [|done]. intros _. by injection Hrun. }
  split; [done|]. intros _.
  apply bind_Ok in Hrun as (g & w1 & [= <- <-] & Hrun).
  apply bind_Ok in Hrun as (gathered & w1 & Hgather & Hrun).
  apply framebuffer_loop_Ok in Hgather as [-> ->]. cbn [fst snd app] in Hrun.
  by apply (framebuffers_loop_Ok _ _ _ _ _ physical) in Hrun.
Qed.

(** X15: [build_framebuffers] makes nothing for a stage without writes.
    For a stage that writes something it makes one framebuffer for each
    image view of the swapchain, in their order, and appends them to the
    framebuffers of the physical stage; each framebuffer lists the image
    view of the swapchain once for every back buffer the stage writes,
    and after them the images the stage writes, in the order of the
    writes, whatever the position of the back buffer among the writes. *)
Theorem framebuffers_per_swapchain_image
    (vk : GpuCall → bool) (s : nat) (st : RenderStage)
    (physical : PhysicalGraphicsStage) (w w' : World) :
  build_framebuffers vk s st w = (Ok tt, w') →
  physical_of (graph w) s = Some physical →
  (m_writes st = [] → w' = w)
  ∧ (m_writes st ≠ [] →
     device w'
     = device w ++
       ((λ img_view,
           CreateFramebuffer (m_render_pass physical)
             (replicate (back_buffers_written (graph w) (m_writes st))
                        (SwapchainImageView img_view)
              ++ (ImageViewOf <$> images_written (graph w) (m_writes st))))
        <$> image_views (m_swapchain (graph w)))
     ∧ physical_of (graph w') s
       = Some (with_framebuffers
                 (m_framebuffers physical
                  ++ seq (length (device w))
                         (length (image_views (m_swapchain (graph w)))))
                 physical)).
Proof. apply build_framebuffers_Ok. Qed.

(** ** What [compile] builds for the passes of the order *)

Section BuildStage.
Variable vk : GpuCall → bool.

Lemma gpu_create_Ok_world c w h w' :
  gpu_create vk c w = (Ok h, w') → h = length (device w) ∧ w' = log_call c w.
Proof. unfold gpu_create. destruct (vk c); [|done]. by intros [= <- <-]. Qed.

Lemma create_and_store_Ok c s
    (f : Handle → PhysicalGraphicsStage → PhysicalGraphicsStage) w w' :
  (let* h := gpu_create vk c in alter_physical s (f h)) w = (Ok tt, w') →
  physical_of (graph w') s = f (length (device w)) <$> physical_of (graph w) s.
Proof.
  intros (h & w1 & [-> ->]%gpu_create_Ok_world & Hstore)%bind_Ok.
  apply (f_equal snd) in Hstore. cbn [snd] in Hstore. subst w'.
  by rewrite alter_physical_physical_of, decide_True.
Qed.

Lemma build_render_pass_physical s st gs w w' :
  build_render_pass vk s st gs w = (Ok tt, w') →
  ∃ h, physical_of (graph w') s
       = with_render_pass (Some h) <$> physical_of (graph w) s.
Proof.
  unfold build_render_pass. intros (g & w1 & [= <- <-] & H)%bind_Ok.
  destruct (render_pass_vectors _ _ _) as [[attachments colour] depth].
  apply create_and_store_Ok in H. eauto.
Qed.

Lemma build_pipeline_layout_physical s st w w' :
  build_pipeline_layout vk s st w = (Ok tt, w') →
  ∃ h, physical_of (graph w') s
       = with_pipeline_layout (Some h) <$> physical_of (graph w) s.
Proof.
  unfold build_pipeline_layout. intros H.
  apply (create_and_store_Ok _ s (λ h, with_pipeline_layout (Some h))) in H.
  eauto.
Qed.

Lemma build_graphics_pipeline_physical s st gs w w' :
  build_graphics_pipeline vk s st gs w = (Ok tt, w') →
  ∃ h, physical_of (graph w') s
       = with_pipeline (Some h) <$> physical_of (graph w) s.
Proof.
  unfold build_graphics_pipeline.
  intros (g & w1 & [= <- <-] & H)%bind_Ok.
  apply bind_Ok in H as (vectors & w2 & Hloop & H).
  pose proof (vertex_input_loop_world (graph w) gs (m_reads st) ([], []) w)
    as Hw2. rewrite Hloop in Hw2. cbn in Hw2. subst w2.
  apply bind_Ok in H as (current & w3 & [Hcurrent ->]%get_stage_Ok & H).
  apply bind_Ok in H as (physical & w4 & [Hphysical ->]%deref_Ok & H).
  apply bind_Ok in H as (layout & w5 & [Hlayout ->]%deref_Ok & H).
  apply bind_Ok in H as ([] & w5' & [Hbindings ->]%assert_Ok & H).
  apply bind_Ok in H as ([] & w5'' & [Hattributes ->]%assert_Ok & H).
  apply (create_and_store_Ok _ s (λ h, with_pipeline (Some h))) in H. eauto.
Qed.

Lemma release_physical_stage_graph old w :
  graph (release_physical_stage old w).2 = graph w.
Proof. by destruct old. Qed.

Lemma build_physical_stage_only_stage s :
  preserves (only_stage s) (build_physical_stage vk s).
Proof.
  unfold build_physical_stage, release_physical_stage, build_render_pass,
    build_pipeline_layout, build_graphics_pipeline, build_framebuffers.
  repeat first
    [ preserves_step
    | apply gpu_create_only_stage
    | apply gpu_destroy_only_stage
    | apply alter_stage_only_stage
    | apply alter_physical_only_stage
    | match goal with
      | |- preserves _ (match ?x with _ => _ end) => destruct x
      | |- preserves _ (vertex_input_step _ _ _ _) => unfold vertex_input_step
      | |- preserves _ (framebuffer_step _ _ _) => unfold framebuffer_step
      end ].
Qed.

Lemma built_only_stage s s' w w' :
  only_stage s w w' → s' ≠ s → built (graph w) s' → built (graph w') s'.
Proof.
  intros (Hsw & _ & _ & _ & _ & _ & Hother) Hne
    (st & physical & Hst & Hgs & Hphysical & Hpipeline & Hfbs).
  exists st, physical. rewrite Hother, Hsw by done. by split_and!.
Qed.

Lemma build_physical_stage_built s st w w' :
  build_physical_stage vk s w = (Ok tt, w') →
  m_stages (graph w) !! s = Some st →
  is_Some (as_GraphicsStage st) →
  built (graph w') s.
Proof.
  intros Hrun Hst [gs Hgs].
  pose proof (build_physical_stage_only_stage s w) as Honly.
  rewrite Hrun in Honly. cbn [snd] in Honly.
  destruct Honly as (Hsw & _ & _ & _ & _ & Hdecl & _).
  revert Hrun. unfold build_physical_stage.
  intros (st' & w0 & [Hst' ->]%get_stage_Ok & H)%bind_Ok.
  rewrite Hst in Hst'. injection Hst' as <-. rewrite Hgs in H.
  apply bind_Ok in H as ([] & w0 & Hrelease & H).
  pose proof (release_physical_stage_graph (m_physical st) w) as Hg0.
  rewrite Hrelease in Hg0. cbn [snd] in Hg0.
  apply bind_Ok in H as ([] & w1 & Hfresh & H).
  apply (f_equal snd) in Hfresh. cbn [snd] in Hfresh.
  assert (physical_of (graph w1) s
          = Some {| m_pipeline := None; m_pipeline_layout := None;
                    m_render_pass := None; m_framebuffers := [] |}) as Hp1.
  { subst w1. unfold physical_of. cbn -[alter].
    by rewrite Hg0, list_lookup_alter_eq, Hst. }
  assert (m_swapchain (graph w1) = m_swapchain (graph w)) as Hsw1
    by (subst w1; cbn; by rewrite Hg0).
  apply bind_Ok in H as ([] & w2 & Hpass & H).
  pose proof (build_render_pass_same_declarations vk s st gs w1) as Hsame2.
  rewrite Hpass in Hsame2. cbn [snd] in Hsame2. destruct Hsame2 as [Hsw2 _ _ _ _ _ _].
  apply build_render_pass_physical in Hpass as [h2 Hp2]. rewrite Hp1 in Hp2.
  apply bind_Ok in H as ([] & w3 & Hlayout & H).
  pose proof (build_pipeline_layout_same_declarations vk s st w2) as Hsame3.
  rewrite Hlayout in Hsame3. cbn [snd] in Hsame3. destruct Hsame3 as [Hsw3 _ _ _ _ _ _].
  apply build_pipeline_layout_physical in Hlayout as [h3 Hp3].
  rewrite Hp2 in Hp3.
  apply bind_Ok in H as ([] & w4 & Hpipeline & Hfbs).
  pose proof (build_graphics_pipeline_same_declarations vk s st gs w3)
    as Hsame4.
  rewrite Hpipeline in Hsame4. cbn [snd] in Hsame4. destruct Hsame4 as [Hsw4 _ _ _ _ _ _].
  apply build_graphics_pipeline_physical in Hpipeline as [h4 Hp4].
  rewrite Hp3 in Hp4. cbn in Hp4.
  destruct (build_framebuffers_Ok vk s st _ w4 w' Hfbs Hp4)
    as [Hnone Hsome].
  assert (∃ physical,
            physical_of (graph w') s = Some physical
            ∧ is_Some (m_pipeline physical)
            ∧ (m_writes st ≠ [] →
               length (m_framebuffers physical)
               = length (image_views (m_swapchain (graph w')))))
    as (physical & Hphysical & Hpipe & Hlen).
  { destruct (decide (m_writes st = [])) as [Hnil|Hwrites].
    - rewrite (Hnone Hnil). eexists. split_and!; [exact Hp4|by eexists|done].
    - destruct (Hsome Hwrites) as [_ Hp']. eexists.
      split_and!; [exact Hp'|by eexists|]. intros _. cbn.
      rewrite length_seq. congruence. }
  unfold physical_of in Hphysical.
  destruct (m_stages (graph w') !! s) as [st'|] eqn:Hst'; [|done].
  cbn in Hphysical.
  destruct (lookup_same_fmap stage_decl _ _ s st' (eq_sym Hdecl) Hst')
    as (st0 & Hst0 & Hdecl0).
  rewrite Hst in Hst0. injection Hst0 as <-.
  exists st', physical. split_and!; [done| |done..|].
  - apply (f_equal as_GraphicsStage) in Hdecl0. cbn in Hdecl0.
    rewrite <-Hdecl0, Hgs. by eexists.
  - apply (f_equal m_writes) in Hdecl0. cbn in Hdecl0. by rewrite <-Hdecl0.
Qed.
End BuildStage.

Lemma graphics_only_same_decl (g g' : RenderGraph) :
  stage_decl <$> m_stages g' = stage_decl <$> m_stages g →
  graphics_only g → graphics_only g'.
Proof.
  unfold graphics_only. intros Hdecl Hg. apply Forall_lookup. intros s st' Hst'.
  destruct (lookup_same_fmap stage_decl _ _ s st' (eq_sym Hdecl) Hst')
    as (st & Hst & Heq).
  apply (f_equal as_GraphicsStage) in Heq. cbn in Heq. rewrite <-Heq.
  by eapply Forall_lookup_1 in Hg.
Qed.

(** The loop of [compile] over the stage stack. *)
Lemma build_physical_stages_built vk stack w w' :
  for_each stack (build_physical_stage vk) w = (Ok tt, w') →
  graphics_only (graph w) →
  (∀ s, s ∈ stack → built (graph w') s)
  ∧ m_buffer_resources (graph w') = m_buffer_resources (graph w)
  ∧ m_swapchain (graph w') = m_swapchain (graph w)
  ∧ stage_decl <$> m_stages (graph w') = stage_decl <$> m_stages (graph w)
  ∧ ∀ s, built (graph w) s → built (graph w') s.
Proof.
  revert w. induction stack as [|s stack IH]; intros w.
  - intros [= <-] _. split_and!; try done. by intros s ?%elem_of_nil.
  - rewrite for_each_cons. intros ([] & w1 & Hs & Hrest)%bind_Ok Hgraphics.
    pose proof (build_physical_stage_only_stage vk s w) as Honly.
    rewrite Hs in Honly. cbn [snd] in Honly.
    pose proof Honly as (Hsw & Hbuf & _ & _ & _ & Hdecl & _).
    assert (built (graph w1) s) as Hbuilt.
    { pose proof Hs as (st & w0 & [Hst _]%get_stage_Ok & _)%bind_Ok.
      eapply build_physical_stage_built; [done..|].
      by eapply Forall_lookup_1 in Hgraphics. }
    assert (∀ s', built (graph w) s' → built (graph w1) s') as Hkeeps.
    { intros s' Hs'. destruct (decide (s' = s)) as [->|Hne]; [done|].
      by eapply built_only_stage. }
    destruct (IH w1 Hrest) as (Hall & Hbuf' & Hsw' & Hdecl' & Hkeeps').
    { by eapply graphics_only_same_decl. }
    split_and!; try congruence.
    + intros s' [->|Hin]%elem_of_cons; [by apply Hkeeps'|by apply Hall].
    + intros s' Hs'. by apply Hkeeps', Hkeeps.
Qed.

Lemma allocate_textures_frame vk w :
  m_buffer_resources (graph (allocate_textures vk w).2)
  = m_buffer_resources (graph w)
  ∧ m_stages (graph (allocate_textures vk w).2) = m_stages (graph w)
  ∧ m_swapchain (graph (allocate_textures vk w).2) = m_swapchain (graph w).
Proof.
  pose proof (allocate_textures_resources_only vk w) as (Hstages & _).
  pose proof (allocate_textures_same_declarations vk w) as [Hsw _ Hbuf _ _ _ _].
  split_and!; [|done..].
  assert (preserves (λ w w', m_buffer_resources (graph w')
                             = m_buffer_resources (graph w))
                    (allocate_textures vk)) as Hpres; [|apply Hpres].
  assert (PreOrder (λ w w', m_buffer_resources (graph w')
                            = m_buffer_resources (graph w))) as Hpre.
  { split; [done|]. intros w1 w2 w3 ? ?. congruence. }
  unfold allocate_textures, allocate_texture, release_physical_texture.
  repeat first
    [ preserves_step; try exact Hpre
    | match goal with
      | |- preserves _ (if ?x then _ else _) => destruct x
      | |- preserves _ (match ?x with _ => _ end) => destruct x
      | |- preserves _ (alter_texture _ _) => by intros ?
      | |- preserves _ (gpu_destroy _) => by intros ?
      | |- preserves _ (gpu_create _ _) =>
          intros ?; unfold gpu_create; by destruct (vk _)
      end ].
Qed.

(** After a [compile] that returned, every stage of the stack is built and
    every buffer resource has its physical buffer object. *)
Lemma compile_physical_built vk stack w w' :
  compile_physical vk stack w = (Ok tt, w') →
  graphics_only (graph w) →
  (∀ s, s ∈ stack → built (graph w') s)
  ∧ buffers_allocated (graph w')
  ∧ m_swapchain (graph w') = m_swapchain (graph w).
Proof.
  unfold compile_physical. intros ([] & w1 & [= <-] & H)%bind_Ok Hgraphics.
  apply bind_Ok in H as ([] & w2 & Hbuffers & H).
  destruct (allocate_buffers_allocated
              {| graph := with_stage_stack stack (graph w);
                 device := device w; cmd_buf := cmd_buf w |})
    as (w2' & Hbuffers' & Halloc & Hstages2 & Hsw2 & _).
  rewrite Hbuffers in Hbuffers'. injection Hbuffers' as <-.
  apply bind_Ok in H as ([] & w3 & Htextures & H).
  destruct (allocate_textures_frame vk w2) as (Hbuf3 & Hstages3 & Hsw3).
  rewrite Htextures in Hbuf3, Hstages3, Hsw3. cbn [snd] in *.
  destruct (build_physical_stages_built vk stack w3 w' H)
    as (Hall & Hbuf & Hsw & _ & _).
  { unfold graphics_only. by rewrite Hstages3, Hstages2. }
  split_and!; [done| |].
  - unfold buffers_allocated. by rewrite Hbuf, Hbuf3.
  - by rewrite Hsw, Hsw3, Hsw2.
Qed.

(** ** A frame after [compile] *)

Lemma returns_bind {A B} (m : M A) (k : A → M B) w a w1 :
  m w = (Ok a, w1) → returns (k a) w1 → returns (bind m k) w.
Proof. intros Hm (b & w' & Hk). exists b, w'. unfold bind. by rewrite Hm. Qed.

Section Frame.
Variable vk : GpuCall → bool.
Hypothesis vk_buffers : ∀ size data usage, vk (CreateBuffer size data usage) = true.

Lemma update_dynamic_buffer_returns b w :
  buffers_allocated (graph w) →
  b < length (m_buffer_resources (graph w)) →
  ∃ w', update_dynamic_buffer vk b w = (Ok tt, w')
        ∧ buffers_allocated (graph w')
        ∧ length (m_buffer_resources (graph w'))
          = length (m_buffer_resources (graph w)).
Proof.
  intros Halloc Hb.
  destruct (lookup_lt_is_Some_2 _ _ Hb) as [old Hold].
  destruct (Forall_lookup_1 _ _ _ _ Halloc Hold) as [physical Hphysical].
  unfold update_dynamic_buffer. unfold bind at 1. cbn [get_graph].
  unfold bind at 1. rewrite Hold. cbn [deref ret].
  destruct (m_data_upload_needed old); [|by eauto].
  unfold bind at 1. rewrite Hphysical. cbn [deref ret].
  destruct (m_buffer physical) as [dev_buf|].
  - unfold bind, gpu_destroy, gpu_create. rewrite vk_buffers.
    cbn -[alter]. eexists. split; [reflexivity|]. cbn -[alter].
    split; [|by rewrite !length_alter].
    unfold buffers_allocated. cbn -[alter].
    repeat (apply Forall_alter; [|by intros; cbn; eauto]). exact Halloc.
  - unfold bind, gpu_create. rewrite vk_buffers.
    cbn -[alter]. eexists. split; [reflexivity|]. cbn -[alter].
    split; [|by rewrite !length_alter].
    unfold buffers_allocated. cbn -[alter].
    repeat (apply Forall_alter; [|by intros; cbn; eauto]). exact Halloc.
Qed.

Lemma update_loop_returns m k w :
  buffers_allocated (graph w) →
  k + m ≤ length (m_buffer_resources (graph w)) →
  ∃ w', for_each (seq k m) (update_dynamic_buffer vk) w = (Ok tt, w')
        ∧ buffers_allocated (graph w').
Proof.
  revert k w. induction m as [|m IH]; intros k w Halloc Hlen; [by eauto|].
  cbn [seq]. 
  destruct (update_dynamic_buffer_returns k w Halloc) as (w1 & Hk & Halloc1 & Hlen1);
    [lia|].
  destruct (IH (S k) w1 Halloc1) as (w' & Hloop & Halloc'); [lia|].
  exists w'. split; [|done]. rewrite for_each_cons. unfold bind.
  by rewrite Hk.
Qed.

Lemma update_dynamic_buffers_returns w :
  buffers_allocated (graph w) →
  ∃ w', update_dynamic_buffers vk w = (Ok tt, w')
        ∧ buffers_allocated (graph w')
        ∧ same_but_buffers w w'.
Proof.
  intros Halloc.
  destruct (update_loop_returns (length (m_buffer_resources (graph w))) 0 w
              Halloc) as (w' & Hloop & Halloc'); [lia|].
  destruct (update_dynamic_buffers_spec vk w) as (o & w'' & Hrun & Hsame & _).
  assert (update_dynamic_buffers vk w = (Ok tt, w')) as Hrun'.
  { unfold update_dynamic_buffers, bind. cbn [get_graph]. exact Hloop. }
  rewrite Hrun' in Hrun. injection Hrun as <- <-. eauto.
Qed.
End Frame.

Lemma bind_buffers_returns g reads vertex_buffers w :
  buffers_allocated g →
  ∃ vertex_buffers' w',
    foldl_M (bind_buffer_step g) vertex_buffers reads w
    = (Ok vertex_buffers', w').
Proof.
  intros Halloc. revert vertex_buffers w.
  induction reads as [|resource reads IH]; intros vertex_buffers w;
    cbn [foldl_M]; [by eexists _, _|].
  assert (returns (bind_buffer_step g vertex_buffers resource) w)
    as (vs1 & w1 & Hstep).
  { unfold bind_buffer_step, returns.
    destruct (as_BufferResource g resource) as [[b buf]|] eqn:Hres;
      [|by eexists _, _].
    assert (is_Some (buf_physical buf)) as [physical Hphysical].
    { destruct resource as [b'|]; [|done]. cbn in Hres.
      destruct (m_buffer_resources g !! b') as [buf'|] eqn:Hb'; [|done].
      injection Hres as <- <-. by eapply Forall_lookup_1 in Halloc. }
    rewrite Hphysical. unfold bind at 1. cbn [deref ret].
    destruct (m_buffer physical); [|by eexists _, _].
    destruct (decide _); [by eexists _, _|].
    destruct (decide _); by eexists _, _. }
  destruct (IH vs1 w1) as (vs' & w' & Hloop).
  exists vs', w'. unfold bind. by rewrite Hstep.
Qed.

Lemma record_command_buffer_returns s image_index w :
  built (graph w) s →
  buffers_allocated (graph w) →
  (∀ st, m_stages (graph w) !! s = Some st → m_writes st ≠ []) →
  image_index < length (image_views (m_swapchain (graph w))) →
  returns (record_command_buffer s image_index) w.
Proof.
  intros (st & physical & Hst & [gs Hgs] & Hphysical & [pipeline_ Hpipeline]
          & Hfbs) Halloc Hwrites Hindex.
  rewrite <-(Hfbs (Hwrites st Hst)) in Hindex.
  destruct (lookup_lt_is_Some_2 _ _ Hindex) as [framebuffer Hframebuffer].
  unfold record_command_buffer.
  eapply returns_bind; [by apply get_stage_lookup|].
  rewrite Hphysical. eapply returns_bind; [reflexivity|].
  rewrite Hgs, Hframebuffer, Hpipeline.
  eapply returns_bind; [reflexivity|]. cbn [record].
  eapply returns_bind; [reflexivity|].
  match goal with
  | |- returns (bind (foldl_M _ ?vs ?reads) _) ?w0 =>
      destruct (bind_buffers_returns (graph w) reads vs w0 Halloc)
        as (vs' & w1 & Hloop)
  end.
  eapply returns_bind; [exact Hloop|].
  assert (returns (if decide (vs' = []) then ret tt
                   else record (bind_vertex_buffers vs')) w1)
    as ([] & w2 & Hvertex) by (destruct (decide _); by eexists _, _).
  eapply returns_bind; [exact Hvertex|].
  eapply returns_bind; [reflexivity|].
  eapply returns_bind; [reflexivity|].
  eapply returns_bind; [apply for_each_record|].
  eapply returns_bind; [reflexivity|]. by eexists _, _.
Qed.

Lemma record_command_buffer_out_of_range s image_index w :
  built (graph w) s →
  (∀ st, m_stages (graph w) !! s = Some st → m_writes st ≠ []) →
  length (image_views (m_swapchain (graph w))) ≤ image_index →
  record_command_buffer s image_index w = (Throw out_of_range, w).
Proof.
  intros (st & physical & Hst & [gs Hgs] & Hphysical & _ & Hfbs) Hwrites Hindex.
  rewrite <-(Hfbs (Hwrites st Hst)) in Hindex.
  apply lookup_ge_None in Hindex.
  unfold record_command_buffer. unfold bind at 1.
  rewrite (get_stage_lookup _ _ _ Hst), Hphysical. unfold bind at 1.
  cbn [deref ret]. rewrite Hgs, Hindex. reflexivity.
Qed.

Lemma record_passes_returns stack image_index w :
  (∀ s, s ∈ stack → built (graph w) s) →
  buffers_allocated (graph w) →
  (∀ s st, s ∈ stack → m_stages (graph w) !! s = Some st → m_writes st ≠ []) →
  image_index < length (image_views (m_swapchain (graph w))) →
  returns (for_each stack (λ s, record_command_buffer s image_index)) w.
Proof.
  revert w. induction stack as [|s stack IH]; intros w Hbuilt Halloc Hwrites Hi;
    [by eexists _, _|].
  destruct (record_command_buffer_returns s image_index w)
    as ([] & w1 & Hs); [apply Hbuilt; by left|done| |done|].
  { intros st. apply Hwrites. by left. }
  pose proof (record_command_buffer_Ok _ _ _ _ Hs) as (Hg & _).
  destruct (IH w1) as ([] & w' & Hrest).
  - intros s' Hs'. rewrite Hg. apply Hbuilt. by right.
  - by rewrite Hg.
  - intros s' st Hs'. rewrite Hg. apply Hwrites. by right.
  - by rewrite Hg.
  - exists tt, w'. rewrite for_each_cons. unfold bind. by rewrite Hs.
Qed.

Lemma order_stage_writes stages fuel target order s :
  dfs_from stages fuel target [] = Some order →
  s ∈ order → ∃ resource, writes stages s resource.
Proof.
  intros Horder (s0 & Hs0 & Hreach)%(dfs_from_elements _ _ _ _ Horder).
  destruct (rtc_inv_r _ _ Hreach) as [->|(y & _ & resource & _ & Hs)];
    [by eexists|].
  exists resource. by apply elem_of_build_writers.
Qed.

(** The world after a first [compile] that returned, on a graph of
    graphics stages. *)
Lemma compiled_world vk fuel target w w1 :
  compile vk fuel target w = Some (Ok tt, w1) →
  m_stage_stack (graph w) = [] →
  graphics_only (graph w) →
  (∀ s, s ∈ m_stage_stack (graph w1) → built (graph w1) s)
  ∧ buffers_allocated (graph w1)
  ∧ (∀ s st, s ∈ m_stage_stack (graph w1) →
             m_stages (graph w1) !! s = Some st → m_writes st ≠ [])
  ∧ m_swapchain (graph w1) = m_swapchain (graph w).
Proof.
  intros (stack & Hstack & Hout)%compile_Some Hempty Hgraphics.
  rewrite Hempty in Hstack. symmetry in Hout.
  pose proof (compile_physical_stage_stack vk stack w) as Hstk.
  pose proof (compile_physical_stage_decl vk stack w) as Hdecl.
  rewrite Hout in Hstk, Hdecl. cbn [snd] in Hstk, Hdecl. rewrite Hstk.
  destruct (compile_physical_built vk stack w w1 Hout Hgraphics)
    as (Hbuilt & Halloc & Hsw).
  split_and!; [done..| |done].
  intros s st1 Hs Hst1.
  destruct (order_stage_writes _ _ _ _ _ Hstack Hs)
    as (resource & st & Hst & Hresource).
  destruct (lookup_same_fmap stage_decl _ _ s st1 (eq_sym Hdecl) Hst1)
    as (st' & Hst' & Heq).
  rewrite Hst in Hst'. injection Hst' as <-.
  apply (f_equal m_writes) in Heq. cbn in Heq. rewrite <-Heq.
  intros Hnil. rewrite Hnil in Hresource. by apply elem_of_nil in Hresource.
Qed.

(** X16: after a first [compile] that returned, on a graph whose stages
    are graphics stages, [render] returns for every image index of the
    swapchain on a device that accepts the creation of the buffers: every
    pass of the execution order has its physical stage, its pipeline and a
    framebuffer for the image, and every buffer resource has its physical
    buffer object. *)
Theorem render_returns_after_compile
    (vk vk' : GpuCall → bool) (fuel : nat) (target : ResourceRef)
    (w w1 : World) (image_index : nat) :
  compile vk fuel target w = Some (Ok tt, w1) →
  m_stage_stack (graph w) = [] →
  graphics_only (graph w) →
  (∀ size data usage, vk' (CreateBuffer size data usage) = true) →
  image_index < length (image_views (m_swapchain (graph w))) →
  ∃ w2, render vk' image_index w1 = (Ok tt, w2).
Proof.
  intros Hcompile Hempty Hgraphics Hvk Hindex.
  destruct (compiled_world _ _ _ _ _ Hcompile Hempty Hgraphics)
    as (Hbuilt & Halloc & Hwrites & Hsw).
  destruct (update_dynamic_buffers_returns vk' Hvk w1 Halloc)
    as (w1' & Hupdate & Halloc' & Hsame).
  destruct Hsame as (Hsw' & Hstages' & _ & Hstack' & _).
  destruct (record_passes_returns (m_stage_stack (graph w1')) image_index w1')
    as ([] & w2 & Hrecord).
  - intros s Hs. rewrite Hstack' in Hs. destruct (Hbuilt s Hs)
      as (st & physical & ? & ? & ? & ? & ?).
    exists st, physical. rewrite Hstages', Hsw'. by split_and!.
  - done.
  - intros s st Hs. rewrite Hstack' in Hs. rewrite Hstages'. by apply Hwrites.
  - by rewrite Hsw', Hsw.
  - exists w2. unfold render, bind. rewrite Hupdate. cbn [get_graph].
    exact Hrecord.
Qed.

(** X17: after such a [compile] that left a pass in the execution order,
    [render] with an image index that is not one of the swapchain throws
    [std::out_of_range] at the first pass, from the lookup of the
    framebuffer, before any command is recorded. *)
Theorem render_image_index_out_of_range
    (vk vk' : GpuCall → bool) (fuel : nat) (target : ResourceRef)
    (w w1 : World) (image_index : nat) :
  compile vk fuel target w = Some (Ok tt, w1) →
  m_stage_stack (graph w) = [] →
  graphics_only (graph w) →
  (∀ size data usage, vk' (CreateBuffer size data usage) = true) →
  m_stage_stack (graph w1) ≠ [] →
  length (image_views (m_swapchain (graph w))) ≤ image_index →
  ∃ w2, render vk' image_index w1 = (Throw out_of_range, w2)
        ∧ cmd_buf w2 = cmd_buf w1.
Proof.
  intros Hcompile Hempty Hgraphics Hvk Hpasses Hindex.
  destruct (compiled_world _ _ _ _ _ Hcompile Hempty Hgraphics)
    as (Hbuilt & Halloc & Hwrites & Hsw).
  destruct (update_dynamic_buffers_returns vk' Hvk w1 Halloc)
    as (w1' & Hupdate & Halloc' & Hsame).
  destruct Hsame as (Hsw' & Hstages' & _ & Hstack' & Hcmd & _).
  destruct (m_stage_stack (graph w1)) as [|s stack] eqn:Hstack; [done|].
  exists w1'. split; [|done].
  unfold render, bind at 1. rewrite Hupdate. unfold bind at 1.
  cbn [get_graph]. rewrite Hstack', for_each_cons. unfold bind.
  rewrite record_command_buffer_out_of_range; [done| | |].
  - destruct (Hbuilt s) as (st & physical & ? & ? & ? & ? & ?); [by left|].
    exists st, physical. rewrite Hstages', Hsw'. by split_and!.
  - intros st. rewrite Hstages'. apply Hwrites. by left.
  - by rewrite Hsw', Hsw.
Qed.

(** ** The images of the textures *)

Lemma build_physical_stages_textures vk stack w :
  m_texture_resources (graph (for_each stack (build_physical_stage vk) w).2)
  = m_texture_resources (graph w)
  ∧ device w `prefix_of`
      device (for_each stack (build_physical_stage vk) w).2.
Proof.
  assert (preserves (λ w w', m_texture_resources (graph w')
                             = m_texture_resources (graph w)
                             ∧ device w `prefix_of` device w')
                    (for_each stack (build_physical_stage vk))) as Hpres;
    [|apply Hpres].
  assert (PreOrder (λ w w', m_texture_resources (graph w')
                            = m_texture_resources (graph w)
                            ∧ device w `prefix_of` device w')) as Hpre.
  { split; [done|]. intros w1 w2 w3 [? ?] [? ?]. split; [congruence|by etrans]. }
  apply preserves_for_each; [done|]. intros s _ w0.
  pose proof (build_physical_stage_only_stage vk s w0) as (_ & _ & Htex & _).
  pose proof (build_physical_stage_same_declarations vk s w0)
    as [_ _ _ _ _ Hdev _].
  done.
Qed.

(** X18: a [compile] that returned has allocated every texture resource of
    the graph, whether or not a pass of the execution order touches it: a
    back buffer got the physical back buffer and no image, and every other
    texture got an image of its own, which this [compile] has created with
    the format of the texture, the extent of the swapchain, and the
    depth-stencil usage for a depth buffer and the colour usage otherwise.
    No two textures have the same image, and no texture is left with an
    image from before the call. *)
Theorem compile_allocates_textures
    (vk : GpuCall → bool) (fuel : nat) (target : ResourceRef) (w w' : World) :
  compile vk fuel target w = Some (Ok tt, w') →
  Forall2 (allocated_as (m_swapchain (graph w)) (device w'))
          (m_texture_resources (graph w)) (m_texture_resources (graph w'))
  ∧ ∀ i j ti tj img,
      m_texture_resources (graph w') !! i = Some ti →
      m_texture_resources (graph w') !! j = Some tj →
      tex_physical ti = Some (PhysicalImage img) →
      tex_physical tj = Some (PhysicalImage img) →
      i = j ∧ length (device w) ≤ img < length (device w').
Proof.
  intros (stack & _ & Hout)%compile_Some. symmetry in Hout. revert Hout.
  unfold compile_physical. intros ([] & w1 & [= <-] & H)%bind_Ok.
  apply bind_Ok in H as ([] & w2 & Hbuffers & H).
  destruct (allocate_buffers_allocated
              {| graph := with_stage_stack stack (graph w);
                 device := device w; cmd_buf := cmd_buf w |})
    as (w2' & Hbuffers' & _ & _ & Hsw2 & Htex2).
  rewrite Hbuffers in Hbuffers'. injection Hbuffers' as <-.
  pose proof (allocate_buffers_same_declarations
                {| graph := with_stage_stack stack (graph w);
                   device := device w; cmd_buf := cmd_buf w |})
    as [_ _ _ _ _ Hdev2 _].
  rewrite Hbuffers in Hdev2. cbn in Hsw2, Htex2, Hdev2.
  apply bind_Ok in H as ([] & w3 & Htextures & H).
  revert Htextures. unfold allocate_textures.
  intros (g & w2' & [= <- <-] & Hloop)%bind_Ok.
  apply allocate_textures_loop in Hloop
    as (Hdev3 & _ & Hlen3 & Hall & Hinj); [|lia].
  destruct (build_physical_stages_textures vk stack w3) as [Htex' Hdev'].
  rewrite H in Htex', Hdev'. cbn [snd] in Htex', Hdev'.
  rewrite Htex'. rewrite Htex2 in Hall, Hlen3, Hinj. split.
  - apply Forall2_same_length_lookup_2; [done|].
    intros i t t' Ht Ht'. destruct (Hall i t Ht) as (t'' & Ht'' & Hcase).
    rewrite Ht' in Ht''. injection Ht'' as <-.
    rewrite decide_True in Hcase by (apply lookup_lt_Some in Ht; lia).
    rewrite Hsw2 in Hcase. destruct Hcase as [Halloc _].
    by eapply allocated_as_prefix.
  - intros i j ti tj img Hti Htj Himg_i Himg_j.
    pose proof (lookup_lt_Some _ _ _ Hti) as Hi.
    pose proof (lookup_lt_Some _ _ _ Htj) as Hj.
    rewrite Hlen3 in Hi, Hj. split; [apply (Hinj i j ti tj img); (done || lia)|].
    destruct (lookup_lt_is_Some_2 (m_texture_resources (graph w)) i)
      as [t Ht]; [done|].
    destruct (Hall i t Ht) as (t'' & Ht'' & Hcase).
    rewrite Hti in Ht''. injection Ht'' as <-.
    rewrite decide_True in Hcase by lia.
    destruct Hcase as [[_ Halloc] Hfresh]. split.
    + apply Hfresh in Himg_i. apply prefix_length in Hdev2. lia.
    + destruct (decide _); [congruence|].
      destruct Halloc as (img' & Himg' & Hcall). rewrite Himg_i in Himg'.
      injection Himg' as <-. apply lookup_lt_Some in Hcall.
      apply prefix_length in Hdev'. lia.
Qed.

(** ** The locations of the vertex attributes of a pipeline *)

Lemma add_vertex_attributes_prefix l b :
  m_vertex_attributes b `prefix_of` m_vertex_attributes (add_vertex_attributes l b).
Proof.
  revert b. induction l as [|a l IH]; intros b; [done|].
  rewrite add_vertex_attributes_cons. etrans; [|apply IH].
  cbn. by apply prefix_app_r.
Qed.

Lemma add_vertex_attributes_head a l b :
  m_vertex_attributes b = [] →
  location <$> head (m_vertex_attributes (add_vertex_attributes (a :: l) b))
  = Some 0%Z.
Proof.
  intros Hb. rewrite add_vertex_attributes_cons.
  destruct (add_vertex_attributes_prefix l (add_vertex_attribute a.1 a.2 b))
    as [rest ->].
  cbn. by rewrite Hb.
Qed.

Lemma vertex_input_loop_bound g gs reads acc acc' w w' :
  foldl_M (vertex_input_step g gs) acc reads w = (Ok acc', w') →
  ∀ resource b buffer_resource,
    resource ∈ reads →
    as_BufferResource g resource = Some (b, buffer_resource) →
    buf_usage buffer_resource ≠ INDEX_BUFFER →
    is_Some (m_buffer_bindings gs !! b).
Proof.
  revert acc w. induction reads as [|r reads IH]; intros acc w;
    cbn [foldl_M].
  - intros _ ? ? ? ?%elem_of_nil. done.
  - intros (acc1 & w1 & Hstep & Hloop)%bind_Ok resource b buffer_resource
      [->|Hin]%elem_of_cons Hbuf Husage; [|by eapply IH].
    revert Hstep. unfold vertex_input_step.
    destruct acc as [attribute_bindings vertex_bindings]. rewrite Hbuf.
    rewrite decide_False by done.
    intros (binding_ & w2 & [-> _]%at_Ok & _)%bind_Ok. by eexists.
Qed.

Lemma flat_map_shared {A B C} (f : A → list B) (h : B → C) (l : list A)
    (i1 i2 : nat) (r1 r2 : A) (x1 x2 : B) :
  i1 < i2 → l !! i1 = Some r1 → l !! i2 = Some r2 →
  x1 ∈ f r1 → x2 ∈ f r2 → h x1 = h x2 →
  ¬ NoDup (h <$> flat_map f l).
Proof.
  intros Hlt H1 H2 Hx1 Hx2 Hh.
  rewrite <-(take_drop_middle l i1 r1 H1), flat_map_app, fmap_app.
  intros (_ & _ & Hnodup)%NoDup_app. revert Hnodup. cbn [flat_map].
  rewrite fmap_app. intros (_ & Hdisjoint & _)%NoDup_app.
  apply (Hdisjoint (h x1)); [by apply list_elem_of_fmap_2|].
  rewrite Hh. apply list_elem_of_fmap_2. apply list_elem_of_In, in_flat_map.
  exists r2. split; [|by apply list_elem_of_In].
  apply list_elem_of_In. apply (list_elem_of_lookup_2 _ (i2 - S i1)).
  rewrite lookup_drop. by replace (S i1 + (i2 - S i1)) with i2 by lia.
Qed.

Lemma flat_map_shared_ne {A B C} (f : A → list B) (h : B → C) (l : list A)
    (i1 i2 : nat) (r1 r2 : A) (x1 x2 : B) :
  i1 ≠ i2 → l !! i1 = Some r1 → l !! i2 = Some r2 →
  x1 ∈ f r1 → x2 ∈ f r2 → h x1 = h x2 →
  ¬ NoDup (h <$> flat_map f l).
Proof.
  intros Hne H1 H2 Hx1 Hx2 Hh. destruct (decide (i1 < i2)).
  - by eapply (flat_map_shared f h l i1 i2).
  - eapply (flat_map_shared f h l i2 i1); [lia|done..].
Qed.

Lemma attribute_bindings_of_first g gs b buffer_resource a l base :
  m_buffer_resources g !! b = Some buffer_resource →
  buf_usage buffer_resource ≠ INDEX_BUFFER →
  is_Some (m_buffer_bindings gs !! b) →
  m_vertex_attributes base = [] →
  m_vertex_attributes buffer_resource
  = m_vertex_attributes (add_vertex_attributes (a :: l) base) →
  ∃ x, x ∈ attribute_bindings_of g gs (BufferRef b) ∧ location x = 0%Z.
Proof.
  intros Hb Husage [binding_ Hbinding] Hbase Hattributes.
  pose proof (add_vertex_attributes_head a l base Hbase) as Hhead.
  rewrite <-Hattributes in Hhead.
  unfold attribute_bindings_of, as_BufferResource. rewrite Hb. cbn.
  rewrite decide_False by done. rewrite Hbinding.
  destruct (m_vertex_attributes buffer_resource) as [|x rest]; [done|].
  injection Hhead as Hx. eexists. split; [by left|done].
Qed.

(** X19: [build_graphics_pipeline] copies the location of every attribute
    as [add_vertex_attribute] numbered it within its own buffer.  So when
    a stage reads two vertex buffers that were each given an attribute,
    the pipeline it creates has two attribute descriptions with location
    0: the locations of the vertex input state are not distinct. *)
Theorem vertex_buffers_share_locations
    (vk : GpuCall → bool) (s : nat) (st : RenderStage) (gs : GraphicsStage)
    (w w' : World) (i1 i2 b1 b2 : nat) (buffer1 buffer2 : BufferResource)
    (a1 a2 : VkFormat * Z) (l1 l2 : list (VkFormat * Z))
    (base1 base2 : BufferResource) :
  build_graphics_pipeline vk s st gs w = (Ok tt, w') →
  i1 ≠ i2 →
  m_reads st !! i1 = Some (BufferRef b1) →
  m_reads st !! i2 = Some (BufferRef b2) →
  m_buffer_resources (graph w) !! b1 = Some buffer1 →
  m_buffer_resources (graph w) !! b2 = Some buffer2 →
  buf_usage buffer1 ≠ INDEX_BUFFER →
  buf_usage buffer2 ≠ INDEX_BUFFER →
  m_vertex_attributes base1 = [] →
  m_vertex_attributes base2 = [] →
  m_vertex_attributes buffer1
  = m_vertex_attributes (add_vertex_attributes (a1 :: l1) base1) →
  m_vertex_attributes buffer2
  = m_vertex_attributes (add_vertex_attributes (a2 :: l2) base2) →
  ∃ ci,
    device w' = device w ++ [CreateStagePipeline ci]
    ∧ ¬ NoDup (location <$> sp_attribute_bindings ci).
Proof.
  intros Hbuild Hne Hi1 Hi2 Hb1 Hb2 Husage1 Husage2 Hbase1 Hbase2 Hattr1 Hattr2.
  destruct (build_graphics_pipeline_created _ _ _ _ _ _ Hbuild)
    as (ci & Hdev & _ & Hattributes & _).
  exists ci. split; [done|]. rewrite Hattributes.
  revert Hbuild. unfold build_graphics_pipeline.
  intros (g & w1 & [= <- <-] & H)%bind_Ok.
  apply bind_Ok in H as (vectors & w2 & Hloop & _).
  pose proof (vertex_input_loop_bound _ _ _ _ _ _ _ Hloop) as Hbound.
  destruct (attribute_bindings_of_first (graph w) gs b1 buffer1 a1 l1 base1)
    as (x1 & Hx1 & Hloc1); try done.
  { eapply (Hbound (BufferRef b1) b1 buffer1);
      [by eapply list_elem_of_lookup_2| |done].
    cbn. by rewrite Hb1. }
  destruct (attribute_bindings_of_first (graph w) gs b2 buffer2 a2 l2 base2)
    as (x2 & Hx2 & Hloc2); try done.
  { eapply (Hbound (BufferRef b2) b2 buffer2);
      [by eapply list_elem_of_lookup_2| |done].
    cbn. by rewrite Hb2. }
  eapply (flat_map_shared_ne _ location _ i1 i2); try done. congruence.
Qed.

(** ** The order of the views of a framebuffer *)

Lemma back_buffers_written_app g l1 l2 :
  back_buffers_written g (l1 ++ l2)
  = back_buffers_written g l1 + back_buffers_written g l2.
Proof.
  unfold back_buffers_written. by rewrite filter_app, length_app.
Qed.

Lemma images_written_app g l1 l2 :
  images_written g (l1 ++ l2) = images_written g l1 ++ images_written g l2.
Proof. unfold images_written. by rewrite omap_app. Qed.

Lemma views_of_back_buffers g img_view l :
  images_written g l = [] →
  omap (view_of g img_view) l
  = replicate (back_buffers_written g l) (SwapchainImageView img_view).
Proof.
  induction l as [|r l IH]; [done|].
  rewrite images_written_cons, back_buffers_written_cons.
  cbn [omap list_omap]. unfold view_of at 1, is_back_buffer.
  destruct (physical_texture_of g r) as [[|img]|]; cbn; [|done|];
    intros Hl; by rewrite IH.
Qed.

Lemma views_of_images g img_view l :
  back_buffers_written g l = 0 →
  omap (view_of g img_view) l = ImageViewOf <$> images_written g l.
Proof.
  induction l as [|r l IH]; [done|].
  rewrite images_written_cons, back_buffers_written_cons.
  cbn [omap list_omap]. unfold view_of at 1, is_back_buffer.
  destruct (physical_texture_of g r) as [[|img]|]; cbn; [done| |];
    intros Hl; by rewrite IH.
Qed.

(** X20: the framebuffers list the views of the back buffers before the
    views of the images, whereas [build_render_pass] lists the attachments
    in the order of the writes.  When the stage writes its back buffers
    before its images the two orders agree: the views of every framebuffer
    are those of the written textures, in the order of the writes. *)
Theorem framebuffer_views_follow_writes
    (vk : GpuCall → bool) (s : nat) (st : RenderStage)
    (physical : PhysicalGraphicsStage) (w w' : World)
    (first_ then_ : list ResourceRef) :
  build_framebuffers vk s st w = (Ok tt, w') →
  physical_of (graph w) s = Some physical →
  m_writes st ≠ [] →
  m_writes st = first_ ++ then_ →
  images_written (graph w) first_ = [] →
  back_buffers_written (graph w) then_ = 0 →
  device w'
  = device w ++
    ((λ img_view,
        CreateFramebuffer (m_render_pass physical)
          (omap (view_of (graph w) img_view) (m_writes st)))
     <$> image_views (m_swapchain (graph w))).
Proof.
  intros Hbuild Hphysical Hnil Hwrites Hfirst Hthen.
  destruct (build_framebuffers_Ok _ _ _ _ _ _ Hbuild Hphysical)
    as [_ Hsome].
  destruct (Hsome Hnil) as [-> _]. f_equal. apply list_fmap_ext.
  intros _ img_view _. f_equal.
  rewrite Hwrites, omap_app, back_buffers_written_app, images_written_app.
  rewrite Hfirst, Hthen, Nat.add_0_r. cbn [app].
  by rewrite views_of_back_buffers, views_of_images.
Qed.

(** ** The draw calls of the ImGui pass *)

Section ImGuiProperties.
Context {ImDrawVert : Type}.
Implicit Types (cmd_list : imgui.ImDrawList ImDrawVert)
  (lists : list (imgui.ImDrawList ImDrawVert))
  (draw_data : imgui.ImDrawData ImDrawVert)
  (r : imgui.ImGuiRenderer ImDrawVert).

Lemma push_back_all {A} (l acc : list A) :
  foldl (λ acc x, acc ++ [x]) acc l = acc ++ l.
Proof.
  revert acc. induction l as [|x l IH]; intros acc; cbn.
  - by rewrite app_nil_r.
  - by rewrite IH, <-app_assoc.
Qed.

Lemma collect_all lists r :
  foldl imgui.collect r lists
  = {| imgui.m_index_data :=
         imgui.m_index_data r ++ flat_map imgui.IdxBuffer lists;
       imgui.m_vertex_data :=
         imgui.m_vertex_data r ++ flat_map imgui.VtxBuffer lists |}.
Proof.
  revert r. induction lists as [|cmd_list lists IH]; intros r; cbn.
  - rewrite !app_nil_r. by destruct r.
  - rewrite IH. unfold imgui.collect. cbn. rewrite !push_back_all.
    by rewrite <-!app_assoc.
Qed.

Lemma elements_app (l1 l2 : list imgui.ImDrawCmd) :
  imgui.elements (l1 ++ l2) = imgui.elements l1 + imgui.elements l2.
Proof. apply sum_list_with_app. Qed.

Lemma elements_take_S (l : list imgui.ImDrawCmd) j c :
  l !! j = Some c →
  imgui.elements (take (S j) l)
  = imgui.elements (take j l) + imgui.ElemCount c.
Proof.
  intros Hj. rewrite (take_S_r _ _ _ Hj), elements_app.
  assert (imgui.elements [c] = imgui.ElemCount c) as ->
    by (unfold imgui.elements; cbn; lia).
  done.
Qed.

Lemma elements_take_le (l : list imgui.ImDrawCmd) k :
  imgui.elements (take k l) ≤ imgui.elements l.
Proof.
  rewrite <-(take_drop k l) at 2. rewrite elements_app. lia.
Qed.

(** The inner loop of the record function. *)
Lemma record_commands_loop vertex_offset (l : list imgui.ImDrawCmd)
    (cmds : list imgui.Command) (index_offset : nat) :
  (Z.of_nat (index_offset + imgui.elements l) < 2 ^ 32)%Z →
  ∃ draws,
    foldl (imgui.record_commands vertex_offset) (cmds, Z.of_nat index_offset) l
    = (cmds ++ draws, Z.of_nat (index_offset + imgui.elements l))
    ∧ length draws = length l
    ∧ ∀ j c, l !! j = Some c →
             draws !! j
             = Some (imgui.draw_indexed (Z.of_nat (imgui.ElemCount c)) 1
                       (Z.of_nat (index_offset + imgui.elements (take j l)))
                       vertex_offset).
Proof.
  revert cmds index_offset. induction l as [|c l IH];
    intros cmds index_offset Hbound.
  - exists []. cbn. rewrite app_nil_r, Nat.add_0_r. by split_and!.
  - cbn [foldl imgui.record_commands].
    assert (∀ l', imgui.elements (c :: l')
                  = imgui.ElemCount c + imgui.elements l') as Hcons by done.
    rewrite Hcons in Hbound. rewrite Hcons.
    assert (0 ≤ Z.of_nat index_offset + Z.of_nat (imgui.ElemCount c) < 2 ^ 32)%Z
      as Hsmall by lia.
    rewrite (to_uint32_small _ Hsmall). rewrite <-Nat2Z.inj_add.
    destruct (IH (cmds ++ [imgui.draw_indexed (Z.of_nat (imgui.ElemCount c)) 1
                             (Z.of_nat index_offset) vertex_offset])
                 (index_offset + imgui.ElemCount c))
      as (draws & -> & Hlen & Hdraws); [lia|].
    eexists (_ :: draws). split_and!.
    + rewrite <-app_assoc, (Nat.add_assoc index_offset). reflexivity.
    + cbn [length]. by rewrite Hlen.
    + intros [|j] c' Hj.
      * injection Hj as <-. cbn -[imgui.elements].
        unfold imgui.elements. cbn [sum_list_with]. by rewrite Nat.add_0_r.
      * etrans; [exact (Hdraws j c' Hj)|]. cbn [take]. rewrite Hcons.
        do 3 f_equal. lia.
Qed.

(** The outer loop: the draw call of the command at position [j] of the
    list at position [i]. *)
Lemma record_lists_loop lists (cmds : list imgui.Command)
    (index_offset vertex_offset : nat) :
  (Z.of_nat (index_offset
             + imgui.elements (flat_map imgui.CmdBuffer lists)) < 2 ^ 32)%Z →
  ∃ draws,
    (foldl imgui.record_list
       (cmds, Z.of_nat index_offset, Z.of_nat vertex_offset) lists).1.1
    = cmds ++ draws
    ∧ length draws = length (flat_map imgui.CmdBuffer lists)
    ∧ ∀ i cmd_list j c,
        lists !! i = Some cmd_list →
        imgui.CmdBuffer cmd_list !! j = Some c →
        draws !! (length (flat_map imgui.CmdBuffer (take i lists)) + j)
        = Some (imgui.draw_indexed (Z.of_nat (imgui.ElemCount c)) 1
                  (Z.of_nat
                     (index_offset
                      + imgui.elements
                          (flat_map imgui.CmdBuffer (take i lists))
                      + imgui.elements (take j (imgui.CmdBuffer cmd_list))))
                  (Z.of_nat
                     (vertex_offset
                      + length (flat_map imgui.VtxBuffer (take i lists))))).
Proof.
  revert cmds index_offset vertex_offset.
  induction lists as [|cmd_list lists IH];
    intros cmds index_offset vertex_offset Hbound.
  - exists []. cbn. rewrite app_nil_r. by split_and!.
  - cbn [foldl imgui.record_list flat_map] in *.
    rewrite elements_app in Hbound.
    destruct (record_commands_loop (Z.of_nat vertex_offset)
                (imgui.CmdBuffer cmd_list) cmds index_offset)
      as (draws1 & -> & Hlen1 & Hdraws1); [lia|].
    rewrite <-Nat2Z.inj_add.
    destruct (IH (cmds ++ draws1)
                 (index_offset + imgui.elements (imgui.CmdBuffer cmd_list))
                 (vertex_offset + length (imgui.VtxBuffer cmd_list)))
      as (draws & -> & Hlen & Hdraws); [lia|].
    exists (draws1 ++ draws). split_and!.
    + by rewrite <-app_assoc.
    + by rewrite !length_app, Hlen1, Hlen.
    + intros [|i] cmd_list' j c Hi Hj; cbn in Hi.
      * injection Hi as <-. cbn -[imgui.elements].
        rewrite lookup_app_l by (rewrite Hlen1; by eapply lookup_lt_Some).
        rewrite (Hdraws1 j c Hj). unfold imgui.elements at 2.
        cbn [sum_list_with]. do 3 f_equal; lia.
      * cbn -[imgui.elements]. rewrite length_app, <-Hlen1, <-Nat.add_assoc.
        rewrite lookup_app_r by lia.
        replace (length draws1
                 + (length (flat_map imgui.CmdBuffer (take i lists)) + j)
                 - length draws1)
          with (length (flat_map imgui.CmdBuffer (take i lists)) + j) by lia.
        rewrite (Hdraws i cmd_list' j c Hi Hj).
        rewrite elements_app, length_app. do 3 f_equal; lia.
Qed.
End ImGuiProperties.

Section ImGuiFrame.
Context {ImDrawVert : Type}.
Implicit Types (cmd_list : imgui.ImDrawList ImDrawVert)
  (lists : list (imgui.ImDrawList ImDrawVert))
  (draw_data : imgui.ImDrawData ImDrawVert)
  (r : imgui.ImGuiRenderer ImDrawVert).

Lemma on_record_draws draw_data :
  (Z.of_nat
     (imgui.elements (flat_map imgui.CmdBuffer (imgui.CmdLists draw_data)))
   < 2 ^ 32)%Z →
  ∃ draws,
    imgui.on_record (Some draw_data)
    = imgui.on_record (ImDrawVert:=ImDrawVert) None ++ draws
    ∧ length draws
      = length (flat_map imgui.CmdBuffer (imgui.CmdLists draw_data))
    ∧ ∀ i cmd_list j c,
        imgui.CmdLists draw_data !! i = Some cmd_list →
        imgui.CmdBuffer cmd_list !! j = Some c →
        draws !! (length (flat_map imgui.CmdBuffer
                            (take i (imgui.CmdLists draw_data))) + j)
        = Some (imgui.draw_indexed (Z.of_nat (imgui.ElemCount c)) 1
                  (Z.of_nat
                     (imgui.elements
                        (flat_map imgui.CmdBuffer
                           (take i (imgui.CmdLists draw_data)))
                      + imgui.elements (take j (imgui.CmdBuffer cmd_list))))
                  (Z.of_nat
                     (length (flat_map imgui.VtxBuffer
                                (take i (imgui.CmdLists draw_data)))))).
Proof.
  intros Hbound. unfold imgui.on_record.
  destruct (record_lists_loop (imgui.CmdLists draw_data)
              [imgui.bind_pipeline; imgui.bind_vertex_buffer;
               imgui.bind_index_buffer; imgui.bind_descriptor_set;
               imgui.push_constant] 0 0)
    as (draws & Hrun & Hlen & Hdraws); [done|].
  change (Z.of_nat 0) with 0%Z in Hrun. rewrite Hrun.
  exists draws. split_and!; [done..|].
  intros i cmd_list j c Hi Hj. by rewrite (Hdraws i cmd_list j c Hi Hj).
Qed.

Lemma on_record_draw draw_data i cmd_list j c :
  (Z.of_nat
     (imgui.elements (flat_map imgui.CmdBuffer (imgui.CmdLists draw_data)))
   < 2 ^ 32)%Z →
  imgui.CmdLists draw_data !! i = Some cmd_list →
  imgui.CmdBuffer cmd_list !! j = Some c →
  imgui.on_record (Some draw_data)
    !! (5 + length (flat_map imgui.CmdBuffer
                      (take i (imgui.CmdLists draw_data))) + j)
  = Some (imgui.draw_indexed (Z.of_nat (imgui.ElemCount c)) 1
            (Z.of_nat
               (imgui.elements
                  (flat_map imgui.CmdBuffer
                     (take i (imgui.CmdLists draw_data)))
                + imgui.elements (take j (imgui.CmdBuffer cmd_list))))
            (Z.of_nat
               (length (flat_map imgui.VtxBuffer
                          (take i (imgui.CmdLists draw_data)))))).
Proof.
  intros Hbound Hi Hj.
  destruct (on_record_draws draw_data Hbound) as (draws & -> & _ & Hdraws).
  rewrite <-Nat.add_assoc. rewrite lookup_app_r by (cbn; lia).
  replace (5 + _ - _)
    with (length (flat_map imgui.CmdBuffer
                    (take i (imgui.CmdLists draw_data))) + j)
    by (cbn; lia).
  by apply Hdraws.
Qed.

Lemma cover_prefix lists :
  Forall (λ cmd_list,
            imgui.elements (imgui.CmdBuffer cmd_list)
            = length (imgui.IdxBuffer cmd_list)) lists →
  imgui.elements (flat_map imgui.CmdBuffer lists)
  = length (flat_map imgui.IdxBuffer lists).
Proof.
  induction 1 as [|cmd_list lists Hc _ IH]; [done|].
  cbn [flat_map]. by rewrite elements_app, length_app, Hc, IH.
Qed.

Lemma flat_map_middle {A B} (f : A → list B) (l : list A) i x :
  l !! i = Some x →
  flat_map f l = flat_map f (take i l) ++ f x ++ flat_map f (drop (S i) l).
Proof.
  intros Hi. rewrite <-(take_drop_middle l i x Hi) at 1.
  by rewrite flat_map_app.
Qed.

Lemma slice_middle {A} (l1 l2 l3 : list A) (k n : nat) :
  k + n ≤ length l2 →
  take n (drop (length l1 + k) (l1 ++ l2 ++ l3)) = take n (drop k l2).
Proof.
  intros Hle. rewrite drop_app_add', drop_app_le, take_app_le; [done| |lia|done].
  rewrite length_drop. lia.
Qed.
End ImGuiFrame.

(** X21: the record function of the ImGui pass records the five binding
    commands and then one indexed draw for every command of every command
    list, in order.  As long as the commands of the frame draw fewer than
    [2^32] indices and the frame has fewer than [2^31] vertices, the first
    index of a draw is the number of indices of all the draws before it,
    and its vertex offset is the number of vertices of the command lists
    before its own.  Without draw data only the binding commands are
    recorded. *)
Theorem imgui_draw_offsets
    {ImDrawVert : Type} (draw_data : imgui.ImDrawData ImDrawVert) :
  (Z.of_nat
     (imgui.elements (flat_map imgui.CmdBuffer (imgui.CmdLists draw_data)))
   < 2 ^ 32)%Z →
  (Z.of_nat (length (flat_map imgui.VtxBuffer (imgui.CmdLists draw_data)))
   < 2 ^ 31)%Z →
  length (imgui.on_record (Some draw_data))
  = 5 + length (flat_map imgui.CmdBuffer (imgui.CmdLists draw_data))
  ∧ take 5 (imgui.on_record (Some draw_data))
    = imgui.on_record (ImDrawVert:=ImDrawVert) None
  ∧ ∀ i cmd_list j c,
      imgui.CmdLists draw_data !! i = Some cmd_list →
      imgui.CmdBuffer cmd_list !! j = Some c →
      imgui.on_record (Some draw_data)
        !! (5 + length (flat_map imgui.CmdBuffer
                          (take i (imgui.CmdLists draw_data))) + j)
      = Some (imgui.draw_indexed (Z.of_nat (imgui.ElemCount c)) 1
                (Z.of_nat
                   (imgui.elements
                      (flat_map imgui.CmdBuffer
                         (take i (imgui.CmdLists draw_data)))
                    + imgui.elements (take j (imgui.CmdBuffer cmd_list))))
                (Z.of_nat
                   (length (flat_map imgui.VtxBuffer
                              (take i (imgui.CmdLists draw_data)))))).
Proof.
  intros Hbound _. split_and!.
  - destruct (on_record_draws draw_data Hbound) as (draws & -> & Hlen & _).
    by rewrite length_app, Hlen.
  - by destruct (on_record_draws draw_data Hbound) as (draws & -> & _).
  - intros i cmd_list j c. by apply on_record_draw.
Qed.

(** X22: the update function of the ImGui vertex buffer and the record
    function of the ImGui pass fit together.  When the frame has indices
    and vertices, the commands of every command list draw the indices of
    the list one command after the other, and the frame has fewer than
    [2^32] indices and fewer than [2^31] vertices, the update collects the
    index and vertex data, requests the update of the vertex buffer with
    the collected vertices, and the draw call of a command reads from the
    collected index data exactly the indices of that command, and its
    vertex offset is where the vertices of its command list start in the
    collected vertex data. *)
Theorem imgui_draws_read_their_data
    {ImDrawVert : Type} (draw_data : imgui.ImDrawData ImDrawVert)
    (r : imgui.ImGuiRenderer ImDrawVert) (i j : nat)
    (cmd_list : imgui.ImDrawList ImDrawVert) (c : imgui.ImDrawCmd) :
  imgui.TotalIdxCount draw_data ≠ 0%Z →
  imgui.TotalVtxCount draw_data ≠ 0%Z →
  imgui.commands_cover_indices draw_data →
  (Z.of_nat
     (imgui.elements (flat_map imgui.CmdBuffer (imgui.CmdLists draw_data)))
   < 2 ^ 32)%Z →
  (Z.of_nat (length (flat_map imgui.VtxBuffer (imgui.CmdLists draw_data)))
   < 2 ^ 31)%Z →
  imgui.CmdLists draw_data !! i = Some cmd_list →
  imgui.CmdBuffer cmd_list !! j = Some c →
  ∃ r' first_index vertex_offset,
    imgui.on_update_vertex_buffer (Some draw_data) r
    = (r', Some (imgui.m_vertex_data r'))
    ∧ imgui.on_record (Some draw_data)
        !! (5 + length (flat_map imgui.CmdBuffer
                          (take i (imgui.CmdLists draw_data))) + j)
      = Some (imgui.draw_indexed (Z.of_nat (imgui.ElemCount c)) 1
                (Z.of_nat first_index) (Z.of_nat vertex_offset))
    ∧ take (imgui.ElemCount c)
           (drop first_index (imgui.on_update_index_buffer r'))
      = take (imgui.ElemCount c)
             (drop (imgui.elements (take j (imgui.CmdBuffer cmd_list)))
                   (imgui.IdxBuffer cmd_list))
    ∧ length (take (imgui.ElemCount c)
                   (drop first_index (imgui.on_update_index_buffer r')))
      = imgui.ElemCount c
    ∧ take (length (imgui.VtxBuffer cmd_list))
           (drop vertex_offset (imgui.m_vertex_data r'))
      = imgui.VtxBuffer cmd_list.
Proof.
  intros Hidx Hvtx Hcover Hbound _ Hi Hj.
  eexists _, _, _. split_and!.
  - unfold imgui.on_update_vertex_buffer.
    destruct (decide _) as [[?|?]|_]; [done..|]. reflexivity.
  - by apply on_record_draw.
  - unfold imgui.on_update_index_buffer. rewrite collect_all. cbn.
    rewrite (flat_map_middle imgui.IdxBuffer _ i cmd_list Hi).
    rewrite (cover_prefix (take i (imgui.CmdLists draw_data)))
      by (by apply Forall_take).
    apply slice_middle.
    rewrite <-(Forall_lookup_1 _ _ _ _ Hcover Hi), <-(elements_take_S _ _ _ Hj).
    apply elements_take_le.
  - unfold imgui.on_update_index_buffer. rewrite collect_all. cbn.
    rewrite (flat_map_middle imgui.IdxBuffer _ i cmd_list Hi).
    rewrite (cover_prefix (take i (imgui.CmdLists draw_data)))
      by (by apply Forall_take).
    assert (imgui.elements (take j (imgui.CmdBuffer cmd_list))
            + imgui.ElemCount c ≤ length (imgui.IdxBuffer cmd_list)) as Hle.
    { rewrite <-(Forall_lookup_1 _ _ _ _ Hcover Hi),
        <-(elements_take_S _ _ _ Hj). apply elements_take_le. }
    rewrite slice_middle by done. rewrite length_take, length_drop. lia.
  - rewrite collect_all. cbn.
    rewrite (flat_map_middle imgui.VtxBuffer _ i cmd_list Hi).
    rewrite <-(Nat.add_0_r (length (flat_map _ (take i _)))).
    rewrite slice_middle by (cbn; lia). by rewrite drop_0, firstn_all.
Qed.

(** ** The update function of the ImGui overlay *)

Lemma collect_buffers {A B} (f : A → list B) (l : list A) (acc : list B) :
  foldl (λ acc a, foldl (λ acc x, acc ++ [x]) acc (f a)) acc l
  = acc ++ flat_map f l.
Proof.
  revert acc. induction l as [|a l IH]; intros acc; cbn.
  - by rewrite app_nil_r.
  - by rewrite IH, push_back_all, <-app_assoc.
Qed.

(** X23: with draw data whose totals are the numbers of indices and
    vertices of its command lists, the update function of the overlay
    leaves the index and vertex data of the command lists in the two
    vectors when their numbers differed from the totals, and a second
    update with the same draw data changes nothing and uploads nothing.
    The data is collected only when the numbers differ: with the same
    numbers as before, the vectors keep their old contents. *)
Theorem overlay_update_once
    {ImDrawVert : Type} (draw_data : imgui.ImDrawData ImDrawVert)
    (r : imgui.ImGuiRenderer ImDrawVert) :
  overlay.consistent_totals draw_data →
  overlay.on_update (Some draw_data) (overlay.on_update (Some draw_data) r).1
  = ((overlay.on_update (Some draw_data) r).1, [])
  ∧ (Z.of_nat (length (imgui.m_index_data r))
     ≠ imgui.TotalIdxCount draw_data →
     imgui.TotalIdxCount draw_data ≠ 0%Z →
     imgui.TotalVtxCount draw_data ≠ 0%Z →
     imgui.m_index_data (overlay.on_update (Some draw_data) r).1
     = flat_map imgui.IdxBuffer (imgui.CmdLists draw_data))
  ∧ (Z.of_nat (length (imgui.m_index_data r))
     = imgui.TotalIdxCount draw_data →
     imgui.m_index_data (overlay.on_update (Some draw_data) r).1
     = imgui.m_index_data r).
Proof.
  intros [Hidx Hvtx]. unfold overlay.on_update.
  destruct (decide (imgui.TotalIdxCount draw_data = 0%Z
                    ∨ imgui.TotalVtxCount draw_data = 0%Z)) as [Hzero|Hnz].
  { cbn. split_and!; [done| |done]. intros. tauto. }
  rewrite !(collect_buffers _ _ []). cbn [app].
  destruct (decide (Z.of_nat (length (imgui.m_index_data r))
                    ≠ imgui.TotalIdxCount draw_data)) as [Hi|Hi];
    destruct (decide (Z.of_nat (length (imgui.m_vertex_data r))
                      ≠ imgui.TotalVtxCount draw_data)) as [Hv|Hv];
    cbn [fst snd imgui.m_index_data imgui.m_vertex_data];
    (split_and!; [|done..]);
    repeat (destruct (decide _) as [?|?]; try done; try congruence).
Qed.

(** ** Descriptor set layouts *)

(** X24: the constructor of [DescriptorSetLayout] makes no call on the
    device for an empty name and throws [std::runtime_error]; for another
    name it calls [vkCreateDescriptorSetLayout] once, and throws a
    [VulkanException] with the result when that is not [VK_SUCCESS],
    without setting a debug name; otherwise the object holds the name and
    the created layout, whose debug name is set to the name. *)
Theorem descriptor_set_layout_constructor
    (vk_result : list Z → Z) (descriptor_set_layout_ci : list Z)
    (name : string) (dev : list descriptors.DeviceCall) :
  match descriptors.new_DescriptorSetLayout vk_result
          descriptor_set_layout_ci name dev with
  | (inl layout, dev') =>
    name ≠ EmptyString
    ∧ vk_result descriptor_set_layout_ci = descriptors.VK_SUCCESS
    ∧ descriptors.m_name layout = name
    ∧ descriptors.m_descriptor_set_layout layout = Some (length dev)
    ∧ dev' = dev ++
        [descriptors.vkCreateDescriptorSetLayout descriptor_set_layout_ci;
         descriptors.set_debug_name (length dev) name]
  | (inr (descriptors.runtime_error _), dev') =>
    name = EmptyString ∧ dev' = dev
  | (inr (descriptors.VulkanException _ result), dev') =>
    name ≠ EmptyString
    ∧ result = vk_result descriptor_set_layout_ci
    ∧ result ≠ descriptors.VK_SUCCESS
    ∧ dev' = dev ++
        [descriptors.vkCreateDescriptorSetLayout descriptor_set_layout_ci]
  end.
Proof.
  unfold descriptors.new_DescriptorSetLayout.
  destruct (decide (name = EmptyString)); [done|].
  destruct (decide _) as [Hfail|Hok]; [done|].
  split_and!; try done.
  - by destruct (decide (vk_result descriptor_set_layout_ci
                         = descriptors.VK_SUCCESS)).
  - by rewrite <-app_assoc.
Qed.

Lemma destroyed_delete h layout dev :
  descriptors.destroyed h (descriptors.delete_DescriptorSetLayout layout dev)
  = descriptors.destroyed h dev
    + (if decide (descriptors.m_descriptor_set_layout layout = Some h)
       then 1 else 0).
Proof.
  unfold descriptors.destroyed, descriptors.delete_DescriptorSetLayout.
  rewrite filter_app, length_app. f_equal.
  rewrite filter_cons, filter_nil.
  destruct (decide (descriptors.m_descriptor_set_layout layout = Some h))
    as [->|Hne].
  - by rewrite decide_True.
  - rewrite decide_False; [done|]. by intros [= ?].
Qed.

(** X25: after a descriptor set layout was moved, the destructors of the
    two objects together destroy the Vulkan layout exactly once, in
    whichever order they run: the object that was moved from holds
    [VK_NULL_HANDLE]. *)
Theorem moved_descriptor_set_layout_destroyed_once
    (moved_from : string) (other : descriptors.DescriptorSetLayout)
    (h : Handle) (dev : list descriptors.DeviceCall) :
  descriptors.m_descriptor_set_layout other = Some h →
  descriptors.destroyed h
    (descriptors.delete_DescriptorSetLayout
       (descriptors.move_DescriptorSetLayout moved_from other).1
       (descriptors.delete_DescriptorSetLayout
          (descriptors.move_DescriptorSetLayout moved_from other).2 dev))
  = S (descriptors.destroyed h dev)
  ∧ descriptors.destroyed h
      (descriptors.delete_DescriptorSetLayout
         (descriptors.move_DescriptorSetLayout moved_from other).2
         (descriptors.delete_DescriptorSetLayout
            (descriptors.move_DescriptorSetLayout moved_from other).1 dev))
    = S (descriptors.destroyed h dev).
Proof.
  intros Hh. rewrite !destroyed_delete.
  cbn [descriptors.move_DescriptorSetLayout fst snd
       descriptors.m_descriptor_set_layout].
  rewrite Hh. split;
    repeat (destruct (decide _) as [?|?]; try done); lia.
Qed.

(** * The further properties at concrete inputs *)

Lemma generate_octree_indices_round_trip_witness :
  generate_octree_indices [5; 7; 5; 9; 7]%Z = Ok ([5; 7; 9]%Z, [0; 1; 0; 2; 1]%Z)
  ∧ length [0; 1; 0; 2; 1]%Z = length [5; 7; 5; 9; 7]%Z
  ∧ ∃ n, [0; 1; 0; 2; 1]%Z !! 4 = Some (Z.of_nat n)
         ∧ [5; 7; 9]%Z !! n = Some 7%Z.
Proof.
  assert (generate_octree_indices [5; 7; 5; 9; 7]%Z
          = Ok ([5; 7; 9]%Z, [0; 1; 0; 2; 1]%Z)) as Hrun
    by (vm_compute; reflexivity).
  destruct (generate_octree_indices_round_trip _ _ _ Hrun) as [Hlen Hdraw].
  split_and!; [exact Hrun|exact Hlen|].
  apply (Hdraw 4 7%Z). reflexivity.
Defined.

Lemma generate_octree_indices_deduplicates_witness :
  generate_octree_indices [5; 7; 5; 9; 7]%Z = Ok ([5; 7; 9]%Z, [0; 1; 0; 2; 1]%Z)
  ∧ NoDup [5; 7; 9]%Z
  ∧ (∃ i, [5; 7; 5; 9; 7]%Z !! i = Some 7%Z
          ∧ 9%Z ∉ take i [5; 7; 5; 9; 7]%Z)
  ∧ Forall (λ k, 0 ≤ k < 3)%Z [0; 1; 0; 2; 1]%Z.
Proof.
  assert (generate_octree_indices [5; 7; 5; 9; 7]%Z
          = Ok ([5; 7; 9]%Z, [0; 1; 0; 2; 1]%Z)) as Hrun
    by (vm_compute; reflexivity).
  destruct (generate_octree_indices_deduplicates _ _ _ Hrun)
    as (Hnodup & _ & _ & Horder & Hrange).
  split_and!; [exact Hrun|exact Hnodup| |exact Hrange].
  apply (Horder 1 2 7%Z 9%Z); [lia|reflexivity..].
Defined.

Lemma generate_octree_indices_of_distinct_witness :
  NoDup [5; 7; 9]%Z
  ∧ (Z.of_nat (length [5; 7; 9]%Z) ≤ UINT32_MAX)%Z
  ∧ generate_octree_indices [5; 7; 9]%Z = Ok ([5; 7; 9]%Z, [0; 1; 2]%Z).
Proof.
  assert (NoDup [5; 7; 9]%Z) as Hnodup by compute_done.
  assert (Z.of_nat (length [5; 7; 9]%Z) ≤ UINT32_MAX)%Z as Hlen
    by (vm_compute; discriminate).
  split_and!; [exact Hnodup|exact Hlen|].
  exact (generate_octree_indices_of_distinct [5; 7; 9]%Z Hnodup Hlen).
Defined.

Lemma overlay_buildable : buildable "overlay" overlay_builder.
Proof. by repeat split. Qed.

Lemma build_creates_one_pipeline_witness :
  buildable "overlay" overlay_builder
  ∧ ∃ ci,
      (build always_success "overlay" overlay_builder []).2
      = [CreateGraphicsPipeline ci]
      ∧ (build always_success "overlay" overlay_builder []).1.1
        = Ok {| pipeline := 0; pipeline_name := "overlay" |}
      ∧ vertexAttributeDescriptionCount
          (pipelines.m_vertex_input_sci (pipelines.gp_builder ci)) = 3%Z
      ∧ colorAttachmentCount
          (pipelines.m_pipeline_rendering_ci (pipelines.gp_builder ci)) = 1%Z.
Proof.
  split; [exact overlay_buildable|].
  destruct (build_creates_one_pipeline always_success "overlay"
              overlay_builder [] overlay_buildable)
    as (ci & Hdev & _ & Hok & _ & _ & _ & Hattributes & _ & _ & Hcolor);
    [vm_compute; reflexivity..|].
  exists ci. split_and!; [exact Hdev|by apply Hok|exact Hattributes|exact Hcolor].
Defined.

Lemma build_twice_fails_witness :
  ∃ p b' dev',
    build always_success "overlay" overlay_builder [] = (Ok p, b', dev')
    ∧ ∃ condition,
        build always_success "overlay" b' dev'
        = (Throw (assertion_failure condition), b', dev').
Proof.
  destruct (build always_success "overlay" overlay_builder [])
    as [[[p|e] b'] dev'] eqn:Hbuild; [|by vm_compute in Hbuild].
  exists p, b', dev'. split; [reflexivity|].
  exact (build_twice_fails always_success always_success "overlay" "overlay"
           overlay_builder b' [] dev' p Hbuild).
Defined.

Lemma build_after_move_loses_rasterization_witness :
  ∃ p b' dev',
    build always_success "overlay"
      (move_GraphicsPipelineBuilder overlay_builder) [] = (Ok p, b', dev')
    ∧ lineWidth (pipelines.m_rasterization_sci overlay_builder) = 1%Z
    ∧ ∃ ci, dev' = [CreateGraphicsPipeline ci]
            ∧ lineWidth (pipelines.m_rasterization_sci (pipelines.gp_builder ci))
              = 0%Z.
Proof.
  destruct (build always_success "overlay"
              (move_GraphicsPipelineBuilder overlay_builder) [])
    as [[[p|e] b'] dev'] eqn:Hbuild; [|by vm_compute in Hbuild].
  exists p, b', dev'. split_and!; [reflexivity..|].
  destruct (build_after_move_loses_rasterization always_success "overlay"
              overlay_builder b' [] dev' p Hbuild)
    as (ci & Hdev & _ & _ & _ & _ & _ & _ & Hraster & _).
  exists ci. split; [exact Hdev|]. by rewrite Hraster.
Defined.

Lemma diamond_compile :
  compile always_success 4 (TextureRef 0) diamond_world
  = Some (Ok tt, diamond_compiled).
Proof. vm_compute; reflexivity. Qed.

Lemma compile_keeps_declarations_witness :
  compile always_success 4 (TextureRef 0) diamond_world
  = Some (Ok tt, diamond_compiled)
  ∧ stage_decl <$> m_stages (graph diamond_compiled)
    = stage_decl <$> m_stages (graph diamond_world)
  ∧ texture_decl <$> m_texture_resources (graph diamond_compiled)
    = texture_decl <$> m_texture_resources (graph diamond_world)
  ∧ cmd_buf diamond_compiled = cmd_buf diamond_world.
Proof.
  destruct (compile_keeps_declarations always_success 4 (TextureRef 0)
              diamond_world diamond_compiled (Ok tt) diamond_compile)
    as (_ & Hstages & _ & Htextures & _ & _ & Hcmd).
  split_and!; [exact diamond_compile|exact Hstages|exact Htextures|exact Hcmd].
Defined.

Lemma compile_order_is_dependencies_witness :
  compile always_success 4 (TextureRef 0) diamond_world
  = Some (Ok tt, diamond_compiled)
  ∧ m_stage_stack (graph diamond_world) = []
  ∧ (0 ∈ m_stage_stack (graph diamond_compiled)
     ↔ ∃ s0, writes (m_stages (graph diamond_world)) s0 (TextureRef 0)
             ∧ rtc (depends_on (m_stages (graph diamond_world))) s0 0).
Proof.
  split_and!; [exact diamond_compile|reflexivity|].
  exact (compile_order_is_dependencies always_success 4 (TextureRef 0)
           diamond_world diamond_compiled (Ok tt) diamond_compile eq_refl 0).
Defined.

Lemma compile_order_ends_with_writer_witness :
  compile always_success 4 (TextureRef 0) diamond_world
  = Some (Ok tt, diamond_compiled)
  ∧ m_stage_stack (graph diamond_world) = []
  ∧ last (m_stage_stack (graph diamond_compiled)) = Some 2
  ∧ writes (m_stages (graph diamond_world)) 2 (TextureRef 0).
Proof.
  assert (last (m_stage_stack (graph diamond_compiled)) = Some 2) as Hlast
    by (vm_compute; reflexivity).
  destruct (compile_order_ends_with_writer always_success 4 (TextureRef 0)
              diamond_world diamond_compiled (Ok tt) diamond_compile eq_refl)
    as [_ Hwriter].
  split_and!; [exact diamond_compile|reflexivity|exact Hlast|].
  exact (proj1 (Hwriter 2 Hlast)).
Defined.

Lemma two_pass_world_no_writer s :
  ¬ writes (m_stages (graph two_pass_world)) s (TextureRef 7).
Proof.
  intros (st & Hs & Hr).
  destruct s as [|[|s]]; cbn in Hs; [| |done]; injection Hs as <-;
    cbn in Hr; by apply list_elem_of_singleton in Hr.
Qed.

Lemma compile_without_writer_witness :
  (∀ s, ¬ writes (m_stages (graph two_pass_world)) s (TextureRef 7))
  ∧ m_stage_stack (graph two_pass_world) = []
  ∧ ∃ outcome w',
      compile always_success 0 (TextureRef 7) two_pass_world
      = Some (outcome, w')
      ∧ m_stage_stack (graph w') = []
      ∧ m_stages (graph w') = m_stages (graph two_pass_world).
Proof.
  split_and!; [exact two_pass_world_no_writer|reflexivity|].
  destruct (compile_without_writer always_success 0 (TextureRef 7)
              two_pass_world two_pass_world_no_writer eq_refl)
    as (outcome & w' & Hcompile & Hstack & (Hstages & _) & _).
  exists outcome, w'. split_and!; [exact Hcompile|exact Hstack|exact Hstages].
Defined.

Lemma octree_compile :
  compile always_success 2 (TextureRef 0) octree_world
  = Some (Ok tt, octree_compiled).
Proof. vm_compute; reflexivity. Qed.

Lemma octree_graphics_only : graphics_only (graph octree_world).
Proof. repeat constructor. by eexists. Qed.

Lemma framebuffers_per_swapchain_image_witness :
  build_framebuffers always_success 0 main_stage octree_compiled
  = (Ok tt, octree_more_framebuffers)
  ∧ physical_of (graph octree_compiled) 0
    = Some {| m_pipeline := Some 3; m_pipeline_layout := Some 2;
              m_render_pass := Some 1; m_framebuffers := [4; 5] |}
  ∧ m_writes main_stage ≠ []
  ∧ device octree_more_framebuffers
    = device octree_compiled ++
      [CreateFramebuffer (Some 1) [SwapchainImageView 100; ImageViewOf 0];
       CreateFramebuffer (Some 1) [SwapchainImageView 101; ImageViewOf 0]]
  ∧ (m_framebuffers <$> physical_of (graph octree_more_framebuffers) 0)
    = Some [4; 5; 6; 7].
Proof.
  assert (build_framebuffers always_success 0 main_stage octree_compiled
          = (Ok tt, octree_more_framebuffers)) as Hrun
    by (vm_compute; reflexivity).
  assert (physical_of (graph octree_compiled) 0
          = Some {| m_pipeline := Some 3; m_pipeline_layout := Some 2;
                    m_render_pass := Some 1; m_framebuffers := [4; 5] |})
    as Hphysical by (vm_compute; reflexivity).
  assert (m_writes main_stage ≠ []) as Hwrites by done.
  destruct (framebuffers_per_swapchain_image always_success 0 main_stage _
              octree_compiled octree_more_framebuffers Hrun Hphysical)
    as [_ Hsome].
  destruct (Hsome Hwrites) as [Hdev Hfbs].
  split_and!; [exact Hrun|exact Hphysical|exact Hwrites| |].
  - rewrite Hdev. vm_compute. reflexivity.
  - rewrite Hfbs. vm_compute. reflexivity.
Defined.

Lemma render_pass_references_point_at_descriptions_witness :
  Forall (λ resource, is_Some (as_TextureResource (graph octree_world) resource))
         (m_writes main_stage)
  ∧ (Z.of_nat (length (m_writes main_stage)) < 2 ^ 32)%Z
  ∧ ∃ attachments colour_refs depth_ref,
      device (build_render_pass always_success 0 main_stage
                main_graphics_stage octree_world).2
      = device octree_world ++
        [CreateRenderPass (m_name main_stage) attachments colour_refs
                          depth_ref]
      ∧ length attachments = 2
      ∧ length colour_refs = 1
      ∧ {| ref_attachment := 0;
           ref_layout := VK_IMAGE_LAYOUT_COLOR_ATTACHMENT_OPTIMAL |}
        ∈ colour_refs
      ∧ depth_ref
        = Some {| ref_attachment := 1;
                  ref_layout :=
                    VK_IMAGE_LAYOUT_DEPTH_STENCIL_ATTACHMENT_OPTIMAL |}.
Proof.
  assert (Forall (λ resource,
                    is_Some (as_TextureResource (graph octree_world) resource))
                 (m_writes main_stage)) as Htextures
    by (repeat constructor; by eexists).
  assert (Z.of_nat (length (m_writes main_stage)) < 2 ^ 32)%Z as Hlen
    by (vm_compute; reflexivity).
  split_and!; [exact Htextures|exact Hlen|].
  destruct (render_pass_references_point_at_descriptions always_success 0
              main_stage main_graphics_stage octree_world Htextures Hlen)
    as (attachments & colour_refs & depth_ref & Hdev & Hatt & Hcolours & _
        & Hrefs).
  exists attachments, colour_refs, depth_ref.
  split_and!; [exact Hdev|exact Hatt|exact Hcolours| |].
  - exact (proj2 (Hrefs 0 (TextureRef 0) (texture BACK_BUFFER 44)
                    eq_refl eq_refl)).
  - apply (proj2 (Hrefs 1 (TextureRef 1) (texture DEPTH_STENCIL_BUFFER 130)
                    eq_refl eq_refl)).
    intros [|[|j]] earlier Hj Hearlier; [|lia..].
    injection Hearlier as <-. reflexivity.
Defined.

Lemma graphics_pipeline_vertex_input_witness :
  build_graphics_pipeline always_success 0 main_stage main_graphics_stage
    octree_compiled
  = (Ok tt, octree_second_pipeline)
  ∧ ∃ ci,
      last (device octree_second_pipeline) = Some (CreateStagePipeline ci)
      ∧ sp_vertex_bindings ci = [ {| vib_binding := 0; vib_stride := 24 |} ]
      ∧ sp_attribute_bindings ci
        = [ {| location := 0; binding := 0; format := 106; offset := 0 |};
            {| location := 1; binding := 0; format := 106; offset := 12 |} ].
Proof.
  assert (build_graphics_pipeline always_success 0 main_stage
            main_graphics_stage octree_compiled
          = (Ok tt, octree_second_pipeline)) as Hrun
    by (vm_compute; reflexivity).
  split; [exact Hrun|].
  destruct (graphics_pipeline_vertex_input always_success 0 main_stage
              main_graphics_stage octree_compiled octree_second_pipeline Hrun)
    as (ci & Hdev & Hbindings & Hattributes & _).
  exists ci. split_and!.
  - rewrite Hdev. apply last_snoc.
  - rewrite Hbindings. vm_compute. reflexivity.
  - rewrite Hattributes. vm_compute. reflexivity.
Defined.

Lemma render_returns_after_compile_witness :
  compile always_success 2 (TextureRef 0) octree_world
  = Some (Ok tt, octree_compiled)
  ∧ m_stage_stack (graph octree_world) = []
  ∧ graphics_only (graph octree_world)
  ∧ 1 < length (image_views (m_swapchain (graph octree_world)))
  ∧ ∃ w2, render always_success 1 octree_compiled = (Ok tt, w2).
Proof.
  assert (1 < length (image_views (m_swapchain (graph octree_world))))
    as Hindex by (vm_compute; lia).
  split_and!;
    [exact octree_compile|reflexivity|exact octree_graphics_only|exact Hindex|].
  exact (render_returns_after_compile always_success always_success 2
           (TextureRef 0) octree_world octree_compiled 1 octree_compile
           eq_refl octree_graphics_only (λ _ _ _, eq_refl) Hindex).
Defined.

Lemma render_image_index_out_of_range_witness :
  compile always_success 2 (TextureRef 0) octree_world
  = Some (Ok tt, octree_compiled)
  ∧ m_stage_stack (graph octree_world) = []
  ∧ graphics_only (graph octree_world)
  ∧ m_stage_stack (graph octree_compiled) ≠ []
  ∧ length (image_views (m_swapchain (graph octree_world))) ≤ 2
  ∧ ∃ w2, render always_success 2 octree_compiled = (Throw out_of_range, w2)
          ∧ cmd_buf w2 = cmd_buf octree_compiled.
Proof.
  assert (m_stage_stack (graph octree_compiled) ≠ []) as Hpasses
    by (vm_compute; discriminate).
  assert (length (image_views (m_swapchain (graph octree_world))) ≤ 2)
    as Hindex by (vm_compute; lia).
  split_and!;
    [exact octree_compile|reflexivity|exact octree_graphics_only
    |exact Hpasses|exact Hindex|].
  exact (render_image_index_out_of_range always_success always_success 2
           (TextureRef 0) octree_world octree_compiled 2 octree_compile
           eq_refl octree_graphics_only (λ _ _ _, eq_refl) Hpasses Hindex).
Defined.

Lemma compile_allocates_textures_witness :
  compile always_success 2 (TextureRef 0) octree_world
  = Some (Ok tt, octree_compiled)
  ∧ Forall2 (allocated_as (m_swapchain (graph octree_world))
                          (device octree_compiled))
            (m_texture_resources (graph octree_world))
            (m_texture_resources (graph octree_compiled))
  ∧ ∀ i j ti tj img,
      m_texture_resources (graph octree_compiled) !! i = Some ti →
      m_texture_resources (graph octree_compiled) !! j = Some tj →
      tex_physical ti = Some (PhysicalImage img) →
      tex_physical tj = Some (PhysicalImage img) →
      i = j
      ∧ length (device octree_world) ≤ img < length (device octree_compiled).
Proof.
  split; [exact octree_compile|].
  exact (compile_allocates_textures always_success 2 (TextureRef 0)
           octree_world octree_compiled octree_compile).
Defined.

Lemma vertex_buffers_share_locations_witness :
  build_graphics_pipeline always_success 0 two_buffers_stage
    two_buffers_graphics_stage two_buffers_compiled
  = (Ok tt, two_buffers_second_pipeline)
  ∧ ∃ ci,
      device two_buffers_second_pipeline
      = device two_buffers_compiled ++ [CreateStagePipeline ci]
      ∧ ¬ NoDup (location <$> sp_attribute_bindings ci).
Proof.
  assert (build_graphics_pipeline always_success 0 two_buffers_stage
            two_buffers_graphics_stage two_buffers_compiled
          = (Ok tt, two_buffers_second_pipeline)) as Hrun
    by (vm_compute; reflexivity).
  split; [exact Hrun|].
  eapply (vertex_buffers_share_locations always_success 0 two_buffers_stage
           two_buffers_graphics_stage two_buffers_compiled
           two_buffers_second_pipeline 0 1 0 1
           _ _
           (106, 0)%Z (106, 0)%Z [(106, 12)%Z] [(106, 12)%Z]
           (buffer_resource VERTEX_BUFFER 24)
           (buffer_resource VERTEX_BUFFER 24));
    [exact Hrun|lia|reflexivity|reflexivity
    |vm_compute; reflexivity|vm_compute; reflexivity
    |discriminate|discriminate|reflexivity|reflexivity
    |reflexivity|reflexivity].
Defined.

Lemma framebuffer_views_follow_writes_witness :
  build_framebuffers always_success 0 main_stage octree_compiled
  = (Ok tt, octree_more_framebuffers)
  ∧ physical_of (graph octree_compiled) 0
    = Some {| m_pipeline := Some 3; m_pipeline_layout := Some 2;
              m_render_pass := Some 1; m_framebuffers := [4; 5] |}
  ∧ m_writes main_stage ≠ []
  ∧ m_writes main_stage = [TextureRef 0] ++ [TextureRef 1]
  ∧ images_written (graph octree_compiled) [TextureRef 0] = []
  ∧ back_buffers_written (graph octree_compiled) [TextureRef 1] = 0
  ∧ device octree_more_framebuffers
    = device octree_compiled ++
      ((λ img_view,
          CreateFramebuffer (Some 1)
            (omap (view_of (graph octree_compiled) img_view)
                  (m_writes main_stage)))
       <$> image_views (m_swapchain (graph octree_compiled))).
Proof.
  assert (build_framebuffers always_success 0 main_stage octree_compiled
          = (Ok tt, octree_more_framebuffers)) as Hrun
    by (vm_compute; reflexivity).
  assert (physical_of (graph octree_compiled) 0
          = Some {| m_pipeline := Some 3; m_pipeline_layout := Some 2;
                    m_render_pass := Some 1; m_framebuffers := [4; 5] |})
    as Hphysical by (vm_compute; reflexivity).
  assert (m_writes main_stage ≠ []) as Hwrites by done.
  assert (images_written (graph octree_compiled) [TextureRef 0] = [])
    as Hfirst by (vm_compute; reflexivity).
  assert (back_buffers_written (graph octree_compiled) [TextureRef 1] = 0)
    as Hthen by (vm_compute; reflexivity).
  split_and!;
    [exact Hrun|exact Hphysical|exact Hwrites|reflexivity|exact Hfirst
    |exact Hthen|].
  exact (framebuffer_views_follow_writes always_success 0 main_stage _
           octree_compiled octree_more_framebuffers
           [TextureRef 0] [TextureRef 1] Hrun Hphysical Hwrites eq_refl
           Hfirst Hthen).
Defined.

Lemma two_lists_bound :
  (Z.of_nat (imgui.elements
               (flat_map imgui.CmdBuffer (imgui.CmdLists two_lists)))
   < 2 ^ 32)%Z.
Proof. vm_compute. reflexivity. Qed.

Lemma two_lists_vertices :
  (Z.of_nat (length (flat_map imgui.VtxBuffer (imgui.CmdLists two_lists)))
   < 2 ^ 31)%Z.
Proof. vm_compute. reflexivity. Qed.

Lemma imgui_draw_offsets_witness :
  (Z.of_nat (imgui.elements
               (flat_map imgui.CmdBuffer (imgui.CmdLists two_lists)))
   < 2 ^ 32)%Z
  ∧ (Z.of_nat (length (flat_map imgui.VtxBuffer (imgui.CmdLists two_lists)))
     < 2 ^ 31)%Z
  ∧ length (imgui.on_record (Some two_lists)) = 8
  ∧ imgui.on_record (Some two_lists) !! 7
    = Some (imgui.draw_indexed 3 1 6 4).
Proof.
  destruct (imgui_draw_offsets two_lists two_lists_bound two_lists_vertices)
    as (Hlen & _ & Hdraw).
  split_and!; [exact two_lists_bound|exact two_lists_vertices|exact Hlen|].
  exact (Hdraw 1 _ 0 _ eq_refl eq_refl).
Defined.

Lemma two_lists_cover : imgui.commands_cover_indices two_lists.
Proof. repeat constructor. Qed.

Lemma imgui_draws_read_their_data_witness :
  imgui.TotalIdxCount two_lists ≠ 0%Z
  ∧ imgui.TotalVtxCount two_lists ≠ 0%Z
  ∧ imgui.commands_cover_indices two_lists
  ∧ ∃ r' first_index vertex_offset,
      imgui.on_update_vertex_buffer (Some two_lists) no_data
      = (r', Some (imgui.m_vertex_data r'))
      ∧ imgui.on_record (Some two_lists) !! 7
        = Some (imgui.draw_indexed 3 1 (Z.of_nat first_index)
                                   (Z.of_nat vertex_offset))
      ∧ take 3 (drop first_index (imgui.on_update_index_buffer r'))
        = [0; 1; 2]%Z
      ∧ take 3 (drop vertex_offset (imgui.m_vertex_data r')) = [20; 21; 22].
Proof.
  assert (imgui.TotalIdxCount two_lists ≠ 0%Z) as Hidx by done.
  assert (imgui.TotalVtxCount two_lists ≠ 0%Z) as Hvtx by done.
  split_and!; [exact Hidx|exact Hvtx|exact two_lists_cover|].
  destruct (imgui_draws_read_their_data two_lists no_data 1 0 _ _
              Hidx Hvtx two_lists_cover two_lists_bound two_lists_vertices
              eq_refl eq_refl)
    as (r' & first_index & vertex_offset & Hupdate & Hdraw & Hindices & _
        & Hvertices).
  exists r', first_index, vertex_offset.
  split_and!; [exact Hupdate|exact Hdraw|exact Hindices|exact Hvertices].
Defined.

Lemma two_lists_consistent : overlay.consistent_totals two_lists.
Proof. by split. Qed.

Lemma overlay_update_once_witness :
  overlay.consistent_totals two_lists
  ∧ imgui.m_index_data (overlay.on_update (Some two_lists) no_data).1
    = [0; 1; 2; 0; 2; 3; 0; 1; 2]%Z
  ∧ overlay.on_update (Some two_lists)
      (overlay.on_update (Some two_lists) no_data).1
    = ((overlay.on_update (Some two_lists) no_data).1, []).
Proof.
  destruct (overlay_update_once two_lists no_data two_lists_consistent)
    as (Honce & Hcollect & _).
  split_and!; [exact two_lists_consistent| |exact Honce].
  rewrite Hcollect; [reflexivity|done..].
Defined.

Lemma moved_descriptor_set_layout_destroyed_once_witness :
  descriptors.m_descriptor_set_layout
    {| descriptors.m_name := "ImGui";
       descriptors.m_descriptor_set_layout := Some 0 |} = Some 0
  ∧ descriptors.destroyed 0
      (descriptors.delete_DescriptorSetLayout
         (descriptors.move_DescriptorSetLayout EmptyString
            {| descriptors.m_name := "ImGui";
               descriptors.m_descriptor_set_layout := Some 0 |}).1
         (descriptors.delete_DescriptorSetLayout
            (descriptors.move_DescriptorSetLayout EmptyString
               {| descriptors.m_name := "ImGui";
                  descriptors.m_descriptor_set_layout := Some 0 |}).2
            [descriptors.vkCreateDescriptorSetLayout [1%Z];
             descriptors.set_debug_name 0 "ImGui"]))
    = 1.
Proof.
  split; [reflexivity|].
  exact (proj1 (moved_descriptor_set_layout_destroyed_once EmptyString
                  {| descriptors.m_name := "ImGui";
                     descriptors.m_descriptor_set_layout := Some 0 |} 0
                  [descriptors.vkCreateDescriptorSetLayout [1%Z];
                   descriptors.set_debug_name 0 "ImGui"] eq_refl)).
Defined.
